(* ===== verification/_CoqProject ===== *)
-Q . S2P
Prelude.v
Bytes.v
BinStr.v
Aggregator.v
AggregatorInv.v
Consensus.v
AggregatorSpec.v
Behaviour.v
Equiv.v
Loader.v
LoaderTrace.v
Storage.v
StorageSpec.v
ModelData.v
ModelDataSpec.v
Protocol.v
Codec.v
Handoff.v
Drivers.v
Boot.v
BootSpec.v
System.v
Program.v
