(* ===== verification/Prelude.v ===== *)
(** * TsetlinKWS host software: a verification development

    The program (directory [src/src_sw]) is the bare-metal host side of a
    keyword-spotting system whose classifier is a Tsetlin-machine accelerator
    in programmable logic.  It has two phases.

    - Start-up ([main], lines 74-160 of [main_codec.c]): make the result
      pins inputs, mount the TF card ([tf_card.c]: [platform_init_fs],
      [sd_mount]), program the audio codec over I2C ([init_ADAU1761],
      [ADAU1761_Write_Reg]), install the completion interrupt
      ([setup_interrupt_system]), read the model files
      into fourteen global byte buffers ([spi_config.c]: [read_model_data],
      through [sd_read_binary] and [sd_read_hex]), bring up the SPI
      controller ([initial_spi_system]) and send the buffers to the
      accelerator ([initial_TMA], through [binary_str_to_uint32] and
      [SPIWrite]).
    - Steady state (the [while(1)] of [main], lines 162-269): each time
      [intr_handler] has raised [inference_finish_flag], clear it, read a
      four-bit class code from four pins and run the result aggregator: a
      circular window of [WINDOW_SIZE] codes with a counter for each class,
      a two-frame debounce, a scan for a run of equal codes and a detecting
      / cool-down state machine that prints the keyword.

    ** Files of the development, in the order of [_CoqProject]

    - [Prelude] (this file): the result monad [res] with its notation scope
      [kws_scope] and the faults [OutOfBounds], [BadShift], [OutOfFuel];
      machine integers as [Z] with explicit wrap-around ([u8], [u16],
      [u32]); C arrays as lists indexed by [Z] whose out-of-range accesses
      are faults ([aget], [aset]); the bounded [for] loop with [break] ([for_loop]) and
      its rules ([for_loop_rule], [for_loop_iter], [for_loop_ext],
      [for_loop_store], [for_loop_fault_inv]); the predicate [no_timeout] with its hints;
      sums and occurrence counts over lists; the hint database [kws].
    - [Bytes]: the loop that stores a 32-bit word in four cells, most
      significant byte first ([store_be32]; [tf_card.c] lines 89-91 and
      128-130, and fourteen times in [initial_TMA]), its closed form [be32]
      and the inverse [be32_value]; round trip of a stored word.
    - [BinStr]: [binary_str_to_uint32] ([spi_config.c] lines 22-30) proved
      equal to Horner's rule on every input, with a print/parse round trip,
      and the fourteen address tokens of lines 3-19.  The same function
      with the shift of line 26 read on an [int] as ISO C defines it
      ([shl_int], [binary_str_to_uint32_iso]): it is defined exactly on
      the strings that do not start with ['1'].
    - [Aggregator]: the body of the steady-state loop.  The [state] record
      holds the variables that survive an iteration; there is one
      definition for each block of lines 168-265 ([read_result],
      [pop_element], [update_element], [update_count], [update_index],
      [calc_max], [consensus_scan], [emit_switch], [advance_switch]), their
      composition [process_frame], and [run] over a list of frames.  The
      second [switch] is also given on the integer that the variable holds
      ([advance_switch_int]), with its [default] arm.
    - [AggregatorInv]: the invariant [wf], the closed form [next] /
      [events] of an iteration, that an iteration returns exactly when the
      code it writes is a class and then preserves [wf]; the sum of the
      counters, the bounds of every [u8] variable and the function of the
      diagnostic loop [calc_max].
    - [Consensus]: the scan characterised by runs ([has_run]): a detection
      is printed exactly when the window holds a run of twenty codes at its
      oldest end or of twenty-one anywhere.
    - [AggregatorSpec]: the abstract aggregator [Spec] (a queue of codes,
      the previous raw code, a mode), the abstraction [abs] (a rotation of
      the circular buffer) and the refinement theorems.
    - [Behaviour]: the laws that follow: debounce, cool-down of forty
      frames, detection of a held keyword on frame 22 and, after any
      detection, again on every sixty-first frame for as long as the
      keyword is held, the fault on a repeated code of 12 to 15.
    - [Equiv]: the partial equivalence of states with the same
      abstraction, respected by an iteration ([Proper] instances): the
      position of the window index is not observable.
    - [Loader]: the buffers of [spi_config.h], the SPI link as the trace of
      its transfers, [SPIWrite] and the twenty-seven transfers of
      [initial_TMA].  [LoaderTrace]: the catalog of regions, the image
      [initial_TMA] produces, byte for byte, and the fields of the address
      tokens against the capacities of the buffers.
    - [Storage]: [platform_init_fs], [sd_mount], [sd_read_binary] and
      [sd_read_hex] with their loops, over FatFs ([f_open], [f_gets],
      [f_mount], [f_mkfs]) and [strtoul], which are modelled from their
      documentation; termination of the readers.  A [card] can be used
      or not, holds a FAT volume or not, and when it cannot be used
      either no disk answers or the format is lost ([card_defect]), so
      that each of the three returns of [platform_init_fs] is reached.
      [StorageSpec]: the interface [LineBody] between the reading loop
      and the body of a reader, the readers against a reference on the
      chunks of a file, the skip of malformed lines, the round trip of a
      printed file, and a line longer than the line buffer read as
      several records.
    - [ModelData]: [read_model_data] and the stores to the buffers.
      [ModelDataSpec]: the buffers it leaves, for every volume.
    - [Protocol]: the accelerator as the receiver of the configuration
      protocol of the spec, an acceptor ([receive], [receive_all]) over a
      [memory_map] (capacity of the register block, capacity of each
      region by address, the enable command): the register block first
      and alone, then for each region its address and a payload of its
      capacity, no region twice, then the enable address and the enable
      data.  [tma_map] is the map of this accelerator.  The transfers of
      [initial_TMA] are accepted and arm the receiver; the sequences that
      arm a receiver are exactly those of that shape; the words that the
      receiver holds are the records of the files of the card.
    - [Codec]: [ADAU1761_Write_Reg] with its wait for the bus
      ([wait_idle] on a bus that is idle, busy for a number of polls, or
      stuck) and [init_ADAU1761] as its thirty-one calls in the order of
      the source ([init_sequence]), over the header record
      [Init_ADAU1761_h] and the I2C trace; the calls of lines 375 and
      378 name the address and length macros of lines 366 and 377
      ([register_of]).
    - [Handoff]: [intr_handler] and the iteration of the polling loop as
      actions on a [system]; every interleaving refines a channel of
      capacity one.
    - [Drivers]: the peripherals as records of what the calls of the
      program set: pin directions ([set_result_pins]), pin levels
      ([read_pins], [poll]), the I2C clock, the interrupt controller and
      the AXI GPIO ([setup_interrupt_system]), the SPI controller
      ([initial_spi_system]); the predicate [unmasked] says when the
      completion interrupt reaches the handler.
    - [Boot]: [main] up to the loop, over a [platform] (card, SPI status
      codes, codec header, I2C bus, interrupt number, changes of the
      completion line during the start-up) with the console, the two
      buses, the card and the peripherals as [effects].
      [main_preempted] is the start-up with the runs of [intr_handler]
      between the calls that follow line 129, where a [schedule] puts
      them; [main] puts them all where the loop is entered.
      [BootSpec]: the start-up in closed form for every platform, the
      configuration it leaves, its composition with the handoff and the
      aggregator, the receiver of [Protocol] after it (armed, with the
      words of the files), and [preemption_commutes]: the schedule of
      the handler during the start-up does not change what [main]
      does.
    - [System]: the running program as a labelled transition system
      ([mstep], [mrun]; [mexec] as a function) in which a change of the
      completion line runs the handler only when the interrupt is
      unmasked; its invariant [sound] by induction on the runs, its
      agreement with [Handoff], progress, and what masking costs.
    - [Program]: the whole of [main] ([program]: the start-up, then the
      machine on a sequence of stimuli) and its console, with the two
      [printf] of a detection as strings ([status_line], [detect_line]).
      The program never leaves an array; a keyword held for twenty-two
      frames is printed after the lines of the start-up; a completion
      during the start-up is taken by the first iteration; the arrays
      declared without initialisation are not observable; the console
      only grows; the line of the counters determines the counters.

    ** Conventions

    Every C integer variable is a [Z]; a store to a [u8], [u16] or
    [uint32_t] variable goes through [u8], [u16] or [u32], so overflow is
    wrap-around as on the target, and the invariants show which stores
    never wrap.  An array
    is a [list Z]; [aget] and [aset] return [Fault OutOfBounds] outside the
    declared bounds, where the C program has undefined behaviour: a theorem
    that a function returns [Ok] is a memory-safety theorem.  A local array
    that the code does not initialise is an argument of the model, so the
    theorems hold for every initial content.  What a function prints is a
    list of lines, without the line terminators.

    ** Bounds and fuel

    Loops with a constant trip count are [for_loop] over that count: the
    count is the loop bound of the source and no fuel is involved.  The
    [while(1)] of [main] is run on a finite sequence of stimuli, a prefix
    of what the environment does; [Program.console_grows] shows that a
    longer sequence only adds to what was printed.  Two loops have no
    bound in the source.  The [while] over the lines of a file
    ([Storage.read_loop]) has a fuel of one more than the length of the
    file, and [Storage.readers_terminate] shows that it is never used up,
    because every call of [f_gets] that returns a line takes at least one
    character.  The wait for the I2C bus ([Codec.wait_idle]) has the fuel
    [bus_fuel], two more than the number of polls for which the bus is
    busy; [bus_fuel] is a bound of the model, the loop of line 404 has
    none.  [Codec.wait_idle_spec] gives the result for every fuel: that
    fuel is enough when the bus is not stuck, and on a stuck bus every
    fuel is used up, which is how the model says that the loop does not
    end.  The behaviour theorems that quantify over a keyword class are
    proved for each of the twelve classes by evaluation.

    ** Assumptions

    An interrupt runs between two iterations of the loop or, what
    [Handoff.interrupt_during_step] shows to be equivalent, during the
    processing of a frame; reads and writes of the flag are atomic, and
    the loop reads the flag from memory at every iteration, as the
    source text does: [inference_finish_flag] is not declared
    [volatile], and a compiler that keeps it in a register is outside
    the model.  The interrupt is enabled before the model is loaded: the
    changes of the line from there to the loop are a field of the
    platform ([early_completions]), and the handler runs for each of
    them, between two calls of [main] ([BootSpec.preemption_commutes]
    shows that it does not matter between which).  [f_gets] returns the
    characters of the file as they are: a carriage return before the
    newline is not stripped (FatFs with [FF_USE_STRFUNC] set to 1).  The
    theorems on the codes that the aggregator receives take the pins to
    hold the code of the completed inference when the loop reads them.
    Every message leaves the I2C bus in the same state
    ([i2c_after_send]).  The driver instances start in the state
    [Drivers.reset_devices].  One call of [SPIWrite] is one burst on the
    link: the receiver of [Protocol] sees the transfers with their
    boundaries.  The theorems outside [BinStr] read the shift of line 26
    as the target compiles it, a shift of the 32-bit pattern.

    ** Not modelled

    The Xilinx drivers (GPIO, interrupt controller, SPI, I2C), FatFs and
    the C library are outside [src/]: the model takes the contracts of the
    calls that the program makes from their documentation, keeps the
    bytes handed to the transfers, and does not model the transfers, the
    registers that the program never touches, nor the status that
    [XSpiPs_PolledTransfer] and [XIicPs_MasterSendPolled] return and the
    program drops.  The values of the macros and arrays of
    [Init_ADAU1761.h] are not in the repository: they are the fields of
    [Codec.Init_ADAU1761_h].  Timing ([sleep], [usleep], the SPI and I2C
    clocks) is left out.  [f_close] is left out: no reader uses a file
    after it.  Of the accelerator only the configuration port is
    modelled, from the protocol of the spec: what it stores and when it
    is armed.  The inference itself, the audio path and the registers
    of the codec are hardware of which the repository has no
    description; the class codes are the input of the model and the
    messages to the codec its output. *)

From Stdlib Require Import ZArith Lia.
From stdpp Require Import base tactics option numbers list.

#[local] Open Scope Z_scope.

(** ** Faults and the result monad *)

Declare Scope kws_scope.
Delimit Scope kws_scope with kws.

(** The ways in which the C program leaves defined behaviour or aborts. *)
Inductive fault : Type :=
  | OutOfBounds        (* an array access outside the declared bounds *)
  | BadShift           (* a shift that the type does not define *)
  | OutOfFuel.         (* a loop model ran out of fuel (never in a proved run) *)

Inductive res (A : Type) : Type :=
  | Ok (a : A)
  | Fault (f : fault).
Arguments Ok {A} a.
Arguments Fault {A} f.

Definition bind {A B : Type} (c : res A) (k : A -> res B) : res B :=
  match c with
  | Ok a => k a
  | Fault f => Fault f
  end.

Notation "'let*' x ':=' c 'in' k" := (bind c (fun x => k))
  (at level 10, x name, c at level 100, k at level 200) : kws_scope.
Notation "'let*' ' p ':=' c 'in' k" := (bind c (fun x => match x with p => k end))
  (at level 10, p pattern, c at level 100, k at level 200) : kws_scope.

#[local] Open Scope kws_scope.

Definition is_ok {A : Type} (c : res A) : bool :=
  match c with Ok _ => true | Fault _ => false end.

(** The computation does not run out of fuel: a bounded loop of the model
    that satisfies it had fuel for every turn of the loop of the code. *)
Definition no_timeout {A : Type} (c : res A) : Prop := c <> Fault OutOfFuel.

#[export] Instance fault_eq_dec : EqDecision fault.
Proof. solve_decision. Defined.

#[export] Instance res_eq_dec {A : Type} `{EqDecision A} : EqDecision (res A).
Proof. solve_decision. Defined.

(** ** Status codes

    The two status codes of the platform's drivers ([xstatus.h]) that the
    program returns and tests. *)
Definition XST_SUCCESS : Z := 0.
Definition XST_FAILURE : Z := 1.

(** ** Machine integers *)

(** A store to a [u8] (resp. [u16], [uint32_t]) variable keeps the low 8
    (resp. 16, 32) bits. *)
Definition u8 (z : Z) : Z := z mod 2 ^ 8.
Definition u16 (z : Z) : Z := z mod 2 ^ 16.
Definition u32 (z : Z) : Z := z mod 2 ^ 32.

(** ** C arrays *)

(** [a[i]] as an rvalue. *)
Definition aget (a : list Z) (i : Z) : res Z :=
  if decide (0 <= i)
  then match a !! Z.to_nat i with
       | Some v => Ok v
       | None => Fault OutOfBounds
       end
  else Fault OutOfBounds.

(** [a[i] = v]. *)
Definition aset (a : list Z) (i : Z) (v : Z) : res (list Z) :=
  if decide (0 <= i < Z.of_nat (length a))
  then Ok (<[Z.to_nat i := v]> a)
  else Fault OutOfBounds.

(** ** Bounded loops *)

(** The outcome of one iteration: fall through to the increment, or [break]. *)
Inductive ctl (St : Type) : Type :=
  | Continue (s : St)
  | Break (s : St).
Arguments Continue {St} s.
Arguments Break {St} s.

(** [for (i = lo; i < lo + n; i++) body], [n] being the trip count. *)
Fixpoint for_loop {St : Type} (n : nat) (i : Z)
    (body : Z -> St -> res (ctl St)) (s : St) : res St :=
  match n with
  | O => Ok s
  | S n' =>
      match body i s with
      | Ok (Continue s') => for_loop n' (i + 1) body s'
      | Ok (Break s') => Ok s'
      | Fault f => Fault f
      end
  end.

(** ** Sums and counts *)

Definition sumZ (l : list Z) : Z := foldr Z.add 0 l.

(** Number of occurrences of [c] in [l]. *)
Definition countZ (c : Z) (l : list Z) : Z :=
  Z.of_nat (length (filter (fun x => x = c) l)).

(** ** Tactics *)

(** Case analysis on the scrutinee of the first [match] or [if] of the goal
    or of a hypothesis. *)
Ltac break_match :=
  match goal with
  | |- context [match ?x with _ => _ end] => destruct x eqn:?
  | H : context [match ?x with _ => _ end] |- _ => destruct x eqn:?
  end.

(** Invert the equations between results that a successful run leaves. *)
Ltac res_inv :=
  repeat match goal with
  | H : Ok _ = Ok _ |- _ => injection H as H; try subst
  | H : Fault _ = Ok _ |- _ => discriminate H
  | H : Ok _ = Fault _ |- _ => discriminate H
  | H : bind ?c _ = Ok _ |- _ =>
      let E := fresh "E" in destruct c eqn:E; simpl in H; [|discriminate H]
  end.

Create HintDb kws discriminated.
Create Rewrite HintDb kws_rw.

(** ** Lemmas on the monad *)

Lemma bind_Ok_inv {A B} (c : res A) (k : A -> res B) (b : B) :
  bind c k = Ok b -> exists a, c = Ok a /\ k a = Ok b.
Proof. destruct c; simpl; [eauto | discriminate]. Qed.

Lemma bind_Ok {A B} (c : res A) (k : A -> res B) (a : A) :
  c = Ok a -> bind c k = k a.
Proof. intros ->; reflexivity. Qed.

Lemma bind_assoc {A B C} (c : res A) (k : A -> res B) (h : B -> res C) :
  bind (bind c k) h = bind c (fun a => bind (k a) h).
Proof. destruct c; reflexivity. Qed.

(** ** Lemmas on machine integers *)

Lemma u8_range z : 0 <= u8 z < 256.
Proof. unfold u8; apply Z.mod_pos_bound; reflexivity. Qed.

Lemma u16_range z : 0 <= u16 z < 65536.
Proof. unfold u16; apply Z.mod_pos_bound; reflexivity. Qed.

Lemma u32_range z : 0 <= u32 z < 2 ^ 32.
Proof. unfold u32; apply Z.mod_pos_bound; reflexivity. Qed.

Lemma u8_small z : 0 <= z < 256 -> u8 z = z.
Proof. intros; unfold u8; apply Z.mod_small; assumption. Qed.

Lemma u16_small z : 0 <= z < 65536 -> u16 z = z.
Proof. intros; unfold u16; apply Z.mod_small; assumption. Qed.

Lemma u32_small z : 0 <= z < 2 ^ 32 -> u32 z = z.
Proof. intros; unfold u32; apply Z.mod_small; assumption. Qed.

Lemma u8_idemp z : u8 (u8 z) = u8 z.
Proof. apply u8_small, u8_range. Qed.

Lemma u32_idemp z : u32 (u32 z) = u32 z.
Proof. apply u32_small, u32_range. Qed.

#[export] Hint Resolve u8_range u16_range u32_range : kws.
#[export] Hint Rewrite u8_idemp u32_idemp : kws_rw.

(** ** Lemmas on arrays *)

Section Arrays.
Implicit Types (a : list Z) (i v : Z).

Lemma aget_Ok a i v :
  aget a i = Ok v <-> 0 <= i /\ a !! Z.to_nat i = Some v.
Proof.
  unfold aget. case_decide; [|split; [discriminate | lia]].
  destruct (a !! Z.to_nat i); split; intros; destruct_and?; simplify_eq; auto.
Qed.

Lemma aget_lookup a i v :
  0 <= i -> a !! Z.to_nat i = Some v -> aget a i = Ok v.
Proof. intros; apply aget_Ok; auto. Qed.

Lemma aget_in_bounds a i :
  0 <= i < Z.of_nat (length a) -> exists v, aget a i = Ok v.
Proof.
  intros Hi. destruct (lookup_lt_is_Some_2 a (Z.to_nat i)) as [v Hv]; [lia|].
  exists v. apply aget_lookup; [lia | done].
Qed.

Lemma aget_out_of_bounds a i :
  ~ 0 <= i < Z.of_nat (length a) -> aget a i = Fault OutOfBounds.
Proof.
  intros Hi. unfold aget. case_decide; [|done].
  rewrite lookup_ge_None_2; [done | lia].
Qed.

Lemma aget_Fault a i f : aget a i = Fault f -> f = OutOfBounds.
Proof. unfold aget. repeat case_match; intros; by simplify_eq. Qed.

Lemma aget_of_nat a (n : nat) v :
  a !! n = Some v -> aget a (Z.of_nat n) = Ok v.
Proof. intros. apply aget_lookup; [lia | by rewrite Nat2Z.id]. Qed.

Lemma aset_Ok a i v :
  0 <= i < Z.of_nat (length a) -> aset a i v = Ok (<[Z.to_nat i := v]> a).
Proof. intros; unfold aset; case_decide; [done | lia]. Qed.

Lemma aset_Ok_inv a i v a' :
  aset a i v = Ok a' ->
  0 <= i < Z.of_nat (length a) /\ a' = <[Z.to_nat i := v]> a.
Proof. unfold aset; case_decide; intros; simplify_eq; auto. Qed.

Lemma aset_out_of_bounds a i v :
  ~ 0 <= i < Z.of_nat (length a) -> aset a i v = Fault OutOfBounds.
Proof. intros; unfold aset; case_decide; [lia | done]. Qed.

Lemma aset_length a i v a' : aset a i v = Ok a' -> length a' = length a.
Proof. intros [_ ->]%aset_Ok_inv; apply length_insert. Qed.

Lemma aget_aset_eq a i v a' : aset a i v = Ok a' -> aget a' i = Ok v.
Proof.
  intros [Hi ->]%aset_Ok_inv. apply aget_lookup; [lia|].
  apply list_lookup_insert_eq; lia.
Qed.

Lemma aget_aset_ne a i j v a' :
  aset a i v = Ok a' -> i <> j -> 0 <= j -> aget a' j = aget a j.
Proof.
  intros [Hi ->]%aset_Ok_inv Hne Hj. unfold aget.
  rewrite list_lookup_insert_ne; [done | lia].
Qed.
End Arrays.

(** ** The rules of the bounded loop *)

Section ForLoop.
Context {St : Type} (body : Z -> St -> res (ctl St)).

Lemma for_loop_S n i s :
  for_loop (S n) i body s
  = match body i s with
    | Ok (Continue s') => for_loop n (i + 1) body s'
    | Ok (Break s') => Ok s'
    | Fault f => Fault f
    end.
Proof. reflexivity. Qed.

Lemma for_loop_continue n i s s' :
  body i s = Ok (Continue s') ->
  for_loop (S n) i body s = for_loop n (i + 1) body s'.
Proof. intros H; simpl; rewrite H; reflexivity. Qed.

Lemma for_loop_break n i s s' :
  body i s = Ok (Break s') -> for_loop (S n) i body s = Ok s'.
Proof. intros H; simpl; rewrite H; reflexivity. Qed.

(** Two bodies that agree on the indices of the loop give the same
    loop. *)
Lemma for_loop_ext (body' : Z -> St -> res (ctl St)) n : forall i s,
  (forall j s, i <= j < i + Z.of_nat n -> body j s = body' j s) ->
  for_loop n i body s = for_loop n i body' s.
Proof.
  induction n as [|n IH]; intros i s Hb; [done|]. cbn [for_loop].
  rewrite <- Hb by lia. destruct (body i s) as [[s'|s']|f]; [|done..].
  apply IH. intros j s'' Hj. apply Hb. lia.
Qed.

(** Total correctness: an invariant [P], indexed by the loop counter, that
    every iteration re-establishes (or breaks out of into [Q]) gives a
    run that returns, in a state that satisfies [Q]. *)
Lemma for_loop_rule (P : Z -> St -> Prop) (Q : St -> Prop) n i s :
  P i s ->
  (forall j s, i <= j < i + Z.of_nat n -> P j s ->
     (exists s', body j s = Ok (Continue s') /\ P (j + 1) s') \/
     (exists s', body j s = Ok (Break s') /\ Q s')) ->
  (forall s, P (i + Z.of_nat n) s -> Q s) ->
  exists s', for_loop n i body s = Ok s' /\ Q s'.
Proof.
  revert i s; induction n as [|n IH]; intros i s HP Hbody Hexit.
  - exists s; split; [done|]. apply Hexit. by rewrite Z.add_0_r.
  - destruct (Hbody i s) as [(s' & Hb & HP')|(s' & Hb & HQ)]; [lia | done | |].
    + rewrite (for_loop_continue _ _ _ _ Hb). apply IH; [done | |].
      * intros j t Hj. apply Hbody; lia.
      * intros t Ht. apply Hexit. by replace (i + Z.of_nat (S n))
          with (i + 1 + Z.of_nat n) by lia.
    + rewrite (for_loop_break _ _ _ _ Hb). eauto.
Qed.

(** A loop whose body never breaks is the iteration of a function. *)
Lemma for_loop_iter (f : Z -> St -> St) n i s :
  (forall j s, i <= j < i + Z.of_nat n -> body j s = Ok (Continue (f j s))) ->
  for_loop n i body s
  = Ok (foldl (fun s j => f j s) s (seqZ i (Z.of_nat n))).
Proof.
  revert i s; induction n as [|n IH]; intros i s Hb; [done|].
  rewrite Nat2Z.inj_succ, seqZ_cons, Z.pred_succ by lia. cbn [foldl].
  rewrite (for_loop_continue n i s (f i s)) by (apply Hb; lia).
  apply IH. intros; apply Hb; lia.
Qed.

(** A loop that reaches an iteration whose body faults, faults. *)
Lemma for_loop_fault (f : fault) n i s :
  (forall j s, i <= j < i + Z.of_nat n ->
     (exists s', body j s = Ok (Continue s')) \/ body j s = Fault f) ->
  (exists j, i <= j < i + Z.of_nat n /\ forall s, body j s = Fault f) ->
  for_loop n i body s = Fault f.
Proof.
  revert i s; induction n as [|n IH]; intros i s Hb (j & Hj & Hf); [lia|].
  cbn [for_loop]. destruct (decide (j = i)) as [->|Hne]; [by rewrite Hf|].
  destruct (Hb i s ltac:(lia)) as [[s' ->]| ->]; [|done].
  apply IH; [intros; apply Hb; lia|]. exists j. split; [lia|done].
Qed.

(** The same under an invariant of the state, for a body whose fault
    depends on the state. *)
Lemma for_loop_fault_inv (P : St -> Prop) (f : fault) n i s :
  P s ->
  (forall j s, i <= j < i + Z.of_nat n -> P s ->
     (exists s', body j s = Ok (Continue s') /\ P s') \/ body j s = Fault f) ->
  (exists j, i <= j < i + Z.of_nat n /\ forall s, P s -> body j s = Fault f) ->
  for_loop n i body s = Fault f.
Proof.
  revert i s; induction n as [|n IH]; intros i s HP Hb (j & Hj & Hf); [lia|].
  cbn [for_loop]. destruct (decide (j = i)) as [->|Hne]; [by rewrite Hf|].
  destruct (Hb i s ltac:(lia) HP) as [(s' & -> & HP')| ->]; [|done].
  apply IH; [done | intros; apply Hb; [lia|done] |]. exists j. split; [lia|done].
Qed.
End ForLoop.

(** ** Fuel

    The operations on arrays and the bounded loops over them never run
    out of fuel; the lemmas are hints of the database [kws]. *)

Lemma no_timeout_Ok {A} (a : A) : no_timeout (Ok a).
Proof. done. Qed.

Lemma no_timeout_Fault {A} (f : fault) : f <> OutOfFuel -> no_timeout (@Fault A f).
Proof. unfold no_timeout. congruence. Qed.

Lemma no_timeout_bind {A B} (c : res A) (k : A -> res B) :
  no_timeout c -> (forall a, no_timeout (k a)) -> no_timeout (bind c k).
Proof. destruct c as [a|f]; cbn; [auto|]. unfold no_timeout. congruence. Qed.

Lemma no_timeout_aget a i : no_timeout (aget a i).
Proof. unfold no_timeout. by intros [=]%aget_Fault. Qed.

Lemma no_timeout_aset a i v : no_timeout (aset a i v).
Proof. unfold aset. by case_decide. Qed.

Lemma no_timeout_for_loop {St} (body : Z -> St -> res (ctl St)) n : forall i s,
  (forall j s, no_timeout (body j s)) -> no_timeout (for_loop n i body s).
Proof.
  induction n as [|n IH]; intros i s Hb; [done|]. cbn [for_loop].
  pose proof (Hb i s) as Hi. destruct (body i s) as [[s'|s']|f]; [auto | done|].
  unfold no_timeout in *. congruence.
Qed.

#[export] Hint Resolve no_timeout_Ok no_timeout_aget no_timeout_aset : kws.
#[export] Hint Extern 2 (no_timeout (bind _ _)) =>
  apply no_timeout_bind; [|intros ?] : kws.
#[export] Hint Extern 2 (no_timeout (for_loop _ _ _ _)) =>
  apply no_timeout_for_loop; intros ? ? : kws.
#[export] Hint Extern 3 (no_timeout (if decide _ then _ else _)) => case_decide : kws.
#[export] Hint Extern 1 (no_timeout (Fault _)) => apply no_timeout_Fault; discriminate : kws.

(** A loop that stores [v] in every cell of an array, whatever it held. *)
Lemma for_loop_fill (v : Z) (l1 l2 : list Z) :
  for_loop (length l2) (Z.of_nat (length l1))
    (fun i w => bind (aset w i v) (fun w' => Ok (Continue w'))) (l1 ++ l2)
  = Ok (l1 ++ replicate (length l2) v).
Proof.
  revert l1; induction l2 as [|x l2 IH]; intros l1; [done|].
  cbn [length]. erewrite for_loop_continue.
  2:{ rewrite aset_Ok by (rewrite length_app; simpl; lia).
      rewrite Nat2Z.id, insert_app_r_alt, Nat.sub_diag by lia. reflexivity. }
  replace (Z.of_nat (length l1) + 1) with (Z.of_nat (length (l1 ++ [v])))
    by (rewrite length_app; simpl; lia).
  change (l1 ++ <[0%nat:=v]> (x :: l2)) with (l1 ++ [v] ++ l2).
  rewrite app_assoc, IH. by rewrite <- app_assoc.
Qed.

(** A loop that stores the value computed for [i] in cell [base + i]:
    the cells before and after the range are left as they were. *)
Lemma for_loop_store (val : Z -> res Z) (g : Z -> Z) (base : Z) (l2 : list Z) :
  forall (l1 l3 : list Z) (k : Z),
  Z.of_nat (length l1) = base + k ->
  (forall j, k <= j < k + Z.of_nat (length l2) -> val j = Ok (g j)) ->
  for_loop (length l2) k
    (fun i w => bind (val i) (fun x =>
                bind (aset w (base + i) x) (fun w' => Ok (Continue w'))))
    (l1 ++ l2 ++ l3)
  = Ok (l1 ++ map g (seqZ k (Z.of_nat (length l2))) ++ l3).
Proof.
  induction l2 as [|x l2 IH]; intros l1 l3 k Hl1 Hval; [done|].
  cbn [length]. rewrite Nat2Z.inj_succ, seqZ_cons, Z.pred_succ by lia.
  erewrite for_loop_continue.
  2:{ rewrite Hval by (cbn [length]; lia). cbn [bind].
      rewrite aset_Ok by (rewrite !length_app; cbn [length]; lia).
      rewrite <- Hl1, Nat2Z.id, insert_app_r_alt, Nat.sub_diag by lia.
      reflexivity. }
  change (l1 ++ <[0%nat:=g k]> ((x :: l2) ++ l3)) with (l1 ++ [g k] ++ l2 ++ l3).
  rewrite app_assoc, IH.
  - by rewrite <- app_assoc.
  - rewrite length_app. cbn [length]. lia.
  - intros j Hj. apply Hval. cbn [length]. lia.
Qed.

(** A loop that reads every cell of an array in order collects the array. *)
Lemma for_loop_collect (l1 l2 : list Z) :
  for_loop (length l2) (Z.of_nat (length l1))
    (fun i acc => bind (aget (l1 ++ l2) i) (fun n => Ok (Continue (acc ++ [n]))))
    l1
  = Ok (l1 ++ l2).
Proof.
  revert l1; induction l2 as [|x l2 IH]; intros l1; [by rewrite app_nil_r|].
  cbn [length]. erewrite for_loop_continue.
  2:{ rewrite (aget_lookup _ _ x); [reflexivity | lia |].
      by rewrite Nat2Z.id, list_lookup_middle. }
  replace (Z.of_nat (length l1) + 1) with (Z.of_nat (length (l1 ++ [x])))
    by (rewrite length_app; simpl; lia).
  rewrite (cons_middle x l1 l2), app_assoc. apply IH.
Qed.

(** ** Lemmas on counts *)

Section Counts.
Implicit Types (l : list Z) (c x : Z).

Lemma countZ_nil c : countZ c [] = 0.
Proof. reflexivity. Qed.

Lemma countZ_cons c x l :
  countZ c (x :: l) = (if decide (x = c) then 1 else 0) + countZ c l.
Proof.
  unfold countZ. rewrite filter_cons. case_decide; simpl; lia.
Qed.

Lemma countZ_app c l1 l2 : countZ c (l1 ++ l2) = countZ c l1 + countZ c l2.
Proof. unfold countZ. rewrite filter_app, length_app. lia. Qed.

Lemma countZ_bounds c l : 0 <= countZ c l <= Z.of_nat (length l).
Proof.
  unfold countZ. pose proof (length_filter (fun x => x = c) l). lia.
Qed.

Lemma countZ_replicate c x n :
  countZ c (replicate n x) = if decide (x = c) then Z.of_nat n else 0.
Proof.
  induction n as [|n IH]; [by case_decide|].
  simpl replicate. rewrite countZ_cons, IH. case_decide; lia.
Qed.

(** Overwriting the slot that holds [old] with [new] moves one unit from
    the count of [old] to the count of [new]. *)
Lemma countZ_insert c l (i : nat) old new :
  l !! i = Some old ->
  countZ c (<[i := new]> l)
  = countZ c l - (if decide (old = c) then 1 else 0)
               + (if decide (new = c) then 1 else 0).
Proof.
  intros Hi. rewrite insert_take_drop by (by eapply lookup_lt_Some).
  rewrite <- (take_drop_middle l i old Hi) at 3.
  rewrite !countZ_app, !countZ_cons. lia.
Qed.

Lemma countZ_pos c l (i : nat) : l !! i = Some c -> 1 <= countZ c l.
Proof.
  intros Hi. rewrite <- (take_drop_middle l i c Hi).
  rewrite countZ_app, countZ_cons. rewrite decide_True by done.
  pose proof (countZ_bounds c (take i l)).
  pose proof (countZ_bounds c (drop (S i) l)). lia.
Qed.

Lemma countZ_rotate c n l : countZ c (rotate n l) = countZ c l.
Proof.
  unfold rotate. rewrite countZ_app, Z.add_comm, <- countZ_app.
  by rewrite take_drop.
Qed.

Lemma countZ_zero c l : countZ c l = 0 <-> c ∉ l.
Proof.
  induction l as [|x l IH].
  - rewrite countZ_nil; split; [intros _; apply not_elem_of_nil | done].
  - rewrite countZ_cons, not_elem_of_cons, <- IH.
    pose proof (countZ_bounds c l). case_decide; subst; intuition lia.
Qed.

Lemma countZ_all c l : countZ c l = Z.of_nat (length l) <-> Forall (eq c) l.
Proof.
  induction l as [|x l IH]; [rewrite countZ_nil; simpl; split; auto|].
  rewrite countZ_cons, Forall_cons, <- IH. simpl length.
  pose proof (countZ_bounds c l). case_decide; subst; intuition lia.
Qed.

Lemma sumZ_app l1 l2 : sumZ (l1 ++ l2) = sumZ l1 + sumZ l2.
Proof. induction l1 as [|x l1 IH]; simpl; [done|]. fold sumZ in *. lia. Qed.

Lemma sumZ_map_add {A} (f g : A -> Z) (xs : list A) :
  sumZ (map (fun a => f a + g a) xs) = sumZ (map f xs) + sumZ (map g xs).
Proof. induction xs as [|a xs IH]; simpl; [done|]. fold sumZ in *. lia. Qed.

Lemma sumZ_map_zero {A} (f : A -> Z) (xs : list A) :
  Forall (fun a => f a = 0) xs -> sumZ (map f xs) = 0.
Proof. induction 1; simpl; [done|]. fold sumZ in *. lia. Qed.

(** Exactly one class of a range is equal to a given member of it. *)
Lemma sumZ_indicator x lo n :
  lo <= x < lo + n ->
  sumZ (map (fun c => if decide (x = c) then 1 else 0) (seqZ lo n)) = 1.
Proof.
  intros Hx. replace n with ((x - lo) + (1 + (lo + n - x - 1))) by lia.
  rewrite seqZ_app, (seqZ_cons (lo + (x - lo))), map_app, sumZ_app by lia.
  simpl. fold sumZ. rewrite decide_True by lia.
  rewrite !sumZ_map_zero; [lia | |]; apply Forall_forall;
    intros c [? ?]%elem_of_seqZ; apply decide_False; lia.
Qed.

(** Summed over the classes [0 .. k-1], the counts of a list whose entries
    are all below [k] give its length. *)
Lemma sumZ_countZ (k : Z) l :
  Forall (fun x => 0 <= x < k) l ->
  sumZ (map (fun c => countZ c l) (seqZ 0 k)) = Z.of_nat (length l).
Proof.
  induction 1 as [|x l Hx Hl IH]; simpl length.
  - apply sumZ_map_zero, Forall_forall; done.
  - rewrite Nat2Z.inj_succ, <- IH, <- Z.add_1_l.
    rewrite <- (sumZ_indicator x 0 k) by lia.
    rewrite <- sumZ_map_add. f_equal. apply map_ext; intros c.
    apply countZ_cons.
Qed.
End Counts.
