(* ===== verification/Bytes.v ===== *)
(** * Bytes: the 32-bit big-endian wire format

    Every word that crosses the SPI link is sent as four bytes, most
    significant first.  The loop

      for (i = 0; i < 4; i++) buf[base + i] = (value >> (24 - i * 8)) & 0xFF;

    appears in [sd_read_binary] and [sd_read_hex] ([tf_card.c], lines 89-91
    and 128-130) with [base = line_count * 4], and fourteen times in
    [initial_TMA] ([spi_config.c], lines 63-65 and the like) with
    [base = 0].  [store_be32] is that loop; [be32] is the list of the four
    bytes and [be32_value] the word they spell. *)

From Stdlib Require Import ZArith Lia.
From stdpp Require Import base tactics option numbers list.
From S2P Require Import Prelude.

#[local] Open Scope Z_scope.
#[local] Open Scope kws_scope.

(** [(value >> (24 - i * 8)) & 0xFF]. *)
Definition be_byte (v i : Z) : Z := Z.land (Z.shiftr v (24 - i * 8)) 255.

(** The four-iteration loop, on the array [buf]. *)
Definition store_be32 (buf : list Z) (base v : Z) : res (list Z) :=
  for_loop 4 0
    (fun i b => let* b' := aset b (base + i) (be_byte v i) in Ok (Continue b'))
    buf.

(** The four bytes in the order in which they are stored. *)
Definition be32 (v : Z) : list Z := map (be_byte v) (seqZ 0 4).

(** The word that a sequence of bytes spells, most significant first. *)
Definition be32_value (bs : list Z) : Z := foldl (fun acc b => acc * 256 + b) 0 bs.

(** A byte of the wire. *)
Definition byte_ok (b : Z) : Prop := 0 <= b < 256.

#[export] Instance byte_ok_dec b : Decision (byte_ok b).
Proof. unfold byte_ok; apply _. Defined.

(** ** Lemmas *)

Lemma be_byte_mod v i :
  0 <= i <= 3 -> be_byte v i = (v / 2 ^ (24 - i * 8)) mod 256.
Proof.
  intros Hi. unfold be_byte. change 255 with (Z.ones 8).
  by rewrite Z.land_ones, Z.shiftr_div_pow2 by lia.
Qed.

Lemma be32_unfold v :
  be32 v = [(v / 16777216) mod 256; (v / 65536) mod 256;
            (v / 256) mod 256; (v / 1) mod 256].
Proof.
  unfold be32. change (seqZ 0 4) with [0; 1; 2; 3]. cbn [map].
  by rewrite !be_byte_mod by lia.
Qed.

Lemma be_byte_ok v i : byte_ok (be_byte v i).
Proof.
  unfold be_byte, byte_ok. change 255 with (Z.ones 8).
  rewrite Z.land_ones by lia. apply Z.mod_pos_bound. lia.
Qed.

Lemma be32_length v : length (be32 v) = 4%nat.
Proof. reflexivity. Qed.

Lemma be32_bytes v : Forall byte_ok (be32 v).
Proof. repeat constructor; apply be_byte_ok. Qed.

(** The bytes of a word depend on its low 32 bits only. *)
Lemma be32_u32 v : be32 (u32 v) = be32 v.
Proof.
  rewrite !be32_unfold. unfold u32. change (2 ^ 32) with 4294967296.
  do 4 (apply (f_equal2 (@cons Z)); [Z.div_mod_to_equations; lia|]). done.
Qed.

Lemma be32_value_be32 v : 0 <= v < 2 ^ 32 -> be32_value (be32 v) = v.
Proof.
  change (2 ^ 32) with 4294967296.
  intros Hv. rewrite be32_unfold. unfold be32_value. cbn [foldl].
  Z.div_mod_to_equations. lia.
Qed.

Lemma be32_be32_value a b c d :
  byte_ok a -> byte_ok b -> byte_ok c -> byte_ok d ->
  be32 (be32_value [a; b; c; d]) = [a; b; c; d].
Proof.
  unfold byte_ok. intros Ha Hb Hc Hd. rewrite be32_unfold.
  unfold be32_value. cbn [foldl].
  do 4 (apply (f_equal2 (@cons Z)); [Z.div_mod_to_equations; lia|]). done.
Qed.

Lemma be32_inj v w :
  0 <= v < 2 ^ 32 -> 0 <= w < 2 ^ 32 -> be32 v = be32 w -> v = w.
Proof.
  intros Hv Hw Heq. rewrite <- (be32_value_be32 v), <- (be32_value_be32 w) by done.
  by rewrite Heq.
Qed.

(** The loop overwrites the four cells from [base] and nothing else. *)
Lemma store_be32_spec buf base v :
  0 <= base -> base + 4 <= Z.of_nat (length buf) ->
  store_be32 buf base v
  = Ok (take (Z.to_nat base) buf ++ be32 v ++ drop (Z.to_nat base + 4) buf).
Proof.
  intros Hb Hlen. unfold store_be32, be32.
  rewrite <- (take_drop (Z.to_nat base) buf) at 1.
  rewrite <- (take_drop 4 (drop (Z.to_nat base) buf)) at 1.
  rewrite drop_drop.
  assert (Hl : length (take 4 (drop (Z.to_nat base) buf)) = 4%nat)
    by (rewrite length_take, length_drop; lia).
  pose proof (for_loop_store (fun i => Ok (be_byte v i)) (be_byte v) base
                (take 4 (drop (Z.to_nat base) buf))
                (take (Z.to_nat base) buf)
                (drop (Z.to_nat base + 4) buf) 0) as H.
  rewrite Hl in H. apply H; [rewrite length_take; lia | done].
Qed.

Lemma store_be32_length buf base v buf' :
  store_be32 buf base v = Ok buf' -> length buf' = length buf.
Proof.
  unfold store_be32. cbn [for_loop]. intros H.
  repeat match type of H with
  | context [aset ?b ?i ?x] =>
      let E := fresh "E" in
      destruct (aset b i x) eqn:E; cbn [bind] in H; [|discriminate];
      apply aset_length in E
  end.
  injection H as <-. congruence.
Qed.

(** Four cells that do not fit in the array: the loop leaves its bounds. *)
Lemma store_be32_fault buf base v :
  ~ (0 <= base /\ base + 4 <= Z.of_nat (length buf)) ->
  store_be32 buf base v = Fault OutOfBounds.
Proof.
  intros Hb. unfold store_be32. cbn [for_loop].
  repeat match goal with
  | |- context [aset ?b ?i ?x] =>
      let E := fresh "E" in
      destruct (aset b i x) eqn:E; cbn [bind];
      [pose proof (aset_length _ _ _ _ E); apply aset_Ok_inv in E as [? _]
      |unfold aset in E; case_decide; by simplify_eq]
  end.
  lia.
Qed.

(** ** Theorems *)

(** Round trip of a stored word: storing a 32-bit word at a place
    where four cells fit returns, leaves the other cells as they were,
    and the four cells read back, most significant byte first, give the
    word. *)
Theorem store_be32_roundtrip buf base v :
  0 <= base -> base + 4 <= Z.of_nat (length buf) -> 0 <= v < 2 ^ 32 ->
  exists buf',
    store_be32 buf base v = Ok buf'
    /\ be32_value (take 4 (drop (Z.to_nat base) buf')) = v
    /\ take (Z.to_nat base) buf' = take (Z.to_nat base) buf
    /\ drop (Z.to_nat base + 4) buf' = drop (Z.to_nat base + 4) buf.
Proof.
  intros Hb Hlen Hv. eexists. split; [by apply store_be32_spec|].
  assert (Hl : length (take (Z.to_nat base) buf) = Z.to_nat base)
    by (rewrite length_take; lia).
  split_and!.
  - rewrite drop_app_length' by done.
    rewrite take_app_length' by apply (be32_length v). by apply be32_value_be32.
  - by rewrite take_app_length'.
  - rewrite drop_app_add' by done.
    by rewrite drop_app_length' by apply (be32_length v).
Qed.

Lemma store_be32_roundtrip_witness :
  exists buf',
    store_be32 [7; 7; 7; 7; 7; 7] 1 2420633600 = Ok buf'
    /\ be32_value (take 4 (drop (Z.to_nat 1) buf')) = 2420633600
    /\ take (Z.to_nat 1) buf' = take (Z.to_nat 1) [7; 7; 7; 7; 7; 7]
    /\ drop (Z.to_nat 1 + 4) buf' = drop (Z.to_nat 1 + 4) [7; 7; 7; 7; 7; 7].
Proof. apply (store_be32_roundtrip [7; 7; 7; 7; 7; 7] 1 2420633600); cbn; lia. Defined.
