(* ===== verification/BinStr.v ===== *)
(** * BinStr: bit strings and the address tokens

    [binary_str_to_uint32] ([spi_config.c], lines 22-30) turns a string of
    32 characters ['0'] and ['1'] into a word, most significant bit first.
    The same conversion, for a width [bit_len] that the caller passes, is
    the second loop of [sd_read_binary] ([tf_card.c], lines 81-86); its
    model is in [Storage], and both are proved equal to the reference
    [bits_value] through [set_bits_value] below.

    A C string is the list of the character codes that the array holds,
    the terminating 0 included.  The fourteen address tokens of
    [spi_config.c] (lines 3-19) are given as such lists.

    In the source the shift is [1 << (31 - i)] on the [int] constant 1.
    [binary_str_to_uint32] reads it on the 32-bit pattern, as the
    target compiles it; [binary_str_to_uint32_iso] reads it with
    [shl_int], the shift that ISO C defines on a signed type, and the
    last theorem says on which strings the two agree. *)

From Stdlib Require Import ZArith Lia.
From stdpp Require Import base tactics option numbers strings list.
From S2P Require Import Prelude Bytes.

#[local] Open Scope Z_scope.
#[local] Open Scope kws_scope.

(** ** Characters and strings *)

Definition char_0 : Z := 48.      (* '0' *)
Definition char_1 : Z := 49.      (* '1' *)

(** The array that a string literal denotes. *)
Definition cstr (s : string) : list Z :=
  map (fun a => Z.of_N (Ascii.N_of_ascii a)) (String.list_ascii_of_string s) ++ [0].

(** ** The reference: Horner's rule on a list of bits *)

Definition bits_value (bs : list bool) : Z :=
  foldl (fun acc (b : bool) => 2 * acc + (if b then 1 else 0)) 0 bs.

(** The bits that the first [w] characters of [str] spell: a character is
    a 1 when it is ['1'], and a 0 otherwise. *)
Definition bits_of (w : Z) (str : list Z) : list bool :=
  map (fun c => bool_decide (c = char_1)) (take (Z.to_nat w) str).

(** ** [binary_str_to_uint32] *)

(** The shift [1 << (31 - i)] is on an [int]; for [i = 0] the program
    relies on the compiler giving the bit pattern [0x80000000], which the
    [|=] on a [uint32_t] then keeps. *)
Definition binary_str_to_uint32 (str : list Z) : res Z :=
  for_loop 32 0
    (fun i result =>
       let* c := aget str i in
       if decide (c = char_1)
       then Ok (Continue (u32 (Z.lor result (Z.shiftl 1 (31 - i)))))
       else Ok (Continue result))
    0.

(** ** The same function under ISO C *)

Definition INT_MAX : Z := 2 ^ 31 - 1.

(** [E1 << E2] on an [int]: ISO C (6.5.7) defines it when [E1] is not
    negative, [E2] is a count below the width and [E1 * 2 ^ E2] is
    representable in [int]. *)
Definition shl_int (x n : Z) : res Z :=
  if decide (0 <= x /\ 0 <= n < 32 /\ Z.shiftl x n <= INT_MAX)
  then Ok (Z.shiftl x n) else Fault BadShift.

(** Lines 22-30, with the shift of line 26 as ISO C defines it. *)
Definition binary_str_to_uint32_iso (str : list Z) : res Z :=
  for_loop 32 0
    (fun i result =>
       let* c := aget str i in
       if decide (c = char_1)
       then let* m := shl_int 1 (31 - i) in Ok (Continue (u32 (Z.lor result m)))
       else Ok (Continue result))
    0.

(** ** The address tokens (lines 3-19) *)

Definition BLOCK_IDX_BANK_CONFIG_ADDR : list Z := cstr "10010000010001111111000000000000".
Definition ROW_CNT_BANK0_CONFIG_ADDR : list Z := cstr "10100000011000110111000000000000".
Definition ROW_CNT_BANK1_CONFIG_ADDR : list Z := cstr "10100010011001010001000000000000".
Definition ROW_CNT_BANK2_CONFIG_ADDR : list Z := cstr "10100100011001011010000000000000".
Definition ROW_CNT_BANK3_CONFIG_ADDR : list Z := cstr "10100110011001001101000000000000".
Definition ROW_CNT_BANK4_CONFIG_ADDR : list Z := cstr "10101000011010000011000000000000".
Definition CCL_IDX_BANK0_CONFIG_ADDR : list Z := cstr "10110000110000110110000000000000".
Definition CCL_IDX_BANK1_CONFIG_ADDR : list Z := cstr "10110010110000101001000000000000".
Definition CCL_IDX_BANK2_CONFIG_ADDR : list Z := cstr "10110100110000011010000000000000".
Definition CCL_IDX_BANK3_CONFIG_ADDR : list Z := cstr "10110110110000100011000000000000".
Definition CCL_IDX_BANK4_CONFIG_ADDR : list Z := cstr "10111000110001110001000000000000".
Definition WEIGHT_BANK0_CONFIG_ADDR : list Z := cstr "11000000010110011111000000000000".
Definition CONF_SPI_EN_INF_ADDR : list Z := cstr "10000000000000000000000000000001".
Definition CONF_SPI_EN_INF_DATA : list Z := cstr "00000000000000000000000000000001".

(** The tokens of the twelve memory regions that have one, in the order in
    which [initial_TMA] sends them. *)
Definition region_tokens : list (list Z) :=
  [BLOCK_IDX_BANK_CONFIG_ADDR;
   ROW_CNT_BANK0_CONFIG_ADDR; ROW_CNT_BANK1_CONFIG_ADDR; ROW_CNT_BANK2_CONFIG_ADDR;
   ROW_CNT_BANK3_CONFIG_ADDR; ROW_CNT_BANK4_CONFIG_ADDR;
   CCL_IDX_BANK0_CONFIG_ADDR; CCL_IDX_BANK1_CONFIG_ADDR; CCL_IDX_BANK2_CONFIG_ADDR;
   CCL_IDX_BANK3_CONFIG_ADDR; CCL_IDX_BANK4_CONFIG_ADDR;
   WEIGHT_BANK0_CONFIG_ADDR].

(** A string of exactly [w] bit characters before its terminator. *)
Definition bit_string (w : nat) (str : list Z) : Prop :=
  exists bs, str = bs ++ [0] /\ length bs = w
             /\ Forall (fun c => c = char_0 \/ c = char_1) bs.

(** ** Setting bits one by one is Horner's rule *)

(** A bit below the lowest bit set so far is added by [|]. *)
Lemma lor_low_bit a m :
  0 <= m -> Z.lor (a * 2 ^ (m + 1)) (2 ^ m) = a * 2 ^ (m + 1) + 2 ^ m.
Proof.
  intros Hm.
  assert (Hl : Z.land (a * 2 ^ (m + 1)) (2 ^ m) = 0).
  { apply Z.bits_inj'; intros n Hn.
    rewrite Z.land_spec, Z.bits_0, Z.pow2_bits_eqb by done.
    destruct (Z.eqb_spec m n) as [->|]; [|by rewrite andb_false_r].
    by rewrite Z.mul_pow2_bits_low by lia. }
  pose proof (Z.add_lor_land (a * 2 ^ (m + 1)) (2 ^ m)). lia.
Qed.

Lemma bits_value_snoc bs (b : bool) :
  bits_value (bs ++ [b]) = 2 * bits_value bs + (if b then 1 else 0).
Proof. unfold bits_value. by rewrite foldl_app. Qed.

Lemma bits_value_range bs : 0 <= bits_value bs < 2 ^ Z.of_nat (length bs).
Proof.
  induction bs as [|b bs IH] using rev_ind; [done|].
  rewrite bits_value_snoc, length_app, Nat2Z.inj_add, Z.pow_add_r by lia.
  change (2 ^ Z.of_nat (length [b])) with 2. destruct b; lia.
Qed.

(** The pure content of the two conversion loops: bit [w - 1 - j] is set
    for each character [j] that is ['1']. *)
Definition set_bits (w : Z) (str : list Z) (v j : Z) : Z :=
  if decide (str !! Z.to_nat j = Some char_1)
  then u32 (Z.lor v (2 ^ (w - 1 - j))) else v.

Lemma set_bits_value (w : Z) (str : list Z) (n : nat) : forall k,
  0 <= k -> k + Z.of_nat n <= w <= 32 -> w <= Z.of_nat (length str) ->
  foldl (set_bits w str) (bits_value (bits_of k str) * 2 ^ (w - k))
    (seqZ k (Z.of_nat n))
  = bits_value (bits_of (k + Z.of_nat n) str) * 2 ^ (w - (k + Z.of_nat n)).
Proof.
  induction n as [|n IH]; intros k Hk Hw Hlen; [by rewrite Z.add_0_r|].
  rewrite Nat2Z.inj_succ, seqZ_cons, Z.pred_succ by lia. cbn [foldl].
  replace (k + Z.succ (Z.of_nat n)) with ((k + 1) + Z.of_nat n) by lia.
  rewrite <- IH by lia. f_equal.
  destruct (lookup_lt_is_Some_2 str (Z.to_nat k)) as [c Hc]; [lia|].
  unfold bits_of. replace (Z.to_nat (k + 1)) with (S (Z.to_nat k)) by lia.
  rewrite (take_S_r _ _ _ Hc), map_app. cbn [map]. rewrite bits_value_snoc.
  pose proof (bits_value_range
                (map (fun c => bool_decide (c = char_1)) (take (Z.to_nat k) str)))
    as Hr.
  rewrite length_map, length_take, Nat.min_l, Z2Nat.id in Hr by lia.
  set (a := bits_value _) in *. unfold set_bits. rewrite Hc.
  set (m := w - (k + 1)).
  replace (w - k) with (m + 1) by lia. replace (w - 1 - k) with m by lia.
  assert (Hm : 0 <= m) by lia.
  assert (Hpow : 2 ^ k * 2 ^ (m + 1) <= 2 ^ 32)
    by (rewrite <- Z.pow_add_r by lia; apply Z.pow_le_mono_r; lia).
  pose proof (Z.pow_pos_nonneg 2 m ltac:(lia) Hm).
  assert (Hsucc : 2 ^ (m + 1) = 2 * 2 ^ m)
    by (rewrite Z.pow_add_r by lia; lia).
  case_bool_decide as Hb; [rewrite decide_True by congruence
                          |rewrite decide_False by congruence; lia].
  rewrite lor_low_bit, u32_small by nia. lia.
Qed.

(** ** [binary_str_to_uint32] against the reference *)

Lemma shiftl_1 k : 0 <= k -> Z.shiftl 1 k = 2 ^ k.
Proof. intros. by rewrite Z.shiftl_mul_pow2, Z.mul_1_l. Qed.

(** On an array of at least 32 characters the function returns the word
    that the first 32 characters spell. *)
Lemma binary_str_to_uint32_value str :
  32 <= Z.of_nat (length str) ->
  binary_str_to_uint32 str = Ok (bits_value (bits_of 32 str)).
Proof.
  intros Hlen. unfold binary_str_to_uint32.
  rewrite (for_loop_iter _ (fun j v => set_bits 32 str v j)).
  - pose proof (set_bits_value 32 str 32 0) as H.
    change (bits_value (bits_of 0 str) * 2 ^ (32 - 0)) with 0 in H.
    rewrite Z.mul_1_r in H. f_equal. apply H; lia.
  - intros j v Hj. destruct (lookup_lt_is_Some_2 str (Z.to_nat j)) as [c Hc]; [lia|].
    rewrite (aget_lookup _ _ c) by (done || lia). cbn [bind].
    unfold set_bits. rewrite Hc, shiftl_1 by lia.
    replace (32 - 1 - j) with (31 - j) by lia.
    repeat case_decide; congruence.
Qed.

(** An array of fewer than 32 characters is read past its end. *)
Lemma binary_str_to_uint32_short str :
  Z.of_nat (length str) < 32 -> binary_str_to_uint32 str = Fault OutOfBounds.
Proof.
  intros Hlen. unfold binary_str_to_uint32. apply for_loop_fault.
  - intros j v Hj. destruct (aget str j) eqn:E; cbn [bind];
      [|right; by apply aget_Fault in E as ->].
    left. case_decide; eauto.
  - exists (Z.of_nat (length str)). split; [lia|]. intros v.
    by rewrite aget_out_of_bounds by lia.
Qed.

(** ** Printing a word as a bit string *)

Fixpoint to_bits (n : nat) (v : Z) : list bool :=
  match n with
  | O => []
  | S n' => to_bits n' (v / 2) ++ [Z.odd v]
  end.

Definition bit_char (b : bool) : Z := if b then char_1 else char_0.

(** The string of [n] bit characters that prints [v]. *)
Definition bin_str (n : nat) (v : Z) : list Z := map bit_char (to_bits n v) ++ [0].

Lemma to_bits_length n v : length (to_bits n v) = n.
Proof.
  revert v; induction n as [|n IH]; intros v; [done|].
  cbn [to_bits]. rewrite length_app, IH. simpl. lia.
Qed.

Lemma bits_value_to_bits n v : bits_value (to_bits n v) = v mod 2 ^ Z.of_nat n.
Proof.
  revert v; induction n as [|n IH]; intros v; [by rewrite Z.mod_1_r|].
  cbn [to_bits]. rewrite bits_value_snoc, IH, Nat2Z.inj_succ, Z.pow_succ_r by lia.
  rewrite Z.rem_mul_r by lia. rewrite (Zmod_odd v). destruct (Z.odd v); lia.
Qed.

Lemma bits_of_bin_str n v : bits_of (Z.of_nat n) (bin_str n v) = to_bits n v.
Proof.
  unfold bits_of, bin_str. rewrite Nat2Z.id.
  rewrite take_app_length' by (by rewrite length_map, to_bits_length).
  rewrite map_map. rewrite <- (map_id (to_bits n v)) at 2.
  apply map_ext. by intros [].
Qed.

Lemma bin_str_bit_string n v : bit_string n (bin_str n v).
Proof.
  exists (map bit_char (to_bits n v)). split_and!; [done | |].
  - by rewrite length_map, to_bits_length.
  - apply List.Forall_map, Forall_forall. intros [] _; auto.
Qed.

Lemma token_bit_string (tok : list Z) :
  bool_decide (length tok = 33%nat
               /\ Forall (fun c => c = char_0 \/ c = char_1) (take 32 tok)
               /\ drop 32 tok = [0]) = true ->
  bit_string 32 tok.
Proof.
  intros (Hlen & Hbits & Hend)%bool_decide_eq_true. exists (take 32 tok).
  split_and!; [by rewrite <- Hend, take_drop | rewrite length_take; lia | done].
Qed.

(** ** Theorems *)

(** C15.  [binary_str_to_uint32] against its reference, on every input:
    on an array of 32 characters or more the result is the word that the
    first 32 characters spell, most significant bit first, where ['1'] is
    a one and every other character a zero; on a shorter array the
    function reads past its end. *)
Theorem binary_str_to_uint32_spec str :
  binary_str_to_uint32 str
  = if decide (32 <= Z.of_nat (length str))
    then Ok (bits_value (bits_of 32 str)) else Fault OutOfBounds.
Proof.
  case_decide; [by apply binary_str_to_uint32_value|].
  apply binary_str_to_uint32_short. lia.
Qed.

(** Round trip: every 32-bit word, printed as 32 bit characters, is
    read back by [binary_str_to_uint32]. *)
Theorem binary_str_roundtrip v :
  0 <= v < 2 ^ 32 -> binary_str_to_uint32 (bin_str 32 v) = Ok v.
Proof.
  intros Hv. rewrite binary_str_to_uint32_value.
  - change 32 with (Z.of_nat 32) at 1.
    by rewrite bits_of_bin_str, bits_value_to_bits, Z.mod_small.
  - unfold bin_str. rewrite length_app, length_map, to_bits_length. simpl. lia.
Qed.

Lemma binary_str_roundtrip_witness :
  binary_str_to_uint32 (bin_str 32 2420633600) = Ok 2420633600.
Proof. apply (binary_str_roundtrip 2420633600). lia. Defined.

(** The fourteen tokens are strings of exactly 32 bit characters, so
    that decoding them stays within the literals, and the thirteen
    addresses (the twelve regions and the inference-enable register) are
    pairwise distinct words. *)
Theorem tokens_well_formed :
  Forall (bit_string 32)
    (region_tokens ++ [CONF_SPI_EN_INF_ADDR; CONF_SPI_EN_INF_DATA])
  /\ NoDup (map binary_str_to_uint32 (region_tokens ++ [CONF_SPI_EN_INF_ADDR])).
Proof.
  split.
  - repeat (apply Forall_cons; split); [..|by apply Forall_nil];
      apply token_bit_string; vm_compute; reflexivity.
  - apply (bool_decide_unpack _). vm_compute. exact I.
Qed.

(** ** The shift on [int] *)

Lemma shl_int_low i : 1 <= i < 32 -> shl_int 1 (31 - i) = Ok (Z.shiftl 1 (31 - i)).
Proof.
  intros Hi. unfold shl_int, INT_MAX. rewrite decide_True; [done|].
  rewrite Z.shiftl_1_l. split_and!; try lia.
  assert (2 ^ (31 - i) <= 2 ^ 30) by (apply Z.pow_le_mono_r; lia). lia.
Qed.

Lemma shl_int_sign : shl_int 1 31 = Fault BadShift.
Proof. reflexivity. Qed.

(** C33.  The shift of line 26 is on an [int].  Under the rule of ISO C
    for [<<] on a signed type, [binary_str_to_uint32] is defined exactly
    on the strings that do not start with ['1']: for those it is the
    function that the development uses, and for a string that starts
    with ['1'] the first iteration shifts [1] into the sign bit, which
    the standard leaves undefined.  The twelve addresses of the regions
    and the enable address all start with ['1']. *)
Theorem binary_str_to_uint32_iso_spec str :
  binary_str_to_uint32_iso str
  = (if decide (head str = Some char_1) then Fault BadShift
     else binary_str_to_uint32 str)
  /\ Forall (fun tok => head tok = Some char_1)
            (region_tokens ++ [CONF_SPI_EN_INF_ADDR]).
Proof.
  split; [|by apply (bool_decide_unpack _); vm_compute].
  unfold binary_str_to_uint32_iso, binary_str_to_uint32.
  change 32%nat with (S 31). rewrite !(for_loop_S _ 31).
  destruct str as [|c str]; [done|].
  rewrite (aget_lookup (c :: str) 0 c) by done. cbn [bind head].
  destruct (decide (c = char_1)) as [->|Hc].
  - by rewrite decide_True.
  - rewrite decide_False by congruence.
    apply for_loop_ext. intros j s Hj.
    destruct (aget (c :: str) j) as [c'|]; [|done]. cbn [bind].
    case_decide; [|done]. by rewrite shl_int_low by lia.
Qed.
