(* ===== verification/Aggregator.v ===== *)
(** * Aggregator: the body of the steady-state loop of [main]

    The model of lines 162-269 of [src/src_sw/main_codec.c]: one definition
    per block of the loop body, in source order, and their composition
    [process_frame].  The state record holds the variables that survive an
    iteration: the locals of [main] ([window_idx], [result_window],
    [result_count], [last_result]) and the globals ([current_state],
    [print_flag], [fill_silence_cnt], [consecutive_time],
    [consecutive_result]).  [result_bit], [result], [max_result],
    [max_result_count] and [start_idx] are written before they are read in
    every iteration, so they are values of the iteration, not of the state.

    The two [printf] calls of a detection are the events of the step.
    [current_state] is an enumeration here; [advance_switch_int] is the
    second [switch] on the integer that the variable holds, with the
    [default] arm that no value of the enumeration takes. *)

From Stdlib Require Import ZArith Lia.
From stdpp Require Import base tactics option numbers strings list.
From S2P Require Import Prelude.

#[local] Open Scope Z_scope.
#[local] Open Scope kws_scope.

Module Aggregator.

(** ** Constants (main_codec.c, lines 33-37) *)

Definition WINDOW_SIZE : Z := 40.
Definition FILL_SILENCE_MAX_CNT : Z := 40.
Definition DETECTING_CONS_RESULT_CNT : Z := 20.

Definition label : list string :=
  ["yes"; "no"; "up"; "down"; "left"; "right";
   "on"; "off"; "stop"; "go"; "silence"; "unknown"]%string.

(** Number of elements of [result_count] and of [label]. *)
Definition NUM_CLASSES : Z := 12.

(** ** State (lines 61-71 and 77-83) *)

Inductive sys_state : Type :=
  | detecting
  | fill_silence.

#[export] Instance sys_state_eq_dec : EqDecision sys_state.
Proof. solve_decision. Defined.

Record state : Type := mkState {
  window_idx : Z;               (* int window_idx *)
  result_window : list Z;       (* u8 result_window[WINDOW_SIZE] *)
  result_count : list Z;        (* u8 result_count[12] *)
  last_result : Z;              (* u8 last_result *)
  current_state : sys_state;    (* sys_state current_state *)
  print_flag : Z;               (* u8 print_flag *)
  fill_silence_cnt : Z;         (* u8 fill_silence_cnt *)
  consecutive_time : Z;         (* u8 consecutive_time *)
  consecutive_result : Z        (* u8 consecutive_result *)
}.

Definition set_window_idx (v : Z) (st : state) : state :=
  mkState v (result_window st) (result_count st) (last_result st)
    (current_state st) (print_flag st) (fill_silence_cnt st)
    (consecutive_time st) (consecutive_result st).
Definition set_result_window (v : list Z) (st : state) : state :=
  mkState (window_idx st) v (result_count st) (last_result st)
    (current_state st) (print_flag st) (fill_silence_cnt st)
    (consecutive_time st) (consecutive_result st).
Definition set_result_count (v : list Z) (st : state) : state :=
  mkState (window_idx st) (result_window st) v (last_result st)
    (current_state st) (print_flag st) (fill_silence_cnt st)
    (consecutive_time st) (consecutive_result st).
Definition set_last_result (v : Z) (st : state) : state :=
  mkState (window_idx st) (result_window st) (result_count st) v
    (current_state st) (print_flag st) (fill_silence_cnt st)
    (consecutive_time st) (consecutive_result st).
Definition set_current_state (v : sys_state) (st : state) : state :=
  mkState (window_idx st) (result_window st) (result_count st) (last_result st)
    v (print_flag st) (fill_silence_cnt st)
    (consecutive_time st) (consecutive_result st).
Definition set_print_flag (v : Z) (st : state) : state :=
  mkState (window_idx st) (result_window st) (result_count st) (last_result st)
    (current_state st) v (fill_silence_cnt st)
    (consecutive_time st) (consecutive_result st).
Definition set_fill_silence_cnt (v : Z) (st : state) : state :=
  mkState (window_idx st) (result_window st) (result_count st) (last_result st)
    (current_state st) (print_flag st) v
    (consecutive_time st) (consecutive_result st).
Definition set_consecutive_time (v : Z) (st : state) : state :=
  mkState (window_idx st) (result_window st) (result_count st) (last_result st)
    (current_state st) (print_flag st) (fill_silence_cnt st)
    v (consecutive_result st).
Definition set_consecutive_result (v : Z) (st : state) : state :=
  mkState (window_idx st) (result_window st) (result_count st) (last_result st)
    (current_state st) (print_flag st) (fill_silence_cnt st)
    (consecutive_time st) v.

Arguments set_window_idx _ _ /.
Arguments set_result_window _ _ /.
Arguments set_result_count _ _ /.
Arguments set_last_result _ _ /.
Arguments set_current_state _ _ /.
Arguments set_print_flag _ _ /.
Arguments set_fill_silence_cnt _ _ /.
Arguments set_consecutive_time _ _ /.
Arguments set_consecutive_result _ _ /.

#[export] Instance state_eq_dec : EqDecision state.
Proof. solve_decision. Defined.

(** What a detection prints (lines 240-244). *)
Inductive event : Type :=
  | EvCounts (counts : list Z)     (* the line of the twelve counters *)
  | EvDetect (lbl : string).       (* "Detect: <label>" *)

#[export] Instance event_eq_dec : EqDecision event.
Proof. solve_decision. Defined.

(** ** Initialisation (lines 66-71 and 87-92) *)

(** The loop of lines 87-89 over the uninitialised array. *)
Definition init_window (uninit : list Z) : res (list Z) :=
  for_loop (Z.to_nat WINDOW_SIZE) 0
    (fun i w => let* w' := aset w i 10 in Ok (Continue w')) uninit.

(** [u8 result_count[12] = {0}] followed by line 91. *)
Definition init_count : res (list Z) :=
  aset (replicate (Z.to_nat NUM_CLASSES) 0) 10 (u8 WINDOW_SIZE).

(** The state on entry to the [while(1)], as [init_window] and [init_count]
    leave the arrays (lemmas [init_window_spec], [init_count_spec]). *)
Definition init_state : state :=
  {| window_idx := 0;
     result_window := replicate (Z.to_nat WINDOW_SIZE) 10;
     result_count := <[10%nat := WINDOW_SIZE]> (replicate (Z.to_nat NUM_CLASSES) 0);
     last_result := 10;
     current_state := detecting;
     print_flag := 0;
     fill_silence_cnt := 0;
     consecutive_time := 0;
     consecutive_result := 0 |}.

(** ** The blocks of the loop body *)

(** Lines 168-172: the four pins, each stored in a [u8], packed into the
    [u8 result]. *)
Definition read_result (b0 b1 b2 b3 : Z) : Z :=
  u8 (Z.lor (Z.lor (Z.lor (Z.shiftl (u8 b3) 3) (Z.shiftl (u8 b2) 2))
                   (Z.shiftl (u8 b1) 1))
            (Z.shiftl (u8 b0) 0)).

(** Line 175: [result_count[result_window[window_idx]] -= 1]. *)
Definition pop_element (st : state) : res state :=
  let* old := aget (result_window st) (window_idx st) in
  let* n := aget (result_count st) old in
  let* rc := aset (result_count st) old (u8 (n - 1)) in
  Ok (set_result_count rc st).

(** Lines 178-188: the debounced write, then the cool-down override. *)
Definition update_element (result : Z) (st : state) : res state :=
  let* w :=
    if decide (result = last_result st)
    then aset (result_window st) (window_idx st) result
    else aset (result_window st) (window_idx st) 10 in
  let* w :=
    if decide (current_state st = fill_silence)
    then aset w (window_idx st) 10
    else Ok w in
  Ok (set_result_window w st).

(** Line 191: [result_count[result_window[window_idx]] += 1]. *)
Definition update_count (st : state) : res state :=
  let* new := aget (result_window st) (window_idx st) in
  let* n := aget (result_count st) new in
  let* rc := aset (result_count st) new (u8 (n + 1)) in
  Ok (set_result_count rc st).

(** Lines 194-197. *)
Definition update_index (st : state) : state :=
  let i := window_idx st + 1 in
  if decide (i = WINDOW_SIZE) then set_window_idx 0 st else set_window_idx i st.

(** Lines 200-207: the most frequent class, as the pair
    [(max_result, max_result_count)]. *)
Definition calc_max_body (rc : list Z) (i : Z) (m : Z * Z) : res (ctl (Z * Z)) :=
  let* n := aget rc i in
  if decide (n > snd m) then Ok (Continue (u8 i, n)) else Ok (Continue m).

Definition calc_max (rc : list Z) : res (Z * Z) :=
  for_loop (Z.to_nat NUM_CLASSES) 0 (calc_max_body rc) (0, 0).

(** Lines 214-233: one iteration of the run scan; the loop state is
    [start_idx] and the program state. *)
Definition scan_body (_ : Z) (s : Z * state) : res (ctl (Z * state)) :=
  let '(start_idx, st) := s in
  let* w := aget (result_window st) start_idx in
  let st :=
    if decide (consecutive_result st = w)
    then set_consecutive_time (u8 (consecutive_time st + 1)) st
    else set_consecutive_time 0 (set_consecutive_result w st) in
  if bool_decide (consecutive_time st = DETECTING_CONS_RESULT_CNT)
     && bool_decide (consecutive_result st <> 10)
     && bool_decide (current_state st = detecting)
  then Ok (Break (start_idx, set_print_flag 1 st))
  else
    let start_idx := start_idx + 1 in
    let start_idx := if decide (start_idx = WINDOW_SIZE) then 0 else start_idx in
    Ok (Continue (start_idx, st)).

(** Lines 209-233. *)
Definition consensus_scan (st : state) : res state :=
  let start_idx := window_idx st in
  let st := set_consecutive_time 0 st in
  let* w := aget (result_window st) (window_idx st) in
  let st := set_consecutive_result w st in
  let* '(_, st) := for_loop (Z.to_nat WINDOW_SIZE) 0 scan_body (start_idx, st) in
  Ok st.

(** The twelve reads of the first [printf] (lines 240-242). *)
Definition read_counts (rc : list Z) : res (list Z) :=
  for_loop (Z.to_nat NUM_CLASSES) 0
    (fun i acc => let* n := aget rc i in Ok (Continue (acc ++ [n]))) [].

(** [label[i]] (line 244). *)
Definition label_at (i : Z) : res string :=
  if decide (0 <= i)
  then match label !! Z.to_nat i with
       | Some s => Ok s
       | None => Fault OutOfBounds
       end
  else Fault OutOfBounds.

(** Lines 236-253: the first [switch]. *)
Definition emit_switch (st : state) : res (state * list event) :=
  match current_state st with
  | detecting =>
      let st := set_fill_silence_cnt 0 st in
      if decide (print_flag st <> 0)
      then
        let* counts := read_counts (result_count st) in
        let* lbl := label_at (consecutive_result st) in
        Ok (st, [EvCounts counts; EvDetect lbl])
      else Ok (st, [])
  | fill_silence =>
      let st := set_fill_silence_cnt (u8 (fill_silence_cnt st + 1)) st in
      Ok (set_print_flag 0 st, [])
  end.

(** Lines 255-265: the second [switch].  Its [default] arm is taken by no
    value of the enumeration. *)
Definition advance_switch (st : state) : state :=
  match current_state st with
  | detecting =>
      if decide (print_flag st = 1) then set_current_state fill_silence st else st
  | fill_silence =>
      if decide (fill_silence_cnt st = FILL_SILENCE_MAX_CNT)
      then set_current_state detecting st else st
  end.

(** The integers of the enumeration (lines 60-63). *)
Definition sys_state_value (s : sys_state) : Z :=
  match s with
  | detecting => 0
  | fill_silence => 1
  end.

(** Lines 255-265 on the integer [cs] that holds [current_state], the
    [default] arm included. *)
Definition advance_switch_int (cs : Z) (st : state) : Z :=
  if decide (cs = sys_state_value detecting)
  then if decide (print_flag st = 1) then sys_state_value fill_silence else cs
  else if decide (cs = sys_state_value fill_silence)
  then if decide (fill_silence_cnt st = FILL_SILENCE_MAX_CNT)
       then sys_state_value detecting else cs
  else sys_state_value detecting.

(** Lines 166-267: the whole body, for the pin values [b0..b3]. *)
Definition process_frame (b0 b1 b2 b3 : Z) (st : state) : res (state * list event) :=
  let result := read_result b0 b1 b2 b3 in
  let* st := pop_element st in
  let* st := update_element result st in
  let* st := update_count st in
  let st := update_index st in
  let* _ := calc_max (result_count st) in
  let* st := consensus_scan st in
  let* '(st, out) := emit_switch st in
  let st := advance_switch st in
  Ok (set_last_result result st, out).

(** The pins that present the class code [c]. *)
Definition pins_of (c : Z) : Z * Z * Z * Z :=
  (Z.land c 1, Z.land (Z.shiftr c 1) 1, Z.land (Z.shiftr c 2) 1, Z.land (Z.shiftr c 3) 1).

(** One frame whose class code is [c]. *)
Definition step (c : Z) (st : state) : res (state * list event) :=
  let '(b0, b1, b2, b3) := pins_of c in process_frame b0 b1 b2 b3 st.

(** A sequence of frames; the events of each frame, in order. *)
Fixpoint run (cs : list Z) (st : state) : res (state * list (list event)) :=
  match cs with
  | [] => Ok (st, [])
  | c :: cs' =>
      let* '(st', out) := step c st in
      let* '(st'', outs) := run cs' st' in
      Ok (st'', out :: outs)
  end.

End Aggregator.
