(* ===== verification/AggregatorInv.v ===== *)
(** * AggregatorInv: the invariant of the aggregator and the function a
      frame computes

    [wf] is the well-formedness invariant of the state of [Aggregator].
    [next] and [events] describe, without the monad and without machine
    arithmetic, the state and the output that one frame produces;
    [step_written] proves that [Aggregator.step] returns exactly them on
    every well-formed state and every four-bit code for which the code
    written in the window is below 12, and [step_fault] that it leaves the
    bounds of [result_count] otherwise; on the first, no [u8] store
    wraps.  [calc_max_spec] is the function of the diagnostic loop: the
    first class that holds the greatest count ([first_max]).  The last
    theorem relates the [switch] on the integer to the one on the
    enumeration and gives its [default] arm. *)

From Stdlib Require Import ZArith Lia.
From stdpp Require Import base tactics option numbers strings list.
From S2P Require Import Prelude Aggregator.
Import Aggregator.

#[local] Open Scope Z_scope.
#[local] Open Scope kws_scope.

(** ** Definitions *)

(** The class codes: the indices of [result_count] and [label]. *)
Definition class_ok (c : Z) : Prop := 0 <= c < NUM_CLASSES.

(** The counters that a window determines. *)
Definition counts_of (w : list Z) : list Z :=
  map (fun c => countZ c w) (seqZ 0 NUM_CLASSES).

Definition wf (st : state) : Prop :=
  Z.of_nat (length (result_window st)) = WINDOW_SIZE
  /\ 0 <= window_idx st < WINDOW_SIZE
  /\ Forall class_ok (result_window st)
  /\ result_count st = counts_of (result_window st)
  /\ (current_state st = detecting -> print_flag st = 0)
  /\ 0 <= fill_silence_cnt st <= FILL_SILENCE_MAX_CNT
  /\ (current_state st = fill_silence ->
      fill_silence_cnt st < FILL_SILENCE_MAX_CNT).

#[export] Instance class_ok_dec c : Decision (class_ok c).
Proof. unfold class_ok; apply _. Defined.

#[export] Instance wf_dec st : Decision (wf st).
Proof. unfold wf; apply _. Defined.

(** Closes [class_ok c] for a numeral or a bounded [c]. *)
Ltac solve_class := unfold class_ok, NUM_CLASSES in *; lia.
#[export] Hint Extern 1 (class_ok _) => solve_class : kws.

(** *** The function a frame computes *)

(** The code written to the oldest slot: the raw code if it repeats the
    previous raw code and the machine is detecting, silence otherwise. *)
Definition written (r : Z) (st : state) : Z :=
  if decide (current_state st = fill_silence) then 10
  else if decide (r = last_result st) then r else 10.

Definition next_window (r : Z) (st : state) : list Z :=
  <[Z.to_nat (window_idx st) := written r st]> (result_window st).

Definition next_idx (i : Z) : Z :=
  if decide (i + 1 = WINDOW_SIZE) then 0 else i + 1.

(** The window in chronological order, oldest code first, when [i] is the
    index of the oldest slot. *)
Definition chrono (i : Z) (w : list Z) : list Z := rotate (Z.to_nat i) w.

(** The run scan over a list: [cr] and [ct] are [consecutive_result] and
    [consecutive_time]; the result is whether the scan stopped on a
    detection, and their final values. *)
Fixpoint scan_list (det : bool) (l : list Z) (cr ct : Z) : bool * Z * Z :=
  match l with
  | [] => (false, cr, ct)
  | w :: l' =>
      let cr' := if decide (cr = w) then cr else w in
      let ct' := if decide (cr = w) then ct + 1 else 0 in
      if bool_decide (ct' = DETECTING_CONS_RESULT_CNT)
         && bool_decide (cr' <> 10) && det
      then (true, cr', ct')
      else scan_list det l' cr' ct'
  end.

(** The scan as [consensus_scan] starts it: from the oldest code, count 0. *)
Definition scan_window (det : bool) (l : list Z) : bool * Z * Z :=
  scan_list det l (hd 0 l) 0.

(** The state that [consensus_scan] leaves for a scan result. *)
Definition apply_scan (st : state) (r : bool * Z * Z) : state :=
  let '(fired, cr, ct) := r in
  set_print_flag (if fired then 1 else print_flag st)
    (set_consecutive_time ct (set_consecutive_result cr st)).

Definition scan_of (r : Z) (st : state) : bool * Z * Z :=
  scan_window (bool_decide (current_state st = detecting))
    (chrono (next_idx (window_idx st)) (next_window r st)).

(** The state after a frame of raw code [r]. *)
Definition next (r : Z) (st : state) : state :=
  let fired := (scan_of r st).1.1 in
  {| window_idx := next_idx (window_idx st);
     result_window := next_window r st;
     result_count := counts_of (next_window r st);
     last_result := r;
     current_state :=
       match current_state st with
       | detecting => if fired then fill_silence else detecting
       | fill_silence =>
           if decide (fill_silence_cnt st + 1 = FILL_SILENCE_MAX_CNT)
           then detecting else fill_silence
       end;
     print_flag := if fired then 1 else 0;
     fill_silence_cnt :=
       match current_state st with
       | detecting => 0
       | fill_silence => fill_silence_cnt st + 1
       end;
     consecutive_time := (scan_of r st).2;
     consecutive_result := (scan_of r st).1.2 |}.

(** What the frame prints. *)
Definition events (r : Z) (st : state) : list event :=
  if (scan_of r st).1.1
  then [EvCounts (counts_of (next_window r st));
        EvDetect (default ""%string (label !! Z.to_nat (scan_of r st).1.2))]
  else [].

(** ** The initial state *)

Lemma init_window_spec (uninit : list Z) :
  Z.of_nat (length uninit) = WINDOW_SIZE ->
  init_window uninit = Ok (replicate (Z.to_nat WINDOW_SIZE) 10).
Proof.
  intros Hlen. unfold init_window.
  rewrite <- Hlen, Nat2Z.id. apply (for_loop_fill 10 [] uninit).
Qed.

Lemma init_count_spec : init_count = Ok (result_count init_state).
Proof. reflexivity. Qed.

(** The state in which [main] enters its loop is well formed. *)
Lemma wf_init : wf init_state.
Proof. by apply (bool_decide_unpack _). Qed.

(** ** Counters *)

Lemma counts_of_length w : length (counts_of w) = Z.to_nat NUM_CLASSES.
Proof. unfold counts_of. by rewrite length_map, length_seqZ. Qed.

Lemma counts_of_lookup w (j : nat) :
  (j < Z.to_nat NUM_CLASSES)%nat ->
  counts_of w !! j = Some (countZ (Z.of_nat j) w).
Proof.
  intros Hj. unfold counts_of. rewrite list_lookup_fmap.
  rewrite (proj2 (lookup_seqZ 0 NUM_CLASSES j (Z.of_nat j))); [done | lia].
Qed.

Lemma aget_counts_of w c :
  class_ok c -> aget (counts_of w) c = Ok (countZ c w).
Proof.
  intros [? ?]. apply aget_lookup; [done|].
  rewrite counts_of_lookup by lia. by rewrite Z2Nat.id.
Qed.

(** Taking one unit from the counter of [old] and giving one to the counter
    of [new] yields the counters of the window in which a slot that held
    [old] holds [new]. *)
Lemma counts_of_move w (i : nat) old new :
  w !! i = Some old -> class_ok old -> class_ok new ->
  let c1 := <[Z.to_nat old := countZ old w - 1]> (counts_of w) in
  <[Z.to_nat new := (if decide (new = old) then countZ old w - 1
                     else countZ new w) + 1]> c1
  = counts_of (<[i := new]> w).
Proof.
  intros Hi [? ?] [? ?] c1. subst c1. apply list_eq; intros j.
  destruct (decide (j < Z.to_nat NUM_CLASSES)%nat) as [Hj|Hj].
  - rewrite counts_of_lookup, (countZ_insert _ _ _ _ _ Hi) by done.
    rewrite !list_lookup_insert, !length_insert, counts_of_length.
    rewrite counts_of_lookup by done.
    repeat case_decide; f_equal; try lia;
      repeat match goal with H : _ = Z.of_nat j |- _ => rewrite <- H end;
      first [lia | subst; lia].
  - rewrite !lookup_ge_None_2; [done | |];
      rewrite ?length_insert, counts_of_length; lia.
Qed.

(** ** The blocks that update the window *)

Lemma update_element_spec r st :
  0 <= window_idx st < Z.of_nat (length (result_window st)) ->
  update_element r st = Ok (set_result_window (next_window r st) st).
Proof.
  intros Hidx. unfold update_element, next_window, written.
  repeat case_decide; rewrite ?aset_Ok by lia; cbn [bind];
    rewrite ?aset_Ok by (rewrite length_insert; lia); cbn [bind];
    rewrite ?list_insert_insert_eq; congruence.
Qed.

(** [result_count[v] += d] for the class [v] of the current slot, when the
    store does not wrap. *)
Lemma count_update_spec (d : Z) st v n :
  result_window st !! Z.to_nat (window_idx st) = Some v ->
  0 <= window_idx st ->
  result_count st !! Z.to_nat v = Some n ->
  0 <= v -> 0 <= n + d < 256 ->
  (let* new := aget (result_window st) (window_idx st) in
   let* n := aget (result_count st) new in
   let* rc := aset (result_count st) new (u8 (n + d)) in
   Ok (set_result_count rc st))
  = Ok (set_result_count (<[Z.to_nat v := n + d]> (result_count st)) st).
Proof.
  intros Hv Hi Hn Hv0 Hnd.
  rewrite (aget_lookup _ _ v), (bind_Ok _ _ v) by done.
  rewrite (aget_lookup _ _ n), (bind_Ok _ _ n) by done.
  apply lookup_lt_Some in Hn.
  rewrite aset_Ok, u8_small by lia. done.
Qed.

Section WindowUpdate.
Context (st : state) (r : Z).
Context (Hlen : Z.of_nat (length (result_window st)) = WINDOW_SIZE).
Context (Hidx : 0 <= window_idx st < WINDOW_SIZE).
Context (Hcodes : Forall class_ok (result_window st)).
Context (Hcounts : result_count st = counts_of (result_window st)).

Lemma pop_element_spec old :
  result_window st !! Z.to_nat (window_idx st) = Some old ->
  pop_element st
  = Ok (set_result_count
          (<[Z.to_nat old := countZ old (result_window st) - 1]>
             (counts_of (result_window st))) st).
Proof.
  intros Hold.
  assert (class_ok old) as [? ?] by (by eapply Forall_lookup_1 in Hold).
  pose proof (countZ_pos _ _ _ Hold).
  pose proof (countZ_bounds old (result_window st)).
  rewrite <- Hcounts. apply (count_update_spec (-1)); try done; try lia.
  - rewrite Hcounts, counts_of_lookup, Z2Nat.id by lia. done.
  - unfold WINDOW_SIZE in *. lia.
Qed.

(** Lines 175-191 together: the slot is overwritten and the counters
    follow. *)
Lemma window_update_spec :
  class_ok (written r st) ->
  bind (bind (pop_element st) (update_element r)) update_count
  = Ok (set_result_count (counts_of (next_window r st))
          (set_result_window (next_window r st) st)).
Proof.
  intros Hw.
  destruct (lookup_lt_is_Some_2 (result_window st) (Z.to_nat (window_idx st)))
    as [old Hold]; [lia|].
  assert (class_ok old) as Hok by (by eapply Forall_lookup_1 in Hold).
  rewrite (pop_element_spec old Hold). cbn [bind].
  rewrite update_element_spec by (cbn; lia). cbn [bind].
  set (n := if decide (written r st = old)
            then countZ old (result_window st) - 1
            else countZ (written r st) (result_window st)).
  pose proof (countZ_pos _ _ _ Hold).
  pose proof (countZ_bounds (written r st) (next_window r st)) as Hb.
  unfold next_window in Hb.
  rewrite (countZ_insert _ _ _ _ _ Hold), length_insert in Hb.
  rewrite (decide_True (P := written r st = written r st)) in Hb by done.
  unfold update_count.
  rewrite (count_update_spec 1 _ (written r st) n); cbn; try (destruct Hw; lia).
  - do 2 f_equal. unfold next_window.
    rewrite <- (counts_of_move _ _ _ _ Hold Hok Hw). done.
  - apply list_lookup_insert_eq. cbn. lia.
  - rewrite list_lookup_insert, counts_of_length, counts_of_lookup
      by (destruct Hw; lia).
    subst n. destruct Hw, Hok. rewrite Z2Nat.id by lia.
    repeat case_decide; f_equal; lia.
  - pose proof (countZ_bounds old (result_window st)).
    subst n. unfold WINDOW_SIZE in *. repeat case_decide; lia.
Qed.

(** A code of 12 or more that reaches the window makes line 191 index
    [result_count] past its end. *)
Lemma window_update_fault :
  ~ class_ok (written r st) ->
  bind (bind (pop_element st) (update_element r)) update_count
  = Fault OutOfBounds.
Proof.
  intros Hw.
  destruct (lookup_lt_is_Some_2 (result_window st) (Z.to_nat (window_idx st)))
    as [old Hold]; [lia|].
  rewrite (pop_element_spec old Hold). cbn [bind].
  rewrite update_element_spec by (cbn; lia). cbn [bind].
  unfold update_count, next_window. cbn.
  rewrite (aget_lookup _ _ (written r st))
    by (try apply list_lookup_insert_eq; lia).
  cbn [bind]. rewrite aget_out_of_bounds; [done|].
  rewrite length_insert, counts_of_length. solve_class.
Qed.
End WindowUpdate.

(** ** The most frequent class *)

Lemma calc_max_ok rc :
  length rc = Z.to_nat NUM_CLASSES -> exists m, calc_max rc = Ok m.
Proof.
  intros Hlen. unfold calc_max.
  destruct (for_loop_rule (calc_max_body rc) (fun _ _ => True) (fun _ => True)
              (Z.to_nat NUM_CLASSES) 0 (0, 0)) as (m & Hm & _); eauto.
  intros j m Hj _. left. unfold calc_max_body.
  destruct (aget_in_bounds rc j) as [n ->]; [lia|].
  cbn [bind]. case_decide; eauto.
Qed.

(** [(i, n)] is the most frequent class of [rc] with its count: [i] is
    the first index that holds the greatest count [n]. *)
Definition first_max (rc : list Z) (i n : Z) : Prop :=
  0 <= i /\ rc !! Z.to_nat i = Some n
  /\ (forall j m, rc !! j = Some m -> m <= n)
  /\ (forall j m, (j < Z.to_nat i)%nat -> rc !! j = Some m -> m < n).

(** The invariant of the loop of [calc_max] before iteration [j]. *)
Definition max_upto (rc : list Z) (j : Z) (s : Z * Z) : Prop :=
  (j = 0 /\ s = (0, 0))
  \/ (0 <= s.1 < j /\ rc !! Z.to_nat s.1 = Some s.2
      /\ (forall j' m, Z.of_nat j' < j -> rc !! j' = Some m -> m <= s.2)
      /\ (forall j' m, (j' < Z.to_nat s.1)%nat -> rc !! j' = Some m -> m < s.2)).

Lemma max_upto_step rc j s x :
  0 <= j < NUM_CLASSES -> Forall (fun n => 0 <= n) rc ->
  rc !! Z.to_nat j = Some x -> max_upto rc j s ->
  max_upto rc (j + 1) (if decide (x > s.2) then (u8 j, x) else s).
Proof.
  intros Hj Hrc Hx Hinv. right.
  assert (Hx0 : 0 <= x) by (rewrite Forall_forall in Hrc; by eapply Hrc, list_elem_of_lookup_2).
  assert (Hall : forall j' m, Z.of_nat j' < j -> rc !! j' = Some m -> m <= s.2).
  { destruct Hinv as [[-> _]|(_ & _ & H & _)]; [lia | done]. }
  case_decide as Hgt; cbn [fst snd].
  - rewrite u8_small by (unfold NUM_CLASSES in *; lia).
    split_and!; [lia.. | done | |].
    + intros j' m Hj' Hm. destruct (decide (j' = Z.to_nat j)) as [->|];
        [simplify_eq; lia|]. specialize (Hall j' m ltac:(lia) Hm). lia.
    + intros j' m Hj' Hm. specialize (Hall j' m ltac:(lia) Hm). lia.
  - destruct Hinv as [[-> ->]|(Hi & Hn & _ & Hlow)]; cbn [fst snd] in *.
    + assert (x = 0) as -> by lia. split_and!; [lia.. | done | |].
      * intros j' m Hj' Hm. replace j' with (Z.to_nat 0) in Hm by lia. simplify_eq. lia.
      * intros j' m Hj'. lia.
    + split_and!; [lia.. | done | | done].
      intros j' m Hj' Hm. destruct (decide (j' = Z.to_nat j)) as [->|];
        [simplify_eq; lia|]. apply (Hall j' m); [lia | done].
Qed.

Lemma calc_max_first rc :
  length rc = Z.to_nat NUM_CLASSES -> Forall (fun n => 0 <= n) rc ->
  exists i n, calc_max rc = Ok (i, n) /\ first_max rc i n.
Proof.
  intros Hlen Hrc. unfold calc_max.
  destruct (for_loop_rule (calc_max_body rc) (max_upto rc)
              (fun s => first_max rc s.1 s.2) (Z.to_nat NUM_CLASSES) 0 (0, 0))
    as ([i n] & Hm & Hq); [by left | | | by exists i, n].
  - intros j s Hj Hinv. left. unfold calc_max_body.
    destruct (lookup_lt_is_Some_2 rc (Z.to_nat j)) as [x Hx]; [lia|].
    rewrite (aget_lookup _ _ x) by (lia || done). cbn [bind].
    exists (if decide (x > s.2) then (u8 j, x) else s).
    split; [by case_decide|]. apply max_upto_step; [lia | done..].
  - intros s [[? _]|(Hi & Hn & Hall & Hlow)]; [unfold NUM_CLASSES in *; lia|].
    split_and!; [lia | done | | done].
    intros j m Hm. apply (Hall j m); [|done].
    apply lookup_lt_Some in Hm. lia.
Qed.

(** ** The run scan *)

Lemma apply_scan_id st :
  apply_scan st (false, consecutive_result st, consecutive_time st) = st.
Proof. by destruct st. Qed.

Lemma apply_scan_set st cr ct x :
  apply_scan (set_consecutive_time ct (set_consecutive_result cr st)) x
  = apply_scan st x.
Proof. by destruct st, x as [[[] ?] ?]. Qed.

(** The successor of a circular index, as lines 229-232 compute it. *)
Lemma rotate_nat_add_succ (base m : nat) :
  let s := Z.of_nat (rotate_nat_add base m (Z.to_nat WINDOW_SIZE)) in
  (if decide (s + 1 = WINDOW_SIZE) then 0 else s + 1)
  = Z.of_nat (rotate_nat_add base (S m) (Z.to_nat WINDOW_SIZE)).
Proof.
  intros s. subst s. rewrite rotate_nat_add_S by (unfold WINDOW_SIZE; lia).
  pose proof (rotate_nat_add_lt base m (Z.to_nat WINDOW_SIZE)
                ltac:(unfold WINDOW_SIZE; lia)) as Hlt.
  revert Hlt. generalize (rotate_nat_add base m (Z.to_nat WINDOW_SIZE)) as s.
  unfold WINDOW_SIZE. intros s Hs. case_decide.
  - replace (S s) with 40%nat by lia. reflexivity.
  - rewrite Nat.mod_small by lia. lia.
Qed.

(** The loop of lines 214-233 from its [m]-th iteration on computes
    [scan_list] over the codes that remain in chronological order. *)
Lemma scan_loop_spec st (base : nat) :
  Z.of_nat (length (result_window st)) = WINDOW_SIZE ->
  forall (k m : nat) (j : Z) (cr ct : Z),
  (m + k)%nat = Z.to_nat WINDOW_SIZE ->
  0 <= ct <= Z.of_nat m ->
  exists s',
    for_loop k j scan_body
      (Z.of_nat (rotate_nat_add base m (Z.to_nat WINDOW_SIZE)),
       set_consecutive_time ct (set_consecutive_result cr st))
    = Ok (s', apply_scan st
                (scan_list (bool_decide (current_state st = detecting))
                   (drop m (rotate base (result_window st))) cr ct)).
Proof.
  intros Hlen k. induction k as [|k IH]; intros m j cr ct Hmk Hct.
  - rewrite drop_ge by (rewrite length_rotate; lia).
    eexists. cbn [for_loop scan_list]. by destruct st.
  - destruct (lookup_lt_is_Some_2 (rotate base (result_window st)) m)
      as [x Hx]; [rewrite length_rotate; lia|].
    rewrite (drop_S _ _ _ Hx). cbn [scan_list].
    rewrite lookup_rotate_r in Hx by lia.
    replace (length (result_window st)) with (Z.to_nat WINDOW_SIZE) in Hx by lia.
    set (cr' := if decide (cr = x) then cr else x).
    set (ct' := if decide (cr = x) then ct + 1 else 0).
    set (st' := set_consecutive_time ct' (set_consecutive_result cr' st)).
    set (s := Z.of_nat (rotate_nat_add base m (Z.to_nat WINDOW_SIZE))).
    set (s1 := Z.of_nat (rotate_nat_add base (S m) (Z.to_nat WINDOW_SIZE))).
    assert (Hbody :
      scan_body j (s, set_consecutive_time ct (set_consecutive_result cr st))
      = if bool_decide (ct' = DETECTING_CONS_RESULT_CNT)
           && bool_decide (cr' <> 10)
           && bool_decide (current_state st = detecting)
        then Ok (Break (s, set_print_flag 1 st'))
        else Ok (Continue (s1, st'))).
    { unfold scan_body. subst s s1 st' cr' ct'.
      cbn [result_window set_consecutive_time set_consecutive_result].
      rewrite (aget_of_nat _ _ _ Hx), <- rotate_nat_add_succ. cbn [bind].
      destruct (decide (cr = x)) as [->|Hne]; cbn;
        [rewrite decide_True, u8_small by (unfold WINDOW_SIZE in *; lia || done)
        |rewrite decide_False by done]; by destruct st. }
    destruct (_ && _) eqn:Hfire.
    + eexists. rewrite (for_loop_break _ _ _ _ _ Hbody). by destruct st.
    + rewrite (for_loop_continue _ _ _ _ _ Hbody).
      apply IH; [lia | subst ct'; case_decide; lia].
Qed.

(** Lines 209-233: the scan of the whole window, oldest code first. *)
Lemma consensus_scan_spec st :
  Z.of_nat (length (result_window st)) = WINDOW_SIZE ->
  0 <= window_idx st < WINDOW_SIZE ->
  consensus_scan st
  = Ok (apply_scan st
          (scan_window (bool_decide (current_state st = detecting))
             (chrono (window_idx st) (result_window st)))).
Proof.
  intros Hlen Hidx. unfold consensus_scan.
  destruct (lookup_lt_is_Some_2 (result_window st) (Z.to_nat (window_idx st)))
    as [x Hx]; [lia|].
  cbn [set_consecutive_time result_window window_idx].
  rewrite (aget_lookup _ _ x) by (lia || done). cbn [bind].
  destruct (scan_loop_spec st (Z.to_nat (window_idx st)) Hlen
              (Z.to_nat WINDOW_SIZE) 0%nat 0 x 0) as [s' Hs']; [lia | lia |].
  rewrite rotate_nat_add_0, Z2Nat.id in Hs' by lia.
  cbn [set_consecutive_time set_consecutive_result window_idx result_window
       result_count last_result current_state print_flag fill_silence_cnt
       consecutive_time consecutive_result] in Hs' |- *.
  rewrite Hs'. cbn [bind]. rewrite drop_0. do 2 f_equal.
  unfold scan_window, chrono. f_equal.
  destruct (rotate _ _) as [|y l] eqn:E.
  - apply (f_equal length) in E. rewrite length_rotate in E. simpl in E. lia.
  - assert (rotate (Z.to_nat (window_idx st)) (result_window st) !! 0%nat = Some y)
      as Hy by (by rewrite E).
    rewrite lookup_rotate_r, rotate_nat_add_0 in Hy by lia. simpl. congruence.
Qed.

(** A detection stops the scan on a code of the list that is not silence,
    with the counter at the threshold, and only while detecting. *)
Lemma scan_list_fired det l cr ct cr' ct' :
  scan_list det l cr ct = (true, cr', ct') ->
  det = true /\ cr' <> 10 /\ cr' ∈ l /\ ct' = DETECTING_CONS_RESULT_CNT.
Proof.
  revert cr ct; induction l as [|w l IH]; intros cr ct; cbn [scan_list];
    [discriminate|].
  destruct (_ && _) eqn:Hfire.
  - intros [= <- <-]. apply andb_prop in Hfire as [Hfire ->].
    apply andb_prop in Hfire as [?%bool_decide_eq_true ?%bool_decide_eq_true].
    repeat split; [done | | done]. case_decide; subst; apply list_elem_of_here.
  - intros H. destruct (IH _ _ H) as (? & ? & ? & ?).
    repeat split; [done.. | | done]. by apply list_elem_of_further.
Qed.

Lemma scan_list_not_detecting l cr ct :
  (scan_list false l cr ct).1.1 = false.
Proof.
  revert cr ct; induction l as [|w l IH]; intros cr ct; cbn [scan_list]; [done|].
  rewrite andb_false_r. apply IH.
Qed.

(** ** Output *)

Lemma read_counts_spec rc :
  length rc = Z.to_nat NUM_CLASSES -> read_counts rc = Ok rc.
Proof. intros Hlen. unfold read_counts. rewrite <- Hlen. apply (for_loop_collect [] rc). Qed.

Lemma label_at_spec c :
  class_ok c -> label_at c = Ok (default ""%string (label !! Z.to_nat c)).
Proof.
  intros [? ?]. unfold label_at. rewrite decide_True by done.
  destruct (lookup_lt_is_Some_2 label (Z.to_nat c)) as [s ->]; [|done].
  change (length label) with (Z.to_nat NUM_CLASSES). lia.
Qed.

(** Pins that read 0 or 1 are packed into the code they spell. *)
Lemma read_result_bits b0 b1 b2 b3 :
  b0 ∈ [0; 1] -> b1 ∈ [0; 1] -> b2 ∈ [0; 1] -> b3 ∈ [0; 1] ->
  read_result b0 b1 b2 b3 = b0 + 2 * b1 + 4 * b2 + 8 * b3.
Proof.
  rewrite !elem_of_cons, !elem_of_nil.
  intros [->|[->|[]]] [->|[->|[]]] [->|[->|[]]] [->|[->|[]]]; reflexivity.
Qed.

(** The pins of [pins_of] carry the class code. *)
Lemma read_result_pins c :
  0 <= c < 16 ->
  let '(b0, b1, b2, b3) := pins_of c in read_result b0 b1 b2 b3 = c.
Proof.
  intros Hc.
  assert (c = 0 \/ c = 1 \/ c = 2 \/ c = 3 \/ c = 4 \/ c = 5 \/ c = 6 \/ c = 7
          \/ c = 8 \/ c = 9 \/ c = 10 \/ c = 11 \/ c = 12 \/ c = 13 \/ c = 14
          \/ c = 15) as Hcases by lia.
  destruct_or!; subst c; reflexivity.
Qed.

(** ** The whole frame *)

(** Projections of updated states, and [bind] on a result that is known. *)
Ltac proj_simpl :=
  cbn [window_idx result_window result_count last_result current_state
       print_flag fill_silence_cnt consecutive_time consecutive_result
       set_window_idx set_result_window set_result_count set_last_result
       set_current_state set_print_flag set_fill_silence_cnt
       set_consecutive_time set_consecutive_result apply_scan bind fst snd].

Lemma update_index_spec st :
  update_index st = set_window_idx (next_idx (window_idx st)) st.
Proof. unfold update_index, next_idx. by case_decide. Qed.

Lemma next_window_length r st :
  length (next_window r st) = length (result_window st).
Proof. apply length_insert. Qed.

Lemma next_idx_range i :
  0 <= i < WINDOW_SIZE -> 0 <= next_idx i < WINDOW_SIZE.
Proof. unfold next_idx, WINDOW_SIZE. case_decide; lia. Qed.

Lemma written_ok r st : class_ok r -> class_ok (written r st).
Proof. intros. unfold written. repeat case_decide; done. Qed.

Lemma next_window_codes r st :
  Forall class_ok (result_window st) -> class_ok (written r st) ->
  Forall class_ok (next_window r st).
Proof. intros. by apply Forall_insert. Qed.

Lemma window_update_bind {B} (K : state -> res B) st r :
  Z.of_nat (length (result_window st)) = WINDOW_SIZE ->
  0 <= window_idx st < WINDOW_SIZE ->
  Forall class_ok (result_window st) ->
  result_count st = counts_of (result_window st) ->
  class_ok (written r st) ->
  (let* s1 := pop_element st in
   let* s2 := update_element r s1 in
   let* s3 := update_count s2 in K s3)
  = K (set_result_count (counts_of (next_window r st))
         (set_result_window (next_window r st) st)).
Proof.
  intros Hlen Hidx Hcodes Hcounts Hr.
  pose proof (window_update_spec st r Hlen Hidx Hcodes Hcounts Hr) as H.
  destruct (pop_element st) as [s1|]; cbn [bind] in *; [|done].
  destruct (update_element r s1) as [s2|]; cbn [bind] in *; [|done].
  by rewrite H.
Qed.

Lemma window_update_bind_fault {B} (K : state -> res B) st r :
  Z.of_nat (length (result_window st)) = WINDOW_SIZE ->
  0 <= window_idx st < WINDOW_SIZE ->
  Forall class_ok (result_window st) ->
  result_count st = counts_of (result_window st) ->
  ~ class_ok (written r st) ->
  (let* s1 := pop_element st in
   let* s2 := update_element r s1 in
   let* s3 := update_count s2 in K s3)
  = Fault OutOfBounds.
Proof.
  intros Hlen Hidx Hcodes Hcounts Hr.
  pose proof (window_update_fault st r Hlen Hidx Hcodes Hcounts Hr) as H.
  destruct (pop_element st) as [s1|]; cbn [bind] in *; [|by simplify_eq].
  destruct (update_element r s1) as [s2|]; cbn [bind] in *; [|by simplify_eq].
  by rewrite H.
Qed.

(** The class on which a scan of a window of class codes stops is a class
    code. *)
Lemma scan_of_fired r st cr ct :
  Forall class_ok (result_window st) -> class_ok (written r st) ->
  scan_of r st = (true, cr, ct) ->
  current_state st = detecting /\ class_ok cr /\ cr <> 10
  /\ ct = DETECTING_CONS_RESULT_CNT.
Proof.
  intros Hcodes Hr (Hdet & Hne & Hin & Hct)%scan_list_fired.
  apply bool_decide_eq_true in Hdet. repeat split; try done;
    apply elem_of_rotate in Hin;
    by apply (proj1 (Forall_forall _ _) (next_window_codes r st Hcodes Hr)).
Qed.

Lemma scan_of_cooldown r st :
  current_state st = fill_silence -> (scan_of r st).1.1 = false.
Proof.
  intros Hcs. unfold scan_of, scan_window. rewrite Hcs.
  rewrite bool_decide_eq_false_2 by done. apply scan_list_not_detecting.
Qed.

(** On a well-formed state, a frame that writes a class code below 12 in
    the window returns, in the state [next] and with the output [events]. *)
Lemma process_frame_code b0 b1 b2 b3 st :
  wf st -> class_ok (written (read_result b0 b1 b2 b3) st) ->
  process_frame b0 b1 b2 b3 st
  = Ok (next (read_result b0 b1 b2 b3) st, events (read_result b0 b1 b2 b3) st).
Proof.
  intros (Hlen & Hidx & Hcodes & Hcounts & Hflag & Hcnt & Hcool).
  unfold process_frame. generalize (read_result b0 b1 b2 b3) as c. intros c Hc.
  rewrite window_update_bind, update_index_spec by done. proj_simpl.
  destruct (calc_max_ok (counts_of (next_window c st))) as [m ->];
    [apply counts_of_length|]. proj_simpl.
  rewrite consensus_scan_spec
    by (proj_simpl; rewrite ?next_window_length; auto using next_idx_range).
  proj_simpl. fold (scan_of c st). unfold next, events.
  pose proof (scan_of_fired c st) as Hfired.
  pose proof (scan_of_cooldown c st) as Hcool'.
  destruct (scan_of c st) as [[fired cr] ct]. proj_simpl.
  unfold emit_switch. proj_simpl.
  destruct (current_state st) eqn:Hcs.
  - rewrite Hflag by done. destruct fired; proj_simpl.
    + destruct (Hfired cr ct) as (_ & Hcr & _); [done..|].
      rewrite (decide_True (P := 1 <> 0)), read_counts_spec, label_at_spec
        by (done || apply counts_of_length).
      unfold advance_switch. proj_simpl.
      by rewrite decide_True.
    + rewrite (decide_False (P := 0 <> 0)) by lia.
      unfold advance_switch. proj_simpl.
      by rewrite decide_False.
  - specialize (Hcool' eq_refl). cbn in Hcool'. subst fired.
    unfold advance_switch. proj_simpl.
    rewrite u8_small by (unfold FILL_SILENCE_MAX_CNT in *; lia).
    by case_decide.
Qed.

(** A frame that writes a code of 12 or more stops at the counter
    update. *)
Lemma process_frame_fault b0 b1 b2 b3 st :
  wf st -> ~ class_ok (written (read_result b0 b1 b2 b3) st) ->
  process_frame b0 b1 b2 b3 st = Fault OutOfBounds.
Proof.
  intros (Hlen & Hidx & Hcodes & Hcounts & _) Hw. unfold process_frame.
  by rewrite window_update_bind_fault.
Qed.

Lemma step_written c st :
  wf st -> 0 <= c < 16 -> class_ok (written c st) ->
  step c st = Ok (next c st, events c st).
Proof.
  intros Hwf Hc Hw. unfold step. pose proof (read_result_pins c Hc) as Hr.
  destruct (pins_of c) as [[[b0 b1] b2] b3].
  rewrite process_frame_code, Hr; by rewrite ?Hr.
Qed.

Lemma step_fault c st :
  wf st -> 0 <= c < 16 -> ~ class_ok (written c st) ->
  step c st = Fault OutOfBounds.
Proof.
  intros Hwf Hc Hw. unfold step. pose proof (read_result_pins c Hc) as Hr.
  destruct (pins_of c) as [[[b0 b1] b2] b3].
  apply process_frame_fault; by rewrite ?Hr.
Qed.

Lemma step_next c st :
  wf st -> class_ok c -> step c st = Ok (next c st, events c st).
Proof.
  intros Hwf Hc. apply step_written; [done | solve_class | by apply written_ok].
Qed.

(** The invariant is preserved by the function a frame computes. *)
Lemma wf_written c st : wf st -> class_ok (written c st) -> wf (next c st).
Proof.
  intros (Hlen & Hidx & Hcodes & Hcounts & Hflag & Hcnt & Hcool) Hc.
  unfold wf, next.
  pose proof (scan_of_fired c st) as Hfired.
  pose proof (scan_of_cooldown c st) as Hcool'.
  destruct (scan_of c st) as [[fired cr] ct]. proj_simpl.
  rewrite next_window_length.
  pose proof (next_idx_range _ Hidx).
  repeat split; auto using next_window_codes; try lia;
    destruct (current_state st) eqn:Hcs;
    try specialize (Hcool eq_refl); try specialize (Hcool' eq_refl);
    simpl in *; subst; unfold FILL_SILENCE_MAX_CNT in *;
    repeat case_decide; try done; try lia; by destruct fired.
Qed.

Lemma wf_next c st : wf st -> class_ok c -> wf (next c st).
Proof. intros Hwf Hc. by apply wf_written, written_ok. Qed.

(** ** Runs *)

(** The states that the loop reaches on frames that carry class codes. *)
Inductive reachable : state -> Prop :=
  | reach_init : reachable init_state
  | reach_step c st st' out :
      reachable st -> class_ok c -> step c st = Ok (st', out) -> reachable st'.

Lemma reachable_wf st : reachable st -> wf st.
Proof.
  induction 1 as [|c st st' out _ IH Hc Hstep]; [apply wf_init|].
  rewrite step_next in Hstep by done. injection Hstep as <- _.
  by apply wf_next.
Qed.

Lemma reach_next c st : reachable st -> class_ok c -> reachable (next c st).
Proof.
  intros Hst Hc. eapply reach_step; [done..|].
  apply step_next; [by apply reachable_wf | done].
Qed.

(** To prove a property of every class code, check the twelve codes. *)
Lemma class_ind (P : Z -> Prop) :
  Forall P (seqZ 0 NUM_CLASSES) -> forall k, class_ok k -> P k.
Proof.
  intros HP k Hk. rewrite Forall_forall in HP. apply HP, elem_of_seqZ.
  solve_class.
Qed.

Lemma run_app cs1 cs2 st :
  run (cs1 ++ cs2) st
  = (let* '(st1, o1) := run cs1 st in
     let* '(st2, o2) := run cs2 st1 in
     Ok (st2, o1 ++ o2)).
Proof.
  revert st; induction cs1 as [|c cs1 IH]; intros st; cbn [run app bind].
  - by destruct (run cs2 st) as [[st2 o2]|].
  - destruct (step c st) as [[st' out]|]; cbn [bind]; [|done].
    rewrite IH. destruct (run cs1 st') as [[st1 o1]|]; cbn [bind]; [|done].
    by destruct (run cs2 st1) as [[st2 o2]|].
Qed.

Lemma run_wf cs st :
  wf st -> Forall class_ok cs ->
  exists st' outs, run cs st = Ok (st', outs) /\ wf st'
                   /\ length outs = length cs.
Proof.
  intros Hwf Hcs. revert st Hwf.
  induction Hcs as [|c cs Hc _ IH]; intros st Hwf; [by exists st, []|].
  destruct (IH (next c st)) as (st' & outs & Hrun & Hwf' & Hlen);
    [by apply wf_next|].
  exists st', (events c st :: outs). cbn [run].
  rewrite step_next by done. cbn [bind]. rewrite Hrun. cbn [bind length].
  auto.
Qed.

Lemma run_reachable cs st st' outs :
  reachable st -> Forall class_ok cs -> run cs st = Ok (st', outs) ->
  reachable st'.
Proof.
  intros Hst Hcs. revert st outs Hst.
  induction Hcs as [|c cs Hc _ IH]; intros st outs Hst; cbn [run].
  - by intros [= <- _].
  - pose proof (step_next c st (reachable_wf _ Hst) Hc) as Hstep.
    rewrite Hstep. cbn [bind].
    destruct (run cs (next c st)) as [[st'' outs']|] eqn:Hrun; [|done].
    cbn [bind]. intros [= <- _]. eapply IH; [|done]. by eapply reach_step.
Qed.

(** The counter of the scan never exceeds the number of codes scanned. *)
Lemma scan_list_time det l cr ct :
  0 <= ct -> 0 <= (scan_list det l cr ct).2 <= ct + Z.of_nat (length l).
Proof.
  revert cr ct; induction l as [|w l IH]; intros cr ct Hct; cbn [scan_list length].
  - simpl. lia.
  - destruct (_ && _).
    + simpl. case_decide; lia.
    + case_decide; [specialize (IH cr (ct + 1))|specialize (IH w 0)]; lia.
Qed.

(** ** Theorems *)

(** C3: one iteration of the loop body on a well-formed state, for the
    code [c] that the four pins spell.  When the code that the debounce
    writes in the window is below 12 the body returns without leaving the
    bounds of an array, in the state [next] and with the output [events],
    and this state is well formed again; when it is 12 or more the body
    reads [result_count] out of bounds. *)
Theorem process_frame_spec b0 b1 b2 b3 st :
  wf st ->
  b0 ∈ [0; 1] -> b1 ∈ [0; 1] -> b2 ∈ [0; 1] -> b3 ∈ [0; 1] ->
  let c := b0 + 2 * b1 + 4 * b2 + 8 * b3 in
  process_frame b0 b1 b2 b3 st
  = (if decide (class_ok (written c st))
     then Ok (next c st, events c st) else Fault OutOfBounds)
  /\ (class_ok (written c st) -> wf (next c st)).
Proof.
  intros Hwf H0 H1 H2 H3 c. subst c.
  rewrite <- (read_result_bits b0 b1 b2 b3) in * by done.
  split; [|by apply wf_written].
  case_decide; [by apply process_frame_code | by apply process_frame_fault].
Qed.

Lemma process_frame_spec_witness :
  process_frame 1 1 0 0 init_state
  = (if decide (class_ok (written 3 init_state))
     then Ok (next 3 init_state, events 3 init_state) else Fault OutOfBounds)
  /\ (class_ok (written 3 init_state) -> wf (next 3 init_state)).
Proof.
  apply (process_frame_spec 1 1 0 0 init_state wf_init);
    rewrite ?elem_of_cons; auto.
Defined.

(** Memory safety of the steady state.  From the initial state, any
    sequence of frames that carry class codes below 12 is processed to the
    end: every frame returns, no array access is out of bounds, and the
    final state is well formed. *)
Theorem run_safe cs :
  Forall class_ok cs ->
  exists st' outs, run cs init_state = Ok (st', outs) /\ wf st'
                   /\ length outs = length cs.
Proof. apply run_wf, wf_init. Qed.

Lemma run_safe_witness :
  exists st' outs, run [0; 0; 11; 3] init_state = Ok (st', outs) /\ wf st'
                   /\ length outs = 4%nat.
Proof. apply (run_safe [0; 0; 11; 3]). repeat constructor; solve_class. Defined.

(** C8.  The invariant of the occupancy counters: in every state that the
    loop reaches from the initial state on class codes, the twelve
    counters sum to the window size. *)
Theorem count_sum_invariant st :
  reachable st -> sumZ (result_count st) = WINDOW_SIZE.
Proof.
  intros (Hlen & _ & Hcodes & -> & _)%reachable_wf.
  rewrite <- Hlen. by apply sumZ_countZ.
Qed.

Lemma count_sum_invariant_witness :
  sumZ (result_count (next 0 (next 0 init_state))) = WINDOW_SIZE.
Proof.
  apply count_sum_invariant.
  do 2 (apply reach_next; [|solve_class]). apply reach_init.
Defined.

(** C24: in every reachable state each [u8] variable of the aggregator holds
    a value between 0 and the window size, so that none of the [u8]
    increments and decrements of the loop body wraps. *)
Theorem counters_bounded st :
  reachable st ->
  Forall (fun n => 0 <= n <= WINDOW_SIZE) (result_count st)
  /\ 0 <= fill_silence_cnt st <= FILL_SILENCE_MAX_CNT
  /\ 0 <= consecutive_time st <= WINDOW_SIZE
  /\ 0 <= print_flag st <= 1.
Proof.
  intros Hreach. split.
  - apply reachable_wf in Hreach as (Hlen & _ & _ & -> & _).
    apply Forall_lookup. intros j n Hj.
    pose proof (lookup_lt_Some _ _ _ Hj) as Hlt.
    rewrite counts_of_length in Hlt. rewrite counts_of_lookup in Hj by done.
    injection Hj as <-. rewrite <- Hlen. apply countZ_bounds.
  - destruct Hreach as [|c st st' out Hst Hc Hstep]; [by vm_compute|].
    apply reachable_wf in Hst as Hwf.
    pose proof (wf_next c st Hwf Hc) as (_ & _ & _ & _ & _ & Hcnt & _).
    rewrite step_next in Hstep by done. injection Hstep as <- _.
    split; [done|]. unfold next in *.
    pose proof (scan_list_time (bool_decide (current_state st = detecting))
      (chrono (next_idx (window_idx st)) (next_window c st))
      (hd 0 (chrono (next_idx (window_idx st)) (next_window c st))) 0) as Ht.
    fold (scan_window (bool_decide (current_state st = detecting))
      (chrono (next_idx (window_idx st)) (next_window c st))) in Ht.
    fold (scan_of c st) in Ht. destruct Hwf as (Hlen & _).
    unfold chrono in Ht. rewrite length_rotate, next_window_length, Hlen in Ht.
    destruct (scan_of c st) as [[[] cr] ct]; simpl in *; lia.
Qed.

Lemma counters_bounded_witness :
  Forall (fun n => 0 <= n <= WINDOW_SIZE)
         (result_count (next 3 (next 3 (next 7 init_state))))
  /\ 0 <= fill_silence_cnt (next 3 (next 3 (next 7 init_state))) <= FILL_SILENCE_MAX_CNT
  /\ 0 <= consecutive_time (next 3 (next 3 (next 7 init_state))) <= WINDOW_SIZE
  /\ 0 <= print_flag (next 3 (next 3 (next 7 init_state))) <= 1.
Proof.
  apply counters_bounded.
  do 3 (apply reach_next; [|solve_class]). apply reach_init.
Defined.

(** C30.  The diagnostic of lines 199-207: on twelve counters that are
    not negative, [calc_max] returns the first class that holds the
    greatest count, with that count; ties go to the lowest class.  The
    value is computed at every frame and used by nothing. *)
Theorem calc_max_spec rc :
  length rc = Z.to_nat NUM_CLASSES -> Forall (fun n => 0 <= n) rc ->
  exists i n, calc_max rc = Ok (i, n) /\ first_max rc i n.
Proof. apply calc_max_first. Qed.

Lemma calc_max_spec_witness :
  exists i n,
    calc_max [0; 7; 0; 13; 0; 0; 0; 13; 0; 0; 7; 0] = Ok (i, n)
    /\ first_max [0; 7; 0; 13; 0; 0; 0; 13; 0; 0; 7; 0] i n.
Proof.
  apply (calc_max_spec [0; 7; 0; 13; 0; 0; 0; 13; 0; 0; 7; 0]); [done|].
  repeat constructor; lia.
Defined.

(** The [default] arm of the second [switch] (line 263).  On the two
    values of the enumeration the switch on the integer is the switch of
    the model, so the arm is never taken by a state that the program
    reaches; on any other integer it resets the state to [detecting]. *)
Theorem default_arm_resets cs st :
  advance_switch_int (sys_state_value (current_state st)) st
  = sys_state_value (current_state (advance_switch st))
  /\ (cs <> 0 -> cs <> 1 -> advance_switch_int cs st = sys_state_value detecting).
Proof.
  unfold advance_switch_int, advance_switch. split.
  - destruct (current_state st) eqn:Hcs; cbn [sys_state_value];
      repeat case_decide; try done;
      by cbn [set_current_state current_state sys_state_value]; rewrite ?Hcs.
  - intros H0 H1. cbn [sys_state_value]. by rewrite !decide_False.
Qed.
