(* ===== verification/Consensus.v ===== *)
(** * Consensus: what the consensus scan detects

    The scan of [main_codec.c] (lines 209-233) walks the window from the
    oldest code to the newest with a class and a counter.  The counter
    counts the codes that equal their predecessor, except for the very
    first code, which is compared with itself.  This file characterises the
    windows on which the scan raises the flag, in terms of runs of equal
    codes:

    - a run of [T] equal codes at the oldest end of the window, or
    - a run of [T + 1] equal codes anywhere in the window,

    of a class that is not silence, where [T] is
    [DETECTING_CONS_RESULT_CNT].  [scan_sound] and [scan_complete] are the
    two directions; [run_at_newest_end] shows that a run of exactly [T]
    codes that does not start at the oldest slot is not enough. *)

From Stdlib Require Import ZArith Lia.
From stdpp Require Import base tactics option numbers strings list.
From S2P Require Import Prelude Aggregator AggregatorInv.
Import Aggregator.

#[local] Open Scope Z_scope.

(** The threshold as a number of list elements. *)
Definition T_run : nat := Z.to_nat DETECTING_CONS_RESULT_CNT.

(** [h] holds a run of class [k] that the scan accepts. *)
Definition has_run (k : Z) (h : list Z) : Prop :=
  (exists l2, h = replicate T_run k ++ l2)
  \/ (exists l1 l2, h = l1 ++ replicate (S T_run) k ++ l2).

(** A run inside the list, as a boolean: [run_here n k l] holds when [l]
    starts with [n] copies of [k]. *)
Fixpoint run_here (n : nat) (k : Z) (l : list Z) : bool :=
  match n, l with
  | O, _ => true
  | S n', x :: l' => bool_decide (x = k) && run_here n' k l'
  | S _, [] => false
  end.

Fixpoint run_inside (n : nat) (k : Z) (l : list Z) : bool :=
  run_here n k l
  || match l with
     | [] => false
     | _ :: l' => run_inside n k l'
     end.

Definition has_run_b (k : Z) (h : list Z) : bool :=
  run_here T_run k h || run_inside (S T_run) k h.

(** ** The boolean and the propositional forms agree *)

Lemma run_here_spec n k l :
  run_here n k l = true <-> exists l2, l = replicate n k ++ l2.
Proof.
  revert l; induction n as [|n IH]; intros [|x l]; cbn [run_here replicate app].
  - split; [by exists []|done].
  - split; [by eexists|done].
  - split; [done|]. by intros [l2 ?].
  - rewrite andb_true_iff, bool_decide_eq_true, IH. split.
    + intros [-> [l2 ->]]. by exists l2.
    + intros [l2 [= -> ->]]. split; [done|by exists l2].
Qed.

Lemma run_inside_spec n k l :
  run_inside n k l = true <-> exists l1 l2, l = l1 ++ replicate n k ++ l2.
Proof.
  induction l as [|x l IH]; cbn [run_inside];
    rewrite orb_true_iff, run_here_spec.
  - split.
    + intros [[l2 ->]|?]; [by exists [], l2|done].
    + intros (l1 & l2 & H). left. exists l2.
      destruct l1; [done|discriminate].
  - rewrite IH. split.
    + intros [[l2 ->]|(l1 & l2 & ->)]; [by exists [], l2|by exists (x :: l1), l2].
    + intros ([|y l1] & l2 & H); [left; by exists l2|].
      injection H as -> ->. right. by exists l1, l2.
Qed.

Lemma has_run_b_spec k h : has_run_b k h = true <-> has_run k h.
Proof.
  unfold has_run_b, has_run.
  by rewrite orb_true_iff, run_here_spec, run_inside_spec.
Qed.

#[export] Instance has_run_dec k h : Decision (has_run k h).
Proof.
  refine (cast_if (decide (has_run_b k h = true))); by rewrite <- has_run_b_spec.
Defined.

(** ** Soundness: a raised flag comes from a run *)

(** From a scan in progress with class [cr] and counter [ct]: either the
    run in progress is completed by the next codes, or a whole run of
    [T + 1] codes lies ahead. *)
Lemma scan_list_sound l : forall cr ct cr' ct',
  0 <= ct ->
  scan_list true l cr ct = (true, cr', ct') ->
  cr' <> 10 /\
  ((ct < DETECTING_CONS_RESULT_CNT /\ cr = cr'
    /\ exists l2,
         l = replicate (Z.to_nat (DETECTING_CONS_RESULT_CNT - ct)) cr ++ l2)
   \/ exists l1 l2, l = l1 ++ replicate (S T_run) cr' ++ l2).
Proof.
  induction l as [|w l IH]; intros cr ct cr' ct' Hct; cbn [scan_list];
    [discriminate|].
  rewrite andb_true_r. destruct (_ && _) eqn:Hfire.
  - intros [= <- <-].
    apply andb_prop in Hfire as [Hc%bool_decide_eq_true Hne%bool_decide_eq_true].
    split; [done|]. left. unfold DETECTING_CONS_RESULT_CNT in *.
    case_decide; [subst w|lia].
    split_and!; [lia | done |]. exists l.
    by replace (Z.to_nat (20 - ct)) with 1%nat by lia.
  - intros Hscan. apply IH in Hscan as [Hne Hrun]; [|case_decide; lia].
    split; [done|]. unfold DETECTING_CONS_RESULT_CNT, T_run in *.
    destruct Hrun as [(Hlt & <- & l2 & ->)|(l1 & l2 & ->)].
    + case_decide as Hw.
      * subst w. left. split_and!; [lia | done |]. exists l2.
        by replace (Z.to_nat (20 - ct)) with (S (Z.to_nat (20 - (ct + 1))))
          by lia.
      * right. by exists [], l2.
    + right. by exists (w :: l1), l2.
Qed.

Lemma scan_sound h cr ct :
  scan_window true h = (true, cr, ct) -> cr <> 10 /\ has_run cr h.
Proof.
  unfold scan_window. intros Hscan.
  apply scan_list_sound in Hscan as [Hne Hrun]; [|done].
  split; [done|]. destruct Hrun as [(_ & Hcr & l2 & Hh)|Hrun]; [|by right].
  left. exists l2. by rewrite Hcr in Hh.
Qed.

(** ** Completeness: a run raises the flag *)

(** A run in progress that the next [n] codes complete. *)
Lemma scan_list_run (n : nat) : forall k ct l2,
  k <> 10 -> 0 <= ct < DETECTING_CONS_RESULT_CNT ->
  DETECTING_CONS_RESULT_CNT - ct <= Z.of_nat n ->
  scan_list true (replicate n k ++ l2) k ct
  = (true, k, DETECTING_CONS_RESULT_CNT).
Proof.
  induction n as [|n IH]; intros k ct l2 Hk Hct Hn; [lia|].
  cbn [replicate app scan_list]. destruct (decide (k = k)); [|done].
  rewrite andb_true_r, (bool_decide_eq_true_2 (k <> 10)), andb_true_r by done.
  case_bool_decide as Hend; [by rewrite Hend|]. apply IH; [done|lia..].
Qed.

(** A scan in progress never holds a class other than silence with the
    counter at or past the threshold; under this invariant a run of
    [T + 1] codes ahead raises the flag. *)
Lemma scan_list_complete l1 : forall k l2 cr ct,
  k <> 10 -> 0 <= ct -> (cr <> 10 -> ct < DETECTING_CONS_RESULT_CNT) ->
  (scan_list true (l1 ++ replicate (S T_run) k ++ l2) cr ct).1.1 = true.
Proof.
  induction l1 as [|w l1 IH]; intros k l2 cr ct Hk Hct Hinv.
  - cbn [app replicate scan_list]. rewrite andb_true_r.
    destruct (_ && _) eqn:Hfire; [done|]. case_decide as Hcr.
    + subst cr. rewrite scan_list_run; [done..| |].
      * apply andb_false_iff in Hfire as [?%bool_decide_eq_false|?%bool_decide_eq_false];
          [specialize (Hinv Hk); lia|done].
      * unfold T_run, DETECTING_CONS_RESULT_CNT in *. lia.
    + rewrite scan_list_run; [done..| |]; unfold T_run, DETECTING_CONS_RESULT_CNT; lia.
  - cbn [app scan_list]. rewrite andb_true_r.
    destruct (_ && _) eqn:Hfire; [done|]. apply IH; [done| |].
    + case_decide; lia.
    + intros Hne.
      apply andb_false_iff in Hfire as [?%bool_decide_eq_false|?%bool_decide_eq_false];
        [|done].
      unfold DETECTING_CONS_RESULT_CNT in *. case_decide; [|lia].
      subst. specialize (Hinv Hne). lia.
Qed.

Lemma scan_complete k h :
  k <> 10 -> has_run k h -> (scan_window true h).1.1 = true.
Proof.
  intros Hk [[l2 ->]|(l1 & l2 & ->)]; unfold scan_window.
  - change (hd 0 (replicate T_run k ++ l2)) with k.
    by rewrite scan_list_run.
  - by apply scan_list_complete.
Qed.

(** ** Detections of the program *)

(** The window of a state in chronological order. *)
Definition view (st : state) : list Z :=
  chrono (window_idx st) (result_window st).

Lemma view_next c st :
  view (next c st) = chrono (next_idx (window_idx st)) (next_window c st).
Proof. done. Qed.

(** The scan of a frame, read off the state it leaves. *)
Lemma scan_of_view c st :
  scan_of c st
  = scan_window (bool_decide (current_state st = detecting)) (view (next c st)).
Proof. done. Qed.

Lemma view_codes st : wf st -> Forall class_ok (view st).
Proof.
  intros (_ & _ & Hcodes & _). unfold view, chrono.
  rewrite Forall_forall in *. intros x Hx. apply Hcodes.
  by rewrite elem_of_rotate in Hx.
Qed.

(** The state after the frames [cs], from the initial state. *)
Definition after (cs : list Z) : state :=
  foldl (fun st c => next c st) init_state cs.

Lemma wf_after cs : Forall class_ok cs -> wf (after cs).
Proof.
  unfold after. intros Hcs. generalize init_state wf_init.
  induction Hcs as [|c cs Hc _ IH]; intros st Hwf; [done|].
  apply IH. by apply wf_next.
Qed.

(** A frame that prints: the state was detecting, the scan found a run of
    the class whose label is printed, and the cool-down starts. *)
Lemma events_fired c st :
  wf st -> class_ok c -> events c st <> [] ->
  current_state st = detecting
  /\ current_state (next c st) = fill_silence
  /\ exists k, k <> 10 /\ class_ok k /\ has_run k (view (next c st))
       /\ events c st
          = [EvCounts (result_count (next c st));
             EvDetect (default ""%string (label !! Z.to_nat k))].
Proof.
  intros Hwf Hc Hev. pose proof (view_codes _ (wf_next c st Hwf Hc)) as Hcodes.
  pose proof (scan_of_cooldown c st) as Hcool.
  unfold events, next in *. cbn [current_state result_count] in *.
  rewrite scan_of_view in *.
  destruct (current_state st) eqn:Hcs; [|by rewrite Hcool in Hev].
  rewrite bool_decide_eq_true_2 in * by done.
  destruct (scan_window true _) as [[[] k] ct] eqn:Hscan; [|done].
  destruct (scan_sound _ _ _ Hscan) as [Hk Hrun].
  apply scan_list_fired in Hscan as (_ & _ & Hin & _).
  rewrite Forall_forall in Hcodes. cbn [fst snd].
  split_and!; [done..|]. exists k. split_and!; [done | by apply Hcodes | done..].
Qed.

(** While detecting, a run in the window makes the frame print. *)
Lemma events_run c st k :
  current_state st = detecting -> k <> 10 -> has_run k (view (next c st)) ->
  events c st <> [].
Proof.
  intros Hcs Hk Hrun. unfold events. rewrite scan_of_view, Hcs.
  rewrite bool_decide_eq_true_2 by done. by rewrite (scan_complete k).
Qed.

(** C10.  Soundness of the consensus rule: whenever one iteration of the
    main loop prints, the program was detecting, the window it leaves
    holds a run of a class other than silence (twenty codes at the oldest
    end or twenty-one anywhere), the line printed is the occupancy vector
    followed by the label of that class, and the program enters the
    cool-down. *)
Theorem detection_sound c st st' out :
  wf st -> class_ok c -> step c st = Ok (st', out) -> out <> [] ->
  current_state st = detecting
  /\ current_state st' = fill_silence
  /\ exists k, k <> 10 /\ class_ok k /\ has_run k (view st')
       /\ out = [EvCounts (result_count st');
                 EvDetect (default ""%string (label !! Z.to_nat k))].
Proof.
  intros Hwf Hc Hstep Hout. rewrite step_next in Hstep by done.
  injection Hstep as <- <-. by apply events_fired.
Qed.

Lemma detection_sound_witness :
  current_state (after (replicate 21 3)) = detecting
  /\ current_state (next 3 (after (replicate 21 3))) = fill_silence
  /\ exists k, k <> 10 /\ class_ok k
       /\ has_run k (view (next 3 (after (replicate 21 3))))
       /\ events 3 (after (replicate 21 3))
          = [EvCounts (result_count (next 3 (after (replicate 21 3))));
             EvDetect (default ""%string (label !! Z.to_nat k))].
Proof.
  apply (detection_sound 3 (after (replicate 21 3))).
  - apply wf_after. repeat constructor; solve_class.
  - solve_class.
  - apply step_next; [apply wf_after; repeat constructor|]; solve_class.
  - by vm_compute.
Defined.

(** C18.  Completeness of the consensus rule: while the program is
    detecting, a frame that leaves a run of a class other than silence in
    the window (twenty codes at the oldest end or twenty-one anywhere)
    prints a detection. *)
Theorem detection_complete c st st' out k :
  wf st -> class_ok c -> current_state st = detecting ->
  step c st = Ok (st', out) -> k <> 10 -> has_run k (view st') ->
  out <> [].
Proof.
  intros Hwf Hc Hcs Hstep Hk Hrun. rewrite step_next in Hstep by done.
  injection Hstep as <- <-. by eapply events_run.
Qed.

Lemma detection_complete_witness : events 3 (after (replicate 21 3)) <> [].
Proof.
  apply (detection_complete 3 (after (replicate 21 3))
           (next 3 (after (replicate 21 3))) _ 3).
  - apply wf_after. repeat constructor; solve_class.
  - solve_class.
  - by vm_compute.
  - apply step_next; [apply wf_after; repeat constructor|]; solve_class.
  - done.
  - apply has_run_b_spec. by vm_compute.
Defined.

(** A run of exactly twenty codes that ends at the newest slot is not
    detected: after twenty-one frames of class 3 the window ends with
    twenty codes 3, the program has printed nothing and is still
    detecting.  The twenty-second frame prints. *)
Theorem run_at_newest_end :
  exists st,
    run (replicate 21 3) init_state = Ok (st, replicate 21 [])
    /\ view st = replicate 20 10 ++ replicate 20 3
    /\ current_state st = detecting
    /\ exists st' rc, step 3 st = Ok (st', [EvCounts rc; EvDetect "down"]).
Proof.
  eexists. split; [vm_compute; reflexivity|].
  split_and!; [by vm_compute..|]. eexists _, _. vm_compute. reflexivity.
Qed.
