(* ===== verification/AggregatorSpec.v ===== *)
(** * AggregatorSpec: the abstract result aggregator and the refinement

    Module [Spec] is the aggregator as the design describes it: a history
    of class codes in chronological order (oldest first), the previous raw
    code, and a mode that is [Detecting] or [Cooldown] with its tick count.
    One notification drops the oldest code, appends the candidate code,
    scans the history for a run and advances the mode.

    [abs] maps a state of the C program to the abstract state: the circular
    buffer is read from [window_idx] on.  [refinement] proves that one
    iteration of the loop body implements one abstract notification, and
    [run_refines] extends it to sequences of frames.  The last part proves
    the cool-down of the abstract machine, for the theorems on the program
    that [Behaviour] derives from it. *)

From Stdlib Require Import ZArith Lia.
From stdpp Require Import base tactics option numbers strings list.
From S2P Require Import Prelude Aggregator AggregatorInv.
Import Aggregator.

#[local] Open Scope Z_scope.
#[local] Open Scope kws_scope.

(** ** The abstract machine *)

Module Spec.

Inductive mode : Type :=
  | Detecting
  | Cooldown (ticks : Z).

#[export] Instance mode_eq_dec : EqDecision mode.
Proof. solve_decision. Defined.

Record astate : Type := mkA {
  history : list Z;      (* the window, oldest code first *)
  prev : Z;              (* the raw code of the previous notification *)
  amode : mode
}.

#[export] Instance astate_eq_dec : EqDecision astate.
Proof. solve_decision. Defined.

(** The code that enters the history: the raw code when it repeats the
    previous raw code, silence otherwise, and always silence while cooling
    down. *)
Definition candidate (r : Z) (a : astate) : Z :=
  match amode a with
  | Cooldown _ => 10
  | Detecting => if decide (r = prev a) then r else 10
  end.

(** The oldest code leaves, the new one enters. *)
Definition push (v : Z) (h : list Z) : list Z := tail h ++ [v].

(** The class detected in a history, if any. *)
Definition detect (m : mode) (h : list Z) : option Z :=
  match m with
  | Detecting =>
      if (scan_window true h).1.1 then Some (scan_window true h).1.2 else None
  | Cooldown _ => None
  end.

Definition advance (m : mode) (d : option Z) : mode :=
  match m with
  | Detecting => match d with Some _ => Cooldown 0 | None => Detecting end
  | Cooldown k =>
      if decide (k + 1 = FILL_SILENCE_MAX_CNT) then Detecting
      else Cooldown (k + 1)
  end.

(** What is printed for a detection over the history [h]: the occupancy
    of every class and the label of the detected one. *)
Definition printed (h : list Z) (d : option Z) : list event :=
  match d with
  | Some cr =>
      [EvCounts (counts_of h);
       EvDetect (default ""%string (label !! Z.to_nat cr))]
  | None => []
  end.

(** One notification: the next state and what is printed. *)
Definition astep (r : Z) (a : astate) : astate * list event :=
  let h := push (candidate r a) (history a) in
  let d := detect (amode a) h in
  (mkA h r (advance (amode a) d), printed h d).

Fixpoint arun (rs : list Z) (a : astate) : astate * list (list event) :=
  match rs with
  | [] => (a, [])
  | r :: rs' =>
      let '(a', d) := astep r a in
      let '(a'', ds) := arun rs' a' in
      (a'', d :: ds)
  end.

Definition ainit : astate :=
  mkA (replicate (Z.to_nat WINDOW_SIZE) 10) 10 Detecting.

(** The inputs the machine is specified for: four-bit codes of which those
    that enter the history are class codes. *)
Fixpoint admissible (rs : list Z) (a : astate) : Prop :=
  match rs with
  | [] => True
  | r :: rs' =>
      0 <= r < 16 /\ class_ok (candidate r a) /\ admissible rs' (astep r a).1
  end.

End Spec.

Import Spec.

(** ** The abstraction function *)

Definition abs_mode (st : state) : mode :=
  match current_state st with
  | detecting => Detecting
  | fill_silence => Cooldown (fill_silence_cnt st)
  end.

Definition abs (st : state) : astate :=
  mkA (chrono (window_idx st) (result_window st)) (last_result st) (abs_mode st).

(** ** The circular buffer is a queue *)

(** Overwriting the oldest slot and advancing the index is dropping the
    oldest code and appending the new one. *)
Lemma chrono_push (i v : Z) (w : list Z) :
  Z.of_nat (length w) = WINDOW_SIZE -> 0 <= i < WINDOW_SIZE ->
  chrono (next_idx i) (<[Z.to_nat i := v]> w) = push v (chrono i w).
Proof.
  intros Hlen Hi. unfold chrono, push, rotate, next_idx.
  rewrite length_insert.
  assert (Hw : length w = Z.to_nat WINDOW_SIZE) by lia.
  rewrite (Nat.mod_small (Z.to_nat i)) by lia.
  destruct (lookup_lt_is_Some_2 w (Z.to_nat i)) as [x Hx]; [lia|].
  rewrite (drop_S _ _ _ Hx). cbn [tail app].
  rewrite insert_take_drop by lia.
  rewrite <- app_assoc. case_decide as Hlast.
  - change (Z.to_nat 0) with 0%nat. rewrite Nat.Div0.mod_0_l.
    rewrite (drop_ge w (S (Z.to_nat i))) by lia.
    by rewrite drop_0, take_0, app_nil_r.
  - replace (Z.to_nat (i + 1)) with (S (Z.to_nat i)) by lia.
    rewrite Nat.mod_small by lia.
    assert (Hlt : length (take (Z.to_nat i) w) = Z.to_nat i)
      by (rewrite length_take; lia).
    rewrite (cons_middle v), app_assoc.
    by rewrite drop_app_length', take_app_length'
      by (rewrite length_app; simpl; lia).
Qed.

Lemma counts_of_rotate n w : counts_of (rotate n w) = counts_of w.
Proof. unfold counts_of. apply map_ext. intros c. apply countZ_rotate. Qed.

(** ** One notification *)

Lemma written_candidate c st : written c st = candidate c (abs st).
Proof.
  unfold written, candidate, abs, abs_mode. cbn [amode prev].
  destruct (current_state st); repeat case_decide; done.
Qed.

Lemma chrono_next c st :
  Z.of_nat (length (result_window st)) = WINDOW_SIZE ->
  0 <= window_idx st < WINDOW_SIZE ->
  chrono (next_idx (window_idx st)) (next_window c st)
  = push (candidate c (abs st)) (history (abs st)).
Proof.
  intros Hlen Hidx. unfold next_window. rewrite chrono_push by done.
  by rewrite written_candidate.
Qed.

(** The state and the output of a frame are those of the abstract
    notification. *)
Lemma abs_next c st :
  wf st ->
  abs (next c st) = (astep c (abs st)).1
  /\ events c st = (astep c (abs st)).2.
Proof.
  intros (Hlen & Hidx & _).
  pose proof (scan_of_cooldown c st) as Hsc.
  pose proof (chrono_next c st Hlen Hidx) as Hh.
  unfold astep. cbn [fst snd].
  unfold abs at 1, abs_mode at 1, events, next. proj_simpl.
  rewrite <- (counts_of_rotate (Z.to_nat (next_idx (window_idx st)))
                (next_window c st)).
  fold (chrono (next_idx (window_idx st)) (next_window c st)).
  unfold scan_of in *. rewrite Hh in *. clear Hh.
  generalize dependent (push (candidate c (abs st)) (history (abs st))).
  intros h Hsc. unfold printed, detect, advance.
  replace (amode (abs st)) with (abs_mode st) by done. unfold abs_mode.
  destruct (current_state st) eqn:Hcs.
  - rewrite bool_decide_eq_true_2 by done.
    by destruct (scan_window true h) as [[[] cr] ct].
  - rewrite (Hsc eq_refl). by destruct (decide _).
Qed.

Lemma abs_init : abs init_state = ainit.
Proof. reflexivity. Qed.

(** ** Sequences of notifications *)

Lemma step_abs c st :
  wf st -> 0 <= c < 16 -> class_ok (candidate c (abs st)) ->
  step c st = Ok (next c st, (astep c (abs st)).2)
  /\ wf (next c st) /\ abs (next c st) = (astep c (abs st)).1.
Proof.
  intros Hwf Hc Hw. rewrite <- written_candidate in Hw.
  destruct (abs_next c st Hwf) as [Habs <-].
  split_and!; [by apply step_written | by apply wf_written | done].
Qed.

Lemma run_abs cs : forall st,
  wf st -> admissible cs (abs st) ->
  exists st',
    run cs st = Ok (st', (arun cs (abs st)).2) /\ wf st'
    /\ abs st' = (arun cs (abs st)).1.
Proof.
  induction cs as [|c cs IH]; intros st Hwf Hcs; [by exists st|].
  destruct Hcs as (Hc & Hw & Hcs).
  destruct (step_abs c st Hwf Hc Hw) as (Hstep & Hwf' & Habs).
  rewrite <- Habs in Hcs.
  destruct (IH _ Hwf' Hcs) as (st' & Hrun & Hwf'' & Habs').
  exists st'. cbn [run arun]. rewrite Hstep. cbn [bind]. rewrite Hrun.
  rewrite Habs in *. destruct (astep c (abs st)) as [a' d].
  cbn [fst snd] in *. by destruct (arun cs a') as [a'' ds].
Qed.

(** Class codes are admissible in every state. *)
Lemma admissible_codes cs : forall a, Forall class_ok cs -> admissible cs a.
Proof.
  induction cs as [|c cs IH]; intros a Hcs; [done|].
  apply Forall_cons in Hcs as [Hc Hcs]. cbn [admissible].
  split; [solve_class|]. split; [|by apply IH].
  unfold candidate. destruct (amode a); repeat case_decide; solve_class.
Qed.

(** ** Refinement *)

(** C1.  One iteration of the main loop implements one notification of the
    abstract aggregator: on a well-formed state and a four-bit code for
    which the code that enters the history is below 12, the loop body
    returns, prints exactly what the abstract machine prints, and leaves a
    well-formed state whose abstraction is the abstract successor. *)
Theorem refinement c st :
  wf st -> 0 <= c < 16 -> class_ok (candidate c (abs st)) ->
  exists st',
    step c st = Ok (st', (astep c (abs st)).2)
    /\ wf st' /\ abs st' = (astep c (abs st)).1.
Proof. intros Hwf Hc Hw. exists (next c st). by apply step_abs. Qed.

Lemma refinement_witness :
  exists st',
    step 3 init_state = Ok (st', (astep 3 (abs init_state)).2)
    /\ wf st' /\ abs st' = (astep 3 (abs init_state)).1.
Proof. apply (refinement 3 init_state wf_init); [lia|by vm_compute]. Defined.

(** C17.  The program refines the abstract aggregator on every admissible
    input, in particular on every sequence of class codes below 12: the
    loop started in the state that [main] initialises processes every
    frame, prints the abstract machine's output frame by frame, and ends
    in a state whose abstraction is the abstract machine's final state. *)
Theorem run_refines cs :
  admissible cs ainit ->
  exists st',
    run cs init_state = Ok (st', (arun cs ainit).2)
    /\ abs st' = (arun cs ainit).1.
Proof.
  intros Hcs. destruct (run_abs cs init_state wf_init Hcs) as (st' & ? & _ & ?).
  by exists st'.
Qed.

Lemma run_refines_witness :
  exists st',
    run [3; 3; 0; 11] init_state = Ok (st', (arun [3; 3; 0; 11] ainit).2)
    /\ abs st' = (arun [3; 3; 0; 11] ainit).1.
Proof.
  apply (run_refines [3; 3; 0; 11]), admissible_codes.
  repeat constructor; solve_class.
Defined.

(** The abstract machine on a sequence in two parts. *)
Lemma arun_app rs1 rs2 a :
  arun (rs1 ++ rs2) a
  = ((arun rs2 (arun rs1 a).1).1, (arun rs1 a).2 ++ (arun rs2 (arun rs1 a).1).2).
Proof.
  revert a. induction rs1 as [|r rs1 IH]; intros a; cbn [app arun fst snd].
  - by destruct (arun rs2 a).
  - destruct (astep r a) as [a' d]. rewrite IH.
    destruct (arun rs1 a') as [a1 d1]. cbn [fst snd].
    by destruct (arun rs2 a1).
Qed.

(** ** The abstract cool-down *)

Lemma push_length v h : h <> [] -> length (push v h) = length h.
Proof.
  intros Hh. unfold push. destruct h; [done|].
  rewrite length_app. simpl. lia.
Qed.

(** After [n] pushes of [v] the [n] oldest codes are gone and the [n]
    newest are [v]. *)
Lemma iter_push v h (n : nat) :
  (n <= length h)%nat ->
  Nat.iter n (push v) h = drop n h ++ replicate n v.
Proof.
  induction n as [|n IH]; intros Hn; [by rewrite drop_0, app_nil_r|].
  rewrite Nat.iter_succ, IH by lia. unfold push.
  destruct (lookup_lt_is_Some_2 h n) as [x Hx]; [lia|].
  rewrite (drop_S _ _ _ Hx). cbn [app tail].
  by rewrite <- app_assoc, <- replicate_S_end.
Qed.

Lemma astep_cooldown r a k :
  amode a = Cooldown k ->
  astep r a
  = (mkA (push 10 (history a)) r
       (if decide (k + 1 = FILL_SILENCE_MAX_CNT) then Detecting
        else Cooldown (k + 1)), []).
Proof. intros Hm. unfold astep, candidate, detect, advance. by rewrite Hm. Qed.

(** While the ticks stay below the limit the abstract machine pushes
    silence, detects nothing and counts; it returns to [Detecting] on the
    notification that brings the count to the limit. *)
Lemma arun_cooldown rs : forall a k,
  amode a = Cooldown k ->
  k + Z.of_nat (length rs) <= FILL_SILENCE_MAX_CNT -> k < FILL_SILENCE_MAX_CNT ->
  arun rs a
  = (mkA (Nat.iter (length rs) (push 10) (history a))
       (default (prev a) (last rs))
       (if decide (k + Z.of_nat (length rs) = FILL_SILENCE_MAX_CNT)
        then Detecting else Cooldown (k + Z.of_nat (length rs))),
     replicate (length rs) []).
Proof.
  induction rs as [|r rs IH]; intros a k Hm Hk Hlt.
  - cbn. rewrite Z.add_0_r, decide_False by lia. by destruct a; simplify_eq/=.
  - cbn [arun]. rewrite (astep_cooldown r a k Hm).
    cbn [length] in *. rewrite Nat2Z.inj_succ in *.
    destruct (decide (k + 1 = FILL_SILENCE_MAX_CNT)) as [Hend|Hend].
    + destruct rs; [|cbn [length] in Hk; lia]. cbn.
      rewrite decide_True by lia. done.
    + rewrite (IH _ (k + 1)) by (cbn [amode]; first [done | lia]).
      cbn [history prev amode].
      rewrite Nat.iter_succ_r, last_cons. f_equal. f_equal.
      * by destruct (last rs).
      * repeat case_decide; try lia; f_equal; lia.
Qed.

(** During the cool-down every four-bit code is admissible: silence is
    what enters the history. *)
Lemma admissible_cooldown rs : forall a k,
  amode a = Cooldown k ->
  k + Z.of_nat (length rs) <= FILL_SILENCE_MAX_CNT ->
  Forall (fun r => 0 <= r < 16) rs -> admissible rs a.
Proof.
  induction rs as [|r rs IH]; intros a k Hm Hk Hrs; [done|].
  apply Forall_cons in Hrs as [Hr Hrs]. cbn [admissible length] in *.
  rewrite (astep_cooldown r a k Hm). unfold candidate. rewrite Hm.
  split; [done|]. split; [solve_class|]. cbn [fst].
  destruct rs as [|r' rs]; [done|]. cbn [length] in *.
  apply (IH _ (k + 1)); [|cbn [length]; lia|done].
  cbn [amode]. case_decide; [lia|done].
Qed.

(** ** Codes that do not repeat *)

(** No code other than silence equals its predecessor; [p] is the code
    before the first. *)
Fixpoint isolated (p : Z) (rs : list Z) : Prop :=
  match rs with
  | [] => True
  | r :: rs' => 0 <= r < 16 /\ (r <> p \/ r = 10) /\ isolated r rs'
  end.

(** Isolated codes leave an all-silence history as it is. *)
Lemma arun_isolated rs : forall p,
  isolated p rs ->
  admissible rs (mkA (history ainit) p Detecting)
  /\ arun rs (mkA (history ainit) p Detecting)
     = (mkA (history ainit) (default p (last rs)) Detecting,
        replicate (length rs) []).
Proof.
  induction rs as [|r rs IH]; intros p Hrs; [done|].
  destruct Hrs as (Hr & Hp & Hrs). destruct (IH r Hrs) as [Hadm Hrun].
  assert (Hc : candidate r (mkA (history ainit) p Detecting) = 10)
    by (unfold candidate; cbn; case_decide; [destruct Hp|]; congruence).
  cbn [admissible arun]. unfold astep. rewrite Hc. cbn [history amode].
  change (push 10 (history ainit)) with (history ainit).
  change (detect Detecting (history ainit)) with (@None Z).
  cbn [advance printed fst]. rewrite Hrun, last_cons.
  split; [split; [done|split; [solve_class|done]]|].
  cbn [length replicate]. by destruct (last rs).
Qed.
