(* ===== verification/Behaviour.v ===== *)
(** * Behaviour: what the aggregator does on a stream of frames

    The laws of the result aggregator, stated on the C loop ([step] and
    [run] of [Aggregator]) and proved through the refinement of
    [AggregatorSpec] and the characterisation of the scan of [Consensus]:

    - the debounce: a code that differs from the previous raw code enters
      the window as silence, and a stream in which no code other than
      silence repeats never prints and leaves the window all silence;
    - the cool-down: after a detection the next forty frames print
      nothing whatever they carry, the fortieth returns the program to
      the detecting state, and the window is then all silence;
    - the latency: from any detecting state a class held for twenty-two
      frames is answered by a detection within them; held from the start
      it is detected on the twenty-second frame, and after a detection
      a class that is held is reported on every sixty-first frame, for
      as long as it is held; held for twenty-one frames only, it is
      reported twenty frames after it ended;
    - the fault: a code of 12 to 15 that repeats while the program is
      detecting leaves the bounds of [result_count]. *)

From Stdlib Require Import ZArith Lia.
From stdpp Require Import base tactics option numbers strings list.
From S2P Require Import Prelude Aggregator AggregatorInv Consensus AggregatorSpec.
Import Aggregator.
Import Spec.

#[local] Open Scope Z_scope.
#[local] Open Scope kws_scope.

(** A four-bit code, as the four pins deliver it. *)
Definition nibble (r : Z) : Prop := 0 <= r < 16.

(** A state in which nothing has been heard: the window is all silence,
    the counters are those of the initial state and the program is
    detecting. *)
Definition quiet (st : state) : Prop :=
  view st = replicate (Z.to_nat WINDOW_SIZE) 10
  /\ result_count st = result_count init_state
  /\ current_state st = detecting.

(** ** From the abstract state back to the program state *)

Lemma abs_view st a : abs st = a -> view st = history a.
Proof. by intros <-. Qed.

Lemma abs_detecting st a :
  abs st = a -> (current_state st = detecting <-> amode a = Detecting).
Proof. intros <-. unfold abs, abs_mode. cbn. by destruct (current_state st). Qed.

Lemma view_length st : wf st -> length (view st) = Z.to_nat WINDOW_SIZE.
Proof. intros (Hlen & _). unfold view, chrono. rewrite length_rotate. lia. Qed.

(** The counters of a state, from its chronological view. *)
Lemma counts_view st : wf st -> result_count st = counts_of (view st).
Proof. intros (_ & _ & _ & -> & _). symmetry. apply counts_of_rotate. Qed.

(** ** The debounce *)

(** The debounce law: a frame whose four-bit code differs from the
    raw code of the previous frame is processed without fault, whatever
    the code, and what enters the window is silence: the oldest code
    leaves and 10 is appended. *)
Theorem debounce_law c st :
  wf st -> nibble c -> c <> last_result st ->
  exists st' out,
    step c st = Ok (st', out) /\ wf st' /\ view st' = push 10 (view st).
Proof.
  intros Hwf Hc Hne.
  assert (Hw : candidate c (abs st) = 10)
    by (unfold candidate; cbn; destruct (abs_mode st); [by case_decide|done]).
  destruct (step_abs c st Hwf Hc) as (Hstep & Hwf' & Habs);
    [rewrite Hw; solve_class|].
  exists (next c st), (astep c (abs st)).2. split_and!; [done..|].
  rewrite (abs_view _ _ Habs). unfold astep. cbn [fst history]. by rewrite Hw.
Qed.

Lemma debounce_law_witness :
  exists st' out,
    step 13 init_state = Ok (st', out) /\ wf st'
    /\ view st' = push 10 (view init_state).
Proof. apply (debounce_law 13 init_state wf_init); [unfold nibble; lia|done]. Defined.

(** C27.  A stream of four-bit codes in which no code other than silence
    equals its predecessor never prints: every frame is processed, the
    window stays all silence with the counters of the initial state, and
    the program stays in the detecting state. *)
Theorem isolated_codes_never_detect cs :
  isolated 10 cs ->
  exists st',
    run cs init_state = Ok (st', replicate (length cs) []) /\ quiet st'.
Proof.
  intros Hcs. destruct (arun_isolated cs 10 Hcs) as [Hadm Hrun].
  destruct (run_abs cs init_state wf_init Hadm) as (st' & Hst' & Hwf & Habs).
  change (abs init_state) with (mkA (history ainit) 10 Detecting) in *.
  rewrite Hrun in *. cbn [fst snd] in *. exists st'. unfold quiet.
  split_and!; [done | by rewrite (abs_view _ _ Habs) | |
               by apply (abs_detecting _ _ Habs)].
  by rewrite (counts_view _ Hwf), (abs_view _ _ Habs).
Qed.

Lemma isolated_codes_never_detect_witness :
  exists st',
    run [3; 10; 10; 12; 3; 0; 15] init_state = Ok (st', replicate 7 [])
    /\ quiet st'.
Proof.
  apply (isolated_codes_never_detect [3; 10; 10; 12; 3; 0; 15]).
  cbn; repeat split; auto; lia.
Defined.

(** ** The cool-down *)

(** Frames processed while cooling down, up to the one that ends the
    cool-down. *)
Lemma cooldown_run cs st :
  wf st -> current_state st = fill_silence -> Forall nibble cs ->
  fill_silence_cnt st + Z.of_nat (length cs) <= FILL_SILENCE_MAX_CNT ->
  exists st',
    run cs st = Ok (st', replicate (length cs) []) /\ wf st'
    /\ view st' = drop (length cs) (view st) ++ replicate (length cs) 10
    /\ (current_state st' = detecting
        <-> fill_silence_cnt st + Z.of_nat (length cs) = FILL_SILENCE_MAX_CNT).
Proof.
  intros Hwf Hcs Hnib Hlen.
  assert (Hm : amode (abs st) = Cooldown (fill_silence_cnt st))
    by (unfold abs, abs_mode; cbn; by rewrite Hcs).
  assert (Hk : 0 <= fill_silence_cnt st < FILL_SILENCE_MAX_CNT)
    by (destruct Hwf as (_ & _ & _ & _ & _ & ? & Hlt); specialize (Hlt Hcs); lia).
  pose proof (view_length _ Hwf) as Hv.
  destruct (run_abs cs st Hwf) as (st' & Hrun & Hwf' & Habs);
    [by eapply admissible_cooldown|].
  rewrite (arun_cooldown cs _ _ Hm) in * by (done || lia). cbn [fst snd] in *.
  exists st'. split_and!; [done..| |].
  - rewrite (abs_view _ _ Habs). cbn [history]. apply iter_push.
    change (history (abs st)) with (view st).
    unfold WINDOW_SIZE, FILL_SILENCE_MAX_CNT in *. lia.
  - rewrite (abs_detecting _ _ Habs). cbn [amode]. by case_decide.
Qed.

(** C13.  Cool-down suppression: after a frame that printed a detection,
    the next frames print nothing, whatever four-bit codes they carry, up
    to forty of them; silence enters the window on each; the program is
    back in the detecting state exactly when forty frames have passed. *)
Theorem cooldown_suppression c st st1 out cs :
  wf st -> class_ok c -> step c st = Ok (st1, out) -> out <> [] ->
  Forall nibble cs -> Z.of_nat (length cs) <= FILL_SILENCE_MAX_CNT ->
  exists st2,
    run cs st1 = Ok (st2, replicate (length cs) [])
    /\ view st2 = drop (length cs) (view st1) ++ replicate (length cs) 10
    /\ (current_state st2 = detecting
        <-> Z.of_nat (length cs) = FILL_SILENCE_MAX_CNT).
Proof.
  intros Hwf Hc Hstep Hout Hcs Hlen. rewrite step_next in Hstep by done.
  injection Hstep as <- <-.
  destruct (events_fired c st Hwf Hc Hout) as (Hdet & Hcool & _).
  assert (Hcnt : fill_silence_cnt (next c st) = 0)
    by (unfold next; cbn; by rewrite Hdet).
  destruct (cooldown_run cs (next c st)) as (st2 & ? & _ & ? & Hend);
    [by apply wf_next | done.. | lia |].
  exists st2. split_and!; [done..|]. rewrite Hend. lia.
Qed.

Lemma cooldown_suppression_witness :
  exists st2,
    run [3; 3; 15; 15] (next 3 (after (replicate 21 3)))
    = Ok (st2, replicate 4 [])
    /\ view st2
       = drop 4 (view (next 3 (after (replicate 21 3)))) ++ replicate 4 10
    /\ (current_state st2 = detecting <-> 4 = FILL_SILENCE_MAX_CNT).
Proof.
  apply (cooldown_suppression 3 (after (replicate 21 3))
           (next 3 (after (replicate 21 3)))
           (events 3 (after (replicate 21 3)))).
  - apply wf_after. repeat constructor; solve_class.
  - solve_class.
  - apply step_next; [apply wf_after; repeat constructor|]; solve_class.
  - by vm_compute.
  - repeat constructor; unfold nibble; lia.
  - by vm_compute.
Defined.

(** No carry-over: forty frames after a detection, whatever they
    carried, the window is all silence, the counters are those of the
    initial state and the program is detecting again, so that the next
    detection needs a fresh run. *)
Theorem cooldown_restarts_clean c st st1 out cs :
  wf st -> class_ok c -> step c st = Ok (st1, out) -> out <> [] ->
  Forall nibble cs -> length cs = Z.to_nat FILL_SILENCE_MAX_CNT ->
  exists st2,
    run cs st1 = Ok (st2, replicate (length cs) [])
    /\ view st2 = replicate (Z.to_nat WINDOW_SIZE) 10
    /\ result_count st2 = result_count init_state
    /\ current_state st2 = detecting.
Proof.
  intros Hwf Hc Hstep Hout Hcs Hlen. rewrite step_next in Hstep by done.
  injection Hstep as <- <-.
  destruct (events_fired c st Hwf Hc Hout) as (Hdet & Hcool & _).
  assert (Hcnt : fill_silence_cnt (next c st) = 0)
    by (unfold next; cbn; by rewrite Hdet).
  pose proof (view_length _ (wf_next c st Hwf Hc)) as Hv.
  destruct (cooldown_run cs (next c st)) as (st2 & ? & Hwf2 & Hview & Hend);
    [by apply wf_next | done.. | unfold FILL_SILENCE_MAX_CNT in *; lia |].
  rewrite drop_ge in Hview
    by (unfold FILL_SILENCE_MAX_CNT, WINDOW_SIZE in *; lia).
  rewrite Hlen in Hview. exists st2. split_and!; [done.. | |].
  - by rewrite (counts_view _ Hwf2), Hview.
  - apply Hend. unfold FILL_SILENCE_MAX_CNT in *. lia.
Qed.

Lemma cooldown_restarts_clean_witness :
  exists st2,
    run (replicate 40 3) (next 3 (after (replicate 21 3)))
    = Ok (st2, replicate (length (replicate 40 3)) [])
    /\ view st2 = replicate (Z.to_nat WINDOW_SIZE) 10
    /\ result_count st2 = result_count init_state
    /\ current_state st2 = detecting.
Proof.
  apply (cooldown_restarts_clean 3 (after (replicate 21 3))
           (next 3 (after (replicate 21 3)))
           (events 3 (after (replicate 21 3)))).
  - apply wf_after. repeat constructor; solve_class.
  - solve_class.
  - apply step_next; [apply wf_after; repeat constructor|]; solve_class.
  - by vm_compute.
  - apply Forall_replicate. unfold nibble. lia.
  - done.
Defined.

(** ** Latency *)

(** What the program prints when it detects class [k] in a window that
    holds twenty-one codes [k] and silence otherwise. *)
Definition detection_of (k : Z) : list event :=
  [EvCounts (counts_of (replicate 19 10 ++ replicate 21 k));
   EvDetect (default ""%string (label !! Z.to_nat k))].

(** Reduces a goal on every class code other than silence to the eleven
    codes, and runs [tac] on each. *)
Ltac by_classes tac :=
  intros k Hk; pattern k; revert k Hk; apply class_ind;
  let l := eval vm_compute in (seqZ 0 NUM_CLASSES) in
  change (seqZ 0 NUM_CLASSES) with l;
  repeat (apply Forall_cons; split); [..|by apply Forall_nil];
  intros Hne; try (destruct Hne; reflexivity); tac.

(** The first twenty-two frames of a class held from the start. *)
Lemma run_22 : forall k, class_ok k -> k <> 10 ->
  exists st',
    run (replicate 22 k) init_state
    = Ok (st', replicate 21 [] ++ [detection_of k])
    /\ wf st' /\ current_state st' = fill_silence /\ fill_silence_cnt st' = 0.
Proof.
  by_classes ltac:(
    eexists; split; [vm_compute; reflexivity|];
    split; [apply (bool_decide_unpack _); vm_compute; exact I|];
    split; reflexivity).
Qed.

(** A class other than silence that is held from the first frame on
    is detected on the twenty-second frame and only there: for up to
    forty further frames of the class the program prints the occupancy
    and the label once, on frame 22, and nothing on the other frames, and
    it is detecting again exactly after the fortieth. *)
Theorem keyword_detected_once k (m : nat) :
  class_ok k -> k <> 10 -> (m <= 40)%nat ->
  exists st',
    run (replicate (22 + m) k) init_state
    = Ok (st', replicate 21 [] ++ [detection_of k] ++ replicate m [])
    /\ (current_state st' = detecting <-> m = 40%nat).
Proof.
  intros Hk Hne Hm.
  destruct (run_22 k Hk Hne) as (st1 & Hrun1 & Hwf1 & Hcool & Hcnt).
  destruct (cooldown_run (replicate m k) st1) as (st2 & Hrun2 & _ & _ & Hend);
    [done.. | apply Forall_replicate; unfold nibble; solve_class
     | rewrite length_replicate; unfold FILL_SILENCE_MAX_CNT; lia |].
  rewrite length_replicate in *. exists st2.
  rewrite replicate_add, run_app, Hrun1. cbn [bind]. rewrite Hrun2. cbn [bind].
  split; [by rewrite <- app_assoc|]. rewrite Hend.
  unfold FILL_SILENCE_MAX_CNT. lia.
Qed.

Lemma keyword_detected_once_witness :
  exists st',
    run (replicate (22 + 5) 0) init_state
    = Ok (st', replicate 21 [] ++ [detection_of 0] ++ replicate 5 [])
    /\ (current_state st' = detecting <-> 5%nat = 40%nat).
Proof. apply (keyword_detected_once 0 5); [solve_class | done | lia]. Defined.

(** ** A keyword that is held *)

(** The twenty-one frames that follow a cool-down during which the class
    [k] was held: the window is all silence and the previous raw code is
    [k], so every frame enters the window and the twenty-first completes
    a run. *)
Lemma arun_after_cooldown : forall k, class_ok k -> k <> 10 ->
  arun (replicate 21 k) (mkA (replicate 40 10) k Detecting)
  = (mkA (replicate 19 10 ++ replicate 21 k) k (Cooldown 0),
     replicate 20 [] ++ [detection_of k]).
Proof. by_classes ltac:(vm_compute; reflexivity). Qed.

(** Sixty-one frames of the class [k] from the start of a cool-down, in
    the abstract machine: forty of cool-down, twenty that fill the run,
    and the detection. *)
Lemma arun_held k a :
  class_ok k -> k <> 10 -> amode a = Cooldown 0 ->
  length (history a) = Z.to_nat WINDOW_SIZE ->
  arun (replicate 61 k) a
  = (mkA (replicate 19 10 ++ replicate 21 k) k (Cooldown 0),
     replicate 60 [] ++ [detection_of k]).
Proof.
  intros Hk Hne Hm Hlen. change 61%nat with (40 + 21)%nat.
  rewrite replicate_add, arun_app, (arun_cooldown _ a 0 Hm)
    by (rewrite ?length_replicate; unfold FILL_SILENCE_MAX_CNT; lia).
  rewrite length_replicate, iter_push, drop_ge by (rewrite Hlen; by vm_compute).
  cbn [fst snd app]. rewrite decide_True by done.
  change (default (prev a) (last (replicate 40 k))) with k.
  rewrite (arun_after_cooldown k Hk Hne). cbn [fst snd].
  by rewrite app_assoc, <- replicate_add.
Qed.

(** The same in the program: from a well-formed state at the start of a
    cool-down, whatever the window holds, sixty frames of the class [k]
    print nothing, the sixty-first prints the detection, and the program
    is at the start of a cool-down again. *)
Lemma held_cycle k st :
  wf st -> current_state st = fill_silence -> fill_silence_cnt st = 0 ->
  class_ok k -> k <> 10 ->
  exists st',
    run (replicate 61 k) st = Ok (st', replicate 60 [] ++ [detection_of k])
    /\ wf st' /\ current_state st' = fill_silence /\ fill_silence_cnt st' = 0.
Proof.
  intros Hwf Hcs Hcnt Hk Hne.
  assert (Hm : amode (abs st) = Cooldown 0)
    by (unfold abs, abs_mode; cbn; by rewrite Hcs, Hcnt).
  destruct (run_abs (replicate 61 k) st Hwf) as (st' & Hrun & Hwf' & Habs);
    [by apply admissible_codes, Forall_replicate|].
  rewrite (arun_held k _ Hk Hne Hm (view_length _ Hwf)) in *. cbn [fst snd] in *.
  exists st'. split_and!; [done..| |];
    apply (f_equal amode) in Habs; unfold abs, abs_mode in Habs; cbn in Habs;
    destruct (current_state st'); by simplify_eq.
Qed.

(** Cycle after cycle. *)
Lemma held_cycles k (n : nat) : forall st,
  wf st -> current_state st = fill_silence -> fill_silence_cnt st = 0 ->
  class_ok k -> k <> 10 ->
  exists st',
    run (replicate (61 * n) k) st
    = Ok (st', concat (replicate n (replicate 60 [] ++ [detection_of k])))
    /\ wf st' /\ current_state st' = fill_silence /\ fill_silence_cnt st' = 0.
Proof.
  induction n as [|n IH]; intros st Hwf Hcs Hcnt Hk Hne.
  - rewrite Nat.mul_0_r. by exists st.
  - destruct (held_cycle k st) as (st1 & Hrun1 & Hwf1 & Hcs1 & Hcnt1); [done..|].
    destruct (IH st1) as (st2 & Hrun2 & ?); [done..|]. exists st2.
    replace (61 * S n)%nat with (61 + 61 * n)%nat by lia.
    rewrite replicate_add, run_app, Hrun1. cbn [bind]. rewrite Hrun2. by cbn [bind].
Qed.

(** C40.  A keyword that is held is reported with a period of sixty-one
    frames.  After a frame that printed a detection, of whatever class
    and in whatever window, a class [k] other than silence that is held
    from then on is reported on every sixty-first frame and on no other,
    for as long as it is held: forty frames of cool-down, twenty frames
    that enter the window in silence, and the twenty-first that
    completes the run.  Each report shows a window of nineteen codes of
    silence and twenty-one of [k]. *)
Theorem held_keyword_recurs c st st1 out k (n : nat) :
  wf st -> class_ok c -> step c st = Ok (st1, out) -> out <> [] ->
  class_ok k -> k <> 10 ->
  exists st2,
    run (replicate (61 * n) k) st1
    = Ok (st2, concat (replicate n (replicate 60 [] ++ [detection_of k])))
    /\ current_state st2 = fill_silence /\ fill_silence_cnt st2 = 0.
Proof.
  intros Hwf Hc Hstep Hout Hk Hne. rewrite step_next in Hstep by done.
  injection Hstep as <- <-.
  destruct (events_fired c st Hwf Hc Hout) as (Hdet & Hcool & _).
  destruct (held_cycles k n (next c st)) as (st2 & ? & _ & ?);
    [by apply wf_next | done | unfold next; cbn; by rewrite Hdet | done..|].
  by exists st2.
Qed.

Lemma held_keyword_recurs_witness :
  exists st2,
    run (replicate (61 * 2) 5) (next 3 (after (replicate 21 3)))
    = Ok (st2, concat (replicate 2 (replicate 60 [] ++ [detection_of 5])))
    /\ current_state st2 = fill_silence /\ fill_silence_cnt st2 = 0.
Proof.
  apply (held_keyword_recurs 3 (after (replicate 21 3))
           (next 3 (after (replicate 21 3)))
           (events 3 (after (replicate 21 3))) 5 2).
  - apply wf_after. repeat constructor; solve_class.
  - solve_class.
  - apply step_next; [apply wf_after; repeat constructor|]; solve_class.
  - by vm_compute.
  - solve_class.
  - done.
Defined.

(** From the start: a class that is held from the first frame on is
    reported on frame 22 and then on every sixty-first frame: 83, 144
    and so on. *)
Corollary keyword_reported_periodically k (n : nat) :
  class_ok k -> k <> 10 ->
  exists st',
    run (replicate (22 + 61 * n) k) init_state
    = Ok (st', replicate 21 [] ++ [detection_of k]
               ++ concat (replicate n (replicate 60 [] ++ [detection_of k]))).
Proof.
  intros Hk Hne.
  destruct (run_22 k Hk Hne) as (st1 & Hrun1 & Hwf1 & Hcs1 & Hcnt1).
  destruct (held_cycles k n st1) as (st2 & Hrun2 & _); [done..|]. exists st2.
  rewrite replicate_add, run_app, Hrun1. cbn [bind]. rewrite Hrun2. cbn [bind].
  by rewrite <- app_assoc.
Qed.

(** ** Codes that are not classes *)

(** C39.  The four pins can spell 12 to 15, for which [result_count] and
    [label] have no element.  Such a code is harmless when it differs from
    the previous raw code or arrives during the cool-down, because silence
    is written in its place; when it repeats the previous raw code while
    the program is detecting, line 191 indexes [result_count] past its
    end. *)
Theorem repeated_bad_code_faults c st :
  wf st -> nibble c -> ~ class_ok c -> last_result st = c ->
  current_state st = detecting ->
  step c st = Fault OutOfBounds.
Proof.
  intros Hwf Hc Hbad Hlast Hdet. apply step_fault; [done | done |].
  unfold written. rewrite Hdet, Hlast.
  by rewrite decide_False, decide_True by done.
Qed.

Lemma repeated_bad_code_faults_witness :
  step 12 (next 12 init_state) = Fault OutOfBounds.
Proof.
  apply (repeated_bad_code_faults 12 (next 12 init_state));
    [| unfold nibble; lia | solve_class | done..].
  apply wf_written; [apply wf_init | by vm_compute].
Defined.

(** ** Latency of a detection *)

(** Some frame of the run printed. *)
Definition prints (outs : list (list event)) : Prop :=
  Exists (fun out => out <> []) outs.

Lemma view_next_push c st :
  wf st -> view (next c st) = push (written c st) (view st).
Proof.
  intros (Hlen & Hidx & _). rewrite view_next, written_candidate.
  by apply chrono_next.
Qed.

Lemma next_detecting c st :
  current_state st = detecting -> events c st = [] ->
  current_state (next c st) = detecting.
Proof.
  intros Hdet. unfold events, next. cbn [current_state]. rewrite Hdet.
  by destruct (scan_of c st).1.1.
Qed.

(** A class held for [j] frames from a detecting state: either a frame
    printed, or the program is still detecting and the window ends with
    the codes that the debounce let through, all but the first. *)
Lemma held_frames k st (j : nat) :
  wf st -> current_state st = detecting -> class_ok k -> (j <= 40)%nat ->
  exists st' outs,
    run (replicate j k) st = Ok (st', outs) /\ wf st'
    /\ (prints outs
        \/ (current_state st' = detecting
            /\ (exists l, view st' = l ++ replicate (j - 1) k)
            /\ (1 <= j -> last_result st' = k)%nat)).
Proof.
  intros Hwf Hdet Hk. induction j as [|j IH]; intros Hj.
  { exists st, []. split_and!; [done..|]. right. split_and!; [done | | lia].
    exists (view st). by rewrite app_nil_r. }
  destruct IH as (st1 & outs & Hrun & Hwf1 & Hcase); [lia|].
  rewrite replicate_S_end, run_app, Hrun. cbn [bind run].
  rewrite step_written by (done || solve_class || by apply written_ok).
  cbn [bind]. exists (next k st1), (outs ++ [events k st1]).
  split_and!; [done | by apply wf_next |].
  destruct Hcase as [Hpr|(Hdet1 & [l Hview] & Hlast)].
  { left. apply Exists_app. by left. }
  destruct (decide (events k st1 = [])) as [Hev|Hev];
    [right | left; apply Exists_app; right; by apply Exists_cons_hd].
  split_and!; [by apply next_detecting | | done].
  rewrite view_next_push, Hview by done. unfold push.
  pose proof (view_length st1 Hwf1) as Hlen. rewrite Hview, length_app in Hlen.
  rewrite length_replicate in Hlen. change (Z.to_nat WINDOW_SIZE) with 40%nat in Hlen.
  destruct j as [|j].
  - eexists. symmetry. apply app_nil_r.
  - exists (tail l). unfold written. rewrite Hdet1, Hlast by lia.
    rewrite decide_False, decide_True by done.
    destruct l as [|x l]; [cbn in *; lia|]. cbn [tail app Nat.sub].
    by rewrite Nat.sub_0_r, replicate_S_end, app_assoc.
Qed.

(** C25.  Latency: from any well-formed state in which the program is
    detecting, whatever the window holds, a class other than silence that
    is held for twenty-two frames is answered by a detection within these
    frames. *)
Theorem detection_latency k st :
  wf st -> current_state st = detecting -> class_ok k -> k <> 10 ->
  exists st' outs,
    run (replicate 22 k) st = Ok (st', outs) /\ wf st' /\ prints outs.
Proof.
  intros Hwf Hdet Hk Hne.
  destruct (held_frames k st 21 Hwf Hdet Hk) as (st1 & outs & Hrun & Hwf1 & Hcase);
    [lia|].
  rewrite (replicate_S_end 21), run_app, Hrun. cbn [bind run].
  rewrite step_written by (done || solve_class || by apply written_ok).
  cbn [bind]. exists (next k st1), (outs ++ [events k st1]).
  split_and!; [done | by apply wf_next |]. apply Exists_app.
  destruct Hcase as [Hpr|(Hdet1 & [l Hview] & Hlast)]; [by left|right].
  apply Exists_cons_hd, (events_run k st1 k); [done..|].
  rewrite view_next_push, Hview by done. unfold push, written.
  rewrite Hdet1, Hlast by lia. rewrite decide_False, decide_True by done.
  pose proof (view_length st1 Hwf1) as Hlen. rewrite Hview, length_app in Hlen.
  rewrite length_replicate in Hlen. change (Z.to_nat WINDOW_SIZE) with 40%nat in Hlen.
  right. exists (tail l), []. destruct l as [|x l]; [cbn in *; lia|].
  cbn [tail app Nat.sub]. change (S T_run) with 21%nat.
  by rewrite app_nil_r, <- app_assoc, <- replicate_S_end.
Qed.

Lemma detection_latency_witness :
  exists st' outs,
    run (replicate 22 7) (next 3 (next 3 init_state)) = Ok (st', outs)
    /\ wf st' /\ prints outs.
Proof.
  apply (detection_latency 7 (next 3 (next 3 init_state)));
    [ do 2 (apply wf_next; [|solve_class]); apply wf_init
    | by vm_compute | solve_class | done ].
Defined.

(** ** A run that ends at the newest slot *)

(** What a detection of class [k] prints when the window holds [n] codes
    [k] and silence elsewhere. *)
Definition detection_with (n k : Z) : list event :=
  [EvCounts (<[Z.to_nat k := n]> (<[10%nat := WINDOW_SIZE - n]> (replicate 12 0)));
   EvDetect (default ""%string (label !! Z.to_nat k))].

(** A keyword that is held for exactly twenty-one frames is not
    reported while it is spoken: its twenty codes end at the newest slot
    of the window, where the scan needs twenty-one.  When silence
    follows, the detection is printed twenty frames after the keyword
    ended, on frame 41, when the run has moved to the oldest slot. *)
Theorem late_detection : forall k, class_ok k -> k <> 10 ->
  exists st',
    run (replicate 21 k ++ replicate 20 10) init_state
    = Ok (st', replicate 40 [] ++ [detection_with 20 k])
    /\ current_state st' = fill_silence.
Proof. by_classes ltac:(eexists; split; [vm_compute; reflexivity | reflexivity]). Qed.

Lemma late_detection_witness :
  exists st',
    run (replicate 21 3 ++ replicate 20 10) init_state
    = Ok (st', replicate 40 [] ++ [detection_with 20 3])
    /\ current_state st' = fill_silence.
Proof. apply (late_detection 3); [solve_class | done]. Defined.
