(* ===== verification/Equiv.v ===== *)
(** * Equiv: states that the program cannot tell apart

    Two states of the aggregator are equivalent when they are well formed
    and have the same abstraction: the same chronological view of the
    window, the same previous raw code and the same mode.  They may
    differ in where the circular buffer starts ([window_idx]) and in the
    scratch variables of the scan.  The relation is a partial equivalence
    (symmetric and transitive, reflexive on well-formed states); the
    closed form of an iteration respects it, so the position of the
    window index is not observable: from equivalent states the loop
    prints the same and stays in equivalent states. *)

From Stdlib Require Import ZArith Lia Morphisms.
From stdpp Require Import base tactics option numbers strings list.
From S2P Require Import Prelude Aggregator AggregatorInv Consensus AggregatorSpec.

#[local] Open Scope Z_scope.
#[local] Open Scope kws_scope.

Import Aggregator Spec.

(** Well formed, with the same abstraction. *)
Definition same_view (st1 st2 : state) : Prop :=
  wf st1 /\ wf st2 /\ abs st1 = abs st2.

(** Equal class codes. *)
Definition same_class (c1 c2 : Z) : Prop := c1 = c2 /\ class_ok c1.

#[export] Instance same_view_sym : Symmetric same_view.
Proof. intros st1 st2 (? & ? & ?). unfold same_view. by split_and!. Qed.

#[export] Instance same_view_trans : Transitive same_view.
Proof.
  intros st1 st2 st3 (? & ? & ?) (? & ? & ?). unfold same_view.
  split_and!; congruence.
Qed.

#[export] Instance same_class_sym : Symmetric same_class.
Proof. intros c1 c2 [Heq ?]. split; congruence. Qed.

#[export] Instance same_class_trans : Transitive same_class.
Proof. intros c1 c2 c3 [Heq ?] [Heq' ?]. split; congruence. Qed.

Lemma same_view_refl st : wf st -> same_view st st.
Proof. intros. unfold same_view. by split_and!. Qed.

(** The closed form of an iteration respects the equivalence. *)
#[export] Instance next_proper : Proper (same_class ==> same_view ==> same_view) next.
Proof.
  intros c ? [<- Hc] st1 st2 (Hwf1 & Hwf2 & Habs). unfold same_view.
  split_and!; [by apply wf_next.. |].
  rewrite (proj1 (abs_next c st1 Hwf1)), (proj1 (abs_next c st2 Hwf2)).
  by rewrite Habs.
Qed.

#[export] Instance events_proper : Proper (same_class ==> same_view ==> eq) events.
Proof.
  intros c ? [<- Hc] st1 st2 (Hwf1 & Hwf2 & Habs).
  rewrite (proj2 (abs_next c st1 Hwf1)), (proj2 (abs_next c st2 Hwf2)).
  by rewrite Habs.
Qed.

(** Equivalent states have the same view of the window. *)
#[export] Instance view_proper : Proper (same_view ==> eq) view.
Proof. intros st1 st2 (_ & _ & Habs). by injection Habs. Qed.

(** One frame from equivalent states. *)
Lemma step_same_view c st1 st2 :
  same_view st1 st2 -> class_ok c ->
  exists st1' st2' out,
    step c st1 = Ok (st1', out) /\ step c st2 = Ok (st2', out)
    /\ same_view st1' st2'.
Proof.
  intros Hst Hc. pose proof Hst as (Hwf1 & Hwf2 & _).
  assert (Hcc : same_class c c) by done.
  exists (next c st1), (next c st2), (events c st1). split_and!.
  - apply step_written; [done | solve_class | by apply written_ok].
  - rewrite (events_proper c c Hcc st1 st2 Hst).
    apply step_written; [done | solve_class | by apply written_ok].
  - by apply next_proper.
Qed.

Lemma run_same_view cs : forall st1 st2,
  same_view st1 st2 -> Forall class_ok cs ->
  exists st1' st2' outs,
    run cs st1 = Ok (st1', outs) /\ run cs st2 = Ok (st2', outs)
    /\ same_view st1' st2'.
Proof.
  induction cs as [|c cs IH]; intros st1 st2 Hst Hcs.
  - by exists st1, st2, [].
  - apply Forall_cons in Hcs as [Hc Hcs].
    destruct (step_same_view c st1 st2 Hst Hc) as (s1 & s2 & out & H1 & H2 & Hs).
    destruct (IH s1 s2 Hs Hcs) as (s1' & s2' & outs & H1' & H2' & Hs').
    exists s1', s2', (out :: outs). cbn [run].
    by rewrite H1, H2; cbn [bind]; rewrite H1', H2'.
Qed.

(** ** Theorems *)

(** C23.  The position of the window index is not observable: from two
    well-formed states with the same chronological window, previous raw
    code and mode, the loop prints the same on every sequence of class
    codes, frame by frame, and ends in states that are equivalent
    again. *)
Theorem index_unobservable cs st1 st2 :
  same_view st1 st2 -> Forall class_ok cs ->
  exists st1' st2' outs,
    run cs st1 = Ok (st1', outs) /\ run cs st2 = Ok (st2', outs)
    /\ same_view st1' st2' /\ view st1' = view st2'.
Proof.
  intros Hst Hcs.
  destruct (run_same_view cs st1 st2 Hst Hcs) as (s1 & s2 & outs & H1 & H2 & Hs).
  exists s1, s2, outs. split_and!; [done.. |]. by rewrite Hs.
Qed.

Lemma index_unobservable_witness :
  exists st1' st2' outs,
    run [3; 3; 7] init_state = Ok (st1', outs)
    /\ run [3; 3; 7] (next 10 init_state) = Ok (st2', outs)
    /\ same_view st1' st2' /\ view st1' = view st2'.
Proof.
  apply (index_unobservable [3; 3; 7] init_state (next 10 init_state)).
  - split_and!; [apply wf_init | apply wf_next; [apply wf_init | solve_class] |].
    by vm_compute.
  - repeat constructor; solve_class.
Defined.
