(* ===== verification/Loader.v ===== *)
(** * Loader: streaming the model to the accelerator

    [initial_TMA] ([spi_config.c], lines 54-171) sends the configuration
    register block, then for each of the twelve memory regions the four
    bytes of its address followed by its buffer, then the address and the
    data of the inference-enable command.  Every transfer goes through
    [SPIWrite] (lines 174-179), which hands [ByteCount] bytes from
    [Buffer + Offset] to the SPI driver.

    The link is modelled by its trace: the list of the transfers made so
    far, each transfer being the list of the bytes sent.  The buffers are
    the fourteen global arrays of [spi_config.h] (lines 46-62), gathered
    in the record [buffers]. *)

From Stdlib Require Import ZArith Lia.
From stdpp Require Import base tactics option numbers strings list.
From S2P Require Import Prelude Bytes BinStr.

#[local] Open Scope Z_scope.
#[local] Open Scope kws_scope.

Module Loader.

(** ** Capacities ([spi_config.h], lines 28-42) *)

Definition LEN_CONF_REG : Z := 28.
Definition LEN_BLOCK_BANK : Z := 1152.
Definition LEN_ROW_BANK0 : Z := 1592.
Definition LEN_ROW_BANK1 : Z := 1618.
Definition LEN_ROW_BANK2 : Z := 1627.
Definition LEN_ROW_BANK3 : Z := 1614.
Definition LEN_ROW_BANK4 : Z := 1668.
Definition LEN_CCL_BANK0 : Z := 3127.
Definition LEN_CCL_BANK1 : Z := 3114.
Definition LEN_CCL_BANK2 : Z := 3099.
Definition LEN_CCL_BANK3 : Z := 3108.
Definition LEN_CCL_BANK4 : Z := 3186.
Definition LEN_WEIGHT_BANK : Z := 1440.
(** The feature bank has no macro: its capacity is the literal 129. *)
Definition LEN_FEATURE_BANK : Z := 129.

(** ** The buffers ([spi_config.h], lines 46-62) *)

Record buffers : Type := mkBuffers {
  Conf_reg_Buffer : list Z;
  Conf_block_Buffer : list Z;
  Conf_row_Buffer0 : list Z;
  Conf_row_Buffer1 : list Z;
  Conf_row_Buffer2 : list Z;
  Conf_row_Buffer3 : list Z;
  Conf_row_Buffer4 : list Z;
  Conf_ccl_Buffer0 : list Z;
  Conf_ccl_Buffer1 : list Z;
  Conf_ccl_Buffer2 : list Z;
  Conf_ccl_Buffer3 : list Z;
  Conf_ccl_Buffer4 : list Z;
  Conf_weight_Buffer : list Z;
  Conf_feature_bank_Buffer : list Z
}.

(** An array of [n] words, four bytes each, as the loader declares it;
    objects of static storage start zeroed. *)
Definition zeroed (n : Z) : list Z := replicate (Z.to_nat (n * 4)) 0.

Definition zero_buffers : buffers :=
  {| Conf_reg_Buffer := zeroed LEN_CONF_REG;
     Conf_block_Buffer := zeroed LEN_BLOCK_BANK;
     Conf_row_Buffer0 := zeroed LEN_ROW_BANK0;
     Conf_row_Buffer1 := zeroed LEN_ROW_BANK1;
     Conf_row_Buffer2 := zeroed LEN_ROW_BANK2;
     Conf_row_Buffer3 := zeroed LEN_ROW_BANK3;
     Conf_row_Buffer4 := zeroed LEN_ROW_BANK4;
     Conf_ccl_Buffer0 := zeroed LEN_CCL_BANK0;
     Conf_ccl_Buffer1 := zeroed LEN_CCL_BANK1;
     Conf_ccl_Buffer2 := zeroed LEN_CCL_BANK2;
     Conf_ccl_Buffer3 := zeroed LEN_CCL_BANK3;
     Conf_ccl_Buffer4 := zeroed LEN_CCL_BANK4;
     Conf_weight_Buffer := zeroed LEN_WEIGHT_BANK;
     Conf_feature_bank_Buffer := zeroed LEN_FEATURE_BANK |}.

(** ** The link *)

(** The transfers made so far, oldest first. *)
Definition trace : Type := list (list Z).

(** [SPIWrite] (lines 174-179): [ByteCount] bytes from [Buffer + Offset]
    are handed to [XSpiPs_PolledTransfer], which sends them; nothing is
    read back. *)
Definition SPIWrite (Offset ByteCount : Z) (Buffer : list Z) (tr : trace) : res trace :=
  if decide (0 <= Offset /\ 0 <= ByteCount
             /\ Offset + ByteCount <= Z.of_nat (length Buffer))
  then Ok (tr ++ [take (Z.to_nat ByteCount) (drop (Z.to_nat Offset) Buffer)])
  else Fault OutOfBounds.

(** ** [initial_TMA] *)

(** The block that sends a token (lines 62-66, and twelve more times):
    decode the string, store the word in [addr_uint8] most significant
    byte first, send the four bytes.  The state is the local array and
    the trace. *)
Definition send_token (tok : list Z) (s : list Z * trace) : res (list Z * trace) :=
  let '(addr_uint8, tr) := s in
  let* addr_uint32 := binary_str_to_uint32 tok in
  let* addr_uint8 := store_be32 addr_uint8 0 addr_uint32 in
  let* tr := SPIWrite 0 4 addr_uint8 tr in
  Ok (addr_uint8, tr).

(** A token followed by the buffer of its region. *)
Definition send_region (tok : list Z) (len : Z) (buf : list Z)
    (s : list Z * trace) : res (list Z * trace) :=
  let* '(addr_uint8, tr) := send_token tok s in
  let* tr := SPIWrite 0 (len * 4) buf tr in
  Ok (addr_uint8, tr).

(** Lines 54-171.  [addr_uint8] is the local array of four bytes as the
    function finds it. *)
Definition initial_TMA (b : buffers) (addr_uint8 : list Z) (tr : trace)
    : res (Z * trace) :=
  (* configure configuration register *)
  let* tr := SPIWrite 0 (LEN_CONF_REG * 4) (Conf_reg_Buffer b) tr in
  (* load model block index *)
  let* s := send_region BLOCK_IDX_BANK_CONFIG_ADDR LEN_BLOCK_BANK
              (Conf_block_Buffer b) (addr_uint8, tr) in
  (* load model row count *)
  let* s := send_region ROW_CNT_BANK0_CONFIG_ADDR LEN_ROW_BANK0 (Conf_row_Buffer0 b) s in
  let* s := send_region ROW_CNT_BANK1_CONFIG_ADDR LEN_ROW_BANK1 (Conf_row_Buffer1 b) s in
  let* s := send_region ROW_CNT_BANK2_CONFIG_ADDR LEN_ROW_BANK2 (Conf_row_Buffer2 b) s in
  let* s := send_region ROW_CNT_BANK3_CONFIG_ADDR LEN_ROW_BANK3 (Conf_row_Buffer3 b) s in
  let* s := send_region ROW_CNT_BANK4_CONFIG_ADDR LEN_ROW_BANK4 (Conf_row_Buffer4 b) s in
  (* load model ccl index *)
  let* s := send_region CCL_IDX_BANK0_CONFIG_ADDR LEN_CCL_BANK0 (Conf_ccl_Buffer0 b) s in
  let* s := send_region CCL_IDX_BANK1_CONFIG_ADDR LEN_CCL_BANK1 (Conf_ccl_Buffer1 b) s in
  let* s := send_region CCL_IDX_BANK2_CONFIG_ADDR LEN_CCL_BANK2 (Conf_ccl_Buffer2 b) s in
  let* s := send_region CCL_IDX_BANK3_CONFIG_ADDR LEN_CCL_BANK3 (Conf_ccl_Buffer3 b) s in
  let* s := send_region CCL_IDX_BANK4_CONFIG_ADDR LEN_CCL_BANK4 (Conf_ccl_Buffer4 b) s in
  (* load model weight *)
  let* s := send_region WEIGHT_BANK0_CONFIG_ADDR LEN_WEIGHT_BANK (Conf_weight_Buffer b) s in
  (* start inference: address, then data *)
  let* s := send_token CONF_SPI_EN_INF_ADDR s in
  let* s := send_token CONF_SPI_EN_INF_DATA s in
  Ok (XST_SUCCESS, snd s).

End Loader.
