(* ===== verification/LoaderTrace.v ===== *)
(** * LoaderTrace: what [initial_TMA] sends

    The configuration image is described by a catalog: the regions in the
    order of the protocol, each with its address token, its capacity in
    words and its buffer.  [image] is the sequence of transfers that the
    catalog prescribes: the register block alone, then address and payload
    for each region, then the two words of the inference-enable command.
    The theorems show that [initial_TMA] sends exactly [image], without
    fault, when the buffers have the declared sizes, and read off the
    properties of the protocol: twenty-seven transfers, every payload of
    the declared length and directly preceded by its address, the enable
    command last and sent once; and that every address token names its
    memory and bank and the last word of the buffer it announces. *)

From Stdlib Require Import ZArith Lia.
From stdpp Require Import base tactics option numbers strings list.
From S2P Require Import Prelude Bytes BinStr Loader.
Import Loader.

#[local] Open Scope Z_scope.
#[local] Open Scope kws_scope.

(** ** The catalog *)

(** A region: address token, capacity in words, buffer. *)
Definition region : Type := list Z * Z * list Z.

Definition catalog (b : buffers) : list region :=
  [(BLOCK_IDX_BANK_CONFIG_ADDR, LEN_BLOCK_BANK, Conf_block_Buffer b);
   (ROW_CNT_BANK0_CONFIG_ADDR, LEN_ROW_BANK0, Conf_row_Buffer0 b);
   (ROW_CNT_BANK1_CONFIG_ADDR, LEN_ROW_BANK1, Conf_row_Buffer1 b);
   (ROW_CNT_BANK2_CONFIG_ADDR, LEN_ROW_BANK2, Conf_row_Buffer2 b);
   (ROW_CNT_BANK3_CONFIG_ADDR, LEN_ROW_BANK3, Conf_row_Buffer3 b);
   (ROW_CNT_BANK4_CONFIG_ADDR, LEN_ROW_BANK4, Conf_row_Buffer4 b);
   (CCL_IDX_BANK0_CONFIG_ADDR, LEN_CCL_BANK0, Conf_ccl_Buffer0 b);
   (CCL_IDX_BANK1_CONFIG_ADDR, LEN_CCL_BANK1, Conf_ccl_Buffer1 b);
   (CCL_IDX_BANK2_CONFIG_ADDR, LEN_CCL_BANK2, Conf_ccl_Buffer2 b);
   (CCL_IDX_BANK3_CONFIG_ADDR, LEN_CCL_BANK3, Conf_ccl_Buffer3 b);
   (CCL_IDX_BANK4_CONFIG_ADDR, LEN_CCL_BANK4, Conf_ccl_Buffer4 b);
   (WEIGHT_BANK0_CONFIG_ADDR, LEN_WEIGHT_BANK, Conf_weight_Buffer b)].

(** A buffer of the declared size. *)
Definition sized (len : Z) (buf : list Z) : Prop :=
  Z.of_nat (length buf) = len * 4.

(** The buffers have the sizes of their declarations. *)
Definition wf_buffers (b : buffers) : Prop :=
  sized LEN_CONF_REG (Conf_reg_Buffer b)
  /\ Forall (fun r : region => sized r.1.2 r.2) (catalog b)
  /\ sized LEN_FEATURE_BANK (Conf_feature_bank_Buffer b).

#[export] Instance wf_buffers_dec b : Decision (wf_buffers b).
Proof. unfold wf_buffers, sized; apply _. Defined.

(** Every cell of the buffers holds a byte. *)
Definition bytes_ok (b : buffers) : Prop :=
  Forall byte_ok (Conf_reg_Buffer b)
  /\ Forall (fun r : region => Forall byte_ok r.2) (catalog b)
  /\ Forall byte_ok (Conf_feature_bank_Buffer b).

(** A buffer that holds the [len] words that are sent from it. *)
Definition fits (len : Z) (buf : list Z) : Prop :=
  len * 4 <= Z.of_nat (length buf).

#[export] Instance fits_dec len buf : Decision (fits len buf).
Proof. unfold fits; apply _. Defined.

(** Every transfer of [initial_TMA] stays within its buffer. *)
Definition all_fit (b : buffers) : Prop :=
  fits LEN_CONF_REG (Conf_reg_Buffer b)
  /\ Forall (fun r : region => fits r.1.2 r.2) (catalog b).

#[export] Instance all_fit_dec b : Decision (all_fit b).
Proof. unfold all_fit; apply _. Defined.

(** The four bytes that a token puts on the link. *)
Definition token_bytes (tok : list Z) : list Z :=
  be32 (bits_value (bits_of 32 tok)).

(** The bytes that are sent from a buffer: its first [len] words. *)
Definition payload (len : Z) (buf : list Z) : list Z :=
  take (Z.to_nat (len * 4)) buf.

(** The transfers of one region. *)
Definition region_transfers (r : region) : list (list Z) :=
  [token_bytes r.1.1; payload r.1.2 r.2].

(** The transfers that arm the accelerator. *)
Definition enable_command : list (list Z) :=
  [token_bytes CONF_SPI_EN_INF_ADDR; token_bytes CONF_SPI_EN_INF_DATA].

(** The whole image, in the order of the protocol. *)
Definition image (b : buffers) : list (list Z) :=
  payload LEN_CONF_REG (Conf_reg_Buffer b)
  :: concat (map region_transfers (catalog b)) ++ enable_command.

(** ** The fields of an address *)

(** The word that a token spells. *)
Definition token_word (tok : list Z) : Z := bits_value (bits_of 32 tok).

(** An address read as bit fields: bits 31-28 select the memory, bits
    27-25 the bank, bits 24-12 hold the index of the last word of the
    region, bits 11-0 are zero. *)
Definition addr_memory (w : Z) : Z := Z.shiftr w 28.
Definition addr_bank (w : Z) : Z := Z.land (Z.shiftr w 25) 7.
Definition addr_last (w : Z) : Z := Z.land (Z.shiftr w 12) 8191.
Definition addr_low (w : Z) : Z := Z.land w 4095.

(** ** The operations *)

Lemma SPIWrite_spec len buf tr :
  0 <= len ->
  SPIWrite 0 (len * 4) buf tr
  = if decide (fits len buf) then Ok (tr ++ [payload len buf])
    else Fault OutOfBounds.
Proof.
  intros Hlen. unfold SPIWrite, fits, payload. rewrite drop_0.
  repeat case_decide; done || lia.
Qed.

Lemma payload_sized len buf : sized len buf -> payload len buf = buf.
Proof.
  unfold sized, payload. intros <-. by rewrite Nat2Z.id, firstn_all.
Qed.

Lemma payload_length len buf :
  0 <= len -> fits len buf -> Z.of_nat (length (payload len buf)) = len * 4.
Proof. unfold fits, payload. intros. rewrite length_take. lia. Qed.

Lemma sized_fits len buf : sized len buf -> fits len buf.
Proof. unfold sized, fits. lia. Qed.

Lemma token_bytes_length tok : length (token_bytes tok) = 4%nat.
Proof. apply be32_length. Qed.

Lemma send_token_spec tok a tr :
  32 <= Z.of_nat (length tok) -> length a = 4%nat ->
  send_token tok (a, tr) = Ok (token_bytes tok, tr ++ [token_bytes tok]).
Proof.
  intros Htok Ha. unfold send_token.
  rewrite binary_str_to_uint32_value by done. cbn [bind].
  rewrite store_be32_spec by lia. cbn [bind].
  rewrite take_0, drop_ge, app_nil_r by (simpl; lia). cbn [app].
  rewrite (SPIWrite_spec 1), decide_True by (done || by unfold fits).
  by rewrite (payload_sized 1).
Qed.

Lemma send_region_spec tok len buf a tr :
  32 <= Z.of_nat (length tok) -> length a = 4%nat -> 0 <= len ->
  send_region tok len buf (a, tr)
  = if decide (fits len buf)
    then Ok (token_bytes tok, tr ++ region_transfers (tok, len, buf))
    else Fault OutOfBounds.
Proof.
  intros Htok Ha Hlen. unfold send_region.
  rewrite send_token_spec by done. cbn [bind].
  rewrite SPIWrite_spec by done. case_decide; [|done]. cbn [bind].
  by rewrite <- app_assoc.
Qed.

(** ** The trace *)

(** Discharges the case of a buffer that does not fit. *)
Ltac no_fit :=
  rewrite decide_False; [done|];
  intros [? Hcat]; unfold catalog in Hcat;
  repeat (apply Forall_cons in Hcat as [? Hcat]); done.

(** [initial_TMA] on a local array of four bytes: the image is sent when
    every buffer holds the words sent from it, and the first buffer that
    does not stops the function at a read past its end. *)
Lemma initial_TMA_image b a tr :
  length a = 4%nat ->
  initial_TMA b a tr
  = if decide (all_fit b) then Ok (XST_SUCCESS, tr ++ image b)
    else Fault OutOfBounds.
Proof.
  intros Ha. unfold initial_TMA.
  rewrite SPIWrite_spec by done. case_decide; [cbn [bind]|no_fit].
  do 12 (rewrite send_region_spec
           by first [by vm_compute | done | apply token_bytes_length];
         case_decide; [cbn [bind]|no_fit]).
  do 2 (rewrite send_token_spec
          by first [by vm_compute | apply token_bytes_length]; cbn [bind]).
  rewrite decide_True by (split; [done|]; repeat constructor; done).
  unfold image, catalog, enable_command. rewrite <- !app_assoc.
  by cbn [map concat region_transfers fst snd app].
Qed.

Lemma image_length b : length (image b) = 27%nat.
Proof. reflexivity. Qed.

(** The bytes of the thirteen addresses and of the enable data. *)
Lemma token_bytes_values :
  token_bytes BLOCK_IDX_BANK_CONFIG_ADDR = [144; 71; 240; 0]
  /\ token_bytes ROW_CNT_BANK0_CONFIG_ADDR = [160; 99; 112; 0]
  /\ token_bytes ROW_CNT_BANK1_CONFIG_ADDR = [162; 101; 16; 0]
  /\ token_bytes ROW_CNT_BANK2_CONFIG_ADDR = [164; 101; 160; 0]
  /\ token_bytes ROW_CNT_BANK3_CONFIG_ADDR = [166; 100; 208; 0]
  /\ token_bytes ROW_CNT_BANK4_CONFIG_ADDR = [168; 104; 48; 0]
  /\ token_bytes CCL_IDX_BANK0_CONFIG_ADDR = [176; 195; 96; 0]
  /\ token_bytes CCL_IDX_BANK1_CONFIG_ADDR = [178; 194; 144; 0]
  /\ token_bytes CCL_IDX_BANK2_CONFIG_ADDR = [180; 193; 160; 0]
  /\ token_bytes CCL_IDX_BANK3_CONFIG_ADDR = [182; 194; 48; 0]
  /\ token_bytes CCL_IDX_BANK4_CONFIG_ADDR = [184; 199; 16; 0]
  /\ token_bytes WEIGHT_BANK0_CONFIG_ADDR = [192; 89; 240; 0]
  /\ token_bytes CONF_SPI_EN_INF_ADDR = [128; 0; 0; 1]
  /\ token_bytes CONF_SPI_EN_INF_DATA = [0; 0; 0; 1].
Proof. split_and!; vm_compute; reflexivity. Qed.

Lemma all_fit_zero : all_fit zero_buffers.
Proof. apply (bool_decide_unpack _). vm_compute. exact I. Qed.

Lemma wf_zero : wf_buffers zero_buffers.
Proof. apply (bool_decide_unpack _). vm_compute. exact I. Qed.

Lemma wf_all_fit b : wf_buffers b -> all_fit b.
Proof.
  intros (Hreg & Hcat & _). split; [by apply sized_fits|].
  eapply Forall_impl; [done|]. intros r. apply sized_fits.
Qed.

(** With buffers of the declared sizes every payload is a whole buffer. *)
Lemma image_sized b :
  wf_buffers b ->
  image b
  = Conf_reg_Buffer b
    :: concat (map (fun r : region => [token_bytes r.1.1; r.2]) (catalog b))
    ++ enable_command.
Proof.
  intros (Hreg & Hcat & _). unfold image, catalog in *.
  repeat (apply Forall_cons in Hcat as [? Hcat]). cbn [fst snd] in *.
  cbn [map concat region_transfers fst snd app].
  by rewrite !payload_sized by done.
Qed.

(** ** Bytes *)

Lemma bytes_zero : bytes_ok zero_buffers.
Proof.
  unfold bytes_ok, zero_buffers, catalog, zeroed.
  cbn [Conf_reg_Buffer Conf_block_Buffer Conf_row_Buffer0 Conf_row_Buffer1
       Conf_row_Buffer2 Conf_row_Buffer3 Conf_row_Buffer4 Conf_ccl_Buffer0
       Conf_ccl_Buffer1 Conf_ccl_Buffer2 Conf_ccl_Buffer3 Conf_ccl_Buffer4
       Conf_weight_Buffer Conf_feature_bank_Buffer].
  split; [by apply Forall_replicate|]. split; [|by apply Forall_replicate].
  do 12 (apply Forall_cons; split; [by apply Forall_replicate|]).
  by apply Forall_nil.
Qed.

(** The image of buffers that hold bytes is made of bytes. *)
Lemma transfers_byte_ok (tok1 : list Z) (t : list Z) :
  Forall byte_ok t -> Forall (Forall byte_ok) [token_bytes tok1; t].
Proof.
  intros Ht. apply Forall_cons. split; [apply be32_bytes|].
  apply Forall_cons. split; [exact Ht | by apply Forall_nil].
Qed.

Lemma image_byte_ok b : bytes_ok b -> Forall (Forall byte_ok) (image b).
Proof.
  intros (Hreg & Hcat & _). unfold image. apply Forall_cons. split.
  { by apply Forall_take. }
  apply Forall_app. split.
  - apply Forall_concat, Forall_fmap. eapply Forall_impl; [exact Hcat|].
    intros r Hr. unfold compose, region_transfers. apply transfers_byte_ok.
    unfold payload. by apply Forall_take.
  - unfold enable_command.
    apply (transfers_byte_ok CONF_SPI_EN_INF_ADDR (token_bytes CONF_SPI_EN_INF_DATA)).
    unfold token_bytes. apply be32_bytes.
Qed.

(** ** Theorems *)

(** [initial_TMA], on every input with a local array of four bytes:
    when each buffer holds the words that are sent from it, the function
    returns [XST_SUCCESS] after adding to the trace the image of the
    catalog, that is the register block, then address and payload of the
    twelve regions in order, then the enable address and the enable data;
    otherwise it reads past the end of a buffer. *)
Theorem initial_TMA_trace b a tr :
  length a = 4%nat ->
  initial_TMA b a tr
  = if decide (all_fit b) then Ok (XST_SUCCESS, tr ++ image b)
    else Fault OutOfBounds.
Proof. apply initial_TMA_image. Qed.

Lemma initial_TMA_trace_witness :
  initial_TMA zero_buffers [0; 0; 0; 0] []
  = if decide (all_fit zero_buffers)
    then Ok (XST_SUCCESS, [] ++ image zero_buffers) else Fault OutOfBounds.
Proof. by apply (initial_TMA_trace zero_buffers [0; 0; 0; 0] []). Defined.

(** C6.  The bytes on the link, for buffers of the declared sizes: the
    twenty-seven transfers are the register block, then for each region
    the four bytes of its address, most significant first, followed by
    the whole buffer, then the enable address [80 00 00 01] and the
    enable data [00 00 00 01]. *)
Theorem loaded_image b a :
  wf_buffers b -> length a = 4%nat ->
  initial_TMA b a []
  = Ok (XST_SUCCESS,
        [Conf_reg_Buffer b;
         [144; 71; 240; 0]; Conf_block_Buffer b;
         [160; 99; 112; 0]; Conf_row_Buffer0 b;
         [162; 101; 16; 0]; Conf_row_Buffer1 b;
         [164; 101; 160; 0]; Conf_row_Buffer2 b;
         [166; 100; 208; 0]; Conf_row_Buffer3 b;
         [168; 104; 48; 0]; Conf_row_Buffer4 b;
         [176; 195; 96; 0]; Conf_ccl_Buffer0 b;
         [178; 194; 144; 0]; Conf_ccl_Buffer1 b;
         [180; 193; 160; 0]; Conf_ccl_Buffer2 b;
         [182; 194; 48; 0]; Conf_ccl_Buffer3 b;
         [184; 199; 16; 0]; Conf_ccl_Buffer4 b;
         [192; 89; 240; 0]; Conf_weight_Buffer b;
         [128; 0; 0; 1]; [0; 0; 0; 1]]).
Proof.
  intros Hwf Ha. rewrite initial_TMA_image, decide_True, image_sized
    by auto using wf_all_fit.
  unfold enable_command, catalog. cbn [map concat fst snd app].
  destruct token_bytes_values
    as (-> & -> & -> & -> & -> & -> & -> & -> & -> & -> & -> & -> & -> & ->).
  reflexivity.
Qed.

Lemma loaded_image_witness :
  exists tr,
    initial_TMA zero_buffers [0; 0; 0; 0] [] = Ok (XST_SUCCESS, tr)
    /\ length tr = 27%nat.
Proof.
  eexists. split.
  - apply (loaded_image zero_buffers [0; 0; 0; 0]); [apply wf_zero | done].
  - reflexivity.
Defined.

(** What the catalog fixes whatever the buffers hold: no region has a
    capacity of one word, and no region has the enable address. *)
Lemma catalog_static b :
  Forall (fun r : region =>
            r.1.2 <> 1 /\ 0 <= r.1.2
            /\ token_bytes r.1.1 <> token_bytes CONF_SPI_EN_INF_ADDR)
    (catalog b).
Proof.
  unfold catalog. repeat (apply Forall_cons; split); [..|by apply Forall_nil];
    cbn [fst snd]; (split; [done|]); (split; [done|]);
    vm_compute; discriminate.
Qed.

(** A payload is not a transfer of four bytes. *)
Lemma payload_not_token len buf tok :
  len <> 1 -> 0 <= len -> fits len buf -> payload len buf <> token_bytes tok.
Proof.
  intros Hne Hlen Hfit Heq. apply (f_equal length) in Heq.
  pose proof (payload_length len buf Hlen Hfit).
  rewrite token_bytes_length in Heq. lia.
Qed.

(** The enable command is what [initial_TMA] sends last, and nothing
    that it sends before is the enable address: the twenty-five transfers
    that come first are payloads of more than four bytes and addresses of
    regions, all different from the address of the enable register. *)
Theorem enable_command_last b a :
  all_fit b -> length a = 4%nat ->
  exists pre,
    initial_TMA b a [] = Ok (XST_SUCCESS, pre ++ enable_command)
    /\ length pre = 25%nat
    /\ Forall (fun t => t <> token_bytes CONF_SPI_EN_INF_ADDR) pre.
Proof.
  intros Hfit Ha.
  exists (payload LEN_CONF_REG (Conf_reg_Buffer b)
          :: concat (map region_transfers (catalog b))).
  rewrite initial_TMA_image, decide_True by done.
  destruct Hfit as [Hreg Hcat]. split_and!; [done..|].
  apply Forall_cons. split; [by apply payload_not_token|].
  apply Forall_concat, List.Forall_map.
  pose proof (catalog_static b) as Hst.
  eapply Forall_impl; [apply Forall_and; split; [exact Hcat|exact Hst]|].
  intros r (Hr & Hne & Hlen & Htok). cbn beta in *.
  repeat constructor; [done|]. by apply payload_not_token.
Qed.

Lemma enable_command_last_witness :
  exists pre,
    initial_TMA zero_buffers [0; 0; 0; 0] [] = Ok (XST_SUCCESS, pre ++ enable_command)
    /\ length pre = 25%nat
    /\ Forall (fun t => t <> token_bytes CONF_SPI_EN_INF_ADDR) pre.
Proof.
  apply (enable_command_last zero_buffers [0; 0; 0; 0]); [apply all_fit_zero|done].
Defined.

(** The number of bytes of a sequence of transfers. *)
Definition bytes_sent (tr : trace) : Z := sumZ (map (fun t => Z.of_nat (length t)) tr).

(** The size of the image: whatever the files held, [initial_TMA]
    sends 105548 bytes, four for each word of capacity of the thirteen
    buffers and four for each of the fourteen tokens. *)
Theorem image_bytes b a tr :
  all_fit b -> length a = 4%nat ->
  initial_TMA b a [] = Ok (XST_SUCCESS, tr) -> bytes_sent tr = 105548.
Proof.
  intros Hfit Ha. rewrite initial_TMA_image, decide_True by done.
  intros [= <-]. destruct Hfit as [Hreg Hcat]. unfold catalog in Hcat.
  repeat (apply Forall_cons in Hcat as [? Hcat]). cbn [fst snd] in *.
  unfold bytes_sent, image, catalog, enable_command.
  cbn [map concat region_transfers fst snd app sumZ foldr].
  rewrite !token_bytes_length, !payload_length by done. reflexivity.
Qed.

Lemma image_bytes_witness :
  bytes_sent (image zero_buffers) = 105548.
Proof.
  apply (image_bytes zero_buffers [0; 0; 0; 0]); [apply all_fit_zero | done |].
  by rewrite initial_TMA_image, decide_True by (done || apply all_fit_zero).
Defined.

(** The addresses agree with the capacities: every address token
    of [spi_config.c] decodes without fault to a word whose bits 24-12
    are the capacity of its region in [spi_config.h] less one, and whose
    low twelve bits are zero; bits 31-25 number the memories and their
    banks: block index 9, row count 10 with banks 0 to 4, column-class
    index 11 with banks 0 to 4, weights 12.  No two regions have the same
    address. *)
Theorem tokens_encode_capacity b :
  Forall (fun r : region =>
            binary_str_to_uint32 r.1.1 = Ok (token_word r.1.1)
            /\ addr_last (token_word r.1.1) = r.1.2 - 1
            /\ addr_low (token_word r.1.1) = 0) (catalog b)
  /\ map (fun r : region =>
            (addr_memory (token_word r.1.1), addr_bank (token_word r.1.1)))
         (catalog b)
     = [(9, 0); (10, 0); (10, 1); (10, 2); (10, 3); (10, 4);
        (11, 0); (11, 1); (11, 2); (11, 3); (11, 4); (12, 0)].
Proof.
  split; [|by vm_compute]. unfold catalog.
  do 12 (apply Forall_cons; split; [vm_compute; by split_and!|]).
  by apply Forall_nil.
Qed.
