(* ===== verification/Storage.v ===== *)
(** * Storage: the TF card and the two file readers

    [tf_card.c]: [platform_init_fs] and [sd_mount] mount the card and
    format it when the mount fails (a card that cannot be used fails
    either at the format or at the mount that follows it); [sd_read_binary] reads a file of bit
    strings, one per line, and [sd_read_hex] a file of hexadecimal words,
    each into an array of bytes, four bytes per accepted line.

    FatFs and the C library are not part of the repository.  The calls
    that the readers make are modelled from their documented behaviour:
    a volume is a finite map from file names to contents, an open file is
    the list of the characters not yet read, [f_gets] returns the next
    chunk of the file (up to a newline, or up to the room of the buffer),
    and [strtoul] in base 16 follows the C standard on a target whose
    [unsigned long] has 32 bits; [f_gets] keeps the characters as they
    are in the file.  Characters are their codes.

    The theorems of this file are those that need no reference
    definition: what the readers do on a file that cannot be opened, and
    their termination. *)

From Stdlib Require Import ZArith Lia.
From stdpp Require Import base tactics option numbers strings list gmap.
From S2P Require Import Prelude Bytes BinStr.

#[local] Open Scope Z_scope.
#[local] Open Scope kws_scope.

Module Storage.

(** ** FatFs *)

Definition FR_OK : Z := 0.
Definition FR_NOT_READY : Z := 3.
Definition FR_NO_FILE : Z := 4.
Definition FR_NO_FILESYSTEM : Z := 13.

(** The files of a volume, by name. *)
Definition volume : Type := gmap string (list Z).

(** An open file: the characters that remain to be read. *)
Definition FIL : Type := list Z.

(** [f_open(&fil, name, FA_READ)]. *)
Definition f_open (vol : volume) (name : string) : Z * FIL :=
  match vol !! name with
  | Some data => (FR_OK, data)
  | None => (FR_NO_FILE, [])
  end.

(** The characters that one call of [f_gets] takes from the file when the
    buffer has room for [n] of them: up to and including the first
    newline. *)
Fixpoint gets_chars (n : nat) (data : list Z) : list Z * list Z :=
  match n, data with
  | S n', c :: rest =>
      if decide (c = 10) then ([c], rest)
      else let '(cs, rest') := gets_chars n' rest in (c :: cs, rest')
  | _, _ => ([], data)
  end.

(** [f_gets(buff, len, &fil)]: [None] for the null pointer that is
    returned when no character could be read; otherwise the array [buff]
    after the call, holding the chunk and its terminator, and what it
    held before in the cells that follow. *)
Definition f_gets (buff : list Z) (len : Z) (fp : FIL) : option (list Z) * FIL :=
  let '(cs, rest) := gets_chars (Z.to_nat (len - 1)) fp in
  match cs with
  | [] => (None, rest)
  | _ => (Some (cs ++ [0] ++ drop (S (length cs)) buff), rest)
  end.

(** What is wrong with a card that cannot be used: no disk answers, or
    the disk takes the format and the volume cannot be found
    afterwards. *)
Inductive card_defect : Type :=
  | NoDisk
  | FormatLost.

#[export] Instance card_defect_eq_dec : EqDecision card_defect.
Proof. solve_decision. Defined.

(** The card: whether it can be used, whether it holds a FAT volume, the
    files of that volume, and what is wrong with it when it cannot be
    used. *)
Record card : Type := mkCard {
  healthy : bool;
  fat : bool;
  files : volume;
  defect : card_defect
}.

(** [f_mount(&fatfs, "0:/", 1)]: a forced mount. *)
Definition f_mount (c : card) : Z :=
  if healthy c then (if fat c then FR_OK else FR_NO_FILESYSTEM)
  else match defect c with
       | NoDisk => FR_NOT_READY
       | FormatLost => FR_NO_FILESYSTEM
       end.

(** [f_mkfs("0:/", FM_FAT32, ...)]: a fresh, empty volume on a card that
    can be used. *)
Definition f_mkfs (c : card) : Z * card :=
  if healthy c then (FR_OK, mkCard true true ∅ (defect c))
  else match defect c with
       | NoDisk => (FR_NOT_READY, c)
       | FormatLost => (FR_OK, c)
       end.

(** ** The C library *)

Definition ULONG_MAX : Z := 2 ^ 32 - 1.

(** [isspace] in the C locale. *)
Definition is_space (c : Z) : bool :=
  bool_decide (c = 32 \/ 9 <= c <= 13).

(** The value of a hexadecimal digit. *)
Definition hex_digit (c : Z) : option Z :=
  if decide (48 <= c <= 57) then Some (c - 48)
  else if decide (97 <= c <= 102) then Some (c - 87)
  else if decide (65 <= c <= 70) then Some (c - 55)
  else None.

(** The digits at the head of [s], accumulated in [acc]. *)
Fixpoint hex_digits (s : list Z) (acc : Z) : Z :=
  match s with
  | c :: s' =>
      match hex_digit c with
      | Some d => hex_digits s' (acc * 16 + d)
      | None => acc
      end
  | [] => acc
  end.

(** The characters of a C string, without its terminator. *)
Fixpoint c_chars (buf : list Z) : list Z :=
  match buf with
  | c :: buf' => if decide (c = 0) then [] else c :: c_chars buf'
  | [] => []
  end.

Fixpoint skip_spaces (s : list Z) : list Z :=
  match s with
  | c :: s' => if is_space c then skip_spaces s' else s
  | [] => []
  end.

(** [strtoul(buf, NULL, 16)]: white space, an optional sign, an optional
    [0x] or [0X] when a digit follows, then the digits; [ULONG_MAX] when
    the value does not fit; the negation, as an [unsigned long], after a
    minus sign. *)
Definition strtoul16 (buf : list Z) : Z :=
  let s := skip_spaces (c_chars buf) in
  let '(neg, s) :=
    match s with
    | 45 :: s' => (true, s')
    | 43 :: s' => (false, s')
    | _ => (false, s)
    end in
  let s :=
    match s with
    | 48 :: x :: d :: s' =>
        if bool_decide (x = 120 \/ x = 88) && bool_decide (is_Some (hex_digit d))
        then d :: s' else s
    | _ => s
    end in
  let v := hex_digits s 0 in
  if decide (v > ULONG_MAX) then ULONG_MAX
  else if neg then u32 (- v) else v.

(** ** [platform_init_fs] and [sd_mount] (lines 7-39) *)

(** The return value, the card as the function leaves it, and the lines
    it prints. *)
Definition platform_init_fs (c : card) : Z * card * list string :=
  let status := f_mount c in
  if decide (status <> FR_OK) then
    let out := ["Volume is not FAT-formatted; formatting FAT"%string] in
    let '(status, c) := f_mkfs c in
    if decide (status <> FR_OK) then (-1, c, out ++ ["Unable to format FAT"%string])
    else
      let status := f_mount c in
      if decide (status <> FR_OK)
      then (-1, c, out ++ ["Unable to mount SD card"%string])
      else (0, c, out)
  else (0, c, []).

Definition sd_mount (c : card) : Z * card * list string :=
  let '(status, c, out) := platform_init_fs c in
  if decide (status <> 0)
  then (XST_FAILURE, c, out ++ ["ERROR: f_mount returned -1!"%string])
  else (XST_SUCCESS, c, out).

(** ** The readers *)

(** The variables of a reader that change in its loop. *)
Record reader : Type := mkReader {
  fil : FIL;
  line_buf : list Z;
  dest_buf : list Z;
  line_count : Z
}.

(** Lines 67-73: are the first [bit_len] characters of the line bits? *)
Definition check_line (bit_len : Z) (line_buf : list Z) : res Z :=
  for_loop (Z.to_nat bit_len) 0
    (fun i valid =>
       let* c := aget line_buf i in
       if decide (c <> char_0 /\ c <> char_1) then Ok (Break 0)
       else Ok (Continue valid))
    1.

(** [1U << k], defined for a count below the width. *)
Definition shl1U (k : Z) : res Z :=
  if decide (0 <= k < 32) then Ok (2 ^ k) else Fault BadShift.

(** Lines 81-86: the word that the first [bit_len] characters spell. *)
Definition line_value (bit_len : Z) (line_buf : list Z) : res Z :=
  for_loop (Z.to_nat bit_len) 0
    (fun i value =>
       let* c := aget line_buf i in
       if decide (c = char_1)
       then let* b := shl1U (bit_len - 1 - i) in
            Ok (Continue (u32 (Z.lor value b)))
       else Ok (Continue value))
    0.

(** Lines 66-93: the body of the loop of [sd_read_binary], for the line
    that [line_buf] holds. *)
Definition binary_line (bit_len : Z) (r : reader) : res reader :=
  let* valid := check_line bit_len (line_buf r) in
  if decide (valid = 0) then Ok r
  else
    let* value := line_value bit_len (line_buf r) in
    let* dest := store_be32 (dest_buf r) (line_count r * 4) value in
    Ok (mkReader (fil r) (line_buf r) dest (line_count r + 1)).

(** Lines 124-132: the body of the loop of [sd_read_hex]. *)
Definition hex_line (r : reader) : res reader :=
  let value := u32 (strtoul16 (line_buf r)) in
  let* dest := store_be32 (dest_buf r) (line_count r * 4) value in
  Ok (mkReader (fil r) (line_buf r) dest (line_count r + 1)).

(** The [while] of lines 64 and 122: [f_gets] is called first, then the
    count is compared with [max_lines]; [cap] is the size of [line_buf].
    Every turn takes at least one character from the file, so that a fuel
    of one more than the length of the file is never used up. *)
Fixpoint read_loop (body : reader -> res reader) (cap max_lines : Z)
    (fuel : nat) (r : reader) : res reader :=
  match fuel with
  | O => Fault OutOfFuel
  | S fuel' =>
      match f_gets (line_buf r) cap (fil r) with
      | (None, fp) => Ok (mkReader fp (line_buf r) (dest_buf r) (line_count r))
      | (Some buf, fp) =>
          let r := mkReader fp buf (dest_buf r) (line_count r) in
          if decide (line_count r < max_lines)
          then let* r := body r in read_loop body cap max_lines fuel' r
          else Ok r
      end
  end.

(** Lines 49-98.  [line_buf] is the local array of 128 characters as the
    function finds it.  The result is the return value, the array
    [dest_buf] and the lines printed. *)
Definition sd_read_binary (line_buf : list Z) (vol : volume) (file_name : string)
    (dest_buf : list Z) (bit_len max_lines : Z)
    : res (Z * list Z * list string) :=
  let '(status, fp) := f_open vol file_name in
  if decide (status <> FR_OK)
  then Ok (-1, dest_buf, ["Error: Failed to open file."%string])
  else
    let* r := read_loop (binary_line bit_len) 128 max_lines (S (length fp))
                (mkReader fp line_buf dest_buf 0) in
    Ok (0, Storage.dest_buf r, []).

(** Lines 107-137, with a local array of 32 characters. *)
Definition sd_read_hex (line_buf : list Z) (vol : volume) (file_name : string)
    (dest_buf : list Z) (max_lines : Z) : res (Z * list Z * list string) :=
  let '(status, fp) := f_open vol file_name in
  if decide (status <> FR_OK)
  then Ok (-1, dest_buf, ["Error: Failed to open file."%string])
  else
    let* r := read_loop hex_line 32 max_lines (S (length fp))
                (mkReader fp line_buf dest_buf 0) in
    Ok (0, Storage.dest_buf r, []).

End Storage.

Import Storage.

(** ** Opening a file that is missing *)

Lemma sd_read_binary_missing lb vol name dest bit_len max_lines :
  vol !! name = None ->
  sd_read_binary lb vol name dest bit_len max_lines
  = Ok (-1, dest, ["Error: Failed to open file."%string]).
Proof. intros Hvol. unfold sd_read_binary, f_open, FIL. by rewrite Hvol. Qed.

Lemma sd_read_hex_missing lb vol name dest max_lines :
  vol !! name = None ->
  sd_read_hex lb vol name dest max_lines
  = Ok (-1, dest, ["Error: Failed to open file."%string]).
Proof. intros Hvol. unfold sd_read_hex, f_open, FIL. by rewrite Hvol. Qed.

(** ** Termination *)

Lemma gets_chars_app n data :
  data = (gets_chars n data).1 ++ (gets_chars n data).2.
Proof.
  revert data; induction n as [|n IH]; intros [|c data]; cbn [gets_chars]; try done.
  case_decide; [done|]. specialize (IH data).
  destruct (gets_chars n data) as [cs rest]. cbn [fst snd app] in *. congruence.
Qed.


Lemma f_gets_consumes buff len fp buf rest :
  f_gets buff len fp = (Some buf, rest) -> (length rest < length fp)%nat.
Proof.
  unfold f_gets. pose proof (gets_chars_app (Z.to_nat (len - 1)) fp) as Happ.
  destruct (gets_chars _ fp) as [cs rest']. cbn [fst snd] in *.
  destruct cs as [|c cs]; [done|]. intros [= _ <-].
  rewrite Happ, length_app. cbn [length]. lia.
Qed.

(** A body that keeps the file and does not run out of fuel itself: one
    unit of fuel for each character of the file, and one more, is
    enough for the loop. *)
Lemma read_loop_fuel body cap max_lines :
  (forall r, no_timeout (body r)) ->
  (forall r r', body r = Ok r' -> fil r' = fil r) ->
  forall fuel r, (length (fil r) < fuel)%nat ->
    no_timeout (read_loop body cap max_lines fuel r).
Proof.
  intros Hbody Hfil. induction fuel as [|fuel IH]; intros r Hfuel; [lia|].
  cbn [read_loop]. destruct (f_gets _ _ _) as [[buf|] rest] eqn:Hgets; [|done].
  apply f_gets_consumes in Hgets. case_decide; [|done].
  pose proof (Hbody (mkReader rest buf (dest_buf r) (line_count r))) as Hb.
  destruct (body _) as [r'|f] eqn:Hr; [|done]. cbn [bind].
  apply IH. rewrite (Hfil _ _ Hr). cbn [fil]. lia.
Qed.

Lemma no_timeout_store_be32 buf base v : no_timeout (store_be32 buf base v).
Proof. unfold store_be32. auto with kws. Qed.

Lemma no_timeout_binary_line bit_len r : no_timeout (binary_line bit_len r).
Proof.
  pose proof no_timeout_store_be32.
  unfold binary_line, check_line, line_value, shl1U. auto 12 with kws.
Qed.

Lemma no_timeout_hex_line r : no_timeout (hex_line r).
Proof. pose proof no_timeout_store_be32. unfold hex_line. auto with kws. Qed.

Lemma binary_line_fil bit_len r r' : binary_line bit_len r = Ok r' -> fil r' = fil r.
Proof.
  unfold binary_line. destruct (check_line _ _); [|done]. cbn [bind].
  case_decide; [by intros [= <-]|].
  destruct (line_value _ _); [|done]. cbn [bind].
  destruct (store_be32 _ _ _); [|done]. by intros [= <-].
Qed.

Lemma hex_line_fil r r' : hex_line r = Ok r' -> fil r' = fil r.
Proof.
  unfold hex_line. destruct (store_be32 _ _ _); [|done]. by intros [= <-].
Qed.

(** ** Theorems *)

(** C20.  Termination of the readers: on every volume, file name and
    arrays, whatever their sizes, the loops of [sd_read_binary] and
    [sd_read_hex] end; every call of [f_gets] that returns a line takes
    at least one character from the file, so the fuel of the model, one
    more than the length of the file, is never used up. *)
Theorem readers_terminate lb vol name dest bit_len max_lines :
  no_timeout (sd_read_binary lb vol name dest bit_len max_lines)
  /\ no_timeout (sd_read_hex lb vol name dest max_lines).
Proof.
  unfold sd_read_binary, sd_read_hex.
  destruct (f_open vol name) as [status fp].
  split; case_decide; try done; apply no_timeout_bind; try done.
  - apply read_loop_fuel;
      [apply no_timeout_binary_line | apply binary_line_fil | cbn; lia].
  - apply read_loop_fuel;
      [apply no_timeout_hex_line | apply hex_line_fil | cbn; lia].
Qed.

(** A file that cannot be opened: both readers return -1, print the
    same line, which does not name the file, and leave the destination
    as it was. *)
Theorem missing_file lb vol name dest bit_len max_lines :
  vol !! name = None ->
  sd_read_binary lb vol name dest bit_len max_lines
  = Ok (-1, dest, ["Error: Failed to open file."%string])
  /\ sd_read_hex lb vol name dest max_lines
     = Ok (-1, dest, ["Error: Failed to open file."%string]).
Proof.
  intros. split; [by apply sd_read_binary_missing | by apply sd_read_hex_missing].
Qed.

Lemma missing_file_witness :
  sd_read_binary [] ∅ "weight_bank.dat" [1; 2] 32 5
  = Ok (-1, [1; 2], ["Error: Failed to open file."%string])
  /\ sd_read_hex [] ∅ "weight_bank.dat" [1; 2] 5
     = Ok (-1, [1; 2], ["Error: Failed to open file."%string]).
Proof. by apply (missing_file [] ∅ "weight_bank.dat" [1; 2] 32 5). Defined.
