(* ===== verification/StorageSpec.v ===== *)
(** * StorageSpec: what the readers store

    A file is read as the sequence of the chunks that [f_gets] returns
    ([chunks]); for a file of lines shorter than the line buffer the
    chunks are the lines ([chunks_lines]).  [sd_read_binary] keeps the
    chunks whose first [bit_len] characters are bits, turns each into the
    word those characters spell and stores the words, four bytes each and
    most significant byte first, from the start of the destination, up to
    [max_lines] words; the rest of the destination is left as it was.
    [sd_read_hex] does the same with [strtoul] on every chunk.  Neither
    reads its line buffer past the terminator nor writes outside the
    destination when the destination has room for [max_lines] words.

    The loop is verified once, against the interface [LineBody] that the
    two bodies implement.  The last part prints a list of words as a
    file and proves the round trip through [sd_read_binary]; the end of
    the file is the case that the round trip leaves out, a line longer
    than the line buffer, which is read as several records. *)

From Stdlib Require Import ZArith Lia.
From stdpp Require Import base tactics option numbers strings list gmap.
From S2P Require Import Prelude Bytes BinStr Storage.
Import Storage.

#[local] Open Scope Z_scope.
#[local] Open Scope kws_scope.

(** ** The reference *)

Definition is_bit (c : Z) : Prop := c = char_0 \/ c = char_1.

#[export] Instance is_bit_dec c : Decision (is_bit c).
Proof. unfold is_bit; apply _. Defined.

(** A chunk that [sd_read_binary] accepts: its first [bit_len] characters
    exist and are bits. *)
Definition accepted (bit_len : Z) (chunk : list Z) : Prop :=
  bit_len <= Z.of_nat (length chunk)
  /\ Forall is_bit (take (Z.to_nat bit_len) chunk).

#[export] Instance accepted_dec bit_len chunk : Decision (accepted bit_len chunk).
Proof. unfold accepted; apply _. Defined.

(** The word of a chunk, if the chunk is accepted. *)
Definition bin_value (bit_len : Z) (chunk : list Z) : option Z :=
  if decide (accepted bit_len chunk)
  then Some (bits_value (bits_of bit_len chunk)) else None.

(** The word that [sd_read_hex] takes from a chunk. *)
Definition hex_value (chunk : list Z) : option Z :=
  Some (u32 (strtoul16 (chunk ++ [0]))).

(** The chunks of a file, for a line buffer of [cap] characters. *)
Fixpoint chunks_n (fuel : nat) (cap : Z) (data : list Z) : list (list Z) :=
  match fuel with
  | O => []
  | S fuel' =>
      match gets_chars (Z.to_nat (cap - 1)) data with
      | ([], _) => []
      | (cs, rest) => cs :: chunks_n fuel' cap rest
      end
  end.

Definition chunks (cap : Z) (data : list Z) : list (list Z) :=
  chunks_n (length data) cap data.

(** The destination after the words [ws] have been stored from its
    start. *)
Definition write_words (dest : list Z) (ws : list Z) : list Z :=
  concat (map be32 ws) ++ drop (4 * length ws) dest.

(** The words that a reader stores: those of the chunks that have one,
    in order, up to [max_lines] of them. *)
Definition words (value : list Z -> option Z) (max_lines : Z)
    (cs : list (list Z)) : list Z :=
  take (Z.to_nat max_lines) (omap value cs).

(** ** [f_gets] *)

Lemma gets_chars_length n data :
  (length (gets_chars n data).1 <= n)%nat.
Proof.
  revert data; induction n as [|n IH]; intros [|c data]; cbn [gets_chars];
    try (cbn; lia).
  case_decide; [cbn; lia|]. specialize (IH data).
  destruct (gets_chars n data) as [cs rest]. cbn [fst length] in *. lia.
Qed.

(** A call that finds room and characters takes at least one. *)
Lemma gets_chars_nil n data :
  (gets_chars n data).1 = [] -> n = 0%nat \/ data = [].
Proof.
  destruct n as [|n], data as [|c data]; cbn [gets_chars]; auto.
  case_decide; [done|]. by destruct (gets_chars n data).
Qed.

(** The array after [f_gets]: same size, the chunk and its terminator in
    front. *)
Lemma f_gets_Some buff len fp buf rest :
  Z.of_nat (length buff) = len ->
  f_gets buff len fp = (Some buf, rest) ->
  exists cs old,
    buf = cs ++ [0] ++ old /\ length buf = length buff
    /\ cs <> [] /\ gets_chars (Z.to_nat (len - 1)) fp = (cs, rest)
    /\ (length rest < length fp)%nat.
Proof.
  intros Hlen. unfold f_gets.
  pose proof (gets_chars_app (Z.to_nat (len - 1)) fp) as Happ.
  pose proof (gets_chars_length (Z.to_nat (len - 1)) fp) as Hle.
  destruct (gets_chars _ fp) as [cs rest']. cbn [fst snd] in *.
  destruct cs as [|c cs]; [done|]. intros [= <- <-].
  exists (c :: cs), (drop (S (length (c :: cs))) buff).
  split_and!; [done | | done | done | subst fp; rewrite length_app; cbn; lia].
  cbn [app length] in *. rewrite length_app. cbn [length]. rewrite length_drop. lia.
Qed.

Lemma f_gets_None buff len fp rest :
  1 < len -> f_gets buff len fp = (None, rest) -> fp = [] /\ rest = [].
Proof.
  intros Hlen. unfold f_gets.
  pose proof (gets_chars_nil (Z.to_nat (len - 1)) fp) as Hnil.
  pose proof (gets_chars_app (Z.to_nat (len - 1)) fp) as Happ.
  destruct (gets_chars _ fp) as [cs rest']. cbn [fst snd] in *.
  destruct cs; [|done]. intros [= <-].
  destruct (Hnil eq_refl) as [?| ->]; [lia|]. by destruct rest'.
Qed.

(** ** The body of [sd_read_binary] *)

Section Line.
Context (bit_len : Z) (cs old : list Z).
Context (Hbit : 0 <= bit_len <= 32).

(** The line buffer: a chunk, its terminator, then stale characters. *)
Let buf : list Z := cs ++ [0] ++ old.

Lemma buf_lookup_chunk (i : nat) c : cs !! i = Some c -> buf !! i = Some c.
Proof. intros. subst buf. by apply lookup_app_l_Some. Qed.

Lemma buf_lookup_end : buf !! length cs = Some 0.
Proof. subst buf. by rewrite lookup_app_r, Nat.sub_diag by lia. Qed.

Lemma buf_take (n : nat) : (n <= length cs)%nat -> take n buf = take n cs.
Proof. intros. subst buf. by rewrite take_app_le. Qed.

(** The scan stops at the first character that is not a bit, which comes
    no later than the terminator: the stale characters are never read. *)
Lemma check_line_spec :
  check_line bit_len buf = Ok (if decide (accepted bit_len cs) then 1 else 0).
Proof.
  unfold check_line.
  enough (exists v, for_loop (Z.to_nat bit_len) 0
                      (fun i valid =>
                         let* c := aget buf i in
                         if decide (c <> char_0 /\ c <> char_1) then Ok (Break 0)
                         else Ok (Continue valid)) 1 = Ok v
                    /\ v = if decide (accepted bit_len cs) then 1 else 0)
    as (v & -> & ->) by done.
  apply (for_loop_rule _
           (fun i v => v = 1 /\ 0 <= i <= Z.of_nat (length cs)
                       /\ Forall is_bit (take (Z.to_nat i) cs))).
  - split_and!; [done | lia.. | by rewrite take_0].
  - intros j v Hj (-> & Hjc & Hbits).
    destruct (decide (j = Z.of_nat (length cs))) as [->|Hne].
    + right. exists 0. rewrite (aget_of_nat _ _ 0) by apply buf_lookup_end.
      cbn [bind]. rewrite decide_True by done. split; [done|].
      rewrite decide_False; [done|]. intros [? _]. lia.
    + destruct (lookup_lt_is_Some_2 cs (Z.to_nat j)) as [c Hc]; [lia|].
      rewrite (aget_lookup _ _ c) by (lia || by apply buf_lookup_chunk).
      cbn [bind]. case_decide as Hbad.
      * right. exists 0. split; [done|]. rewrite decide_False; [done|].
        intros [_ Hall]. rewrite Forall_lookup in Hall.
        destruct (Hall (Z.to_nat j) c); [|tauto..].
        apply lookup_take_Some. split; [done|lia].
      * left. exists 1. split; [done|]. split_and!; [done | lia.. |].
        replace (Z.to_nat (j + 1)) with (S (Z.to_nat j)) by lia.
        rewrite (take_S_r _ _ _ Hc). apply Forall_app. split; [done|].
        apply Forall_singleton. unfold is_bit.
        destruct (decide (c = char_0)), (decide (c = char_1)); tauto.
  - intros v (-> & Hlen & Hbits). rewrite Z.add_0_l, ?Nat2Z.id in *.
    rewrite decide_True; [done|]. split; [lia|done].
Qed.

(** On an accepted chunk the conversion is Horner's rule on its first
    [bit_len] characters. *)
Lemma line_value_spec :
  accepted bit_len cs ->
  line_value bit_len buf = Ok (bits_value (bits_of bit_len cs)).
Proof.
  intros [Hlen Hbits]. unfold line_value.
  assert (Hbl : bit_len <= Z.of_nat (length buf))
    by (subst buf; rewrite length_app; lia).
  rewrite (for_loop_iter _ (fun j v => set_bits bit_len buf v j)).
  - pose proof (set_bits_value bit_len buf (Z.to_nat bit_len) 0) as H.
    rewrite Z2Nat.id, Z.add_0_l, Z.sub_diag, Z.mul_1_r in * by lia.
    change (bits_value (bits_of 0 buf) * 2 ^ (bit_len - 0)) with 0 in H.
    f_equal. etrans; [apply H; lia|].
    unfold bits_of. by rewrite buf_take by lia.
  - intros j v Hj. destruct (lookup_lt_is_Some_2 buf (Z.to_nat j)) as [c Hc]; [lia|].
    rewrite (aget_lookup _ _ c) by (done || lia). cbn [bind].
    unfold set_bits, shl1U. rewrite Hc.
    repeat case_decide; cbn [bind]; congruence || lia.
Qed.
End Line.

(** ** Chunks *)

Lemma chunks_n_enough cap (f1 : nat) : forall (f2 : nat) data,
  (length data <= f1)%nat -> (length data <= f2)%nat ->
  chunks_n f1 cap data = chunks_n f2 cap data.
Proof.
  induction f1 as [|f1 IH]; intros [|f2] data H1 H2; try done.
  - destruct data; [|cbn in *; lia]. cbn. by destruct (Z.to_nat _).
  - destruct data; [|cbn in *; lia]. cbn. by destruct (Z.to_nat _).
  - cbn [chunks_n]. pose proof (gets_chars_app (Z.to_nat (cap - 1)) data) as Happ.
    destruct (gets_chars _ data) as [[|c cs] rest]; [done|]. cbn [fst snd] in *.
    f_equal. apply IH; subst data; rewrite length_app in *; cbn in *; lia.
Qed.

(** The first chunk is what [f_gets] takes; the others are the chunks of
    what remains. *)
Lemma chunks_unfold cap data :
  chunks cap data
  = match gets_chars (Z.to_nat (cap - 1)) data with
    | ([], _) => []
    | (cs, rest) => cs :: chunks cap rest
    end.
Proof.
  unfold chunks. destruct data as [|c data]; [by destruct (Z.to_nat _)|].
  cbn [length chunks_n].
  pose proof (gets_chars_app (Z.to_nat (cap - 1)) (c :: data)) as Happ.
  destruct (gets_chars _ (c :: data)) as [[|c' cs] rest]; [done|].
  cbn [fst snd] in *. f_equal. apply chunks_n_enough; [|done].
  apply (f_equal length) in Happ. rewrite length_app in Happ. cbn in *. lia.
Qed.

(** ** Stored words *)

Lemma write_words_nil dest : write_words dest [] = dest.
Proof. done. Qed.

Lemma concat_be32_length ws : length (concat (map be32 ws)) = (4 * length ws)%nat.
Proof.
  induction ws as [|w ws IH]; [done|]. cbn [map concat length].
  rewrite length_app, IH, be32_length. lia.
Qed.

Lemma write_words_length dest ws :
  (4 * length ws <= length dest)%nat -> length (write_words dest ws) = length dest.
Proof.
  intros. unfold write_words. rewrite length_app, concat_be32_length, length_drop. lia.
Qed.

(** Storing one more word after [ws]. *)
Lemma write_words_snoc dest ws w :
  (4 * length ws + 4 <= length dest)%nat ->
  take (4 * length ws) (write_words dest ws) ++ be32 w
    ++ drop (4 * length ws + 4) (write_words dest ws)
  = write_words dest (ws ++ [w]).
Proof.
  intros Hlen. unfold write_words.
  rewrite take_app_length' by (by rewrite concat_be32_length).
  rewrite drop_app_ge by (rewrite concat_be32_length; lia).
  rewrite concat_be32_length, drop_drop, map_app, concat_app, <- app_assoc.
  cbn [map concat]. rewrite app_nil_r, length_app. cbn [length].
  do 3 f_equal. lia.
Qed.

(** ** The reading loop *)

(** The interface between the reading loop and the body of a reader:
    on a line buffer that holds a chunk and its terminator, with room
    for one more word in the destination, the body stores the word of the
    chunk, if it has one, and counts it.  The loop is verified against
    the interface; [binary_line] and [hex_line] implement it. *)
Class LineBody (body : reader -> res reader) (value : list Z -> option Z) : Prop :=
  line_body : forall fp cs old dest n,
    0 <= n -> n * 4 + 4 <= Z.of_nat (length dest) ->
    body (mkReader fp (cs ++ [0] ++ old) dest n)
    = Ok (match value cs with
          | Some w =>
              mkReader fp (cs ++ [0] ++ old)
                (take (Z.to_nat (n * 4)) dest ++ be32 w
                   ++ drop (Z.to_nat (n * 4) + 4) dest) (n + 1)
          | None => mkReader fp (cs ++ [0] ++ old) dest n
          end).

Section Loop.
Context (body : reader -> res reader) (value : list Z -> option Z).
Context `{!LineBody body value}.
Context (cap max_lines : Z) (dest0 : list Z).
Context (Hcap : 1 < cap) (Hmax : 0 <= max_lines).
Context (Hroom : 4 * max_lines <= Z.of_nat (length dest0)).

(** The state of the loop when the words [ws] have been stored. *)
Let st_at (fp lb : list Z) (ws : list Z) : reader :=
  mkReader fp lb (write_words dest0 ws) (Z.of_nat (length ws)).

Lemma body_st_at fp cs old ws :
  Z.of_nat (length ws) < max_lines ->
  body (st_at fp (cs ++ [0] ++ old) ws)
  = Ok (st_at fp (cs ++ [0] ++ old) (ws ++ from_option (fun w => [w]) [] (value cs))).
Proof.
  intros Hn. unfold st_at.
  rewrite line_body by (rewrite ?write_words_length; lia).
  destruct (value cs) as [w|]; cbn [from_option]; [|by rewrite app_nil_r].
  rewrite length_app, Nat2Z.inj_add. cbn [length]. do 2 f_equal.
  replace (Z.to_nat (Z.of_nat (length ws) * 4)) with (4 * length ws)%nat by lia.
  apply write_words_snoc. lia.
Qed.

(** With fuel for every character of the file, the loop returns after
    storing the words of the chunks that remain, up to [max_lines] in
    all. *)
Lemma read_loop_spec (fuel : nat) : forall fp lb ws,
  (length fp < fuel)%nat -> Z.of_nat (length lb) = cap ->
  Z.of_nat (length ws) <= max_lines ->
  exists r,
    read_loop body cap max_lines fuel (st_at fp lb ws) = Ok r
    /\ dest_buf r
       = write_words dest0
           (ws ++ take (Z.to_nat max_lines - length ws)
                    (omap value (chunks cap fp))).
Proof.
  induction fuel as [|fuel IH]; intros fp lb ws Hfuel Hlb Hws; [lia|].
  cbn [read_loop]. unfold st_at in *. cbn [line_buf fil dest_buf line_count].
  destruct (f_gets lb cap fp) as [[buf|] rest] eqn:Hgets.
  - destruct (f_gets_Some _ _ _ _ _ Hlb Hgets)
      as (cs & old & -> & Hlen & Hcs & Hchars & Hrest).
    rewrite (chunks_unfold cap fp), Hchars.
    destruct cs as [|c cs]; [done|]. set (chunk := c :: cs) in *.
    case_decide as Hlt.
    + pose proof (body_st_at rest chunk old ws Hlt) as Hb. unfold st_at in Hb.
      rewrite Hb. cbn [bind].
      destruct (IH rest (chunk ++ [0] ++ old)
                  (ws ++ from_option (fun w => [w]) [] (value chunk)))
        as (r & Hr & Hdest); [lia | congruence | |].
      { rewrite length_app. destruct (value chunk); cbn; lia. }
      exists r. split; [done|]. rewrite Hdest. f_equal. cbn [omap list_omap].
      destruct (value chunk) as [w|]; cbn [from_option].
      * rewrite <- app_assoc, length_app. cbn [length app].
        replace (Z.to_nat max_lines - length ws)%nat
          with (S (Z.to_nat max_lines - (length ws + 1))) by lia.
        done.
      * by rewrite app_nil_r.
    + eexists. split; [done|]. cbn [dest_buf].
      replace (Z.to_nat max_lines - length ws)%nat with 0%nat by lia.
      by rewrite take_0, app_nil_r.
  - destruct (f_gets_None _ _ _ _ Hcap Hgets) as [-> ->].
    eexists. split; [done|]. cbn [dest_buf].
    change (chunks cap []) with (@nil (list Z)). cbn [omap list_omap].
    by rewrite take_nil, app_nil_r.
Qed.

(** The whole loop, from the first line. *)
Lemma read_file_spec fp lb :
  Z.of_nat (length lb) = cap ->
  exists r,
    read_loop body cap max_lines (S (length fp)) (mkReader fp lb dest0 0) = Ok r
    /\ dest_buf r = write_words dest0 (words value max_lines (chunks cap fp)).
Proof.
  intros Hlb.
  destruct (read_loop_spec (S (length fp)) fp lb []) as (r & Hr & Hdest);
    [lia | done | cbn; lia |].
  exists r. split; [done|]. rewrite Hdest. unfold words.
  cbn [app length]. by rewrite Nat.sub_0_r.
Qed.
End Loop.

(** ** The two bodies *)

Lemma binary_line_body bit_len :
  0 <= bit_len <= 32 -> LineBody (binary_line bit_len) (bin_value bit_len).
Proof.
  intros Hbit fp cs old dest n Hn Hroom. unfold binary_line, bin_value.
  cbn [line_buf dest_buf line_count fil].
  rewrite check_line_spec by done. cbn [bind].
  destruct (decide (accepted bit_len cs)) as [Hacc|Hacc].
  - rewrite decide_False by done.
    rewrite line_value_spec by done. cbn [bind].
    by rewrite store_be32_spec by lia.
  - by rewrite decide_True.
Qed.

(** [strtoul] reads the chunk and stops at its terminator. *)
Lemma c_chars_chunk cs old : c_chars (cs ++ [0] ++ old) = c_chars (cs ++ [0]).
Proof.
  induction cs as [|c cs IH]; [done|]. cbn [app c_chars].
  case_decide; [done|]. by f_equal.
Qed.

Lemma strtoul16_chunk cs old : strtoul16 (cs ++ [0] ++ old) = strtoul16 (cs ++ [0]).
Proof. unfold strtoul16. by rewrite c_chars_chunk. Qed.

#[export] Instance hex_line_body : LineBody hex_line hex_value.
Proof.
  intros fp cs old dest n Hn Hroom. unfold hex_line, hex_value.
  cbn [line_buf dest_buf line_count fil].
  by rewrite store_be32_spec, strtoul16_chunk by lia.
Qed.

(** ** Files of lines *)

(** The contents of a text file: each line followed by a newline. *)
Definition text (lines : list (list Z)) : list Z :=
  concat (map (fun l => l ++ [10]) lines).

(** A line that fits in a buffer of [cap] characters with its newline
    and the terminator, and holds no newline. *)
Definition line_ok (cap : Z) (l : list Z) : Prop :=
  Z.of_nat (length l) + 1 < cap /\ 10 ∉ l.

Lemma gets_chars_line n l rest :
  (length l < n)%nat -> 10 ∉ l ->
  gets_chars n (l ++ [10] ++ rest) = (l ++ [10], rest).
Proof.
  revert n; induction l as [|c l IH]; intros [|n] Hn Hnl; cbn in Hn; try lia.
  - cbn. by rewrite decide_True.
  - apply not_elem_of_cons in Hnl as [Hc Hnl]. cbn [app gets_chars].
    rewrite decide_False by done. cbn [app] in IH. rewrite IH by (lia || done).
    done.
Qed.

(** The chunks of a file of lines are its lines. *)
Lemma chunks_lines cap lines :
  Forall (line_ok cap) lines ->
  chunks cap (text lines) = map (fun l => l ++ [10]) lines.
Proof.
  induction 1 as [|l lines [Hlen Hnl] _ IH]; [done|].
  rewrite chunks_unfold. unfold text. cbn [map concat].
  rewrite <- app_assoc, gets_chars_line by (lia || done).
  destruct l; cbn [app]; f_equal; exact IH.
Qed.

(** The newline does not change what a line is worth. *)
Lemma bin_value_newline bit_len l :
  0 <= bit_len -> bin_value bit_len (l ++ [10]) = bin_value bit_len l.
Proof.
  intros Hbit. unfold bin_value, bits_of.
  assert (Hacc : accepted bit_len (l ++ [10]) <-> accepted bit_len l).
  { unfold accepted. rewrite length_app. cbn [length].
    destruct (decide (bit_len <= Z.of_nat (length l))).
    - rewrite take_app_le by lia. split; intros [? ?]; split; done || lia.
    - split; [|intros [? _]; lia]. intros [Hlen Hall]. exfalso.
      replace (Z.to_nat bit_len) with (S (length l)) in Hall by lia.
      rewrite take_ge in Hall by (rewrite length_app; cbn; lia).
      apply Forall_app in Hall as [_ Hn]. apply Forall_inv in Hn.
      unfold is_bit, char_0, char_1 in Hn. lia. }
  destruct (decide (accepted bit_len l)) as [Ha|Hn].
  - rewrite decide_True by (by apply Hacc). destruct Ha as [Hle _].
    by rewrite take_app_le by lia.
  - rewrite decide_False; [done|]. by rewrite Hacc.
Qed.

Lemma words_lines bit_len max_lines lines :
  0 <= bit_len ->
  words (bin_value bit_len) max_lines (map (fun l => l ++ [10]) lines)
  = words (bin_value bit_len) max_lines lines.
Proof.
  intros Hbit. unfold words. f_equal.
  induction lines as [|l lines IH]; [done|]. cbn [map omap list_omap].
  rewrite bin_value_newline by done.
  destruct (bin_value bit_len l); [f_equal|]; exact IH.
Qed.

(** A line that is not accepted leaves no trace. *)
Lemma words_skip value max_lines l1 bad l2 :
  value bad = None ->
  words value max_lines (l1 ++ bad :: l2) = words value max_lines (l1 ++ l2).
Proof.
  intros Hbad. unfold words. f_equal.
  induction l1 as [|l l1 IH]; cbn [app omap list_omap]; [by rewrite Hbad|].
  destruct (value l); [f_equal|]; exact IH.
Qed.

(** [sd_read_hex] takes a word from every chunk. *)
Lemma hex_words cs :
  omap hex_value cs = map (fun c => u32 (strtoul16 (c ++ [0]))) cs.
Proof.
  induction cs as [|c cs IH]; [done|]. cbn [omap list_omap map hex_value].
  by f_equal.
Qed.

(** ** The readers *)

Lemma sd_read_binary_chunks lb vol name dest bit_len max_lines data :
  vol !! name = Some data -> Z.of_nat (length lb) = 128 ->
  0 <= bit_len <= 32 -> 0 <= max_lines ->
  4 * max_lines <= Z.of_nat (length dest) ->
  sd_read_binary lb vol name dest bit_len max_lines
  = Ok (0, write_words dest (words (bin_value bit_len) max_lines (chunks 128 data)),
        []).
Proof.
  intros Hvol Hlb Hbit Hmax Hroom. unfold sd_read_binary, f_open, FIL.
  rewrite Hvol, decide_False by (by intros []).
  pose proof (binary_line_body bit_len Hbit).
  destruct (read_file_spec (binary_line bit_len) (bin_value bit_len)
              128 max_lines dest) with (fp := data) (lb := lb)
    as (r & Hr & Hd); try done.
  rewrite Hr. cbn [bind]. by rewrite Hd.
Qed.

Lemma sd_read_hex_chunks lb vol name dest max_lines data :
  vol !! name = Some data -> Z.of_nat (length lb) = 32 -> 0 <= max_lines ->
  4 * max_lines <= Z.of_nat (length dest) ->
  sd_read_hex lb vol name dest max_lines
  = Ok (0, write_words dest (words hex_value max_lines (chunks 32 data)), []).
Proof.
  intros Hvol Hlb Hmax Hroom. unfold sd_read_hex, f_open, FIL.
  rewrite Hvol, decide_False by (by intros []).
  destruct (read_file_spec hex_line hex_value 32 max_lines dest)
    with (fp := data) (lb := lb) as (r & Hr & Hd); try done.
  rewrite Hr. cbn [bind]. by rewrite Hd.
Qed.

(** ** Theorems *)

(** C5.  [sd_read_binary] on a file that exists, with a width of at most
    32 and a destination that has room for [max_lines] words: the
    function returns 0, prints nothing, never leaves the bounds of the
    line buffer or of the destination, and the destination holds, from
    its start, the words of the accepted chunks of the file in order, up
    to [max_lines] of them, four bytes each and most significant byte
    first; the bytes that follow are unchanged. *)
Theorem sd_read_binary_spec lb vol name dest bit_len max_lines data :
  vol !! name = Some data -> Z.of_nat (length lb) = 128 ->
  0 <= bit_len <= 32 -> 0 <= max_lines ->
  4 * max_lines <= Z.of_nat (length dest) ->
  sd_read_binary lb vol name dest bit_len max_lines
  = Ok (0, write_words dest (words (bin_value bit_len) max_lines (chunks 128 data)),
        []).
Proof. apply sd_read_binary_chunks. Qed.

Lemma sd_read_binary_spec_witness :
  sd_read_binary (replicate 128 0) {[ "f"%string := text [[49; 48; 49]; [50]; [49; 49; 49; 49]] ]}
    "f" [7; 7; 7; 7; 7; 7; 7; 7; 7; 7; 7; 7] 3 2
  = Ok (0, write_words [7; 7; 7; 7; 7; 7; 7; 7; 7; 7; 7; 7]
             (words (bin_value 3) 2
                (chunks 128 (text [[49; 48; 49]; [50]; [49; 49; 49; 49]]))), []).
Proof.
  apply (sd_read_binary_spec (replicate 128 0)); try done; cbn; lia.
Defined.

(** [sd_read_binary] on a text file whose lines fit in the line
    buffer: the words stored are those of the lines whose first [bit_len]
    characters are bits, in the order of the file; a line that is too
    short, or holds another character among its first [bit_len], is
    skipped and does not count towards [max_lines]. *)
Theorem sd_read_binary_lines lb vol name dest bit_len max_lines lines :
  vol !! name = Some (text lines) -> Forall (line_ok 128) lines ->
  Z.of_nat (length lb) = 128 -> 0 <= bit_len <= 32 -> 0 <= max_lines ->
  4 * max_lines <= Z.of_nat (length dest) ->
  sd_read_binary lb vol name dest bit_len max_lines
  = Ok (0, write_words dest (take (Z.to_nat max_lines)
                               (omap (bin_value bit_len) lines)), []).
Proof.
  intros Hvol Hlines Hlb Hbit Hmax Hroom.
  rewrite (sd_read_binary_chunks lb vol name dest bit_len max_lines (text lines))
    by done.
  by rewrite chunks_lines, words_lines by (done || lia).
Qed.

Lemma sd_read_binary_lines_witness :
  sd_read_binary (replicate 128 0)
    {[ "f"%string := text [[49; 48; 49]; [50]; [49; 49; 49; 49]] ]}
    "f" [7; 7; 7; 7; 7; 7; 7; 7; 7; 7; 7; 7] 3 2
  = Ok (0, write_words [7; 7; 7; 7; 7; 7; 7; 7; 7; 7; 7; 7]
             (take (Z.to_nat 2)
                (omap (bin_value 3) [[49; 48; 49]; [50]; [49; 49; 49; 49]])), []).
Proof.
  apply (sd_read_binary_lines (replicate 128 0)); try done; try (cbn; lia).
  repeat constructor; cbn; try lia; by apply (bool_decide_unpack _).
Defined.

(** C29.  A malformed line is skipped: a line that is not accepted (fewer
    than [bit_len] leading bit characters) can be removed from the file
    without changing what [sd_read_binary] returns and stores. *)
Theorem malformed_line_skipped lb vol name dest bit_len max_lines l1 bad l2 :
  Forall (line_ok 128) (l1 ++ bad :: l2) -> ~ accepted bit_len bad ->
  Z.of_nat (length lb) = 128 -> 0 <= bit_len <= 32 -> 0 <= max_lines ->
  4 * max_lines <= Z.of_nat (length dest) ->
  sd_read_binary lb (<[name := text (l1 ++ bad :: l2)]> vol) name dest bit_len max_lines
  = sd_read_binary lb (<[name := text (l1 ++ l2)]> vol) name dest bit_len max_lines.
Proof.
  intros Hlines Hbad Hlb Hbit Hmax Hroom.
  assert (Hlines' : Forall (line_ok 128) (l1 ++ l2)).
  { apply Forall_app in Hlines as [? [_ ?]%Forall_cons]. by apply Forall_app. }
  rewrite !(sd_read_binary_chunks lb _ name dest bit_len max_lines (text _))
    by (done || apply lookup_insert_eq).
  rewrite !chunks_lines, !words_lines by (done || lia).
  rewrite words_skip; [done|]. unfold bin_value. by rewrite decide_False.
Qed.

Lemma malformed_line_skipped_witness :
  sd_read_binary (replicate 128 0)
    (<["f"%string := text ([[49; 48; 49]] ++ [50] :: [[49; 49; 49; 49]])]> ∅)
    "f" (replicate 12 7) 3 2
  = sd_read_binary (replicate 128 0)
      (<["f"%string := text ([[49; 48; 49]] ++ [[49; 49; 49; 49]])]> ∅)
      "f" (replicate 12 7) 3 2.
Proof.
  apply (malformed_line_skipped (replicate 128 0) ∅ "f" (replicate 12 7) 3 2
           [[49; 48; 49]] [50] [[49; 49; 49; 49]]); try done; try (cbn; lia).
  - repeat constructor; cbn; try lia; by apply (bool_decide_unpack _).
  - intros [Hlen _]. cbn in Hlen. lia.
Defined.

(** C28.  [sd_read_hex] on a file that exists, with a destination that has
    room for [max_lines] words: the function returns 0, stays within its
    arrays, and stores the value that [strtoul] gives for every chunk of
    at most 31 characters, in order, up to [max_lines] words; no chunk is
    skipped, whatever it holds. *)
Theorem sd_read_hex_spec lb vol name dest max_lines data :
  vol !! name = Some data -> Z.of_nat (length lb) = 32 -> 0 <= max_lines ->
  4 * max_lines <= Z.of_nat (length dest) ->
  sd_read_hex lb vol name dest max_lines
  = Ok (0, write_words dest
             (take (Z.to_nat max_lines)
                (map (fun c => u32 (strtoul16 (c ++ [0]))) (chunks 32 data))), []).
Proof.
  intros Hvol Hlb Hmax Hroom. rewrite (sd_read_hex_chunks lb vol name dest max_lines data)
    by done.
  unfold words. by rewrite hex_words.
Qed.

Lemma sd_read_hex_spec_witness :
  sd_read_hex (replicate 32 0) {[ "w"%string := text [[49; 70]; [120]] ]} "w"
    (replicate 8 7) 2
  = Ok (0, write_words (replicate 8 7)
             (take (Z.to_nat 2)
                (map (fun c => u32 (strtoul16 (c ++ [0])))
                   (chunks 32 (text [[49; 70]; [120]])))), []).
Proof. apply (sd_read_hex_spec (replicate 32 0)); try done; cbn; lia. Defined.

(** [platform_init_fs] on every card: a card that mounts is left as
    it is; a card that can be used but holds no FAT volume is formatted,
    which leaves an empty volume, and the function still returns 0; a
    card that cannot be used gives -1, after the format when no disk
    answers and after the second mount when the format is lost. *)
Theorem platform_init_fs_spec c :
  platform_init_fs c
  = if healthy c
    then if fat c then (0, c, [])
         else (0, mkCard true true ∅ (defect c),
               ["Volume is not FAT-formatted; formatting FAT"%string])
    else (-1, c, ["Volume is not FAT-formatted; formatting FAT"%string;
                  match defect c with
                  | NoDisk => "Unable to format FAT"%string
                  | FormatLost => "Unable to mount SD card"%string
                  end]).
Proof. unfold platform_init_fs, f_mount, f_mkfs. by destruct c as [[] [] ? []]. Qed.

(** ** Printing a model file *)

(** The line that prints the word [v] on [n] bit characters, and the file
    that prints a list of words, one per line. *)
Definition bit_line (n : nat) (v : Z) : list Z := map bit_char (to_bits n v).

Definition print_file (n : nat) (vs : list Z) : list Z := text (map (bit_line n) vs).

Lemma bit_line_length n v : length (bit_line n v) = n.
Proof. unfold bit_line. by rewrite length_map, to_bits_length. Qed.

Lemma bit_line_bits n v : Forall is_bit (bit_line n v).
Proof.
  unfold bit_line. apply Forall_fmap, Forall_true. intros []; [by right | by left].
Qed.

Lemma bit_line_ok n v : (n <= 32)%nat -> line_ok 128 (bit_line n v).
Proof.
  intros Hn. split; [rewrite bit_line_length; lia|].
  intros Hin. pose proof (bit_line_bits n v) as Hbits.
  rewrite Forall_forall in Hbits. specialize (Hbits _ Hin).
  unfold is_bit, char_0, char_1 in Hbits. lia.
Qed.

Lemma bin_value_bit_line n v :
  0 <= v < 2 ^ Z.of_nat n -> bin_value (Z.of_nat n) (bit_line n v) = Some v.
Proof.
  intros Hv. unfold bin_value. rewrite decide_True.
  - f_equal. unfold bits_of. rewrite Nat2Z.id, take_ge by (rewrite bit_line_length; lia).
    unfold bit_line. rewrite map_map.
    rewrite (map_ext _ id) by (by intros []). rewrite map_id.
    by rewrite bits_value_to_bits, Z.mod_small.
  - split; [rewrite bit_line_length; lia|]. apply Forall_take, bit_line_bits.
Qed.

Lemma omap_bit_lines n vs :
  Forall (fun v => 0 <= v < 2 ^ Z.of_nat n) vs ->
  omap (bin_value (Z.of_nat n)) (map (bit_line n) vs) = vs.
Proof.
  induction 1 as [|v vs Hv _ IH]; [done|]. cbn [map omap list_omap].
  rewrite bin_value_bit_line by done. by f_equal.
Qed.

(** C31.  Round trip between the file format and the buffer: a file that prints
    the words [vs], one per line on [n] bit characters, is read back as
    the bytes of these words, most significant byte first; the cells of
    the destination that follow are unchanged. *)
Theorem model_file_roundtrip lb vol name dest (n : nat) max_lines vs :
  vol !! name = Some (print_file n vs) -> Z.of_nat (length lb) = 128 ->
  (n <= 32)%nat -> Forall (fun v => 0 <= v < 2 ^ Z.of_nat n) vs ->
  Z.of_nat (length vs) <= max_lines -> 4 * max_lines <= Z.of_nat (length dest) ->
  sd_read_binary lb vol name dest (Z.of_nat n) max_lines
  = Ok (0, concat (map be32 vs) ++ drop (4 * length vs) dest, []).
Proof.
  intros Hvol Hlb Hn Hvs Hlen Hroom.
  rewrite (sd_read_binary_chunks lb vol name dest (Z.of_nat n) max_lines
             (print_file n vs)) by (done || lia).
  unfold print_file. rewrite chunks_lines, words_lines
    by (lia || apply Forall_fmap, Forall_true; intros v; by apply bit_line_ok).
  unfold words. rewrite omap_bit_lines by done.
  by rewrite take_ge by lia.
Qed.

Lemma model_file_roundtrip_witness :
  sd_read_binary (replicate 128 0) {[ "f"%string := print_file 6 [5; 63; 0] ]} "f"
    (replicate 16 255) (Z.of_nat 6) 4
  = Ok (0, concat (map be32 [5; 63; 0]) ++ drop (4 * length [5; 63; 0]) (replicate 16 255),
        []).
Proof.
  apply (model_file_roundtrip (replicate 128 0) _ "f" (replicate 16 255) 6 4 [5; 63; 0]);
    [done | done | lia | repeat constructor; lia | cbn; lia | cbn; lia].
Defined.

(** ** Lines longer than the line buffer *)

(** [f_gets] takes a buffer full of characters from a line that has no
    newline among them. *)
Lemma gets_chars_full n l rest :
  length l = n -> 10 ∉ l -> gets_chars n (l ++ rest) = (l, rest).
Proof.
  revert n; induction l as [|c l IH]; intros n <- Hnl; [done|].
  apply not_elem_of_cons in Hnl as [Hc Hnl]. cbn [app length gets_chars].
  by rewrite decide_False, (IH (length l)) by done.
Qed.

Lemma chunks_long_line l1 rest :
  length l1 = 127%nat -> 10 ∉ l1 ->
  chunks 128 (l1 ++ rest) = l1 :: chunks 128 rest.
Proof.
  intros Hlen Hnl. rewrite chunks_unfold.
  change (Z.to_nat (128 - 1)) with 127%nat. rewrite gets_chars_full by done.
  destruct l1; [done|]. reflexivity.
Qed.

(** C34.  A line that does not fit in the line buffer is several records.
    [f_gets] returns the first 127 characters of the line, and the
    next call goes on in the same line: when the characters that follow
    start with [bit_len] bits they are stored as one more word. *)
Theorem long_line_is_two_records lb vol name dest bit_len max_lines l1 l2 lines :
  vol !! name = Some (text ((l1 ++ l2) :: lines)) ->
  length l1 = 127%nat -> 10 ∉ l1 ->
  Z.of_nat (length lb) = 128 -> 0 <= bit_len <= 32 -> 0 <= max_lines ->
  4 * max_lines <= Z.of_nat (length dest) ->
  sd_read_binary lb vol name dest bit_len max_lines
  = Ok (0, write_words dest
             (words (bin_value bit_len) max_lines
                (l1 :: chunks 128 (text (l2 :: lines)))), []).
Proof.
  intros Hvol Hlen Hnl Hlb Hbit Hmax Hroom.
  rewrite (sd_read_binary_chunks lb vol name dest bit_len max_lines _ Hvol)
    by done.
  unfold text. cbn [map concat]. rewrite <- !app_assoc.
  by rewrite chunks_long_line.
Qed.

Lemma long_line_is_two_records_witness :
  sd_read_binary (replicate 128 0)
    {[ "f"%string := text [replicate 127 49 ++ [48; 48; 49]] ]}
    "f" (replicate 8 7) 3 2
  = Ok (0, [0; 0; 0; 7; 0; 0; 0; 1], []).
Proof.
  rewrite (long_line_is_two_records (replicate 128 0) _ "f" (replicate 8 7) 3 2
             (replicate 127 49) [48; 48; 49] []); try done.
  apply (bool_decide_unpack _). by vm_compute.
Defined.
