(* ===== verification/ModelData.v ===== *)
(** * ModelData: reading the model from the card

    [read_model_data] ([spi_config.c], lines 33-51) fills the fourteen
    buffers from fourteen files: thirteen through [sd_read_binary], with
    the width of the region, and the weights through [sd_read_hex].  The
    return value of every call is dropped.  The first file read,
    [feature_bank_data.txt], fills a buffer that [initial_TMA] never
    sends. *)

From Stdlib Require Import ZArith Lia.
From stdpp Require Import base tactics option numbers strings list gmap.
From S2P Require Import Prelude Bytes BinStr Loader Storage.
Import Loader Storage.

#[local] Open Scope Z_scope.
#[local] Open Scope kws_scope.

Module ModelData.

(** ** File names ([spi_config.h], lines 11-25) *)

Definition CONF_REG_FILE_NAME : string := "spi_config_reg.txt"%string.
Definition CONF_BLOCK_BANK_FILE_NAME : string := "block_idx_bank.dat"%string.
Definition CONF_ROW_BANK0_FILE_NAME : string := "row_cnt_bank0.dat"%string.
Definition CONF_ROW_BANK1_FILE_NAME : string := "row_cnt_bank1.dat"%string.
Definition CONF_ROW_BANK2_FILE_NAME : string := "row_cnt_bank2.dat"%string.
Definition CONF_ROW_BANK3_FILE_NAME : string := "row_cnt_bank3.dat"%string.
Definition CONF_ROW_BANK4_FILE_NAME : string := "row_cnt_bank4.dat"%string.
Definition CONF_CCL_BANK0_FILE_NAME : string := "col_cla_idx_bank0.dat"%string.
Definition CONF_CCL_BANK1_FILE_NAME : string := "col_cla_idx_bank1.dat"%string.
Definition CONF_CCL_BANK2_FILE_NAME : string := "col_cla_idx_bank2.dat"%string.
Definition CONF_CCL_BANK3_FILE_NAME : string := "col_cla_idx_bank3.dat"%string.
Definition CONF_CCL_BANK4_FILE_NAME : string := "col_cla_idx_bank4.dat"%string.
Definition CONF_WEIGHT_BANK_FILE_NAME : string := "weight_bank.dat"%string.
(** The name of the feature file is a literal of [read_model_data]. *)
Definition FEATURE_BANK_FILE_NAME : string := "feature_bank_data.txt"%string.

(** ** Assignments to the buffers *)

Definition set_Conf_reg_Buffer (v : list Z) (b : buffers) : buffers :=
  {| Conf_reg_Buffer := v;
     Conf_block_Buffer := Conf_block_Buffer b;
     Conf_row_Buffer0 := Conf_row_Buffer0 b;
     Conf_row_Buffer1 := Conf_row_Buffer1 b;
     Conf_row_Buffer2 := Conf_row_Buffer2 b;
     Conf_row_Buffer3 := Conf_row_Buffer3 b;
     Conf_row_Buffer4 := Conf_row_Buffer4 b;
     Conf_ccl_Buffer0 := Conf_ccl_Buffer0 b;
     Conf_ccl_Buffer1 := Conf_ccl_Buffer1 b;
     Conf_ccl_Buffer2 := Conf_ccl_Buffer2 b;
     Conf_ccl_Buffer3 := Conf_ccl_Buffer3 b;
     Conf_ccl_Buffer4 := Conf_ccl_Buffer4 b;
     Conf_weight_Buffer := Conf_weight_Buffer b;
     Conf_feature_bank_Buffer := Conf_feature_bank_Buffer b |}.

Definition set_Conf_block_Buffer (v : list Z) (b : buffers) : buffers :=
  {| Conf_reg_Buffer := Conf_reg_Buffer b;
     Conf_block_Buffer := v;
     Conf_row_Buffer0 := Conf_row_Buffer0 b;
     Conf_row_Buffer1 := Conf_row_Buffer1 b;
     Conf_row_Buffer2 := Conf_row_Buffer2 b;
     Conf_row_Buffer3 := Conf_row_Buffer3 b;
     Conf_row_Buffer4 := Conf_row_Buffer4 b;
     Conf_ccl_Buffer0 := Conf_ccl_Buffer0 b;
     Conf_ccl_Buffer1 := Conf_ccl_Buffer1 b;
     Conf_ccl_Buffer2 := Conf_ccl_Buffer2 b;
     Conf_ccl_Buffer3 := Conf_ccl_Buffer3 b;
     Conf_ccl_Buffer4 := Conf_ccl_Buffer4 b;
     Conf_weight_Buffer := Conf_weight_Buffer b;
     Conf_feature_bank_Buffer := Conf_feature_bank_Buffer b |}.

Definition set_Conf_row_Buffer0 (v : list Z) (b : buffers) : buffers :=
  {| Conf_reg_Buffer := Conf_reg_Buffer b;
     Conf_block_Buffer := Conf_block_Buffer b;
     Conf_row_Buffer0 := v;
     Conf_row_Buffer1 := Conf_row_Buffer1 b;
     Conf_row_Buffer2 := Conf_row_Buffer2 b;
     Conf_row_Buffer3 := Conf_row_Buffer3 b;
     Conf_row_Buffer4 := Conf_row_Buffer4 b;
     Conf_ccl_Buffer0 := Conf_ccl_Buffer0 b;
     Conf_ccl_Buffer1 := Conf_ccl_Buffer1 b;
     Conf_ccl_Buffer2 := Conf_ccl_Buffer2 b;
     Conf_ccl_Buffer3 := Conf_ccl_Buffer3 b;
     Conf_ccl_Buffer4 := Conf_ccl_Buffer4 b;
     Conf_weight_Buffer := Conf_weight_Buffer b;
     Conf_feature_bank_Buffer := Conf_feature_bank_Buffer b |}.

Definition set_Conf_row_Buffer1 (v : list Z) (b : buffers) : buffers :=
  {| Conf_reg_Buffer := Conf_reg_Buffer b;
     Conf_block_Buffer := Conf_block_Buffer b;
     Conf_row_Buffer0 := Conf_row_Buffer0 b;
     Conf_row_Buffer1 := v;
     Conf_row_Buffer2 := Conf_row_Buffer2 b;
     Conf_row_Buffer3 := Conf_row_Buffer3 b;
     Conf_row_Buffer4 := Conf_row_Buffer4 b;
     Conf_ccl_Buffer0 := Conf_ccl_Buffer0 b;
     Conf_ccl_Buffer1 := Conf_ccl_Buffer1 b;
     Conf_ccl_Buffer2 := Conf_ccl_Buffer2 b;
     Conf_ccl_Buffer3 := Conf_ccl_Buffer3 b;
     Conf_ccl_Buffer4 := Conf_ccl_Buffer4 b;
     Conf_weight_Buffer := Conf_weight_Buffer b;
     Conf_feature_bank_Buffer := Conf_feature_bank_Buffer b |}.

Definition set_Conf_row_Buffer2 (v : list Z) (b : buffers) : buffers :=
  {| Conf_reg_Buffer := Conf_reg_Buffer b;
     Conf_block_Buffer := Conf_block_Buffer b;
     Conf_row_Buffer0 := Conf_row_Buffer0 b;
     Conf_row_Buffer1 := Conf_row_Buffer1 b;
     Conf_row_Buffer2 := v;
     Conf_row_Buffer3 := Conf_row_Buffer3 b;
     Conf_row_Buffer4 := Conf_row_Buffer4 b;
     Conf_ccl_Buffer0 := Conf_ccl_Buffer0 b;
     Conf_ccl_Buffer1 := Conf_ccl_Buffer1 b;
     Conf_ccl_Buffer2 := Conf_ccl_Buffer2 b;
     Conf_ccl_Buffer3 := Conf_ccl_Buffer3 b;
     Conf_ccl_Buffer4 := Conf_ccl_Buffer4 b;
     Conf_weight_Buffer := Conf_weight_Buffer b;
     Conf_feature_bank_Buffer := Conf_feature_bank_Buffer b |}.

Definition set_Conf_row_Buffer3 (v : list Z) (b : buffers) : buffers :=
  {| Conf_reg_Buffer := Conf_reg_Buffer b;
     Conf_block_Buffer := Conf_block_Buffer b;
     Conf_row_Buffer0 := Conf_row_Buffer0 b;
     Conf_row_Buffer1 := Conf_row_Buffer1 b;
     Conf_row_Buffer2 := Conf_row_Buffer2 b;
     Conf_row_Buffer3 := v;
     Conf_row_Buffer4 := Conf_row_Buffer4 b;
     Conf_ccl_Buffer0 := Conf_ccl_Buffer0 b;
     Conf_ccl_Buffer1 := Conf_ccl_Buffer1 b;
     Conf_ccl_Buffer2 := Conf_ccl_Buffer2 b;
     Conf_ccl_Buffer3 := Conf_ccl_Buffer3 b;
     Conf_ccl_Buffer4 := Conf_ccl_Buffer4 b;
     Conf_weight_Buffer := Conf_weight_Buffer b;
     Conf_feature_bank_Buffer := Conf_feature_bank_Buffer b |}.

Definition set_Conf_row_Buffer4 (v : list Z) (b : buffers) : buffers :=
  {| Conf_reg_Buffer := Conf_reg_Buffer b;
     Conf_block_Buffer := Conf_block_Buffer b;
     Conf_row_Buffer0 := Conf_row_Buffer0 b;
     Conf_row_Buffer1 := Conf_row_Buffer1 b;
     Conf_row_Buffer2 := Conf_row_Buffer2 b;
     Conf_row_Buffer3 := Conf_row_Buffer3 b;
     Conf_row_Buffer4 := v;
     Conf_ccl_Buffer0 := Conf_ccl_Buffer0 b;
     Conf_ccl_Buffer1 := Conf_ccl_Buffer1 b;
     Conf_ccl_Buffer2 := Conf_ccl_Buffer2 b;
     Conf_ccl_Buffer3 := Conf_ccl_Buffer3 b;
     Conf_ccl_Buffer4 := Conf_ccl_Buffer4 b;
     Conf_weight_Buffer := Conf_weight_Buffer b;
     Conf_feature_bank_Buffer := Conf_feature_bank_Buffer b |}.

Definition set_Conf_ccl_Buffer0 (v : list Z) (b : buffers) : buffers :=
  {| Conf_reg_Buffer := Conf_reg_Buffer b;
     Conf_block_Buffer := Conf_block_Buffer b;
     Conf_row_Buffer0 := Conf_row_Buffer0 b;
     Conf_row_Buffer1 := Conf_row_Buffer1 b;
     Conf_row_Buffer2 := Conf_row_Buffer2 b;
     Conf_row_Buffer3 := Conf_row_Buffer3 b;
     Conf_row_Buffer4 := Conf_row_Buffer4 b;
     Conf_ccl_Buffer0 := v;
     Conf_ccl_Buffer1 := Conf_ccl_Buffer1 b;
     Conf_ccl_Buffer2 := Conf_ccl_Buffer2 b;
     Conf_ccl_Buffer3 := Conf_ccl_Buffer3 b;
     Conf_ccl_Buffer4 := Conf_ccl_Buffer4 b;
     Conf_weight_Buffer := Conf_weight_Buffer b;
     Conf_feature_bank_Buffer := Conf_feature_bank_Buffer b |}.

Definition set_Conf_ccl_Buffer1 (v : list Z) (b : buffers) : buffers :=
  {| Conf_reg_Buffer := Conf_reg_Buffer b;
     Conf_block_Buffer := Conf_block_Buffer b;
     Conf_row_Buffer0 := Conf_row_Buffer0 b;
     Conf_row_Buffer1 := Conf_row_Buffer1 b;
     Conf_row_Buffer2 := Conf_row_Buffer2 b;
     Conf_row_Buffer3 := Conf_row_Buffer3 b;
     Conf_row_Buffer4 := Conf_row_Buffer4 b;
     Conf_ccl_Buffer0 := Conf_ccl_Buffer0 b;
     Conf_ccl_Buffer1 := v;
     Conf_ccl_Buffer2 := Conf_ccl_Buffer2 b;
     Conf_ccl_Buffer3 := Conf_ccl_Buffer3 b;
     Conf_ccl_Buffer4 := Conf_ccl_Buffer4 b;
     Conf_weight_Buffer := Conf_weight_Buffer b;
     Conf_feature_bank_Buffer := Conf_feature_bank_Buffer b |}.

Definition set_Conf_ccl_Buffer2 (v : list Z) (b : buffers) : buffers :=
  {| Conf_reg_Buffer := Conf_reg_Buffer b;
     Conf_block_Buffer := Conf_block_Buffer b;
     Conf_row_Buffer0 := Conf_row_Buffer0 b;
     Conf_row_Buffer1 := Conf_row_Buffer1 b;
     Conf_row_Buffer2 := Conf_row_Buffer2 b;
     Conf_row_Buffer3 := Conf_row_Buffer3 b;
     Conf_row_Buffer4 := Conf_row_Buffer4 b;
     Conf_ccl_Buffer0 := Conf_ccl_Buffer0 b;
     Conf_ccl_Buffer1 := Conf_ccl_Buffer1 b;
     Conf_ccl_Buffer2 := v;
     Conf_ccl_Buffer3 := Conf_ccl_Buffer3 b;
     Conf_ccl_Buffer4 := Conf_ccl_Buffer4 b;
     Conf_weight_Buffer := Conf_weight_Buffer b;
     Conf_feature_bank_Buffer := Conf_feature_bank_Buffer b |}.

Definition set_Conf_ccl_Buffer3 (v : list Z) (b : buffers) : buffers :=
  {| Conf_reg_Buffer := Conf_reg_Buffer b;
     Conf_block_Buffer := Conf_block_Buffer b;
     Conf_row_Buffer0 := Conf_row_Buffer0 b;
     Conf_row_Buffer1 := Conf_row_Buffer1 b;
     Conf_row_Buffer2 := Conf_row_Buffer2 b;
     Conf_row_Buffer3 := Conf_row_Buffer3 b;
     Conf_row_Buffer4 := Conf_row_Buffer4 b;
     Conf_ccl_Buffer0 := Conf_ccl_Buffer0 b;
     Conf_ccl_Buffer1 := Conf_ccl_Buffer1 b;
     Conf_ccl_Buffer2 := Conf_ccl_Buffer2 b;
     Conf_ccl_Buffer3 := v;
     Conf_ccl_Buffer4 := Conf_ccl_Buffer4 b;
     Conf_weight_Buffer := Conf_weight_Buffer b;
     Conf_feature_bank_Buffer := Conf_feature_bank_Buffer b |}.

Definition set_Conf_ccl_Buffer4 (v : list Z) (b : buffers) : buffers :=
  {| Conf_reg_Buffer := Conf_reg_Buffer b;
     Conf_block_Buffer := Conf_block_Buffer b;
     Conf_row_Buffer0 := Conf_row_Buffer0 b;
     Conf_row_Buffer1 := Conf_row_Buffer1 b;
     Conf_row_Buffer2 := Conf_row_Buffer2 b;
     Conf_row_Buffer3 := Conf_row_Buffer3 b;
     Conf_row_Buffer4 := Conf_row_Buffer4 b;
     Conf_ccl_Buffer0 := Conf_ccl_Buffer0 b;
     Conf_ccl_Buffer1 := Conf_ccl_Buffer1 b;
     Conf_ccl_Buffer2 := Conf_ccl_Buffer2 b;
     Conf_ccl_Buffer3 := Conf_ccl_Buffer3 b;
     Conf_ccl_Buffer4 := v;
     Conf_weight_Buffer := Conf_weight_Buffer b;
     Conf_feature_bank_Buffer := Conf_feature_bank_Buffer b |}.

Definition set_Conf_weight_Buffer (v : list Z) (b : buffers) : buffers :=
  {| Conf_reg_Buffer := Conf_reg_Buffer b;
     Conf_block_Buffer := Conf_block_Buffer b;
     Conf_row_Buffer0 := Conf_row_Buffer0 b;
     Conf_row_Buffer1 := Conf_row_Buffer1 b;
     Conf_row_Buffer2 := Conf_row_Buffer2 b;
     Conf_row_Buffer3 := Conf_row_Buffer3 b;
     Conf_row_Buffer4 := Conf_row_Buffer4 b;
     Conf_ccl_Buffer0 := Conf_ccl_Buffer0 b;
     Conf_ccl_Buffer1 := Conf_ccl_Buffer1 b;
     Conf_ccl_Buffer2 := Conf_ccl_Buffer2 b;
     Conf_ccl_Buffer3 := Conf_ccl_Buffer3 b;
     Conf_ccl_Buffer4 := Conf_ccl_Buffer4 b;
     Conf_weight_Buffer := v;
     Conf_feature_bank_Buffer := Conf_feature_bank_Buffer b |}.

Definition set_Conf_feature_bank_Buffer (v : list Z) (b : buffers) : buffers :=
  {| Conf_reg_Buffer := Conf_reg_Buffer b;
     Conf_block_Buffer := Conf_block_Buffer b;
     Conf_row_Buffer0 := Conf_row_Buffer0 b;
     Conf_row_Buffer1 := Conf_row_Buffer1 b;
     Conf_row_Buffer2 := Conf_row_Buffer2 b;
     Conf_row_Buffer3 := Conf_row_Buffer3 b;
     Conf_row_Buffer4 := Conf_row_Buffer4 b;
     Conf_ccl_Buffer0 := Conf_ccl_Buffer0 b;
     Conf_ccl_Buffer1 := Conf_ccl_Buffer1 b;
     Conf_ccl_Buffer2 := Conf_ccl_Buffer2 b;
     Conf_ccl_Buffer3 := Conf_ccl_Buffer3 b;
     Conf_ccl_Buffer4 := Conf_ccl_Buffer4 b;
     Conf_weight_Buffer := Conf_weight_Buffer b;
     Conf_feature_bank_Buffer := v |}.

(** ** [read_model_data] *)

(** The state of the function: the buffers and the lines printed so far. *)
Definition loading : Type := buffers * list string.

(** One call of [sd_read_binary] on a global buffer, its return value
    dropped. *)
Definition read_binary_into (lb : list Z) (vol : volume) (name : string)
    (get : buffers -> list Z) (set : list Z -> buffers -> buffers)
    (bit_len max_lines : Z) (s : loading) : res loading :=
  let* '(_, buf, out) := sd_read_binary lb vol name (get s.1) bit_len max_lines in
  Ok (set buf s.1, s.2 ++ out).

(** One call of [sd_read_hex], likewise. *)
Definition read_hex_into (lb : list Z) (vol : volume) (name : string)
    (get : buffers -> list Z) (set : list Z -> buffers -> buffers)
    (max_lines : Z) (s : loading) : res loading :=
  let* '(_, buf, out) := sd_read_hex lb vol name (get s.1) max_lines in
  Ok (set buf s.1, s.2 ++ out).

(** Lines 33-51.  [lb128] and [lb32] are the line buffers of the two
    readers as the calls find them. *)
Definition read_model_data (lb128 lb32 : list Z) (vol : volume) (b : buffers)
    : res loading :=
  let s := (b, []) in
  let* s := read_binary_into lb128 vol FEATURE_BANK_FILE_NAME
              Conf_feature_bank_Buffer set_Conf_feature_bank_Buffer 32 LEN_FEATURE_BANK s in
  let* s := read_binary_into lb128 vol CONF_REG_FILE_NAME
              Conf_reg_Buffer set_Conf_reg_Buffer 32 LEN_CONF_REG s in
  let* s := read_binary_into lb128 vol CONF_BLOCK_BANK_FILE_NAME
              Conf_block_Buffer set_Conf_block_Buffer 20 LEN_BLOCK_BANK s in
  let* s := read_binary_into lb128 vol CONF_ROW_BANK0_FILE_NAME
              Conf_row_Buffer0 set_Conf_row_Buffer0 6 LEN_ROW_BANK0 s in
  let* s := read_binary_into lb128 vol CONF_ROW_BANK1_FILE_NAME
              Conf_row_Buffer1 set_Conf_row_Buffer1 6 LEN_ROW_BANK1 s in
  let* s := read_binary_into lb128 vol CONF_ROW_BANK2_FILE_NAME
              Conf_row_Buffer2 set_Conf_row_Buffer2 6 LEN_ROW_BANK2 s in
  let* s := read_binary_into lb128 vol CONF_ROW_BANK3_FILE_NAME
              Conf_row_Buffer3 set_Conf_row_Buffer3 6 LEN_ROW_BANK3 s in
  let* s := read_binary_into lb128 vol CONF_ROW_BANK4_FILE_NAME
              Conf_row_Buffer4 set_Conf_row_Buffer4 6 LEN_ROW_BANK4 s in
  let* s := read_binary_into lb128 vol CONF_CCL_BANK0_FILE_NAME
              Conf_ccl_Buffer0 set_Conf_ccl_Buffer0 5 LEN_CCL_BANK0 s in
  let* s := read_binary_into lb128 vol CONF_CCL_BANK1_FILE_NAME
              Conf_ccl_Buffer1 set_Conf_ccl_Buffer1 5 LEN_CCL_BANK1 s in
  let* s := read_binary_into lb128 vol CONF_CCL_BANK2_FILE_NAME
              Conf_ccl_Buffer2 set_Conf_ccl_Buffer2 5 LEN_CCL_BANK2 s in
  let* s := read_binary_into lb128 vol CONF_CCL_BANK3_FILE_NAME
              Conf_ccl_Buffer3 set_Conf_ccl_Buffer3 5 LEN_CCL_BANK3 s in
  let* s := read_binary_into lb128 vol CONF_CCL_BANK4_FILE_NAME
              Conf_ccl_Buffer4 set_Conf_ccl_Buffer4 5 LEN_CCL_BANK4 s in
  read_hex_into lb32 vol CONF_WEIGHT_BANK_FILE_NAME
    Conf_weight_Buffer set_Conf_weight_Buffer LEN_WEIGHT_BANK s.

End ModelData.
