(* ===== verification/ModelDataSpec.v ===== *)
(** * ModelDataSpec: the buffers after [read_model_data]

    Each buffer is loaded from its own file and from nothing else:
    [loaded] gives the fourteen buffers after [read_model_data] as a
    function of the volume, one field at a time.  A file that is missing
    leaves its buffer as it was and adds one line to the output; the
    function goes on to the next file. *)

From Stdlib Require Import ZArith Lia.
From stdpp Require Import base tactics option numbers strings list gmap.
From S2P Require Import Prelude Bytes BinStr Loader LoaderTrace Storage StorageSpec ModelData.
Import Loader Storage ModelData.

#[local] Open Scope Z_scope.
#[local] Open Scope kws_scope.

(** ** The reference *)

(** A buffer after [sd_read_binary] on the file [name]. *)
Definition load_bin (vol : volume) (name : string) (bit_len cap : Z)
    (buf : list Z) : list Z :=
  match vol !! name with
  | Some data => write_words buf (words (bin_value bit_len) cap (chunks 128 data))
  | None => buf
  end.

(** A buffer after [sd_read_hex] on the file [name]. *)
Definition load_hex (vol : volume) (name : string) (cap : Z) (buf : list Z) : list Z :=
  match vol !! name with
  | Some data => write_words buf (words hex_value cap (chunks 32 data))
  | None => buf
  end.

(** What a reader prints for the file [name]. *)
Definition open_error (vol : volume) (name : string) : list string :=
  match vol !! name with
  | Some _ => []
  | None => ["Error: Failed to open file."%string]
  end.

(** The buffers after [read_model_data]. *)
Definition loaded (vol : volume) (b : buffers) : buffers :=
  {| Conf_reg_Buffer := load_bin vol CONF_REG_FILE_NAME 32 LEN_CONF_REG (Conf_reg_Buffer b);
     Conf_block_Buffer := load_bin vol CONF_BLOCK_BANK_FILE_NAME 20 LEN_BLOCK_BANK (Conf_block_Buffer b);
     Conf_row_Buffer0 := load_bin vol CONF_ROW_BANK0_FILE_NAME 6 LEN_ROW_BANK0 (Conf_row_Buffer0 b);
     Conf_row_Buffer1 := load_bin vol CONF_ROW_BANK1_FILE_NAME 6 LEN_ROW_BANK1 (Conf_row_Buffer1 b);
     Conf_row_Buffer2 := load_bin vol CONF_ROW_BANK2_FILE_NAME 6 LEN_ROW_BANK2 (Conf_row_Buffer2 b);
     Conf_row_Buffer3 := load_bin vol CONF_ROW_BANK3_FILE_NAME 6 LEN_ROW_BANK3 (Conf_row_Buffer3 b);
     Conf_row_Buffer4 := load_bin vol CONF_ROW_BANK4_FILE_NAME 6 LEN_ROW_BANK4 (Conf_row_Buffer4 b);
     Conf_ccl_Buffer0 := load_bin vol CONF_CCL_BANK0_FILE_NAME 5 LEN_CCL_BANK0 (Conf_ccl_Buffer0 b);
     Conf_ccl_Buffer1 := load_bin vol CONF_CCL_BANK1_FILE_NAME 5 LEN_CCL_BANK1 (Conf_ccl_Buffer1 b);
     Conf_ccl_Buffer2 := load_bin vol CONF_CCL_BANK2_FILE_NAME 5 LEN_CCL_BANK2 (Conf_ccl_Buffer2 b);
     Conf_ccl_Buffer3 := load_bin vol CONF_CCL_BANK3_FILE_NAME 5 LEN_CCL_BANK3 (Conf_ccl_Buffer3 b);
     Conf_ccl_Buffer4 := load_bin vol CONF_CCL_BANK4_FILE_NAME 5 LEN_CCL_BANK4 (Conf_ccl_Buffer4 b);
     Conf_weight_Buffer := load_hex vol CONF_WEIGHT_BANK_FILE_NAME LEN_WEIGHT_BANK (Conf_weight_Buffer b);
     Conf_feature_bank_Buffer := load_bin vol FEATURE_BANK_FILE_NAME 32 LEN_FEATURE_BANK (Conf_feature_bank_Buffer b) |}.

(** The files, in the order in which they are read. *)
Definition file_names : list string :=
  [FEATURE_BANK_FILE_NAME; CONF_REG_FILE_NAME; CONF_BLOCK_BANK_FILE_NAME; CONF_ROW_BANK0_FILE_NAME; CONF_ROW_BANK1_FILE_NAME; CONF_ROW_BANK2_FILE_NAME; CONF_ROW_BANK3_FILE_NAME; CONF_ROW_BANK4_FILE_NAME; CONF_CCL_BANK0_FILE_NAME; CONF_CCL_BANK1_FILE_NAME; CONF_CCL_BANK2_FILE_NAME; CONF_CCL_BANK3_FILE_NAME; CONF_CCL_BANK4_FILE_NAME; CONF_WEIGHT_BANK_FILE_NAME].

(** The lines that [read_model_data] prints. *)
Definition messages (vol : volume) : list string :=
  concat (map (open_error vol) file_names).

(** ** One call *)

Lemma read_binary_into_spec lb vol name get set bit_len cap (s : loading) :
  Z.of_nat (length lb) = 128 -> 0 <= bit_len <= 32 -> 0 <= cap ->
  sized cap (get s.1) ->
  read_binary_into lb vol name get set bit_len cap s
  = Ok (set (load_bin vol name bit_len cap (get s.1)) s.1, s.2 ++ open_error vol name).
Proof.
  intros Hlb Hbit Hcap Hsz. unfold read_binary_into, load_bin, open_error, sized in *.
  destruct (vol !! name) as [data|] eqn:Hvol.
  - by rewrite (sd_read_binary_chunks _ _ _ _ _ _ data) by (done || lia).
  - by rewrite sd_read_binary_missing.
Qed.

Lemma read_hex_into_spec lb vol name get set cap (s : loading) :
  Z.of_nat (length lb) = 32 -> 0 <= cap -> sized cap (get s.1) ->
  read_hex_into lb vol name get set cap s
  = Ok (set (load_hex vol name cap (get s.1)) s.1, s.2 ++ open_error vol name).
Proof.
  intros Hlb Hcap Hsz. unfold read_hex_into, load_hex, open_error, sized in *.
  destruct (vol !! name) as [data|] eqn:Hvol.
  - by rewrite (sd_read_hex_chunks _ _ _ _ _ data) by (done || lia).
  - by rewrite sd_read_hex_missing.
Qed.

(** The words stored never exceed the capacity. *)
Lemma words_length value cap cs :
  0 <= cap -> Z.of_nat (length (words value cap cs)) <= cap.
Proof. intros. unfold words. rewrite length_take. lia. Qed.

Lemma load_bin_sized vol name bit_len cap buf :
  0 <= cap -> sized cap buf -> sized cap (load_bin vol name bit_len cap buf).
Proof.
  unfold sized, load_bin. intros Hcap Hsz. destruct (vol !! name); [|done].
  pose proof (words_length (bin_value bit_len) cap (chunks 128 l) Hcap).
  rewrite write_words_length; lia.
Qed.

Lemma load_hex_sized vol name cap buf :
  0 <= cap -> sized cap buf -> sized cap (load_hex vol name cap buf).
Proof.
  unfold sized, load_hex. intros Hcap Hsz. destruct (vol !! name); [|done].
  pose proof (words_length hex_value cap (chunks 32 l) Hcap).
  rewrite write_words_length; lia.
Qed.

(** ** The whole function *)

(** Projections of updated buffers. *)
Ltac buf_simpl :=
  cbn [fst snd set_Conf_reg_Buffer set_Conf_block_Buffer set_Conf_row_Buffer0 set_Conf_row_Buffer1 set_Conf_row_Buffer2 set_Conf_row_Buffer3 set_Conf_row_Buffer4 set_Conf_ccl_Buffer0 set_Conf_ccl_Buffer1 set_Conf_ccl_Buffer2 set_Conf_ccl_Buffer3 set_Conf_ccl_Buffer4 set_Conf_weight_Buffer set_Conf_feature_bank_Buffer
       Conf_reg_Buffer Conf_block_Buffer Conf_row_Buffer0 Conf_row_Buffer1 Conf_row_Buffer2 Conf_row_Buffer3 Conf_row_Buffer4 Conf_ccl_Buffer0 Conf_ccl_Buffer1 Conf_ccl_Buffer2 Conf_ccl_Buffer3 Conf_ccl_Buffer4 Conf_weight_Buffer Conf_feature_bank_Buffer].

Lemma wf_loaded vol b : wf_buffers b -> wf_buffers (loaded vol b).
Proof.
  intros (Hreg & Hcat & Hfeat). unfold catalog in Hcat.
  repeat (apply Forall_cons in Hcat as [? Hcat]). cbn [fst snd] in *.
  unfold wf_buffers, loaded, catalog. buf_simpl.
  split_and!; [|repeat (apply Forall_cons; split); [..|by apply Forall_nil]|];
    cbn [fst snd]; by (apply load_bin_sized || apply load_hex_sized).
Qed.

Lemma write_words_bytes dest ws :
  Forall byte_ok dest -> Forall byte_ok (write_words dest ws).
Proof.
  intros Hd. unfold write_words. apply Forall_app. split; [|by apply Forall_drop].
  apply Forall_concat, Forall_fmap, Forall_true. intros w. apply be32_bytes.
Qed.

Lemma load_bin_bytes vol name bit_len cap buf :
  Forall byte_ok buf -> Forall byte_ok (load_bin vol name bit_len cap buf).
Proof. unfold load_bin. destruct (vol !! name); [apply write_words_bytes | done]. Qed.

Lemma load_hex_bytes vol name cap buf :
  Forall byte_ok buf -> Forall byte_ok (load_hex vol name cap buf).
Proof. unfold load_hex. destruct (vol !! name); [apply write_words_bytes | done]. Qed.

Lemma bytes_loaded vol b : bytes_ok b -> bytes_ok (loaded vol b).
Proof.
  intros (Hreg & Hcat & Hfeat). unfold catalog in Hcat.
  repeat (apply Forall_cons in Hcat as [? Hcat]). cbn [fst snd] in *.
  unfold bytes_ok, loaded, catalog. buf_simpl.
  split; [by apply load_bin_bytes|]. split; [|by apply load_bin_bytes].
  do 11 (apply Forall_cons; split; [by apply load_bin_bytes|]).
  apply Forall_cons. split; [by apply load_hex_bytes | by apply Forall_nil].
Qed.

Lemma read_model_data_loaded lb128 lb32 vol b :
  wf_buffers b -> Z.of_nat (length lb128) = 128 -> Z.of_nat (length lb32) = 32 ->
  read_model_data lb128 lb32 vol b = Ok (loaded vol b, messages vol).
Proof.
  intros (Hreg & Hcat & Hfeat) H128 H32. unfold catalog in Hcat.
  repeat (apply Forall_cons in Hcat as [? Hcat]). cbn [fst snd] in *.
  unfold read_model_data.
  do 13 (rewrite read_binary_into_spec by done; cbn [bind]; buf_simpl).
  rewrite read_hex_into_spec by done. buf_simpl.
  unfold loaded, messages, file_names. cbn [map concat app].
  by rewrite !app_nil_r, <- !app_assoc.
Qed.

Lemma loaded_empty b : loaded ∅ b = b.
Proof. by destruct b. Qed.

(** ** Theorems *)

(** C11.  [read_model_data] on buffers of the declared sizes, whatever the
    volume holds: the function returns, every access stays within the
    line buffers and the destinations, each buffer is loaded from its own
    file and keeps its size, a buffer whose file is missing is left as it
    was, and one line is printed for each missing file. *)
Theorem read_model_data_spec lb128 lb32 vol b :
  wf_buffers b -> Z.of_nat (length lb128) = 128 -> Z.of_nat (length lb32) = 32 ->
  read_model_data lb128 lb32 vol b = Ok (loaded vol b, messages vol)
  /\ wf_buffers (loaded vol b).
Proof.
  intros. split; [by apply read_model_data_loaded | by apply wf_loaded].
Qed.

Lemma read_model_data_spec_witness :
  read_model_data (replicate 128 0) (replicate 32 0)
    {[CONF_REG_FILE_NAME := replicate 31 48 ++ [49; 10]]} zero_buffers
  = Ok (loaded {[CONF_REG_FILE_NAME := replicate 31 48 ++ [49; 10]]} zero_buffers,
        messages {[CONF_REG_FILE_NAME := replicate 31 48 ++ [49; 10]]})
  /\ wf_buffers (loaded {[CONF_REG_FILE_NAME := replicate 31 48 ++ [49; 10]]}
                  zero_buffers).
Proof.
  apply (read_model_data_spec (replicate 128 0) (replicate 32 0)
           {[CONF_REG_FILE_NAME := replicate 31 48 ++ [49; 10]]} zero_buffers);
    [apply wf_zero | done..].
Defined.
