(* ===== verification/Protocol.v ===== *)
(** * Protocol: the receiver of the configuration image

    The loader and the accelerator share a protocol (spec, section 4.1):
    the block of configuration registers comes first and alone; every
    region is an address of four bytes followed by its payload in one
    burst, each region once; the enable address followed by the enable
    data arms the accelerator, and nothing may be loaded afterwards.
    A payload has four bytes for each word of the declared capacity of
    its region.

    The accelerator is not part of the repository.  [receive] is the
    receiver that the protocol describes, for a [memory_map] that gives
    the capacity of the register block, the capacity of the region that
    an address names and the two words of the enable command: it stores
    what it is sent and refuses a transfer that the protocol does not
    allow.  [tma_map] is the memory map that [spi_config.c] and
    [spi_config.h] imply, and [tma_regions] the catalog of the regions:
    file, format, capacity and address.

    The theorems: the receiver accepts what [initial_TMA] sends and is
    armed by it, with every buffer stored under the address of its
    region; a sequence of transfers that arms a receiver has the shape of
    the protocol, whatever sent it; and, end to end, after the start-up
    the receiver holds, under the address of every region, the words of
    the file of that region in the order of the file, followed by
    zeros. *)

From Stdlib Require Import ZArith Lia.
From stdpp Require Import base tactics option numbers strings list gmap.
From S2P Require Import Prelude Bytes BinStr Loader LoaderTrace Storage StorageSpec.
From S2P Require Import ModelData ModelDataSpec.

#[local] Open Scope Z_scope.

Module Protocol.
Import Loader Storage ModelData.

(** ** The receiver *)

(** Where the receiver stands in the protocol. *)
Inductive phase : Type :=
  | Fresh                       (* nothing was received *)
  | Ready                       (* an address comes next *)
  | Addressed (addr : list Z)    (* the payload of this region comes next *)
  | Enabling                    (* the enable data comes next *)
  | Armed.                      (* inference is enabled *)

#[export] Instance phase_eq_dec : EqDecision phase.
Proof. solve_decision. Defined.

Record receiver : Type := mkReceiver {
  stage : phase;
  config_registers : list Z;            (* the register block, as bytes *)
  memory : gmap (list Z) (list Z)       (* address -> payload, as bytes *)
}.

(** What a receiver is built for: the capacity of the register block and
    of the region that an address names, in words, and the two words that
    arm it. *)
Record memory_map : Type := mkMemoryMap {
  register_capacity : Z;
  region_capacity : gmap (list Z) Z;
  enable_addr : list Z;
  enable_data : list Z
}.

Definition power_on : receiver := mkReceiver Fresh [] ∅.

(** A buffer of the size that the capacity [n] asks for. *)
Definition burst (n : Z) (t : list Z) : Prop := Z.of_nat (length t) = n * 4.

#[export] Instance burst_dec n t : Decision (burst n t).
Proof. unfold burst. apply _. Defined.

(** One transfer. *)
Definition receive (mm : memory_map) (r : receiver) (t : list Z) : option receiver :=
  match stage r with
  | Fresh =>
      if decide (burst (register_capacity mm) t)
      then Some (mkReceiver Ready t (memory r)) else None
  | Ready =>
      if decide (t = enable_addr mm)
      then Some (mkReceiver Enabling (config_registers r) (memory r))
      else
        match region_capacity mm !! t, memory r !! t with
        | Some _, None => Some (mkReceiver (Addressed t) (config_registers r) (memory r))
        | _, _ => None
        end
  | Addressed a =>
      match region_capacity mm !! a with
      | Some n =>
          if decide (burst n t)
          then Some (mkReceiver Ready (config_registers r) (<[a := t]> (memory r)))
          else None
      | None => None
      end
  | Enabling =>
      if decide (t = enable_data mm)
      then Some (mkReceiver Armed (config_registers r) (memory r)) else None
  | Armed => None
  end.

(** The transfers of a link, in order. *)
Fixpoint receive_all (mm : memory_map) (ts : list (list Z)) (r : receiver)
    : option receiver :=
  match ts with
  | [] => Some r
  | t :: ts' =>
      match receive mm r t with
      | Some r' => receive_all mm ts' r'
      | None => None
      end
  end.

(** The words of a payload: four bytes each, most significant first. *)
Fixpoint words_of (bs : list Z) : list Z :=
  match bs with
  | b0 :: b1 :: b2 :: b3 :: rest => be32_value [b0; b1; b2; b3] :: words_of rest
  | _ => []
  end.

(** ** The accelerator *)

(** How the lines of a file spell words. *)
Inductive format : Type :=
  | Bits (width : Z)
  | Hex.

(** The regions: file, format, capacity in words, address. *)
Definition tma_regions : list (string * format * Z * list Z) :=
  [(CONF_BLOCK_BANK_FILE_NAME, Bits 20, 1152, [144; 71; 240; 0]);
   (CONF_ROW_BANK0_FILE_NAME, Bits 6, 1592, [160; 99; 112; 0]);
   (CONF_ROW_BANK1_FILE_NAME, Bits 6, 1618, [162; 101; 16; 0]);
   (CONF_ROW_BANK2_FILE_NAME, Bits 6, 1627, [164; 101; 160; 0]);
   (CONF_ROW_BANK3_FILE_NAME, Bits 6, 1614, [166; 100; 208; 0]);
   (CONF_ROW_BANK4_FILE_NAME, Bits 6, 1668, [168; 104; 48; 0]);
   (CONF_CCL_BANK0_FILE_NAME, Bits 5, 3127, [176; 195; 96; 0]);
   (CONF_CCL_BANK1_FILE_NAME, Bits 5, 3114, [178; 194; 144; 0]);
   (CONF_CCL_BANK2_FILE_NAME, Bits 5, 3099, [180; 193; 160; 0]);
   (CONF_CCL_BANK3_FILE_NAME, Bits 5, 3108, [182; 194; 48; 0]);
   (CONF_CCL_BANK4_FILE_NAME, Bits 5, 3186, [184; 199; 16; 0]);
   (CONF_WEIGHT_BANK_FILE_NAME, Hex, 1440, [192; 89; 240; 0])].

(** The memory map of the accelerator. *)
Definition tma_map : memory_map :=
  {| register_capacity := 28;
     region_capacity := list_to_map (map (fun r => (r.2, r.1.2)) tma_regions);
     enable_addr := [128; 0; 0; 1];
     enable_data := [0; 0; 0; 1] |}.

End Protocol.

Import Loader Storage ModelData Protocol.

(** ** Specification *)

(** The words that a reader takes from a file of the volume, at most
    [cap] of them; none when the file is missing. *)
Definition file_words (vol : volume) (name : string) (fmt : format) (cap : Z) : list Z :=
  match vol !! name with
  | Some data =>
      match fmt with
      | Bits w => words (bin_value w) cap (chunks 128 data)
      | Hex => words hex_value cap (chunks 32 data)
      end
  | None => []
  end.

(** A region of [cap] words that starts with the words [ws]. *)
Definition padded (cap : Z) (ws : list Z) : list Z :=
  ws ++ replicate (Z.to_nat cap - length ws) 0.

(** The transfers of a list of regions given by address and payload. *)
Definition bursts (rs : list (list Z * list Z)) : list (list Z) :=
  concat (map (fun r => [r.1; r.2]) rs).

(** The memory after the regions were stored. *)
Definition stored (rs : list (list Z * list Z)) (m : gmap (list Z) (list Z))
    : gmap (list Z) (list Z) :=
  foldl (fun m r => <[r.1 := r.2]> m) m rs.

(** The regions are known to the memory map, of the size it asks for,
    new to the memory [m], and no two have the same address. *)
Definition loadable (mm : memory_map) (m : gmap (list Z) (list Z))
    (rs : list (list Z * list Z)) : Prop :=
  Forall (fun r => exists n, region_capacity mm !! r.1 = Some n /\ burst n r.2
                             /\ r.1 <> enable_addr mm /\ m !! r.1 = None) rs
  /\ NoDup rs.*1.

(** Address and buffer of the regions of the catalog. *)
Definition catalog_bursts (b : buffers) : list (list Z * list Z) :=
  map (fun r : region => (token_bytes r.1.1, r.2)) (catalog b).

(** The receiver is armed and holds the words of the files of the volume:
    those of the register file in the register block and, under the
    address of every region, those of the file of the region, each
    followed by zeros up to its capacity. *)
Definition holds_files (vol : volume) (r : receiver) : Prop :=
  stage r = Armed
  /\ words_of (config_registers r)
     = padded 28 (file_words vol CONF_REG_FILE_NAME (Bits 32) 28)
  /\ Forall (fun reg =>
               words_of <$> memory r !! reg.2
               = Some (padded reg.1.2 (file_words vol reg.1.1.1 reg.1.1.2 reg.1.2)))
            tma_regions.

(** The bytes of a region after the start-up: the words of its file over
    the zeros of the buffer. *)
Definition region_bytes (vol : volume) (name : string) (fmt : format) (cap : Z)
    : list Z :=
  write_words (zeroed cap) (file_words vol name fmt cap).

(** A word of thirty-two bits. *)
Definition word_ok (w : Z) : Prop := 0 <= w < 2 ^ 32.

(** ** The receiver on a list of regions *)

Lemma stored_lookup_other rs : forall m a,
  a ∉ rs.*1 -> stored rs m !! a = m !! a.
Proof.
  induction rs as [|[a' t] rs IH]; intros m a Ha; [done|].
  rewrite fmap_cons, not_elem_of_cons in Ha. destruct Ha as [Hne Ha].
  cbn [stored foldl fst snd]. fold (stored rs (<[a' := t]> m)).
  by rewrite IH, lookup_insert_ne.
Qed.

Lemma stored_lookup rs : forall m a t,
  NoDup rs.*1 -> (a, t) ∈ rs -> stored rs m !! a = Some t.
Proof.
  induction rs as [|[a' t'] rs IH]; intros m a t Hnd Hin; [by apply elem_of_nil in Hin|].
  rewrite fmap_cons in Hnd. apply NoDup_cons in Hnd as [Hnotin Hnd].
  cbn [stored foldl fst snd]. fold (stored rs (<[a' := t']> m)).
  apply elem_of_cons in Hin as [[= -> ->]|Hin].
  - by rewrite stored_lookup_other, lookup_insert_eq.
  - by apply IH.
Qed.

Lemma loadable_cons mm m a t rs :
  loadable mm m ((a, t) :: rs)
  <-> (exists n, region_capacity mm !! a = Some n /\ burst n t)
      /\ a <> enable_addr mm /\ m !! a = None
      /\ loadable mm (<[a := t]> m) rs.
Proof.
  unfold loadable. rewrite Forall_cons, fmap_cons, NoDup_cons. cbn [fst snd]. split.
  - intros [[(n & Hn & Hsz & Hne & Hnew) Hall] [Hnotin Hnd]].
    split_and!; [by exists n|done..| |done].
    apply Forall_forall. intros r Hr.
    rewrite Forall_forall in Hall. destruct (Hall r Hr) as (k & Hk & Hb & He & Hm).
    exists k. split_and!; [done..|]. rewrite lookup_insert_ne; [done|].
    intros ->. apply Hnotin, list_elem_of_fmap. by exists r.
  - intros ((n & Hn & Hsz) & Hne & Hnew & Hall & Hnd).
    assert (Hlook : forall r, r ∈ rs -> r.1 <> a /\ m !! r.1 = None).
    { intros r Hr. rewrite Forall_forall in Hall.
      destruct (Hall r Hr) as (_ & _ & _ & _ & Hm).
      by apply lookup_insert_None in Hm as [? ?]. }
    split_and!; [by exists n| |..|done].
    + apply Forall_forall. intros r Hr. rewrite Forall_forall in Hall.
      destruct (Hall r Hr) as (k & Hk & Hb & He & _). exists k.
      split_and!; [done..|]. by apply Hlook.
    + intros (r & -> & Hr)%list_elem_of_fmap. by destruct (Hlook r Hr).
Qed.

(** A region that fits is taken in two transfers. *)
Lemma receive_region mm regs m a t n ts :
  region_capacity mm !! a = Some n -> burst n t ->
  a <> enable_addr mm -> m !! a = None ->
  receive_all mm (a :: t :: ts) (mkReceiver Ready regs m)
  = receive_all mm ts (mkReceiver Ready regs (<[a := t]> m)).
Proof.
  intros Hn Hsz Hne Hnew. cbn [receive_all receive stage memory config_registers].
  rewrite decide_False, Hn, Hnew by done.
  cbn [receive_all receive stage memory config_registers].
  by rewrite Hn, decide_True.
Qed.

Lemma receive_bursts mm rs : forall regs m rest,
  loadable mm m rs ->
  receive_all mm (bursts rs ++ rest) (mkReceiver Ready regs m)
  = receive_all mm rest (mkReceiver Ready regs (stored rs m)).
Proof.
  induction rs as [|[a t] rs IH]; intros regs m rest Hrs; [done|].
  apply loadable_cons in Hrs as ((n & Hn & Hsz) & Hne & Hnew & Hrs).
  change (bursts ((a, t) :: rs) ++ rest) with (a :: t :: bursts rs ++ rest).
  rewrite (receive_region mm regs m a t n) by done. by apply IH.
Qed.

(** The enable command arms a receiver that is ready, and ends the
    protocol. *)
Lemma receive_enable mm regs m ts :
  receive_all mm (enable_addr mm :: enable_data mm :: ts) (mkReceiver Ready regs m)
  = if decide (ts = []) then Some (mkReceiver Armed regs m) else None.
Proof.
  cbn [receive_all receive stage memory config_registers].
  rewrite decide_True by done. cbn [receive_all receive stage memory config_registers].
  rewrite decide_True by done. by destruct ts.
Qed.

(** The protocol is accepted. *)
Lemma receive_protocol mm regs rs :
  burst (register_capacity mm) regs -> loadable mm ∅ rs ->
  receive_all mm (regs :: bursts rs ++ [enable_addr mm; enable_data mm]) power_on
  = Some (mkReceiver Armed regs (stored rs ∅)).
Proof.
  intros Hregs Hrs. cbn [receive_all receive power_on stage memory].
  rewrite decide_True by done. by rewrite receive_bursts, receive_enable.
Qed.

(** What arms a receiver that is ready is a list of regions followed by
    the enable command. *)
Lemma armed_from_ready mm (fuel : nat) : forall ts regs m r,
  (length ts <= fuel)%nat ->
  receive_all mm ts (mkReceiver Ready regs m) = Some r -> stage r = Armed ->
  exists rs,
    ts = bursts rs ++ [enable_addr mm; enable_data mm]
    /\ loadable mm m rs /\ r = mkReceiver Armed regs (stored rs m).
Proof.
  induction fuel as [|fuel IH]; intros ts regs m r Hlen Hrun Harmed.
  { destruct ts; [|cbn in Hlen; lia]. by injection Hrun as <-. }
  destruct ts as [|a ts]; [by injection Hrun as <-|].
  cbn [receive_all receive stage memory config_registers] in Hrun.
  case_decide as Ha.
  - subst a. destruct ts as [|d ts]; [by injection Hrun as <-|].
    cbn [receive_all receive stage memory config_registers] in Hrun.
    case_decide as Hd; [subst d|done].
    destruct ts; [|done]. injection Hrun as <-.
    exists []. split_and!; [done| |done]. split; [by apply Forall_nil | constructor].
  - destruct (region_capacity mm !! a) as [n|] eqn:Hn; [|done].
    destruct (m !! a) eqn:Hnew; [done|].
    destruct ts as [|t ts]; [by injection Hrun as <-|].
    cbn [receive_all receive stage memory config_registers] in Hrun.
    rewrite Hn in Hrun. case_decide as Hsz; [|done].
    destruct (IH ts regs (<[a := t]> m) r) as (rs & -> & Hrs & ->);
      [cbn in Hlen; lia | done..|].
    exists ((a, t) :: rs). split_and!; [done| |done].
    apply loadable_cons. split_and!; [by exists n|done..].
Qed.

(** ** Words and bytes *)

Lemma words_of_be32 w bs : word_ok w -> words_of (be32 w ++ bs) = w :: words_of bs.
Proof.
  intros Hw. rewrite be32_unfold. cbn [app words_of]. f_equal.
  by rewrite <- be32_unfold, be32_value_be32.
Qed.

Lemma words_of_concat ws bs :
  Forall word_ok ws -> words_of (concat (map be32 ws) ++ bs) = ws ++ words_of bs.
Proof.
  induction 1 as [|w ws Hw _ IH]; [done|].
  cbn [map concat]. by rewrite <- app_assoc, words_of_be32, IH.
Qed.

Lemma words_of_zeros (n : nat) : words_of (replicate (4 * n) 0) = replicate n 0.
Proof.
  induction n as [|n IH]; [done|].
  replace (4 * S n)%nat with (S (S (S (S (4 * n))))) by lia.
  cbn [replicate words_of]. by rewrite IH.
Qed.

(** The words of a zeroed buffer over which words were stored. *)
Lemma words_of_write_words cap ws :
  0 <= cap -> Z.of_nat (length ws) <= cap -> Forall word_ok ws ->
  words_of (write_words (zeroed cap) ws) = padded cap ws.
Proof.
  intros Hcap Hlen Hws. unfold write_words, zeroed, padded.
  rewrite words_of_concat, drop_replicate by done. f_equal.
  replace (Z.to_nat (cap * 4) - 4 * length ws)%nat
    with (4 * (Z.to_nat cap - length ws))%nat by lia.
  apply words_of_zeros.
Qed.

Lemma bin_value_word w chunk v : 0 <= w <= 32 -> bin_value w chunk = Some v -> word_ok v.
Proof.
  unfold bin_value, word_ok. intros Hw. case_decide as Hacc; [|done]. intros [= <-].
  pose proof (bits_value_range (bits_of w chunk)) as Hr.
  assert (Z.of_nat (length (bits_of w chunk)) <= 32).
  { unfold bits_of. rewrite length_map, length_take. lia. }
  assert (2 ^ Z.of_nat (length (bits_of w chunk)) <= 2 ^ 32)
    by (apply Z.pow_le_mono_r; lia).
  lia.
Qed.

Lemma hex_value_word chunk v : hex_value chunk = Some v -> word_ok v.
Proof. unfold hex_value. intros [= <-]. apply u32_range. Qed.

(** The words of a file are words, and no more than the capacity. *)
Lemma file_words_ok vol name fmt cap :
  match fmt with Bits w => 0 <= w <= 32 | Hex => True end -> 0 <= cap ->
  Forall word_ok (file_words vol name fmt cap)
  /\ Z.of_nat (length (file_words vol name fmt cap)) <= cap.
Proof.
  intros Hfmt Hcap. unfold file_words.
  destruct (vol !! name) as [data|]; [|split; [by apply Forall_nil | simpl; lia]].
  destruct fmt as [w|]; (split; [|by apply words_length]); unfold words;
    apply Forall_take, Forall_forall; intros v (c & _ & Hv)%list_elem_of_omap.
  - by apply (bin_value_word w c).
  - by apply (hex_value_word c).
Qed.

Lemma words_of_region vol name fmt cap :
  match fmt with Bits w => 0 <= w <= 32 | Hex => True end -> 0 <= cap ->
  words_of (region_bytes vol name fmt cap) = padded cap (file_words vol name fmt cap).
Proof.
  intros Hfmt Hcap. destruct (file_words_ok vol name fmt cap Hfmt Hcap).
  by apply words_of_write_words.
Qed.

(** ** The image of the loader *)

Lemma load_bin_words vol name w cap buf :
  load_bin vol name w cap buf = write_words buf (file_words vol name (Bits w) cap).
Proof.
  unfold load_bin, file_words. destruct (vol !! name); [done|].
  by rewrite write_words_nil.
Qed.

Lemma load_hex_words vol name cap buf :
  load_hex vol name cap buf = write_words buf (file_words vol name Hex cap).
Proof.
  unfold load_hex, file_words. destruct (vol !! name); [done|].
  by rewrite write_words_nil.
Qed.

(** The catalog after [read_model_data] pairs the address of every
    region with the bytes of its file. *)
Lemma catalog_bursts_loaded vol :
  catalog_bursts (loaded vol zero_buffers)
  = map (fun r => (r.2, region_bytes vol r.1.1.1 r.1.1.2 r.1.2)) tma_regions.
Proof.
  unfold catalog_bursts, catalog, loaded. cbn [map fst snd].
  destruct token_bytes_values
    as (-> & -> & -> & -> & -> & -> & -> & -> & -> & -> & -> & -> & _ & _).
  rewrite !load_bin_words, load_hex_words. reflexivity.
Qed.

(** The addresses of the catalog are those of the memory map, with the
    capacities of the declarations; no two regions share an address and
    none has the enable address. *)
Lemma catalog_loadable b : wf_buffers b -> loadable tma_map ∅ (catalog_bursts b).
Proof.
  intros (_ & Hcat & _). unfold catalog in Hcat.
  repeat (apply Forall_cons in Hcat as [? Hcat]). cbn [fst snd] in *.
  unfold loadable, catalog_bursts, catalog. cbn [map fmap list_fmap fst snd].
  destruct token_bytes_values
    as (-> & -> & -> & -> & -> & -> & -> & -> & -> & -> & -> & -> & _ & _).
  split.
  - repeat (apply Forall_cons; split); [..|by apply Forall_nil];
      (eexists; split; [vm_compute; reflexivity|]); by split_and!.
  - apply (bool_decide_unpack _). by vm_compute.
Qed.

Lemma image_bursts b :
  wf_buffers b ->
  image b
  = Conf_reg_Buffer b
    :: bursts (catalog_bursts b) ++ [enable_addr tma_map; enable_data tma_map].
Proof.
  intros Hwf. rewrite image_sized by done. unfold bursts, catalog_bursts, enable_command.
  rewrite map_map. cbn [fst snd].
  by destruct token_bytes_values as (_ & _ & _ & _ & _ & _ & _ & _ & _ & _ & _ & _ & -> & ->).
Qed.

(** The receiver on the image of the buffers [b]. *)
Lemma image_received b :
  wf_buffers b ->
  receive_all tma_map (image b) power_on
  = Some (mkReceiver Armed (Conf_reg_Buffer b) (stored (catalog_bursts b) ∅)).
Proof.
  intros Hwf. rewrite image_bursts by done.
  apply receive_protocol; [by destruct Hwf | by apply catalog_loadable].
Qed.

(** What the memory holds under the address of a region of the catalog. *)
Lemma stored_catalog b (r : region) :
  wf_buffers b -> r ∈ catalog b ->
  stored (catalog_bursts b) ∅ !! token_bytes r.1.1 = Some r.2.
Proof.
  intros Hwf Hr. apply stored_lookup; [by apply catalog_loadable|].
  unfold catalog_bursts. apply list_elem_of_fmap. by exists r.
Qed.

(** The formats and capacities of the catalog are those of the readers. *)
Lemma tma_regions_ok :
  Forall (fun reg : string * format * Z * list Z =>
            match reg.1.1.2 with Bits w => 0 <= w <= 32 | Hex => True end
            /\ 0 <= reg.1.2) tma_regions.
Proof.
  unfold tma_regions.
  repeat (apply Forall_cons; split); [..|by apply Forall_nil]; cbn; lia.
Qed.

(** The receiver on the image of the buffers that [read_model_data]
    leaves. *)
Lemma loaded_received vol :
  exists r,
    receive_all tma_map (image (loaded vol zero_buffers)) power_on = Some r
    /\ holds_files vol r.
Proof.
  pose proof (wf_loaded vol _ wf_zero) as Hwf. eexists.
  split; [by apply image_received|]. split_and!; [done| |].
  - cbn [config_registers loaded Conf_reg_Buffer]. rewrite load_bin_words.
    by apply (words_of_region vol CONF_REG_FILE_NAME (Bits 32) 28).
  - cbn [memory]. pose proof (catalog_loadable _ Hwf) as [_ Hnd].
    rewrite catalog_bursts_loaded in *.
    pose proof tma_regions_ok as Hok. rewrite Forall_forall in Hok.
    apply Forall_forall. intros reg Hreg. destruct (Hok reg Hreg).
    rewrite (stored_lookup _ _ reg.2 (region_bytes vol reg.1.1.1 reg.1.1.2 reg.1.2));
      [|done|apply list_elem_of_fmap; by exists reg].
    cbn [fmap option_fmap option_map]. f_equal. by apply words_of_region.
Qed.

(** ** Theorems *)

(** C9.  The receiver accepts what [initial_TMA] sends.  On buffers of
    the declared sizes the transfers of [initial_TMA] are, for the
    receiver of the protocol with the memory map of the accelerator, the
    register block, then every region once, address before payload and
    payload of the capacity of the region, then the enable command: the
    receiver is armed by the last transfer and holds every buffer under
    the address of its region. *)
Theorem initial_TMA_accepted b a :
  wf_buffers b -> length a = 4%nat ->
  exists tr r,
    initial_TMA b a [] = Ok (XST_SUCCESS, tr)
    /\ receive_all tma_map tr power_on = Some r
    /\ stage r = Armed /\ config_registers r = Conf_reg_Buffer b
    /\ Forall (fun reg : region => memory r !! token_bytes reg.1.1 = Some reg.2)
              (catalog b).
Proof.
  intros Hwf Ha. eexists _, _.
  rewrite initial_TMA_image, decide_True by auto using wf_all_fit.
  split; [done|]. rewrite app_nil_l, image_received by done.
  split_and!; [done..|]. apply Forall_forall. intros reg Hreg.
  by apply stored_catalog.
Qed.

Lemma initial_TMA_accepted_witness :
  exists tr r,
    initial_TMA zero_buffers [0; 0; 0; 0] [] = Ok (XST_SUCCESS, tr)
    /\ receive_all tma_map tr power_on = Some r
    /\ stage r = Armed /\ config_registers r = Conf_reg_Buffer zero_buffers
    /\ Forall (fun reg : region => memory r !! token_bytes reg.1.1 = Some reg.2)
              (catalog zero_buffers).
Proof. apply (initial_TMA_accepted zero_buffers [0; 0; 0; 0]); [apply wf_zero | done]. Defined.

(** The language of the receiver.  A sequence of transfers arms a
    receiver exactly when it is a register block of the capacity of the
    memory map, then regions that the map knows, each once, address
    before payload and payload of the capacity of the region, then the
    enable address and the enable data, and nothing after them; the
    receiver then holds the register block and the payload of every
    region. *)
Theorem armed_iff_protocol mm ts r :
  receive_all mm ts power_on = Some r /\ stage r = Armed
  <-> exists regs rs,
        ts = regs :: bursts rs ++ [enable_addr mm; enable_data mm]
        /\ burst (register_capacity mm) regs /\ loadable mm ∅ rs
        /\ r = mkReceiver Armed regs (stored rs ∅).
Proof.
  split.
  - intros [Hrun Harmed]. destruct ts as [|regs ts]; [by injection Hrun as <-|].
    cbn [receive_all receive power_on stage memory] in Hrun.
    case_decide as Hregs; [|done].
    destruct (armed_from_ready mm (length ts) ts regs ∅ r) as (rs & -> & Hrs & ->);
      [done..|].
    by exists regs, rs.
  - intros (regs & rs & -> & Hregs & Hrs & ->). by rewrite receive_protocol.
Qed.

(** From the files to the accelerator.  Whatever the volume holds,
    [read_model_data] followed by [initial_TMA] leaves the receiver
    armed, with the words of the register file in the register block
    and, under the address of every region, the words of the file of
    that region: those of the lines that the reader accepts, in the
    order of the file, up to the capacity of the region, followed by
    zeros; a region whose file is missing holds zeros. *)
Theorem files_reach_accelerator lb128 lb32 a vol :
  Z.of_nat (length lb128) = 128 -> Z.of_nat (length lb32) = 32 -> length a = 4%nat ->
  exists b out tr r,
    read_model_data lb128 lb32 vol zero_buffers = Ok (b, out)
    /\ initial_TMA b a [] = Ok (XST_SUCCESS, tr)
    /\ receive_all tma_map tr power_on = Some r
    /\ holds_files vol r.
Proof.
  intros H128 H32 Ha. pose proof (wf_loaded vol _ wf_zero) as Hwf.
  destruct (loaded_received vol) as (r & Hr & Hfiles).
  eexists _, _, _, r. rewrite read_model_data_loaded by (done || apply wf_zero).
  split; [done|]. rewrite initial_TMA_image, decide_True by auto using wf_all_fit.
  by rewrite app_nil_l.
Qed.

Lemma files_reach_accelerator_witness :
  exists b out tr r,
    read_model_data (replicate 128 0) (replicate 32 0) ∅ zero_buffers = Ok (b, out)
    /\ initial_TMA b [0; 0; 0; 0] [] = Ok (XST_SUCCESS, tr)
    /\ receive_all tma_map tr power_on = Some r
    /\ holds_files ∅ r.
Proof.
  by apply (files_reach_accelerator (replicate 128 0) (replicate 32 0) [0; 0; 0; 0] ∅).
Defined.
