(* ===== verification/Codec.v ===== *)
(** * Codec: writing the registers of the audio codec

    [ADAU1761_Write_Reg] ([main_codec.c], lines 383-405) builds an I2C
    message in the local array [I2C_DATA]: the two bytes of the register
    address, high byte first, then [length] bytes of data; it hands the
    message to the driver and polls the bus until it is idle.
    [init_ADAU1761] (lines 344-379) is a sequence of thirty-one such
    writes.  Their addresses, lengths and data are macros and arrays of
    [Init_ADAU1761.h], a generated header that is not in the repository:
    the model names each write after its data array ([codec_write]),
    keeps the order of the source ([init_sequence]) and takes the values
    from a record [Init_ADAU1761_h].

    The I2C bus is modelled by the trace of the messages handed to the
    driver and, for the wait of line 404, by a state machine seen from
    the software: idle, busy for a number of polls, or stuck.  The loop
    that polls it has a fuel; [bus_fuel] is enough on every bus that is
    not stuck, and no fuel is enough on a stuck one. *)

From Stdlib Require Import ZArith Lia.
From stdpp Require Import base tactics option numbers strings list.
From S2P Require Import Prelude.

#[local] Open Scope Z_scope.
#[local] Open Scope kws_scope.

Module Codec.

(** [adau1761.h], lines 8 and 9. *)
Definition ADAU1761_DEV_ADDR : Z := 59.
Definition IIC_SCLK_RATE : Z := 100000.

(** ** The bus *)

(** The messages handed to the driver: device address and bytes. *)
Definition i2c_trace : Type := list (Z * list Z).

(** The bus after a message was handed over: idle, busy for [polls] more
    reads of the status after the next one, or busy for ever. *)
Inductive bus_state : Type :=
  | IDLE
  | BUSY (polls : nat)
  | STUCK.

#[export] Instance bus_state_eq_dec : EqDecision bus_state.
Proof. solve_decision. Defined.

(** [XIicPs_BusIsBusy]: one read of the status register. *)
Definition XIicPs_BusIsBusy (b : bus_state) : bool * bus_state :=
  match b with
  | IDLE => (false, IDLE)
  | BUSY O => (true, IDLE)
  | BUSY (S n) => (true, BUSY n)
  | STUCK => (true, STUCK)
  end.

(** [XIicPs_MasterSendPolled(&Iic, buf, count, addr)]: the first [count]
    bytes of [buf] go to the device at [addr]. *)
Definition XIicPs_MasterSendPolled (buf : list Z) (count addr : Z) (tr : i2c_trace)
    : res i2c_trace :=
  if decide (0 <= count <= Z.of_nat (length buf))
  then Ok (tr ++ [(addr, take (Z.to_nat count) buf)])
  else Fault OutOfBounds.

(** Line 404: [while (XIicPs_BusIsBusy(&Iic));]. *)
Fixpoint wait_idle (fuel : nat) (b : bus_state) : res bus_state :=
  match fuel with
  | O => Fault OutOfFuel
  | S fuel' =>
      let '(busy, b') := XIicPs_BusIsBusy b in
      if busy then wait_idle fuel' b' else Ok b'
  end.

(** The number of polls after which the loop has left a bus that is not
    stuck. *)
Definition bus_fuel (b : bus_state) : nat :=
  match b with
  | BUSY n => S (S n)
  | IDLE | STUCK => 1
  end.

(** ** The header [Init_ADAU1761.h] *)

(** The writes of [init_ADAU1761], each named after its data array. *)
Inductive codec_write : Type :=
  | R0_CLKCTRLREGISTER
  | R1_PLLCRLREGISTER
  | R3_SERIAL_PORT_CONTROL_REGISTERS
  | R4_ALC_CONTROL_REGISTERS
  | R5_MICCTRLREGISTER
  | R6_RECORD_INPUT_SIGNAL_PATH_REGISTERS
  | R7_ADC_CONTROL_REGISTERS
  | R8_PLAYBACK_OUTPUT_SIGNAL_PATH_REGISTERS
  | R9_CONVERTER_CONTROL_REGISTERS
  | R10_DAC_CONTROL_REGISTERS
  | R11_SERIAL_PORT_PAD_CONTROL_REGISTERS
  | R12_COMMUNICATION_PORT_PAD_CONTROL_REGISTERS
  | R13_JACKREGISTER
  | R14_DSP_ENABLE_REGISTER
  | R15_CRC_REGISTERS
  | R16_GPIO_REGISTERS
  | R17_NON_MODULO_REGISTERS
  | R18_WATCHDOG_REGISTERS
  | R19_SAMPLE_RATE_SETTING
  | R20_ROUTING_MATRIX_INPUTS
  | R21_ROUTING_MATRIX_OUTPUTS
  | R22_SERIAL_DATAGPIO_PIN_CONFIG
  | R23_DSP_SLEW_MODES
  | R24_SERIAL_PORT_SAMPLE_RATE_SETTING
  | R25_CLOCK_ENABLE_REGISTERS
  | Program_Data
  | Param_Data
  | R28_SAMPLE_RATE_SETTING
  | R29_DSP_RUN_REGISTER
  | R30_DEJITTER_REGISTER_CONTROL
  | R31_DEJITTER_REGISTER_CONTROL.

#[export] Instance codec_write_eq_dec : EqDecision codec_write.
Proof. solve_decision. Defined.

(** What the header defines: the two sizes that the source names, the
    value of the address macro and of the length macro of each register
    or block, and the data array of each write. *)
Record Init_ADAU1761_h : Type := mkHeader {
  PROGRAM_SIZE_ADAU1761 : Z;
  PARAM_SIZE_ADAU1761 : Z;
  reg_addr_of : codec_write -> Z;
  reg_size_of : codec_write -> Z;
  reg_default_of : codec_write -> list Z
}.

(** The arguments of one call of [ADAU1761_Write_Reg]: register address,
    length, data. *)
Definition reg_write : Type := Z * Z * list Z.

(** The write after which the address and length macros of a call are
    named.  Line 375 names the macros of the sample-rate register, as
    line 366 does, and line 378 those of the dejitter register, as line
    377 does: these registers are written twice, with two data arrays. *)
Definition register_of (w : codec_write) : codec_write :=
  match w with
  | R28_SAMPLE_RATE_SETTING => R19_SAMPLE_RATE_SETTING
  | R31_DEJITTER_REGISTER_CONTROL => R30_DEJITTER_REGISTER_CONTROL
  | _ => w
  end.

(** The arguments of the call that makes the write [w] (lines 346-378):
    lines 373 and 374 pass the two sizes. *)
Definition call_of (h : Init_ADAU1761_h) (w : codec_write) : reg_write :=
  (reg_addr_of h (register_of w),
   match w with
   | Program_Data => PROGRAM_SIZE_ADAU1761 h
   | Param_Data => PARAM_SIZE_ADAU1761 h
   | _ => reg_size_of h (register_of w)
   end,
   reg_default_of h w).

(** Lines 346-378, top to bottom; the [sleep(1)] of line 349 follows the
    second write. *)
Definition init_sequence : list codec_write :=
  [R0_CLKCTRLREGISTER;
   R1_PLLCRLREGISTER;
   R3_SERIAL_PORT_CONTROL_REGISTERS;
   R4_ALC_CONTROL_REGISTERS;
   R5_MICCTRLREGISTER;
   R6_RECORD_INPUT_SIGNAL_PATH_REGISTERS;
   R7_ADC_CONTROL_REGISTERS;
   R8_PLAYBACK_OUTPUT_SIGNAL_PATH_REGISTERS;
   R9_CONVERTER_CONTROL_REGISTERS;
   R10_DAC_CONTROL_REGISTERS;
   R11_SERIAL_PORT_PAD_CONTROL_REGISTERS;
   R12_COMMUNICATION_PORT_PAD_CONTROL_REGISTERS;
   R13_JACKREGISTER;
   R14_DSP_ENABLE_REGISTER;
   R15_CRC_REGISTERS;
   R16_GPIO_REGISTERS;
   R17_NON_MODULO_REGISTERS;
   R18_WATCHDOG_REGISTERS;
   R19_SAMPLE_RATE_SETTING;
   R20_ROUTING_MATRIX_INPUTS;
   R21_ROUTING_MATRIX_OUTPUTS;
   R22_SERIAL_DATAGPIO_PIN_CONFIG;
   R23_DSP_SLEW_MODES;
   R24_SERIAL_PORT_SAMPLE_RATE_SETTING;
   R25_CLOCK_ENABLE_REGISTERS;
   Program_Data;
   Param_Data;
   R28_SAMPLE_RATE_SETTING;
   R29_DSP_RUN_REGISTER;
   R30_DEJITTER_REGISTER_CONTROL;
   R31_DEJITTER_REGISTER_CONTROL].

Section Codec.
(** [PROGRAM_SIZE_ADAU1761], and the state in which a message leaves the
    bus. *)
Context (PROGRAM_SIZE : Z) (after_send : bus_state).

(** [adau1761.h], line 10. *)
Definition MAX_BRUST_LEN : Z := PROGRAM_SIZE + 5.

(** Lines 383-405.  [I2C_DATA] is the local array of [MAX_BRUST_LEN + 2]
    bytes as the function finds it; the parameters [reg_addr] and
    [length] are [u16].  The result is the trace and the lines
    printed. *)
Definition ADAU1761_Write_Reg (I2C_DATA : list Z) (reg_addr length : Z)
    (reg_data : list Z) (tr : i2c_trace) : res (i2c_trace * list string) :=
  let reg_addr := u16 reg_addr in
  let length := u16 length in
  let out :=
    if decide (length > MAX_BRUST_LEN)
    then ["IIC REG Address write length exceed MAX_BRUST_LEN"%string] else [] in
  (* register address *)
  let* d := aset I2C_DATA 0 (u8 (Z.shiftr reg_addr 8)) in
  let* d := aset d 1 (u8 (Z.land reg_addr 255)) in
  (* data *)
  let* d :=
    for_loop (Z.to_nat length) 0
      (fun i d => let* x := aget reg_data i in
                  let* d := aset d (2 + i) x in Ok (Continue d)) d in
  (* I2C write *)
  let* tr := XIicPs_MasterSendPolled d (length + 2) ADAU1761_DEV_ADDR tr in
  (* wait for finish *)
  let* _ := wait_idle (bus_fuel after_send) after_send in
  Ok (tr, out).

(** A sequence of calls of [ADAU1761_Write_Reg]. *)
Fixpoint write_all (I2C_DATA : list Z) (calls : list reg_write)
    (tr : i2c_trace) : res (i2c_trace * list string) :=
  match calls with
  | [] => Ok (tr, [])
  | (reg_addr, length, reg_data) :: calls' =>
      let* '(tr, out) := ADAU1761_Write_Reg I2C_DATA reg_addr length reg_data tr in
      let* '(tr, out') := write_all I2C_DATA calls' tr in
      Ok (tr, out ++ out')
  end.

End Codec.

(** Lines 344-379: the thirty-one calls, in the order of the source. *)
Definition init_ADAU1761 (h : Init_ADAU1761_h) (after_send : bus_state)
    (I2C_DATA : list Z) (tr : i2c_trace) : res (i2c_trace * list string) :=
  write_all (PROGRAM_SIZE_ADAU1761 h) after_send I2C_DATA
    (map (call_of h) init_sequence) tr.

End Codec.

Import Codec.

(** ** The message of one write *)

(** The message that a register write puts on the bus. *)
Definition message (reg_addr length : Z) (reg_data : list Z) : Z * list Z :=
  (ADAU1761_DEV_ADDR,
   [reg_addr / 256; reg_addr mod 256] ++ take (Z.to_nat length) reg_data).

(** A write that the array [I2C_DATA] can hold. *)
Definition write_ok (PROGRAM_SIZE : Z) (w : reg_write) : Prop :=
  0 <= w.1.1 < 65536 /\ 0 <= w.1.2 <= MAX_BRUST_LEN PROGRAM_SIZE
  /\ w.1.2 < 65536 /\ w.1.2 <= Z.of_nat (length w.2).

#[export] Instance write_ok_dec n w : Decision (write_ok n w).
Proof. unfold write_ok. apply _. Defined.

(** The messages of [init_ADAU1761]. *)
Definition init_messages (h : Init_ADAU1761_h) : i2c_trace :=
  map (fun w => let c := call_of h w in message c.1.1 c.1.2 c.2) init_sequence.

(** A header all of whose writes fit. *)
Definition header_ok (h : Init_ADAU1761_h) : Prop :=
  Forall (fun w => write_ok (PROGRAM_SIZE_ADAU1761 h) (call_of h w)) init_sequence.

#[export] Instance header_ok_dec h : Decision (header_ok h).
Proof. unfold header_ok. apply _. Defined.

(** ** The wait for the bus *)

Lemma wait_idle_BUSY n fuel :
  (S n < fuel)%nat -> wait_idle fuel (BUSY n) = Ok IDLE.
Proof.
  revert fuel; induction n as [|n IH]; intros [|fuel] Hf; try lia; cbn.
  - destruct fuel; [lia | done].
  - apply IH. lia.
Qed.

Lemma wait_idle_STUCK fuel : wait_idle fuel STUCK = Fault OutOfFuel.
Proof. by induction fuel. Qed.

Lemma wait_idle_enough b :
  b <> STUCK -> wait_idle (bus_fuel b) b = Ok IDLE.
Proof. destruct b as [|n|]; [done | intros _; apply wait_idle_BUSY; cbn; lia | done]. Qed.

(** The loop leaves when the bus is idle, and only then. *)
Lemma wait_idle_Ok fuel b b' : wait_idle fuel b = Ok b' -> b' = IDLE /\ b <> STUCK.
Proof.
  revert b; induction fuel as [|fuel IH]; intros b; [done|]. cbn.
  destruct b as [|[|n]|]; cbn.
  - by intros [= <-].
  - intros H. by destruct (IH _ H).
  - intros H. by destruct (IH _ H).
  - by rewrite wait_idle_STUCK.
Qed.

(** Fuel beyond what the loop uses changes nothing. *)
Lemma wait_idle_mono fuel fuel' b b' :
  wait_idle fuel b = Ok b' -> (fuel <= fuel')%nat -> wait_idle fuel' b = Ok b'.
Proof.
  revert fuel' b; induction fuel as [|fuel IH]; intros fuel' b; [done|].
  destruct fuel' as [|fuel']; [lia|]. cbn.
  destruct (XIicPs_BusIsBusy b) as [[] b1]; [|done].
  intros H ?. apply IH; [done | lia].
Qed.

Lemma wait_idle_short fuel b :
  (fuel < bus_fuel b)%nat -> wait_idle fuel b = Fault OutOfFuel.
Proof.
  revert b; induction fuel as [|fuel IH]; intros b Hf; [done|].
  destruct b as [|[|n]|]; cbn in *; try lia.
  - destruct fuel; [done | lia].
  - apply IH. cbn. lia.
Qed.


Lemma map_lookup_seqZ (l : list Z) (n : nat) :
  (n <= length l)%nat ->
  map (fun i => default 0 (l !! Z.to_nat i)) (seqZ 0 (Z.of_nat n)) = take n l.
Proof.
  intros Hn. apply list_eq. intros i.
  change (map ?f ?xs) with (f <$> xs). rewrite list_lookup_fmap, lookup_take.
  destruct (decide (i < n)%nat).
  - rewrite lookup_seqZ_lt, Z.add_0_l by lia.
    cbn [fmap option_fmap option_map]. rewrite Nat2Z.id.
    destruct (lookup_lt_is_Some_2 l i) as [x ->]; [lia|done].
  - by rewrite lookup_seqZ_ge by lia.
Qed.

Section CodecSpec.
Context (PROGRAM_SIZE : Z) (after_send : bus_state) (I2C_DATA : list Z).
Context (Hsize : Z.of_nat (length I2C_DATA) = MAX_BRUST_LEN PROGRAM_SIZE + 2).

(** The copy loop of lines 396-398 on an array that has room. *)
Lemma copy_loop (x y len : Z) (l reg_data : list Z) :
  0 <= len <= Z.of_nat (length l) -> len <= Z.of_nat (length reg_data) ->
  for_loop (Z.to_nat len) 0
    (fun i d => let* x := aget reg_data i in
                let* d := aset d (2 + i) x in Ok (Continue d)) ([x; y] ++ l)
  = Ok ([x; y] ++ take (Z.to_nat len) reg_data ++ drop (Z.to_nat len) l).
Proof.
  intros Hlen Hdata. rewrite <- (take_drop (Z.to_nat len) l) at 1.
  pose proof (for_loop_store (aget reg_data)
                (fun i => default 0 (reg_data !! Z.to_nat i)) 2
                (take (Z.to_nat len) l) [x; y] (drop (Z.to_nat len) l) 0) as Hloop.
  rewrite length_take, Nat.min_l in Hloop by lia.
  rewrite Hloop; clear Hloop; [|done|].
  - by rewrite map_lookup_seqZ by lia.
  - intros j Hj.
    destruct (lookup_lt_is_Some_2 reg_data (Z.to_nat j)) as [v Hv]; [lia|].
    by rewrite (aget_lookup _ _ v), Hv by (lia || done).
Qed.

(** A write that fits: the message is handed over; the function returns
    when the bus becomes idle. *)
Lemma Write_Reg_message reg_addr len reg_data tr :
  write_ok PROGRAM_SIZE (reg_addr, len, reg_data) ->
  ADAU1761_Write_Reg PROGRAM_SIZE after_send I2C_DATA reg_addr len reg_data tr
  = if decide (after_send = STUCK) then Fault OutOfFuel
    else Ok (tr ++ [message reg_addr len reg_data], []).
Proof.
  intros (Haddr & Hlen & Hlen16 & Hdata). cbn [fst snd] in *.
  unfold ADAU1761_Write_Reg, message, MAX_BRUST_LEN in *. cbv zeta.
  rewrite !u16_small, decide_False by lia.
  destruct I2C_DATA as [|a [|b l]]; cbn [length] in *; try lia.
  rewrite aset_Ok by (cbn [length]; lia). cbn [bind].
  rewrite aset_Ok by (rewrite length_insert; cbn [length]; lia). cbn [bind].
  change (<[Z.to_nat 1:=?y]> (<[Z.to_nat 0:=?x]> (a :: b :: l))) with ([x; y] ++ l).
  rewrite copy_loop by lia. cbn [bind].
  unfold XIicPs_MasterSendPolled. rewrite decide_True.
  2:{ rewrite !length_app, length_take. cbn [length]. lia. }
  cbn [bind]. replace (Z.to_nat (len + 2)) with (2 + Z.to_nat len)%nat by lia.
  cbn [app take Nat.add]. rewrite take_app_length' by (rewrite length_take; lia).
  change 255 with (Z.ones 8). rewrite Z.shiftr_div_pow2, Z.land_ones by lia.
  change (2 ^ 8) with 256.
  rewrite !u8_small by (unfold u8; change (2 ^ 8) with 256;
                        Z.div_mod_to_equations; lia).
  case_decide as Hb; [subst; by rewrite wait_idle_STUCK|].
  by rewrite wait_idle_enough.
Qed.

Lemma write_all_app calls1 calls2 tr :
  write_all PROGRAM_SIZE after_send I2C_DATA (calls1 ++ calls2) tr
  = (let* '(tr, out) := write_all PROGRAM_SIZE after_send I2C_DATA calls1 tr in
     let* '(tr, out') := write_all PROGRAM_SIZE after_send I2C_DATA calls2 tr in
     Ok (tr, out ++ out')).
Proof.
  revert tr; induction calls1 as [|[[a n] d] calls1 IH]; intros tr.
  - cbn. by destruct (write_all _ _ _ calls2 tr) as [[]|].
  - cbn [app write_all].
    destruct (ADAU1761_Write_Reg _ _ _ _ _ _ _) as [[tr1 out1]|]; [|done].
    cbn [bind]. rewrite IH.
    destruct (write_all _ _ _ calls1 tr1) as [[tr2 out2]|]; [|done]. cbn [bind].
    destruct (write_all _ _ _ calls2 tr2) as [[tr3 out3]|]; [|done]. cbn [bind].
    by rewrite app_assoc.
Qed.

Lemma write_all_messages calls tr :
  after_send <> STUCK -> Forall (write_ok PROGRAM_SIZE) calls ->
  write_all PROGRAM_SIZE after_send I2C_DATA calls tr
  = Ok (tr ++ map (fun w => message w.1.1 w.1.2 w.2) calls, []).
Proof.
  intros Hbus Hcalls. revert tr.
  induction Hcalls as [|[[a n] d] calls Hw _ IH]; intros tr.
  - by rewrite app_nil_r.
  - cbn [write_all]. rewrite Write_Reg_message, decide_False by done. cbn [bind].
    rewrite IH. cbn [bind map fst snd app]. by rewrite <- app_assoc.
Qed.

Lemma Write_Reg_fault reg_addr len reg_data tr :
  0 <= PROGRAM_SIZE -> MAX_BRUST_LEN PROGRAM_SIZE < len < 65536 ->
  len <= Z.of_nat (length reg_data) ->
  ADAU1761_Write_Reg PROGRAM_SIZE after_send I2C_DATA reg_addr len reg_data tr
  = Fault OutOfBounds.
Proof.
  intros Hp Hlen Hdata. unfold ADAU1761_Write_Reg, MAX_BRUST_LEN in *. cbv zeta.
  rewrite (u16_small len) by lia.
  rewrite aset_Ok by lia. cbn [bind].
  rewrite aset_Ok by (rewrite length_insert; lia). cbn [bind].
  rewrite (for_loop_fault_inv _
             (fun d => Z.of_nat (length d) = PROGRAM_SIZE + 5 + 2) OutOfBounds);
    [done | by rewrite !length_insert | |].
  - intros j d Hj Hd.
    destruct (aget_in_bounds reg_data j) as [x ->]; [lia|]. cbn [bind].
    destruct (decide (j < PROGRAM_SIZE + 5)).
    + left. rewrite aset_Ok by lia. cbn [bind]. eexists. split; [done|].
      by rewrite length_insert.
    + right. by rewrite aset_out_of_bounds by lia.
  - exists (PROGRAM_SIZE + 5). split; [lia|]. intros d Hd.
    destruct (aget_in_bounds reg_data (PROGRAM_SIZE + 5)) as [x ->]; [lia|].
    cbn [bind]. by rewrite aset_out_of_bounds by lia.
Qed.
End CodecSpec.

(** [init_ADAU1761] on a header whose writes all fit. *)
Lemma init_ADAU1761_messages h after_send I2C_DATA tr :
  Z.of_nat (length I2C_DATA) = MAX_BRUST_LEN (PROGRAM_SIZE_ADAU1761 h) + 2 ->
  header_ok h ->
  init_ADAU1761 h after_send I2C_DATA tr
  = if decide (after_send = STUCK) then Fault OutOfFuel
    else Ok (tr ++ init_messages h, []).
Proof.
  intros Hsize Hh. unfold init_ADAU1761, init_messages. case_decide as Hb.
  - subst. apply Forall_cons in Hh as [Hw _]. unfold call_of in Hw.
    unfold init_sequence. cbn [map]. unfold call_of at 1. cbn [write_all].
    by rewrite Write_Reg_message.
  - rewrite write_all_messages; [|done..|].
    + by rewrite map_map.
    + by apply Forall_map.
Qed.

(** ** Theorems *)

(** A register write whose length is within [MAX_BRUST_LEN] sends
    one message to the codec: the register address, high byte first,
    followed by the first [length] bytes of the data; it prints nothing,
    stays within the array [I2C_DATA], and returns when the bus has
    become idle. *)
Theorem Write_Reg_spec PROGRAM_SIZE bus I2C_DATA reg_addr len reg_data tr :
  Z.of_nat (length I2C_DATA) = MAX_BRUST_LEN PROGRAM_SIZE + 2 ->
  bus <> STUCK ->
  0 <= reg_addr < 65536 -> 0 <= len <= MAX_BRUST_LEN PROGRAM_SIZE -> len < 65536 ->
  len <= Z.of_nat (length reg_data) ->
  ADAU1761_Write_Reg PROGRAM_SIZE bus I2C_DATA reg_addr len reg_data tr
  = Ok (tr ++ [(ADAU1761_DEV_ADDR,
                [reg_addr / 256; reg_addr mod 256]
                ++ take (Z.to_nat len) reg_data)], []).
Proof. intros. by rewrite Write_Reg_message, decide_False. Qed.

Lemma Write_Reg_spec_witness :
  ADAU1761_Write_Reg 1 (BUSY 3) (replicate 8 170) 16405 2 [1; 2; 3] []
  = Ok ([(59, [64; 21; 1; 2])], []).
Proof.
  apply (Write_Reg_spec 1 (BUSY 3) (replicate 8 170) 16405 2 [1; 2; 3] []);
    [reflexivity | done | lia | unfold MAX_BRUST_LEN; lia | lia | cbn; lia].
Defined.

(** A register write longer than [MAX_BRUST_LEN] is detected but
    not refused: the copy runs past the end of [I2C_DATA], and nothing is
    sent. *)
Theorem Write_Reg_overrun PROGRAM_SIZE bus I2C_DATA reg_addr len reg_data tr :
  Z.of_nat (length I2C_DATA) = MAX_BRUST_LEN PROGRAM_SIZE + 2 ->
  0 <= PROGRAM_SIZE -> MAX_BRUST_LEN PROGRAM_SIZE < len < 65536 ->
  len <= Z.of_nat (length reg_data) ->
  ADAU1761_Write_Reg PROGRAM_SIZE bus I2C_DATA reg_addr len reg_data tr
  = Fault OutOfBounds.
Proof. intros. by apply Write_Reg_fault. Qed.

Lemma Write_Reg_overrun_witness :
  ADAU1761_Write_Reg 1 IDLE (replicate 8 170) 16405 7 (replicate 7 1) []
  = Fault OutOfBounds.
Proof.
  apply (Write_Reg_overrun 1 IDLE (replicate 8 170) 16405 7 (replicate 7 1) []);
    [reflexivity | lia | unfold MAX_BRUST_LEN; lia | cbn; lia].
Defined.

(** C26.  The wait for the bus (line 404), for every fuel and every bus:
    on a bus that is busy for [n] more polls the loop leaves after
    [n + 2] reads of the status, with the bus idle; on a bus that stays
    busy it never leaves, whatever the fuel.  The loop has no time-out. *)
Theorem wait_idle_spec fuel b :
  wait_idle fuel b
  = if decide (b <> STUCK /\ (bus_fuel b <= fuel)%nat) then Ok IDLE
    else Fault OutOfFuel.
Proof.
  case_decide as H.
  - destruct H as [Hb Hf].
    by apply (wait_idle_mono (bus_fuel b)); [apply wait_idle_enough|].
  - destruct (decide (b = STUCK)) as [->|]; [apply wait_idle_STUCK|].
    apply wait_idle_short. apply not_and_l in H as [?|?]; [done | lia].
Qed.

(** C19.  [init_ADAU1761] on a header whose thirty-one writes fit the
    array: when the bus becomes idle after each message, the codec
    receives the thirty-one messages in the order of the source and
    nothing is printed; when the bus stays busy the function does not
    return from its first write. *)
Theorem init_ADAU1761_spec h bus I2C_DATA tr :
  Z.of_nat (length I2C_DATA) = MAX_BRUST_LEN (PROGRAM_SIZE_ADAU1761 h) + 2 ->
  header_ok h ->
  init_ADAU1761 h bus I2C_DATA tr
  = (if decide (bus = STUCK) then Fault OutOfFuel
     else Ok (tr ++ init_messages h, []))
  /\ length (init_messages h) = 31%nat.
Proof. intros. split; [by apply init_ADAU1761_messages | done]. Qed.

(** A header for the examples: every register write has one byte, the
    program four and the parameters three. *)
Definition demo_header : Init_ADAU1761_h :=
  mkHeader 4 3 (fun w => if decide (w = Program_Data) then 2048 else 16384)
           (fun _ => 1) (fun w => if decide (w = Program_Data) then [1; 2; 3; 4]
                                  else [5; 6; 7]).

Lemma init_ADAU1761_spec_witness :
  init_ADAU1761 demo_header (BUSY 2) (replicate 11 0) []
  = (if decide (BUSY 2 = STUCK) then Fault OutOfFuel
     else Ok ([] ++ init_messages demo_header, []))
  /\ length (init_messages demo_header) = 31%nat.
Proof.
  apply (init_ADAU1761_spec demo_header (BUSY 2) (replicate 11 0) []);
    [reflexivity | apply (bool_decide_unpack _); by vm_compute].
Defined.

(** C36.  The bound [MAX_BRUST_LEN] is [PROGRAM_SIZE_ADAU1761 + 5], so
    the program always fits; the parameters (line 374) fit only when
    [PARAM_SIZE_ADAU1761] is within that bound.  With a larger parameter
    block, and the writes before it in order, [init_ADAU1761] runs past
    the end of [I2C_DATA] at its twenty-seventh write. *)
Theorem init_ADAU1761_param_overrun h bus I2C_DATA tr :
  Z.of_nat (length I2C_DATA) = MAX_BRUST_LEN (PROGRAM_SIZE_ADAU1761 h) + 2 ->
  bus <> STUCK -> 0 <= PROGRAM_SIZE_ADAU1761 h ->
  Forall (fun w => write_ok (PROGRAM_SIZE_ADAU1761 h) (call_of h w))
         (take 26 init_sequence) ->
  MAX_BRUST_LEN (PROGRAM_SIZE_ADAU1761 h) < PARAM_SIZE_ADAU1761 h < 65536 ->
  PARAM_SIZE_ADAU1761 h <= Z.of_nat (length (reg_default_of h Param_Data)) ->
  init_ADAU1761 h bus I2C_DATA tr = Fault OutOfBounds.
Proof.
  intros Hsize Hbus Hp Hpre Hparam Hdata. unfold init_ADAU1761.
  change init_sequence
    with (take 26 init_sequence ++ Param_Data :: drop 27 init_sequence).
  rewrite map_app, write_all_app.
  rewrite write_all_messages by (done || by apply Forall_map). cbn [bind].
  rewrite map_cons.
  change (call_of h Param_Data)
    with (reg_addr_of h Param_Data, PARAM_SIZE_ADAU1761 h, reg_default_of h Param_Data).
  cbn [write_all]. by rewrite Write_Reg_fault.
Qed.

Lemma init_ADAU1761_param_overrun_witness :
  init_ADAU1761 (mkHeader 1 7 (fun _ => 16384) (fun _ => 1) (fun _ => replicate 7 1))
                IDLE (replicate 8 0) []
  = Fault OutOfBounds.
Proof.
  apply (init_ADAU1761_param_overrun
           (mkHeader 1 7 (fun _ => 16384) (fun _ => 1) (fun _ => replicate 7 1))
           IDLE (replicate 8 0) []);
    [reflexivity | done | done | | by vm_compute | by vm_compute].
  apply (bool_decide_unpack _). by vm_compute.
Defined.
