(* ===== verification/Handoff.v ===== *)
(** * Handoff: the completion interrupt and the polling loop

    The accelerator signals a finished inference on a line of the AXI
    GPIO.  [intr_handler] ([main_codec.c], lines 329-341) runs in
    interrupt context: when the line reads 1 it sets
    [inference_finish_flag]; in either case it clears the interrupt and
    leaves it enabled.  The body of the [while(1)] of [main] (lines
    162-269) tests the flag, clears it and processes one frame with the
    aggregator; with the flag down it does nothing.

    The interleaving of the two is a sequence of [action]s chosen by the
    environment.  An interrupt that arrives while a frame is processed
    finds the flag already cleared (line 165 precedes the step) and the
    step does not touch the flag, so it is the same as an interrupt right
    after the iteration: lemma [interrupt_during_step].  The interrupt
    registers of the GPIO channel are modelled from the driver's
    documentation by the two bits the handler changes. *)

From Stdlib Require Import ZArith Lia.
From stdpp Require Import base tactics option numbers strings list.
From S2P Require Import Prelude Aggregator AggregatorInv.

#[local] Open Scope Z_scope.
#[local] Open Scope kws_scope.

Module Handoff.
Import Aggregator.

(** The interrupt registers of channel 1: enable bit and status bit. *)
Record gpio : Type := mkGpio { ier : bool; isr : bool }.

Definition XGpio_InterruptDisable (g : gpio) : gpio := mkGpio false (isr g).
Definition XGpio_InterruptClear (g : gpio) : gpio := mkGpio (ier g) false.
Definition XGpio_InterruptEnable (g : gpio) : gpio := mkGpio true (isr g).

(** The variables that the handler and the loop share, the GPIO and the
    state of the aggregator. *)
Record system : Type := mkSystem {
  inference_finish_flag : Z;
  axi_gpio : gpio;
  agg : state
}.

#[export] Instance gpio_eq_dec : EqDecision gpio.
Proof. solve_decision. Defined.
#[export] Instance system_eq_dec : EqDecision system.
Proof. solve_decision. Defined.

(** Lines 329-341; [done] is the level that [XGpio_DiscreteRead] finds on
    the line. *)
Definition intr_handler (done : Z) (s : system) : system :=
  let s :=
    if decide (done = 1)
    then mkSystem 1 (XGpio_InterruptDisable (axi_gpio s)) (agg s)
    else s in
  let s := mkSystem (inference_finish_flag s) (XGpio_InterruptClear (axi_gpio s)) (agg s) in
  mkSystem (inference_finish_flag s) (XGpio_InterruptEnable (axi_gpio s)) (agg s).

(** Line 165. *)
Definition take_flag (s : system) : system :=
  mkSystem 0 (axi_gpio s) (agg s).

(** Lines 168-267, on the aggregator of the system. *)
Definition process (b0 b1 b2 b3 : Z) (s : system) : res (system * list event) :=
  let* '(st, out) := process_frame b0 b1 b2 b3 (agg s) in
  Ok (mkSystem (inference_finish_flag s) (axi_gpio s) st, out).

(** Lines 162-269: one iteration of the [while(1)]. *)
Definition main_iteration (b0 b1 b2 b3 : Z) (s : system)
    : res (system * list event) :=
  if decide (inference_finish_flag s = 1)
  then process b0 b1 b2 b3 (take_flag s)
  else Ok (s, []).

(** What happens next: the handler runs and finds [done] on the line, or
    the loop makes one iteration while the pins show the code [c]. *)
Inductive action : Type :=
  | Interrupt (done : Z)
  | Iteration (c : Z).

Definition exec (a : action) (s : system) : res (system * list event) :=
  match a with
  | Interrupt done => Ok (intr_handler done s, [])
  | Iteration c =>
      let '(b0, b1, b2, b3) := pins_of c in main_iteration b0 b1 b2 b3 s
  end.

Fixpoint exec_all (acts : list action) (s : system) : res (system * list event) :=
  match acts with
  | [] => Ok (s, [])
  | a :: acts' =>
      let* '(s', out) := exec a s in
      let* '(s'', out') := exec_all acts' s' in
      Ok (s'', out ++ out')
  end.

(** The system when [main] enters its loop and no completion arrived
    during the start-up. *)
Definition boot_system : system :=
  mkSystem 0 (mkGpio true false) init_state.

End Handoff.

Import Aggregator Handoff.

(** ** The channel of capacity one *)

(** The frames that a sequence of actions delivers to the aggregator:
    an iteration takes the code on the pins when a completion is pending;
    [pending] is the state of the channel. *)
Fixpoint delivered (acts : list action) (pending : bool) : list Z :=
  match acts with
  | [] => []
  | Interrupt done :: acts' => delivered acts' (pending || bool_decide (done = 1))
  | Iteration c :: acts' =>
      if pending then c :: delivered acts' false else delivered acts' false
  end.

(** Whether a completion is pending after the actions. *)
Fixpoint pending_after (acts : list action) (pending : bool) : bool :=
  match acts with
  | [] => pending
  | Interrupt done :: acts' => pending_after acts' (pending || bool_decide (done = 1))
  | Iteration _ :: acts' => pending_after acts' false
  end.

Definition flag_of (pending : bool) : Z := if pending then 1 else 0.

(** The interrupt registers after the actions: every run of the handler
    leaves the interrupt cleared and enabled. *)
Fixpoint gpio_after (acts : list action) (g : gpio) : gpio :=
  match acts with
  | [] => g
  | Interrupt _ :: acts' => gpio_after acts' (mkGpio true false)
  | Iteration _ :: acts' => gpio_after acts' g
  end.

(** The flag is 0 or 1 and the interrupt is enabled. *)
Definition handoff_ok (s : system) : Prop :=
  inference_finish_flag s ∈ [0; 1] /\ ier (axi_gpio s) = true.

Definition is_pending (s : system) : bool :=
  bool_decide (inference_finish_flag s = 1).

(** The system after the actions, given the final state of the
    aggregator. *)
Definition settled (acts : list action) (s : system) (st : state) : system :=
  mkSystem (flag_of (pending_after acts (is_pending s)))
           (gpio_after acts (axi_gpio s)) st.

(** One completion and the iteration that takes it, for each code. *)
Definition cycles (cs : list Z) : list action :=
  flat_map (fun c => [Interrupt 1; Iteration c]) cs.

(** ** Lemmas *)

Lemma intr_handler_spec done s :
  intr_handler done s
  = mkSystem (if decide (done = 1) then 1 else inference_finish_flag s)
             (mkGpio true false) (agg s).
Proof. unfold intr_handler. by case_decide. Qed.

Lemma flag_of_pending s :
  inference_finish_flag s ∈ [0; 1] -> inference_finish_flag s = flag_of (is_pending s).
Proof.
  unfold is_pending, flag_of. intros H. case_bool_decide; [done|].
  by apply elem_of_cons in H as [?|[?|[]%elem_of_nil]%elem_of_cons].
Qed.

Lemma exec_Iteration c s :
  exec (Iteration c) s
  = if decide (inference_finish_flag s = 1)
    then let* '(st, out) := step c (agg s) in Ok (mkSystem 0 (axi_gpio s) st, out)
    else Ok (s, []).
Proof.
  unfold exec, step, main_iteration, process, take_flag.
  destruct (pins_of c) as [[[b0 b1] b2] b3]. by case_decide.
Qed.

Lemma is_pending_handler d s :
  is_pending (intr_handler d s) = is_pending s || bool_decide (d = 1).
Proof.
  rewrite intr_handler_spec. unfold is_pending. cbn.
  case_decide; repeat case_bool_decide; done.
Qed.

Lemma handler_flag d s :
  inference_finish_flag s ∈ [0; 1] ->
  inference_finish_flag (intr_handler d s) ∈ [0; 1].
Proof.
  rewrite intr_handler_spec. cbn. case_decide; [|done].
  intros _. apply list_elem_of_further, list_elem_of_here.
Qed.

Lemma settled_nil s :
  inference_finish_flag s ∈ [0; 1] -> settled [] s (agg s) = s.
Proof.
  intros H. unfold settled. cbn. rewrite <- flag_of_pending by done.
  by destruct s.
Qed.

(** The actions deliver to the aggregator the frames of the channel, and
    leave the system settled. *)
Lemma exec_all_delivered acts : forall s,
  inference_finish_flag s ∈ [0; 1] ->
  exec_all acts s
  = (let* '(st, outs) := run (delivered acts (is_pending s)) (agg s) in
     Ok (settled acts s st, concat outs)).
Proof.
  induction acts as [|[d|c] acts IH]; intros s Hs.
  - cbn. by rewrite settled_nil.
  - cbn [exec_all exec bind delivered]. rewrite IH by by apply handler_flag.
    rewrite is_pending_handler. unfold settled.
    rewrite is_pending_handler, !intr_handler_spec. cbn [agg axi_gpio].
    by destruct (run _ _) as [[st outs]|].
  - cbn [exec_all delivered]. rewrite exec_Iteration. unfold is_pending.
    case_decide as Hf.
    + rewrite bool_decide_eq_true_2 by done. cbn [run].
      destruct (step c (agg s)) as [[st out]|]; [|done]. cbn [bind].
      rewrite IH by (apply list_elem_of_here). unfold settled, is_pending.
      cbn [agg axi_gpio inference_finish_flag pending_after gpio_after].
      rewrite bool_decide_eq_false_2 by done.
      by destruct (run _ st) as [[st' outs]|].
    + rewrite bool_decide_eq_false_2 by done. cbn [bind].
      rewrite IH by done. unfold settled, is_pending.
      cbn [pending_after gpio_after]. rewrite bool_decide_eq_false_2 by done.
      destruct (run _ _) as [[st' outs]|]; [|done]. by cbn.
Qed.

Lemma delivered_cycles cs pending : delivered (cycles cs) pending = cs.
Proof.
  revert pending; induction cs as [|c cs IH]; intros pending; [done|].
  cbn. rewrite orb_true_r. f_equal. apply IH.
Qed.

Lemma pending_after_cycles cs pending :
  cs <> [] -> pending_after (cycles cs) pending = false.
Proof.
  revert pending; induction cs as [|c cs IH]; intros pending Hcs; [done|].
  cbn. destruct cs; [done|]. by apply IH.
Qed.

Lemma gpio_after_cycles cs g :
  cs <> [] -> gpio_after (cycles cs) g = mkGpio true false.
Proof.
  revert g; induction cs as [|c cs IH]; intros g Hcs; [done|].
  cbn. destruct cs; [done|]. by apply IH.
Qed.

Lemma gpio_after_ier acts g : ier g = true -> ier (gpio_after acts g) = true.
Proof.
  revert g; induction acts as [|[d|c] acts IH]; intros g Hg; cbn; auto.
Qed.

Lemma exec_all_app acts1 acts2 s :
  exec_all (acts1 ++ acts2) s
  = (let* '(s1, o1) := exec_all acts1 s in
     let* '(s2, o2) := exec_all acts2 s1 in
     Ok (s2, o1 ++ o2)).
Proof.
  revert s; induction acts1 as [|a acts1 IH]; intros s; cbn [exec_all app bind].
  - by destruct (exec_all acts2 s) as [[s2 o2]|].
  - destruct (exec a s) as [[s' o]|]; [|done]. cbn [bind]. rewrite IH.
    destruct (exec_all acts1 s') as [[s1 o1]|]; [|done]. cbn [bind].
    destruct (exec_all acts2 s1) as [[s2 o2]|]; [|done]. cbn [bind].
    by rewrite app_assoc.
Qed.

(** ** Theorems *)

(** C4.  The handler and the polling loop implement a channel of capacity
    one: whatever the interleaving of interrupts and iterations, the
    aggregator processes exactly the frames that the channel delivers,
    in order, the program prints what the aggregator prints for them, and
    it faults exactly when the aggregator does. *)
Theorem handoff_refines acts s :
  inference_finish_flag s ∈ [0; 1] ->
  exec_all acts s
  = (let* '(st, outs) := run (delivered acts (is_pending s)) (agg s) in
     Ok (settled acts s st, concat outs)).
Proof. apply exec_all_delivered. Qed.

Lemma handoff_refines_witness :
  exec_all [Iteration 3; Interrupt 1; Interrupt 1; Iteration 3; Iteration 5;
            Interrupt 0; Iteration 7] boot_system
  = (let* '(st, outs) := run [3] init_state in
     Ok (mkSystem 0 (mkGpio true false) st, concat outs)).
Proof.
  apply (handoff_refines
           [Iteration 3; Interrupt 1; Interrupt 1; Iteration 3; Iteration 5;
            Interrupt 0; Iteration 7] boot_system).
  apply list_elem_of_here.
Defined.

(** Invariant of the handoff: after any sequence of actions that
    does not fault, the flag is 0 or 1 and the interrupt of the channel
    is enabled; the handler never leaves it masked. *)
Theorem handoff_invariant acts s s' out :
  handoff_ok s -> exec_all acts s = Ok (s', out) -> handoff_ok s'.
Proof.
  intros [Hflag Hier]. rewrite exec_all_delivered by done.
  destruct (run _ _) as [[st outs]|]; [|done]. intros [= <- _].
  split; cbn.
  - destruct (pending_after _ _); cbn;
      [apply list_elem_of_further|]; apply list_elem_of_here.
  - by apply gpio_after_ier.
Qed.

Lemma handoff_invariant_witness :
  handoff_ok (mkSystem 0 (mkGpio true false) (next 3 init_state)).
Proof.
  apply (handoff_invariant [Interrupt 1; Iteration 3] boot_system _ []).
  - split; [apply list_elem_of_here | done].
  - vm_compute. reflexivity.
Defined.

(** An interrupt that arrives while a frame is processed, after the
    flag was cleared on line 165, has the effect of an interrupt that
    arrives right after the iteration: the flag it sets is kept for the
    next iteration, and the frame in progress is not disturbed. *)
Theorem interrupt_during_step lvl b0 b1 b2 b3 s :
  process b0 b1 b2 b3 (intr_handler lvl (take_flag s))
  = (let* '(s', out) := process b0 b1 b2 b3 (take_flag s) in
     Ok (intr_handler lvl s', out)).
Proof.
  unfold process. rewrite !intr_handler_spec. cbn [agg take_flag].
  destruct (process_frame _ _ _ _ _) as [[st out]|]; [|done].
  cbn [bind]. by rewrite intr_handler_spec.
Qed.

(** Completions are not counted: a completion that is signalled
    before the previous one was taken is lost, whatever level the handler
    finds on the line the second time. *)
Theorem completions_coalesce lvl acts s :
  exec_all (Interrupt 1 :: Interrupt lvl :: acts) s
  = exec_all (Interrupt 1 :: acts) s.
Proof.
  cbn [exec_all exec bind]. rewrite !intr_handler_spec.
  cbn [agg inference_finish_flag]. repeat case_decide; try done.
  all: by destruct (exec_all _ _) as [[s' out]|].
Qed.

(** When every completion is followed by an iteration before the
    next completion, no frame is lost: the program behaves as the
    aggregator run on the codes in order, and ends with the flag down and
    the interrupt enabled. *)
Theorem cycles_run cs s :
  inference_finish_flag s ∈ [0; 1] -> cs <> [] ->
  exec_all (cycles cs) s
  = (let* '(st, outs) := run cs (agg s) in
     Ok (mkSystem 0 (mkGpio true false) st, concat outs)).
Proof.
  intros Hs Hcs. rewrite exec_all_delivered by done.
  unfold settled.
  by rewrite delivered_cycles, pending_after_cycles, gpio_after_cycles.
Qed.

Lemma cycles_run_witness :
  exec_all (cycles [3; 3; 12]) boot_system
  = (let* '(st, outs) := run [3; 3; 12] init_state in
     Ok (mkSystem 0 (mkGpio true false) st, concat outs)).
Proof.
  apply (cycles_run [3; 3; 12] boot_system); [apply list_elem_of_here | done].
Defined.
