(* ===== verification/Drivers.v ===== *)
(** * Drivers: the peripherals that the program configures

    [main] and its helpers configure five peripherals through the
    Xilinx drivers: the GPIO of the processor, whose pins 54 to 57 carry
    the class code ([main_codec.c], lines 97-104 and 168-171), the I2C
    controller of the codec (lines 116-118), the interrupt controller and
    the AXI GPIO that carries the completion line
    ([setup_interrupt_system], lines 307-327) and the SPI controller of
    the accelerator ([initial_spi_system], lines 272-305).

    The drivers are outside the repository.  Each instance is modelled by
    the configuration that the calls of the program set, taken from the
    documentation of the driver: the register that a call writes becomes
    a field of a record.  The definitions of this file that carry a
    source line are the calls the program makes, in the order it makes
    them. *)

From Stdlib Require Import ZArith Lia.
From stdpp Require Import base tactics option numbers strings list gmap.
From S2P Require Import Prelude Aggregator Codec Handoff.

#[local] Open Scope Z_scope.
#[local] Open Scope kws_scope.

Module Drivers.
Import Aggregator Codec Handoff.

(** ** Identifiers ([main_codec.c], lines 24-31) *)

Definition PL_DONE_CHANNEL1 : Z := 1.
Definition TMA_SPI_SELECT : Z := 0.

Definition EMIO_RESULT_0 : Z := 54.
Definition EMIO_RESULT_1 : Z := 55.
Definition EMIO_RESULT_2 : Z := 56.
Definition EMIO_RESULT_3 : Z := 57.

(** ** The GPIO of the processor *)

(** The direction of the pins that were given one: 0 for an input. *)
Record XGpioPs : Type := mkXGpioPs { pin_direction : gmap Z Z }.

Definition XGpioPs_SetDirectionPin (Pin Direction : Z) (g : XGpioPs) : XGpioPs :=
  mkXGpioPs (<[Pin := Direction]> (pin_direction g)).

(** [XGpioPs_ReadPin]: the level of the pin, 0 or 1. *)
Definition XGpioPs_ReadPin (levels : Z -> bool) (Pin : Z) : Z :=
  if levels Pin then 1 else 0.

(** Lines 101-104. *)
Definition set_result_pins (g : XGpioPs) : XGpioPs :=
  let g := XGpioPs_SetDirectionPin EMIO_RESULT_0 0 g in
  let g := XGpioPs_SetDirectionPin EMIO_RESULT_1 0 g in
  let g := XGpioPs_SetDirectionPin EMIO_RESULT_2 0 g in
  XGpioPs_SetDirectionPin EMIO_RESULT_3 0 g.

(** Lines 168-172: the class code on the four pins. *)
Definition read_pins (levels : Z -> bool) : Z :=
  read_result (XGpioPs_ReadPin levels EMIO_RESULT_0)
              (XGpioPs_ReadPin levels EMIO_RESULT_1)
              (XGpioPs_ReadPin levels EMIO_RESULT_2)
              (XGpioPs_ReadPin levels EMIO_RESULT_3).

(** Lines 162-269: one iteration of the loop with these levels on the
    pins. *)
Definition poll (levels : Z -> bool) (s : system) : res (system * list event) :=
  main_iteration (XGpioPs_ReadPin levels EMIO_RESULT_0)
                 (XGpioPs_ReadPin levels EMIO_RESULT_1)
                 (XGpioPs_ReadPin levels EMIO_RESULT_2)
                 (XGpioPs_ReadPin levels EMIO_RESULT_3) s.

(** ** The I2C controller *)

Record XIicPs : Type := mkXIicPs { sclk : Z }.

Definition XIicPs_SetSClk (FsclHz : Z) (i : XIicPs) : XIicPs := mkXIicPs FsclHz.

(** ** The SPI controller *)

Inductive spi_option : Type :=
  | XSPIPS_MASTER_OPTION
  | XSPIPS_CLK_ACTIVE_LOW_OPTION
  | XSPIPS_CLK_PHASE_1_OPTION
  | XSPIPS_DECODE_SSELECT_OPTION
  | XSPIPS_FORCE_SSELECT_OPTION
  | XSPIPS_MANUAL_START_OPTION.

#[export] Instance spi_option_eq_dec : EqDecision spi_option.
Proof. solve_decision. Defined.

(** The divisor that [XSPIPS_CLK_PRESCALE_256] selects. *)
Definition XSPIPS_CLK_PRESCALE_256 : Z := 256.

(** The options in force, the divisor of the clock and the slave whose
    select line is driven. *)
Record XSpiPs : Type := mkXSpiPs {
  spi_options : list spi_option;
  spi_prescaler : Z;
  spi_slave : option Z
}.

Definition XSpiPs_SetOptions (Options : list spi_option) (s : XSpiPs) : XSpiPs :=
  mkXSpiPs Options (spi_prescaler s) (spi_slave s).
Definition XSpiPs_SetClkPrescaler (Prescaler : Z) (s : XSpiPs) : XSpiPs :=
  mkXSpiPs (spi_options s) Prescaler (spi_slave s).
Definition XSpiPs_SetSlaveSelect (SlaveSel : Z) (s : XSpiPs) : XSpiPs :=
  mkXSpiPs (spi_options s) (spi_prescaler s) (Some SlaveSel).

(** Lines 272-305; the two status codes are what
    [XSpiPs_CfgInitialize] and [XSpiPs_SelfTest] return. *)
Definition initial_spi_system (cfg_status selftest_status : Z) (s : XSpiPs)
    : Z * XSpiPs * list string :=
  if decide (cfg_status <> XST_SUCCESS)
  then (XST_FAILURE, s, ["Setup SPI failed"%string])
  else if decide (selftest_status <> XST_SUCCESS)
  then (XST_FAILURE, s, ["SPI SelfTest failed"%string])
  else
    let s := XSpiPs_SetOptions [XSPIPS_MASTER_OPTION; XSPIPS_FORCE_SSELECT_OPTION] s in
    let s := XSpiPs_SetClkPrescaler XSPIPS_CLK_PRESCALE_256 s in
    (* Enable CS *)
    let s := XSpiPs_SetSlaveSelect TMA_SPI_SELECT s in
    (XST_SUCCESS, s, []).

(** ** The interrupt controller and the AXI GPIO *)

(** The functions that the program connects to an interrupt. *)
Inductive isr : Type := isr_intr_handler.

#[export] Instance isr_eq_dec : EqDecision isr.
Proof. solve_decision. Defined.

(** Whether the processor takes interrupt exceptions and hands them to
    the controller; for each interrupt its priority and trigger, the
    function connected to it, and whether it is enabled. *)
Record XScuGic : Type := mkXScuGic {
  exception_handler : bool;
  exception_enabled : bool;
  priority_trigger : gmap Z (Z * Z);
  connected : gmap Z isr;
  enabled : gset Z
}.

(** [Xil_ExceptionInit] does nothing on this processor. *)
Definition Xil_ExceptionInit (c : XScuGic) : XScuGic := c.
Definition Xil_ExceptionRegisterHandler (c : XScuGic) : XScuGic :=
  mkXScuGic true (exception_enabled c) (priority_trigger c) (connected c) (enabled c).
Definition Xil_ExceptionEnable (c : XScuGic) : XScuGic :=
  mkXScuGic (exception_handler c) true (priority_trigger c) (connected c) (enabled c).
Definition XScuGic_SetPriorityTriggerType (Int_Id Priority Trigger : Z) (c : XScuGic)
    : XScuGic :=
  mkXScuGic (exception_handler c) (exception_enabled c)
            (<[Int_Id := (Priority, Trigger)]> (priority_trigger c))
            (connected c) (enabled c).
Definition XScuGic_Connect (Int_Id : Z) (Handler : isr) (c : XScuGic) : XScuGic :=
  mkXScuGic (exception_handler c) (exception_enabled c) (priority_trigger c)
            (<[Int_Id := Handler]> (connected c)) (enabled c).
Definition XScuGic_Enable (Int_Id : Z) (c : XScuGic) : XScuGic :=
  mkXScuGic (exception_handler c) (exception_enabled c) (priority_trigger c)
            (connected c) ({[Int_Id]} ∪ enabled c).

(** The AXI GPIO: the interrupt registers of channel 1, the direction
    mask of each channel and the global interrupt enable. *)
Record XGpio : Type := mkXGpio {
  channel1 : gpio;
  data_direction : gmap Z Z;
  global_enable : bool
}.

Definition XGpio_SetDataDirection (Channel DirectionMask : Z) (g : XGpio) : XGpio :=
  mkXGpio (channel1 g) (<[Channel := DirectionMask]> (data_direction g))
          (global_enable g).
Definition XGpio_InterruptGlobalEnable (g : XGpio) : XGpio :=
  mkXGpio (channel1 g) (data_direction g) true.

(** Lines 307-327. *)
Definition setup_interrupt_system (AXI_GpioIntrId : Z) (c : XScuGic) (g : XGpio)
    : Z * XScuGic * XGpio :=
  let c := Xil_ExceptionInit c in
  let c := Xil_ExceptionRegisterHandler c in
  let c := Xil_ExceptionEnable c in
  let c := XScuGic_SetPriorityTriggerType AXI_GpioIntrId 160 3 c in
  let c := XScuGic_Connect AXI_GpioIntrId isr_intr_handler c in
  let c := XScuGic_Enable AXI_GpioIntrId c in
  let g := XGpio_SetDataDirection PL_DONE_CHANNEL1 1 g in
  let g := mkXGpio (XGpio_InterruptEnable (channel1 g)) (data_direction g)
                   (global_enable g) in
  let g := XGpio_InterruptGlobalEnable g in
  (XST_SUCCESS, c, g).

(** ** The instances of the program (lines 53-57) *)

Record devices : Type := mkDevices {
  gpiops_inst : XGpioPs;
  axi_gpio_inst : XGpio;
  scugic_inst : XScuGic;
  SpiInstance : XSpiPs;
  Iic : XIicPs
}.

(** The instances as their initialisation leaves them. *)
Definition reset_devices : devices :=
  {| gpiops_inst := mkXGpioPs ∅;
     axi_gpio_inst := mkXGpio (mkGpio false false) ∅ false;
     scugic_inst := mkXScuGic false false ∅ ∅ ∅;
     SpiInstance := mkXSpiPs [] 0 None;
     Iic := mkXIicPs 0 |}.

Definition set_gpiops (v : XGpioPs) (d : devices) : devices :=
  mkDevices v (axi_gpio_inst d) (scugic_inst d) (SpiInstance d) (Iic d).
Definition set_interrupts (c : XScuGic) (g : XGpio) (d : devices) : devices :=
  mkDevices (gpiops_inst d) g c (SpiInstance d) (Iic d).
Definition set_spi (v : XSpiPs) (d : devices) : devices :=
  mkDevices (gpiops_inst d) (axi_gpio_inst d) (scugic_inst d) v (Iic d).
Definition set_iic (v : XIicPs) (d : devices) : devices :=
  mkDevices (gpiops_inst d) (axi_gpio_inst d) (scugic_inst d) (SpiInstance d) v.

End Drivers.

Import Aggregator Codec Handoff Drivers.

(** ** What the configuration means *)

(** The completion interrupt [id] reaches [intr_handler]: the processor
    takes interrupt exceptions and hands them to the controller, the
    controller has the interrupt enabled and connected to the handler,
    and the GPIO raises it: global enable and channel enable. *)
Definition unmasked (id : Z) (c : XScuGic) (g : XGpio) : Prop :=
  exception_handler c = true /\ exception_enabled c = true
  /\ id ∈ enabled c /\ connected c !! id = Some isr_intr_handler
  /\ global_enable g = true /\ ier (channel1 g) = true.

#[export] Instance unmasked_dec id c g : Decision (unmasked id c g).
Proof. unfold unmasked. apply _. Defined.

(** The four result pins are inputs. *)
Definition pins_are_inputs (g : XGpioPs) : Prop :=
  Forall (fun pin => pin_direction g !! pin = Some 0)
         [EMIO_RESULT_0; EMIO_RESULT_1; EMIO_RESULT_2; EMIO_RESULT_3].

(** The SPI controller is the master of the link, drives the select line
    of the accelerator by hand and divides its clock by 256. *)
Definition spi_master (s : XSpiPs) : Prop :=
  XSPIPS_MASTER_OPTION ∈ spi_options s
  /\ XSPIPS_FORCE_SSELECT_OPTION ∈ spi_options s
  /\ spi_prescaler s = 256 /\ spi_slave s = Some TMA_SPI_SELECT.

(** The levels that present the class code [c] on the result pins. *)
Definition levels_of (c : Z) (pin : Z) : bool :=
  Z.testbit c (pin - EMIO_RESULT_0).

(** ** Lemmas *)

Lemma set_result_pins_inputs g : pins_are_inputs (set_result_pins g).
Proof.
  unfold pins_are_inputs, set_result_pins. cbn [pin_direction XGpioPs_SetDirectionPin].
  repeat apply Forall_cons_2; [..|by apply Forall_nil];
    by rewrite ?lookup_insert_ne, ?lookup_insert_eq by done.
Qed.

(** The pins other than the four keep their direction. *)
Lemma set_result_pins_other g pin :
  ~ (EMIO_RESULT_0 <= pin <= EMIO_RESULT_3) ->
  pin_direction (set_result_pins g) !! pin = pin_direction g !! pin.
Proof.
  unfold set_result_pins, EMIO_RESULT_0, EMIO_RESULT_1, EMIO_RESULT_2, EMIO_RESULT_3.
  intros Hpin. cbn [pin_direction XGpioPs_SetDirectionPin].
  by rewrite !lookup_insert_ne by lia.
Qed.

Lemma XGpioPs_ReadPin_bit levels pin :
  XGpioPs_ReadPin levels pin = 0 \/ XGpioPs_ReadPin levels pin = 1.
Proof. unfold XGpioPs_ReadPin. destruct (levels pin); auto. Qed.

(** The code read from the pins has four bits. *)
Lemma read_pins_nibble levels : 0 <= read_pins levels < 16.
Proof.
  unfold read_pins, XGpioPs_ReadPin.
  by destruct (levels EMIO_RESULT_0), (levels EMIO_RESULT_1),
    (levels EMIO_RESULT_2), (levels EMIO_RESULT_3).
Qed.

Lemma setup_interrupt_system_unmasked id c g :
  exists c' g',
    setup_interrupt_system id c g = (XST_SUCCESS, c', g')
    /\ unmasked id c' g' /\ channel1 g' = XGpio_InterruptEnable (channel1 g).
Proof.
  eexists _, _. split; [reflexivity|]. unfold unmasked. cbn.
  split_and!; try done; [set_solver | by rewrite lookup_insert_eq].
Qed.

Lemma initial_spi_system_master cfg st s s' out :
  initial_spi_system cfg st s = (XST_SUCCESS, s', out) -> spi_master s' /\ out = [].
Proof.
  unfold initial_spi_system, XST_SUCCESS, XST_FAILURE.
  repeat case_decide; intros [= <- <-]; try done.
  unfold spi_master. cbn. split_and!; try done; set_solver.
Qed.

(** The pins carry the code that [read_pins] returns. *)
Lemma pins_of_read_pins levels :
  pins_of (read_pins levels)
  = (XGpioPs_ReadPin levels EMIO_RESULT_0, XGpioPs_ReadPin levels EMIO_RESULT_1,
     XGpioPs_ReadPin levels EMIO_RESULT_2, XGpioPs_ReadPin levels EMIO_RESULT_3).
Proof.
  unfold read_pins, XGpioPs_ReadPin.
  by destruct (levels EMIO_RESULT_0), (levels EMIO_RESULT_1),
    (levels EMIO_RESULT_2), (levels EMIO_RESULT_3).
Qed.

Lemma poll_exec levels s : poll levels s = exec (Iteration (read_pins levels)) s.
Proof. unfold poll, exec. by rewrite pins_of_read_pins. Qed.

(** The levels of [levels_of] present the code. *)
Lemma read_pins_levels_of c : 0 <= c < 16 -> read_pins (levels_of c) = c.
Proof.
  intros Hc.
  assert (c = 0 \/ c = 1 \/ c = 2 \/ c = 3 \/ c = 4 \/ c = 5 \/ c = 6 \/ c = 7
          \/ c = 8 \/ c = 9 \/ c = 10 \/ c = 11 \/ c = 12 \/ c = 13 \/ c = 14
          \/ c = 15) as Hcases by lia.
  destruct_or!; subst c; reflexivity.
Qed.
