(* ===== verification/Boot.v ===== *)
(** * Boot: the start-up sequence of [main]

    [main] ([main_codec.c], lines 74-160) initialises the aggregator,
    makes the result pins inputs, mounts the card, programs the audio
    codec, installs the interrupt handler, reads the model files into
    the buffers, brings up the SPI controller and sends the image to the
    accelerator; then it enters the polling loop of [Handoff].  It
    returns before the loop when the card cannot be mounted or the SPI
    controller reports a failure.

    The platform is what the program cannot decide: the card in the slot,
    the two status codes of the SPI driver that [initial_spi_system]
    tests, the header [Init_ADAU1761.h], the state in which a message
    leaves the I2C bus, the number of the completion interrupt
    ([xparameters.h]) and the changes of the completion line while the
    start-up runs.  The local arrays are taken as the functions find
    them.  The effects are the lines printed, the messages on the two
    buses, the card and the peripherals as the program leaves them.

    The completion interrupt is enabled at line 129, before the model is
    read and sent.  From there on a change of the line runs
    [intr_handler].  [main_preempted] is the start-up with the handler
    between the calls that follow line 129, for a [schedule] that says
    where the changes of the line fall; [main] is the start-up in which
    they all fall where the loop is entered.  [BootSpec] proves that the
    schedule does not matter. *)

From Stdlib Require Import ZArith Lia.
From stdpp Require Import base tactics option numbers strings list.
From S2P Require Import Prelude Aggregator Loader Storage ModelData Codec Handoff Drivers.

#[local] Open Scope Z_scope.
#[local] Open Scope kws_scope.

Module Boot.
Import Aggregator Loader Storage ModelData Codec Handoff Drivers.

Record platform : Type := mkPlatform {
  sd_card : card;                    (* the card in the slot *)
  spi_cfg_status : Z;                (* XSpiPs_CfgInitialize *)
  spi_selftest_status : Z;           (* XSpiPs_SelfTest *)
  codec_header : Init_ADAU1761_h;    (* Init_ADAU1761.h *)
  i2c_after_send : bus_state;        (* the I2C bus after a message *)
  AXI_GPIO_INT_ID : Z;               (* XPAR_FABRIC_GPIO_0_VEC_ID *)
  early_completions : list Z         (* the line at its changes after line 129 *)
}.

(** The local arrays, with the contents that the functions find. *)
Record locals : Type := mkLocals {
  main_result_window : list Z;       (* main, line 78 *)
  write_reg_I2C_DATA : list Z;       (* ADAU1761_Write_Reg, line 385 *)
  binary_line_buf : list Z;          (* sd_read_binary, tf_card.c line 52 *)
  hex_line_buf : list Z;             (* sd_read_hex, tf_card.c line 110 *)
  tma_addr_uint8 : list Z            (* initial_TMA, spi_config.c line 56 *)
}.

Record effects : Type := mkEffects {
  console : list string;
  i2c_bus : i2c_trace;
  spi_bus : trace;
  card_left : card;
  hardware : devices
}.

(** [main] returned, or it entered the loop with this system and these
    buffers. *)
Inductive outcome : Type :=
  | Returned (status : Z)
  | Polling (s : system) (b : buffers).

(** The handler runs for each of the changes [ds] of the line. *)
Definition handle (ds : list Z) (s : system) : system :=
  foldl (fun s done => intr_handler done s) s ds.

(** The handler has run for every change of the line since line 129. *)
Definition early_interrupts (p : platform) (s : system) : system :=
  handle (early_completions p) s.

(** Where the changes of the line fall after line 129: while the files
    are read (line 138), while the SPI controller is set up (line 141),
    while the image is sent (line 151), and from there to the loop. *)
Record schedule : Type := mkSchedule {
  while_reading : list Z;
  while_spi_setup : list Z;
  while_loading : list Z;
  before_loop : list Z
}.

(** The changes of a schedule, in the order of time. *)
Definition completions (sch : schedule) : list Z :=
  while_reading sch ++ while_spi_setup sch ++ while_loading sch ++ before_loop sch.

(** Lines 74-160, with the handler where the schedule has it. *)
Definition main_preempted (sch : schedule) (p : platform) (l : locals)
    : res (outcome * effects) :=
  let out := ["Start Tsetlin Machine Accelerator for Keyword Spotting!"%string] in
  let* w := init_window (main_result_window l) in
  let* rc := init_count in
  let st := mkState 0 w rc 10 detecting 0 0 0 0 in
  (* Initial GPIO; set EMIO_RESULT* as input *)
  let d := reset_devices in
  let d := set_gpiops (set_result_pins (gpiops_inst d)) d in
  (* Initial TF card *)
  let '(status, c, o) := sd_mount (sd_card p) in
  let out := out ++ o in
  if decide (status <> XST_SUCCESS)
  then Ok (Returned 0, mkEffects (out ++ ["Failed to open SD card!"%string]) [] [] c d)
  else
  let out := out ++ ["Success to open SD card!"%string] in
  (* Initial I2C *)
  let d := set_iic (XIicPs_SetSClk IIC_SCLK_RATE (Iic d)) d in
  let* '(i2c, o) :=
    init_ADAU1761 (codec_header p) (i2c_after_send p) (write_reg_I2C_DATA l) [] in
  let out := out ++ o ++ ["Configure ADAU1761 Finish!"%string] in
  (* Initial Interrupt; initial PL AXI GPIO *)
  let '(status, gic, g) :=
    setup_interrupt_system (AXI_GPIO_INT_ID p) (scugic_inst d) (axi_gpio_inst d) in
  let d := set_interrupts gic g d in
  if decide (status <> XST_SUCCESS)
  then Ok (Returned XST_FAILURE,
           mkEffects (out ++ ["Setup interrupt system failed"%string]) i2c [] c d)
  else
  let out := out ++ ["Setup interrupt system Finished!"%string] in
  (* the interrupt is enabled *)
  let s := mkSystem 0 (channel1 (axi_gpio_inst d)) st in
  (* READ DATA FROM TF CARD *)
  let s := handle (while_reading sch) s in
  let* '(b, o) :=
    read_model_data (binary_line_buf l) (hex_line_buf l) (files c) zero_buffers in
  let out := out ++ o in
  (* initial SPI *)
  let s := handle (while_spi_setup sch) s in
  let '(status, spi, o) :=
    initial_spi_system (spi_cfg_status p) (spi_selftest_status p) (SpiInstance d) in
  let d := set_spi spi d in
  let out := out ++ o in
  if decide (status <> XST_SUCCESS)
  then Ok (Returned XST_FAILURE,
           mkEffects (out ++ ["Setup SPI Failed!"%string]) i2c [] c d)
  else
  let out := out ++ ["Setup SPI Finished!"%string; "Loading TM model..."%string] in
  let s := handle (while_loading sch) s in
  let* '(status, tr) := initial_TMA b (tma_addr_uint8 l) [] in
  if decide (status <> XST_SUCCESS)
  then Ok (Returned XST_FAILURE,
           mkEffects (out ++ ["TsetlinKWS initialization Failed!"%string]) i2c tr c d)
  else
  let out :=
    out ++ ["TsetlinKWS initialization Finished!"%string;
            "Please speak:{yes, no, up, down, left, right, on, off, stop, go}"%string] in
  (* the loop is entered *)
  Ok (Polling (handle (before_loop sch) s) b, mkEffects out i2c tr c d).

(** Lines 74-160, with every run of the handler where the loop is
    entered. *)
Definition main (p : platform) (l : locals) : res (outcome * effects) :=
  main_preempted (mkSchedule [] [] [] (early_completions p)) p l.

End Boot.
