(* ===== verification/BootSpec.v ===== *)
(** * BootSpec: what the start-up sequence does

    The outcome and the effects of [main] in closed form, for every card
    and every status of the SPI driver: the lines printed, the codec
    messages, the SPI image, the card and the peripherals as they are
    left, and the start-up that never ends on a stuck I2C bus.  The
    theorems compose the results on the card ([StorageSpec]), the readers
    ([ModelDataSpec]), the codec ([Codec]), the peripherals ([Drivers]),
    the loader ([LoaderTrace]) and, after the start-up, the handoff
    ([Handoff]) and the aggregator ([AggregatorInv]).  Two theorems end
    the file: the receiver of [Protocol] at the end of the SPI link is
    armed after the start-up and holds the words of the files; and the
    runs of the handler during the start-up may fall between any of the
    calls that follow line 129 without changing what [main] does. *)

From Stdlib Require Import ZArith Lia.
From stdpp Require Import base tactics option numbers strings list gmap.
From S2P Require Import Prelude Bytes Aggregator AggregatorInv Behaviour Loader LoaderTrace.
From S2P Require Import Storage StorageSpec ModelData ModelDataSpec Protocol Codec Handoff.
From S2P Require Import Drivers Boot.

#[local] Open Scope Z_scope.
#[local] Open Scope kws_scope.

Import Aggregator Loader Storage ModelData Codec Handoff Drivers Boot.

(** ** The closed form *)

(** The local arrays have the sizes of their declarations, and every
    write of the codec header fits the array of [ADAU1761_Write_Reg]. *)
Definition arrays_sized (p : platform) (l : locals) : Prop :=
  Z.of_nat (length (main_result_window l)) = WINDOW_SIZE
  /\ Z.of_nat (length (write_reg_I2C_DATA l))
     = MAX_BRUST_LEN (PROGRAM_SIZE_ADAU1761 (codec_header p)) + 2
  /\ Z.of_nat (length (binary_line_buf l)) = 128
  /\ Z.of_nat (length (hex_line_buf l)) = 32
  /\ length (tma_addr_uint8 l) = 4%nat
  /\ header_ok (codec_header p).

(** Moreover the I2C bus becomes idle after each message. *)
Definition ready (p : platform) (l : locals) : Prop :=
  arrays_sized p l /\ i2c_after_send p <> STUCK.

(** The card after [sd_mount], when it can be used. *)
Definition mounted (c : card) : card :=
  if fat c then c else mkCard true true ∅ (defect c).

Definition mount_lines (c : card) : list string :=
  if fat c then [] else ["Volume is not FAT-formatted; formatting FAT"%string].

(** The buffers that the start-up loads from the card. *)
Definition model_of (c : card) : buffers :=
  loaded (files (mounted c)) zero_buffers.

(** The messages that program the codec. *)
Definition codec_messages (p : platform) : i2c_trace :=
  init_messages (codec_header p).

(** The peripherals when the card could not be used: the result pins are
    inputs and nothing else is configured. *)
Definition pins_only : devices :=
  set_gpiops (set_result_pins (mkXGpioPs ∅)) reset_devices.

(** The interrupt controller and the AXI GPIO after
    [setup_interrupt_system]. *)
Definition gic_ready (id : Z) : XScuGic :=
  mkXScuGic true true {[id := (160, 3)]} {[id := isr_intr_handler]} {[id]}.

Definition axi_ready : XGpio :=
  mkXGpio (mkGpio true false) {[PL_DONE_CHANNEL1 := 1]} true.

(** The peripherals after the start-up, with the SPI controller as
    [spi]. *)
Definition configured (p : platform) (spi : XSpiPs) : devices :=
  {| gpiops_inst := set_result_pins (mkXGpioPs ∅);
     axi_gpio_inst := axi_ready;
     scugic_inst := gic_ready (AXI_GPIO_INT_ID p);
     SpiInstance := spi;
     Iic := mkXIicPs IIC_SCLK_RATE |}.

Definition spi_ready : XSpiPs :=
  mkXSpiPs [XSPIPS_MASTER_OPTION; XSPIPS_FORCE_SSELECT_OPTION] 256 (Some TMA_SPI_SELECT).

Definition spi_ok (p : platform) : Prop :=
  spi_cfg_status p = XST_SUCCESS /\ spi_selftest_status p = XST_SUCCESS.

#[export] Instance spi_ok_dec p : Decision (spi_ok p).
Proof. unfold spi_ok. apply _. Defined.

(** The lines printed up to the bring-up of the SPI controller. *)
Definition boot_lines (c : card) : list string :=
  ["Start Tsetlin Machine Accelerator for Keyword Spotting!"%string]
  ++ mount_lines c
  ++ ["Success to open SD card!"%string; "Configure ADAU1761 Finish!"%string;
      "Setup interrupt system Finished!"%string]
  ++ messages (files (mounted c)).

Definition spi_failure_lines (p : platform) : list string :=
  [if decide (spi_cfg_status p <> XST_SUCCESS)
   then "Setup SPI failed"%string else "SPI SelfTest failed"%string;
   "Setup SPI Failed!"%string].

Definition ready_lines : list string :=
  ["Setup SPI Finished!"%string; "Loading TM model..."%string;
   "TsetlinKWS initialization Finished!"%string;
   "Please speak:{yes, no, up, down, left, right, on, off, stop, go}"%string].

(** The system in which the loop starts: the handler has run for the
    completions of the start-up. *)
Definition early_system (p : platform) : system :=
  early_interrupts p boot_system.


(** The result of [main] on a card that can be used. *)
Definition booted (p : platform) : outcome * effects :=
  let c := sd_card p in
  if decide (spi_ok p)
  then (Polling (early_system p) (model_of c),
        mkEffects (boot_lines c ++ ready_lines) (codec_messages p)
                  (image (model_of c)) (mounted c) (configured p spi_ready))
  else (Returned XST_FAILURE,
        mkEffects (boot_lines c ++ spi_failure_lines p) (codec_messages p)
                  [] (mounted c) (configured p (mkXSpiPs [] 0 None))).

(** What [platform_init_fs] prints last on a card that cannot be used. *)
Definition defect_line (c : card) : string :=
  match defect c with
  | NoDisk => "Unable to format FAT"
  | FormatLost => "Unable to mount SD card"
  end.

(** The result of [main] on a card that cannot be used. *)
Definition no_card (p : platform) : outcome * effects :=
  (Returned 0,
   mkEffects ["Start Tsetlin Machine Accelerator for Keyword Spotting!"%string;
              "Volume is not FAT-formatted; formatting FAT"%string;
              defect_line (sd_card p);
              "ERROR: f_mount returned -1!"%string;
              "Failed to open SD card!"%string] [] [] (sd_card p) pins_only).

(** ** Lemmas *)

(** The runs of the handler leave the flag up when one of them found the
    line at 1, and the interrupt cleared and enabled. *)
Lemma handle_spec ds : forall s,
  axi_gpio s = mkGpio true false ->
  handle ds s
  = mkSystem (if bool_decide (1 ∈ ds) then 1 else inference_finish_flag s)
             (mkGpio true false) (agg s).
Proof.
  unfold handle. induction ds as [|d ds IH]; intros s Hs; cbn [foldl].
  - rewrite bool_decide_eq_false_2 by apply not_elem_of_nil. destruct s; by simplify_eq/=.
  - rewrite IH, intr_handler_spec by by rewrite intr_handler_spec.
    cbn [inference_finish_flag agg]. f_equal.
    destruct (decide (d = 1)) as [->|Hd].
    + rewrite (bool_decide_eq_true_2 (1 ∈ 1 :: ds)) by apply list_elem_of_here.
      by case_bool_decide.
    + by rewrite (bool_decide_ext (1 ∈ d :: ds) (1 ∈ ds))
        by (rewrite elem_of_cons; intuition congruence).
Qed.


Lemma early_interrupts_spec p s :
  axi_gpio s = mkGpio true false ->
  early_interrupts p s
  = mkSystem (if bool_decide (1 ∈ early_completions p) then 1 else inference_finish_flag s)
             (mkGpio true false) (agg s).
Proof. apply handle_spec. Qed.

Lemma early_system_spec p :
  early_system p
  = mkSystem (if bool_decide (1 ∈ early_completions p) then 1 else 0)
             (mkGpio true false) init_state.
Proof. unfold early_system. by rewrite early_interrupts_spec. Qed.

Lemma early_system_flag p : inference_finish_flag (early_system p) ∈ [0; 1].
Proof. rewrite early_system_spec. cbn. case_bool_decide; set_solver. Qed.

Lemma sd_mount_spec c :
  sd_mount c
  = if healthy c then (XST_SUCCESS, mounted c, mount_lines c)
    else (XST_FAILURE, c, ["Volume is not FAT-formatted; formatting FAT"%string;
                           defect_line c;
                           "ERROR: f_mount returned -1!"%string]).
Proof.
  unfold sd_mount, platform_init_fs, f_mount, f_mkfs, mounted, mount_lines, defect_line.
  by destruct c as [[] [] ? []].
Qed.

Lemma initial_spi_system_spec p :
  initial_spi_system (spi_cfg_status p) (spi_selftest_status p) (mkXSpiPs [] 0 None)
  = if decide (spi_ok p) then (XST_SUCCESS, spi_ready, [])
    else (XST_FAILURE, mkXSpiPs [] 0 None,
          [if decide (spi_cfg_status p <> XST_SUCCESS)
           then "Setup SPI failed"%string else "SPI SelfTest failed"%string]).
Proof.
  unfold initial_spi_system, spi_ok.
  unfold XST_SUCCESS. repeat case_decide; first [done | lia].
Qed.

Lemma setup_interrupt_system_reset id :
  setup_interrupt_system id (mkXScuGic false false ∅ ∅ ∅)
                         (mkXGpio (mkGpio false false) ∅ false)
  = (XST_SUCCESS, gic_ready id, axi_ready).
Proof.
  unfold setup_interrupt_system, gic_ready, axi_ready, XScuGic_Enable.
  cbn [enabled XScuGic_Connect XScuGic_SetPriorityTriggerType Xil_ExceptionEnable
       Xil_ExceptionRegisterHandler Xil_ExceptionInit].
  by rewrite (right_id_L ∅ (∪)).
Qed.

Lemma wf_model c : wf_buffers (model_of c).
Proof. apply wf_loaded, wf_zero. Qed.

Lemma image_ends b :
  exists pre, image b = pre ++ enable_command /\ length pre = 25%nat.
Proof.
  unfold image. eexists (_ :: _). split; [reflexivity|].
  unfold catalog. cbn [map concat region_transfers app length]. done.
Qed.

(** The start-up in closed form. *)
Lemma main_spec p l :
  ready p l ->
  main p l = Ok (if healthy (sd_card p) then booted p else no_card p).
Proof.
  intros [(Hw & Hi2c & Hb & Hh & Ha & Hprog) Hbus]. unfold main, main_preempted.
  cbn [while_reading while_spi_setup while_loading before_loop].
  rewrite init_window_spec, init_count_spec by done. cbn [bind].
  rewrite sd_mount_spec. destruct (healthy (sd_card p)); cbv beta iota zeta.
  2:{ by rewrite decide_True by done. }
  rewrite decide_False by (by intros []).
  rewrite init_ADAU1761_messages, (decide_False (P := _ = STUCK)) by done.
  cbn [bind app].
  cbn [reset_devices set_gpiops set_iic scugic_inst axi_gpio_inst SpiInstance Iic
       gpiops_inst].
  rewrite setup_interrupt_system_reset. cbv beta iota.
  rewrite decide_False by (by intros []).
  rewrite read_model_data_loaded by (done || apply wf_zero). cbn [bind].
  cbn [set_interrupts SpiInstance]. rewrite initial_spi_system_spec. unfold booted.
  destruct (decide (spi_ok p)); cbv beta iota.
  - rewrite decide_False by (by intros []).
    rewrite initial_TMA_image, decide_True by (done || apply wf_all_fit, wf_model).
    cbn [bind]. rewrite decide_False by (by intros []).
    unfold boot_lines, ready_lines, model_of.
    by rewrite ?app_nil_r, <- ?app_assoc.
  - rewrite decide_True by done. unfold boot_lines, spi_failure_lines.
    by rewrite <- ?app_assoc.
Qed.

Lemma gic_ready_unmasked id : unmasked id (gic_ready id) axi_ready.
Proof.
  unfold unmasked, gic_ready, axi_ready.
  cbn [exception_handler exception_enabled enabled connected global_enable channel1 ier].
  split_and!; try done; [set_solver | apply lookup_singleton_eq].
Qed.

Lemma spi_ready_master : spi_master spi_ready.
Proof. unfold spi_master, spi_ready. cbn. split_and!; try done; set_solver. Qed.

(** With the bus stuck, [main] does not get past the first write to the
    codec. *)
Lemma main_stuck p l :
  arrays_sized p l -> healthy (sd_card p) = true -> i2c_after_send p = STUCK ->
  main p l = Fault OutOfFuel.
Proof.
  intros (Hw & Hi2c & _ & _ & _ & Hprog) Hc Hbus. unfold main, main_preempted.
  rewrite init_window_spec, init_count_spec by done. cbn [bind].
  rewrite sd_mount_spec, Hc. cbv beta iota zeta.
  rewrite decide_False by (by intros []).
  by rewrite init_ADAU1761_messages, decide_True by done.
Qed.

Lemma bytes_model c : bytes_ok (model_of c).
Proof. apply bytes_loaded, bytes_zero. Qed.

(** A platform and local arrays on which the theorems are exercised: a
    formatted card without files (resp. a card that was never formatted,
    and a card that cannot be used), a small codec header, a bus that is
    busy for one poll after a message, no completion during the
    start-up. *)
Definition demo_platform (c : card) : platform :=
  mkPlatform c 0 0 demo_header (BUSY 1) 61 [].

(** The same platform with a card that mounts and the changes [ds] of
    the completion line during the start-up. *)
Definition early_platform (ds : list Z) : platform :=
  mkPlatform (mkCard true true ∅ NoDisk) 0 0 demo_header (BUSY 1) 61 ds.

Definition demo_locals : locals :=
  mkLocals (replicate 40 170) (replicate 11 170) (replicate 128 170)
           (replicate 32 170) [170; 170; 170; 170].

Lemma demo_ready c : ready (demo_platform c) demo_locals.
Proof.
  split; [|done]. unfold arrays_sized. split_and!; try reflexivity.
  apply (bool_decide_unpack _). by vm_compute.
Qed.

Lemma early_ready ds : ready (early_platform ds) demo_locals.
Proof. apply (demo_ready (mkCard true true ∅ NoDisk)). Qed.

(** The system in which the loop starts delivers the frames of the
    cycles to the aggregator of the initial state. *)
Lemma boot_cycles p cs :
  cs <> [] ->
  exec_all (cycles cs) (early_system p)
  = (let* '(st, outs) := run cs init_state in
     Ok (mkSystem 0 (mkGpio true false) st, concat outs)).
Proof.
  intros Hcs. rewrite exec_all_delivered by apply early_system_flag.
  unfold settled.
  rewrite delivered_cycles, pending_after_cycles, gpio_after_cycles by done.
  by rewrite early_system_spec.
Qed.

(** Twenty-two completions that carry a class other than silence, each
    taken by an iteration: the detection is printed once, and the system
    is left cooling down with the flag down. *)
Lemma keyword_cycles p k :
  class_ok k -> k <> 10 ->
  exists st,
    exec_all (cycles (replicate 22 k)) (early_system p)
    = Ok (mkSystem 0 (mkGpio true false) st, detection_of k)
    /\ wf st /\ current_state st = fill_silence.
Proof.
  intros Hk Hne. destruct (run_22 k Hk Hne) as (st & Hrun & Hwf & Hcool & _).
  exists st. split; [|done].
  rewrite boot_cycles, Hrun by (by intros [=]). cbn [bind].
  rewrite concat_app. cbn [concat]. rewrite app_nil_r.
  by rewrite (proj2 (concat_nil_Forall _)) by by apply Forall_replicate.
Qed.

(** ** Theorems *)

(** C2.  The start-up sequence in closed form.  With local arrays of the
    declared sizes and a codec program that fits, [main] does not fault.
    On a card that can be used it programs the codec, loads the buffers
    from the files of the card and, if the SPI controller comes up, sends
    the image and enters the loop with the interrupt enabled and the
    aggregator in its initial state; the flag is then up exactly when a
    run of the handler found the completion line at 1 since line 129,
    and down otherwise.  If the controller fails [main] returns
    [XST_FAILURE] with nothing sent.  On a card that cannot be used it
    returns 0 before any bus is used, after the line that says whether
    the format or the second mount failed. *)
Theorem boot_spec p l :
  ready p l ->
  main p l = Ok (if healthy (sd_card p) then booted p else no_card p)
  /\ early_system p
     = mkSystem (if bool_decide (1 ∈ early_completions p) then 1 else 0)
                (mkGpio true false) init_state.
Proof. intros Hr. split; [by apply main_spec | apply early_system_spec]. Qed.

Lemma boot_spec_witness :
  main (early_platform [1; 0]) demo_locals = Ok (booted (early_platform [1; 0]))
  /\ early_system (early_platform [1; 0]) = mkSystem 1 (mkGpio true false) init_state.
Proof.
  apply (boot_spec (early_platform [1; 0]) demo_locals), early_ready.
Defined.

(** Whatever the card holds, when it can be used and the SPI controller
    comes up, the last two transfers of the start-up are the command that
    enables inference, after twenty-five transfers of configuration: a
    missing or empty file does not stop the sequence. *)
Theorem boot_enables_inference p l :
  ready p l -> healthy (sd_card p) = true -> spi_ok p ->
  exists b fx pre,
    main p l = Ok (Polling (early_system p) b, fx)
    /\ spi_bus fx = pre ++ enable_command /\ length pre = 25%nat.
Proof.
  intros Hr Hc Hspi. rewrite main_spec, Hc by done. unfold booted.
  rewrite decide_True by done.
  destruct (image_ends (model_of (sd_card p))) as (pre & Hpre & Hlen).
  by eexists _, _, pre.
Qed.

Lemma boot_enables_inference_witness :
  exists b fx pre,
    main (demo_platform (mkCard true true ∅ NoDisk)) demo_locals
    = Ok (Polling boot_system b, fx)
    /\ spi_bus fx = pre ++ enable_command /\ length pre = 25%nat.
Proof.
  apply (boot_enables_inference (demo_platform (mkCard true true ∅ NoDisk)) demo_locals);
    [apply demo_ready | done | done].
Defined.

(** A card that can be used but was never formatted is formatted by the
    start-up: the card is left with an empty volume, each of the fourteen
    files is reported as failing to open, and the image sent to the
    accelerator is the image of the zeroed buffers. *)
Theorem boot_blank_card p l :
  ready p l -> healthy (sd_card p) = true -> fat (sd_card p) = false ->
  spi_ok p ->
  main p l
  = Ok (Polling (early_system p) zero_buffers,
        mkEffects
          (["Start Tsetlin Machine Accelerator for Keyword Spotting!"%string;
            "Volume is not FAT-formatted; formatting FAT"%string;
            "Success to open SD card!"%string; "Configure ADAU1761 Finish!"%string;
            "Setup interrupt system Finished!"%string]
           ++ replicate 14 "Error: Failed to open file."%string ++ ready_lines)
          (codec_messages p) (image zero_buffers)
          (mkCard true true ∅ (defect (sd_card p))) (configured p spi_ready)).
Proof.
  intros Hr Hc Hfat Hspi. rewrite main_spec, Hc by done. unfold booted.
  rewrite decide_True by done.
  unfold model_of, boot_lines, mounted, mount_lines. rewrite Hfat.
  cbn [files]. by rewrite loaded_empty.
Qed.

Lemma boot_blank_card_witness :
  exists out,
    main (demo_platform (mkCard true false ∅ NoDisk)) demo_locals
    = Ok (Polling boot_system zero_buffers,
          mkEffects out (codec_messages (demo_platform (mkCard true false ∅ NoDisk)))
                    (image zero_buffers) (mkCard true true ∅ NoDisk)
                    (configured (demo_platform (mkCard true false ∅ NoDisk)) spi_ready)).
Proof.
  eexists.
  apply (boot_blank_card (demo_platform (mkCard true false ∅ NoDisk)) demo_locals);
    [apply demo_ready | done..].
Defined.

(** A card that cannot be used: [main] prints the mount errors and
    returns 0, the value of success, with no message sent on either bus
    and the card untouched.  The third line says which call failed: the
    format when no disk answers, the second mount when the format is
    lost. *)
Theorem boot_no_card p l :
  ready p l -> healthy (sd_card p) = false ->
  main p l
  = Ok (Returned 0,
        mkEffects ["Start Tsetlin Machine Accelerator for Keyword Spotting!"%string;
                   "Volume is not FAT-formatted; formatting FAT"%string;
                   match defect (sd_card p) with
                   | NoDisk => "Unable to format FAT"%string
                   | FormatLost => "Unable to mount SD card"%string
                   end;
                   "ERROR: f_mount returned -1!"%string;
                   "Failed to open SD card!"%string] [] [] (sd_card p) pins_only).
Proof. intros Hr Hc. by rewrite main_spec, Hc. Qed.

Lemma boot_no_card_witness :
  exists out,
    main (demo_platform (mkCard false true ∅ NoDisk)) demo_locals
    = Ok (Returned 0, mkEffects out [] [] (mkCard false true ∅ NoDisk) pins_only).
Proof.
  eexists.
  apply (boot_no_card (demo_platform (mkCard false true ∅ NoDisk)) demo_locals);
    [apply demo_ready | done].
Defined.

(** When the SPI controller fails to initialise or fails its self
    test, [main] returns [XST_FAILURE] after the codec was programmed and
    the files were read, and nothing is sent to the accelerator. *)
Theorem boot_spi_failure p l :
  ready p l -> healthy (sd_card p) = true -> ~ spi_ok p ->
  exists out,
    main p l
    = Ok (Returned XST_FAILURE,
          mkEffects out (codec_messages p) [] (mounted (sd_card p))
                    (configured p (mkXSpiPs [] 0 None)))
    /\ last out = Some "Setup SPI Failed!"%string.
Proof.
  intros Hr Hc Hspi. rewrite main_spec, Hc by done. unfold booted.
  rewrite decide_False by done. eexists. split; [done|].
  unfold spi_failure_lines. by rewrite (cons_middle _ _ [_]), app_assoc, last_snoc.
Qed.

Lemma boot_spi_failure_witness :
  exists out,
    main (mkPlatform (mkCard true true ∅ NoDisk) 0 5 demo_header IDLE 61 []) demo_locals
    = Ok (Returned XST_FAILURE,
          mkEffects out (init_messages demo_header) [] (mkCard true true ∅ NoDisk)
            (configured (mkPlatform (mkCard true true ∅ NoDisk) 0 5 demo_header IDLE 61 [])
                        (mkXSpiPs [] 0 None)))
    /\ last out = Some "Setup SPI Failed!"%string.
Proof.
  apply (boot_spi_failure (mkPlatform (mkCard true true ∅ NoDisk) 0 5 demo_header IDLE 61 [])
           demo_locals).
  - split; [|done]. unfold arrays_sized. split_and!; try reflexivity.
    apply (bool_decide_unpack _). by vm_compute.
  - done.
  - by intros [_ [=]].
Defined.

(** Safety of the whole program: after a start-up that reaches the
    loop, any number of completions, each taken by an iteration and
    carrying a class code below 12, is processed without fault; the
    aggregator stays well formed and the flag ends down. *)
Theorem boot_then_frames p l cs :
  ready p l -> healthy (sd_card p) = true -> spi_ok p ->
  Forall class_ok cs -> cs <> [] ->
  exists b fx st outs,
    main p l = Ok (Polling (early_system p) b, fx)
    /\ exec_all (cycles cs) (early_system p)
       = Ok (mkSystem 0 (mkGpio true false) st, concat outs)
    /\ wf st /\ length outs = length cs.
Proof.
  intros Hr Hc Hspi Hcs Hne. rewrite main_spec, Hc by done. unfold booted.
  rewrite decide_True by done.
  destruct (run_wf cs init_state wf_init Hcs) as (st & outs & Hrun & Hwf & Hlen).
  eexists _, _, st, outs. split; [done|].
  by rewrite boot_cycles, Hrun.
Qed.

Lemma boot_then_frames_witness :
  exists b fx st outs,
    main (demo_platform (mkCard true true ∅ NoDisk)) demo_locals
    = Ok (Polling boot_system b, fx)
    /\ exec_all (cycles [3; 3; 11]) boot_system
       = Ok (mkSystem 0 (mkGpio true false) st, concat outs)
    /\ wf st /\ length outs = 3%nat.
Proof.
  apply (boot_then_frames (demo_platform (mkCard true true ∅ NoDisk)) demo_locals [3; 3; 11]);
    [apply demo_ready | done | done | repeat constructor; solve_class | done].
Defined.

(** A keyword is reported: after a start-up that reaches the loop,
    twenty-two completions that carry the same class other than silence,
    each taken by an iteration, print the occupancy vector and the label
    of the class, once, and the program enters the cool-down with the
    flag down. *)
Theorem boot_keyword_reported p l k :
  ready p l -> healthy (sd_card p) = true -> spi_ok p ->
  class_ok k -> k <> 10 ->
  exists s b fx s',
    main p l = Ok (Polling s b, fx)
    /\ exec_all (cycles (replicate 22 k)) s = Ok (s', detection_of k)
    /\ inference_finish_flag s' = 0
    /\ current_state (agg s') = fill_silence.
Proof.
  intros Hr Hc Hspi Hk Hne. rewrite main_spec, Hc by done. unfold booted.
  rewrite decide_True by done.
  destruct (keyword_cycles p k Hk Hne) as (st & Hrun & _ & Hcool).
  eexists _, _, _, _. by split_and!.
Qed.

Lemma boot_keyword_reported_witness :
  exists s b fx s',
    main (demo_platform (mkCard true true ∅ NoDisk)) demo_locals = Ok (Polling s b, fx)
    /\ exec_all (cycles (replicate 22 0)) s = Ok (s', detection_of 0)
    /\ inference_finish_flag s' = 0
    /\ current_state (agg s') = fill_silence.
Proof.
  apply (boot_keyword_reported (demo_platform (mkCard true true ∅ NoDisk)) demo_locals 0);
    [apply demo_ready | done | done | solve_class | done].
Defined.

(** The arrays of bytes hold bytes: whatever the files of the card
    contain, every cell of the buffers that the start-up leaves is
    between 0 and 255, the buffers have the sizes of their declarations,
    and so is every value put on the SPI link. *)
Theorem boot_sends_bytes p l :
  ready p l -> healthy (sd_card p) = true -> spi_ok p ->
  exists b fx,
    main p l = Ok (Polling (early_system p) b, fx)
    /\ bytes_ok b /\ wf_buffers b /\ Forall (Forall byte_ok) (spi_bus fx).
Proof.
  intros Hr Hc Hspi. rewrite main_spec, Hc by done. unfold booted.
  rewrite decide_True by done. eexists _, _. split; [done|].
  split_and!; [apply bytes_model | apply wf_model | apply image_byte_ok, bytes_model].
Qed.

Lemma boot_sends_bytes_witness :
  exists b fx,
    main (demo_platform (mkCard true true ∅ NoDisk)) demo_locals
    = Ok (Polling boot_system b, fx)
    /\ bytes_ok b /\ wf_buffers b /\ Forall (Forall byte_ok) (spi_bus fx).
Proof.
  apply (boot_sends_bytes (demo_platform (mkCard true true ∅ NoDisk)) demo_locals);
    [apply demo_ready | done | done].
Defined.

(** C21.  The peripherals after a start-up that reaches the loop: the
    four result pins are inputs, the I2C clock is [IIC_SCLK_RATE], the
    SPI controller is the master of the link with its select line driven
    by hand and its clock divided by 256, and the completion interrupt
    reaches [intr_handler]: exceptions are enabled, the controller has
    the interrupt enabled and connected, and the GPIO has the global and
    the channel enable set.  The registers of the channel are those with
    which the loop starts. *)
Theorem boot_configures_devices p l :
  ready p l -> healthy (sd_card p) = true -> spi_ok p ->
  exists s b fx,
    main p l = Ok (Polling s b, fx)
    /\ pins_are_inputs (gpiops_inst (hardware fx))
    /\ sclk (Iic (hardware fx)) = IIC_SCLK_RATE
    /\ spi_master (SpiInstance (hardware fx))
    /\ unmasked (AXI_GPIO_INT_ID p) (scugic_inst (hardware fx))
                (axi_gpio_inst (hardware fx))
    /\ axi_gpio s = channel1 (axi_gpio_inst (hardware fx)).
Proof.
  intros Hr Hc Hspi. rewrite main_spec, Hc by done. unfold booted.
  rewrite decide_True by done. eexists _, _, _. split; [done|].
  cbn [hardware configured gpiops_inst Iic SpiInstance scugic_inst axi_gpio_inst].
  split_and!; [apply set_result_pins_inputs | done | apply spi_ready_master
              | apply gic_ready_unmasked | by rewrite early_system_spec].
Qed.

Lemma boot_configures_devices_witness :
  exists s b fx,
    main (demo_platform (mkCard true true ∅ NoDisk)) demo_locals = Ok (Polling s b, fx)
    /\ pins_are_inputs (gpiops_inst (hardware fx))
    /\ sclk (Iic (hardware fx)) = IIC_SCLK_RATE
    /\ spi_master (SpiInstance (hardware fx))
    /\ unmasked 61 (scugic_inst (hardware fx)) (axi_gpio_inst (hardware fx))
    /\ axi_gpio s = channel1 (axi_gpio_inst (hardware fx)).
Proof.
  apply (boot_configures_devices (demo_platform (mkCard true true ∅ NoDisk)) demo_locals);
    [apply demo_ready | done | done].
Defined.

(** C37.  No time-out at start-up: when the I2C bus stays busy after a
    message, [main] never returns from the first write to the codec; it
    has printed that the card was opened and prints nothing more. *)
Theorem boot_hangs_on_stuck_bus p l :
  arrays_sized p l -> healthy (sd_card p) = true -> i2c_after_send p = STUCK ->
  main p l = Fault OutOfFuel.
Proof. apply main_stuck. Qed.

Lemma boot_hangs_on_stuck_bus_witness :
  main (mkPlatform (mkCard true true ∅ NoDisk) 0 0 demo_header STUCK 61 []) demo_locals
  = Fault OutOfFuel.
Proof.
  apply (boot_hangs_on_stuck_bus
           (mkPlatform (mkCard true true ∅ NoDisk) 0 0 demo_header STUCK 61 []) demo_locals);
    [|done..].
  unfold arrays_sized. split_and!; try reflexivity. apply (bool_decide_unpack _). by vm_compute.
Defined.

(** C14.  The accelerator after the start-up.  When the card can be used and
    the SPI controller comes up, what [main] has put on the SPI link
    arms the receiver of the protocol and leaves in it the words of the
    files of the card: the register file in the register block and the
    file of every region under the address of that region, in the order
    of the lines, zeros after them and zeros for a missing file. *)
Theorem boot_loads_accelerator p l :
  ready p l -> healthy (sd_card p) = true -> spi_ok p ->
  exists s b fx r,
    main p l = Ok (Polling s b, fx)
    /\ Protocol.receive_all Protocol.tma_map (spi_bus fx) Protocol.power_on = Some r
    /\ holds_files (files (card_left fx)) r.
Proof.
  intros Hr Hc Hspi. rewrite main_spec, Hc by done. unfold booted.
  rewrite decide_True by done.
  destruct (loaded_received (files (mounted (sd_card p)))) as (r & Hrun & Hfiles).
  by eexists _, _, _, r.
Qed.

Lemma boot_loads_accelerator_witness :
  exists s b fx r,
    main (demo_platform (mkCard true true ∅ NoDisk)) demo_locals = Ok (Polling s b, fx)
    /\ Protocol.receive_all Protocol.tma_map (spi_bus fx) Protocol.power_on = Some r
    /\ holds_files (files (card_left fx)) r.
Proof.
  apply (boot_loads_accelerator (demo_platform (mkCard true true ∅ NoDisk)) demo_locals);
    [apply demo_ready | done | done].
Defined.

(** ** The handler during the start-up *)


