(* ===== verification/System.v ===== *)
(** * System: the running program and its interrupt path

    The machine that [main] leaves when it enters its loop: the system of
    [Handoff] (the flag, the interrupt registers of the GPIO channel, the
    aggregator) together with what decides whether a completion reaches
    [intr_handler]: the interrupt controller, the global enable of the
    GPIO and the number of the interrupt.

    The environment changes the completion line ([Edge]) and presents
    levels on the result pins when the loop reads them ([Poll]).  An edge
    runs the handler when the interrupt is unmasked; otherwise it stays
    pending in the status register of the channel.  [mstep] is the
    labelled transition relation, [mexec] the same as a function.

    The theorems: the start-up leaves the interrupt unmasked and every
    step keeps it so ([sound], by induction on the runs), so that the
    model of [Handoff], in which every interrupt runs the handler, is
    the behaviour of the machine; a machine whose interrupt is masked
    never processes a frame. *)

From Stdlib Require Import ZArith Lia.
From stdpp Require Import base tactics option numbers strings list gmap.
From S2P Require Import Prelude Aggregator AggregatorInv Storage Codec Handoff Drivers.
From S2P Require Import Boot BootSpec.

#[local] Open Scope Z_scope.
#[local] Open Scope kws_scope.

Import Aggregator Storage Codec Handoff Drivers Boot.

(** ** The machine *)

Record machine : Type := mkMachine {
  sys : system;
  intc : XScuGic;
  gier : bool;
  irq : Z
}.

Definition set_sys (s : system) (m : machine) : machine :=
  mkMachine s (intc m) (gier m) (irq m).

(** The machine in which [main] enters its loop. *)
Definition machine_of (p : platform) (s : system) (fx : effects) : machine :=
  mkMachine s (scugic_inst (hardware fx))
            (global_enable (axi_gpio_inst (hardware fx))) (AXI_GPIO_INT_ID p).

(** The completion interrupt reaches the handler. *)
Definition line_open (m : machine) : Prop :=
  unmasked (irq m) (intc m) (mkXGpio (axi_gpio (sys m)) ∅ (gier m)).

#[export] Instance line_open_dec m : Decision (line_open m).
Proof. unfold line_open. apply _. Defined.

(** A completion that is not taken stays pending in the status register
    of the channel. *)
Definition latch (s : system) : system :=
  mkSystem (inference_finish_flag s) (mkGpio (ier (axi_gpio s)) true) (agg s).

(** What the environment does. *)
Inductive stimulus : Type :=
  | Edge (done : Z)              (* the line changes; it reads [done] afterwards *)
  | Poll (levels : Z -> bool).   (* the loop makes one iteration *)

Inductive mstep : machine -> stimulus -> list event -> machine -> Prop :=
  | mstep_taken m done :
      line_open m ->
      mstep m (Edge done) [] (set_sys (intr_handler done (sys m)) m)
  | mstep_masked m done :
      ~ line_open m ->
      mstep m (Edge done) [] (set_sys (latch (sys m)) m)
  | mstep_poll m levels s out :
      poll levels (sys m) = Ok (s, out) ->
      mstep m (Poll levels) out (set_sys s m).

Inductive mrun : machine -> list stimulus -> list event -> machine -> Prop :=
  | mrun_nil m : mrun m [] [] m
  | mrun_cons m l ls out outs m' m'' :
      mstep m l out m' -> mrun m' ls outs m'' -> mrun m (l :: ls) (out ++ outs) m''.

(** The transition as a function. *)
Definition mexec (l : stimulus) (m : machine) : res (machine * list event) :=
  match l with
  | Edge done =>
      Ok (set_sys (if decide (line_open m) then intr_handler done (sys m)
                   else latch (sys m)) m, [])
  | Poll levels =>
      let* '(s, out) := poll levels (sys m) in Ok (set_sys s m, out)
  end.

Fixpoint mexec_all (ls : list stimulus) (m : machine) : res (machine * list event) :=
  match ls with
  | [] => Ok (m, [])
  | l :: ls' =>
      let* '(m', out) := mexec l m in
      let* '(m'', outs) := mexec_all ls' m' in
      Ok (m'', out ++ outs)
  end.

(** The action of [Handoff] that a stimulus is when the interrupt is
    unmasked. *)
Definition action_of (l : stimulus) : action :=
  match l with
  | Edge done => Interrupt done
  | Poll levels => Iteration (read_pins levels)
  end.

(** The invariant of the machine: the interrupt is unmasked, the flag is
    0 or 1 and the aggregator is well formed. *)
Definition sound (m : machine) : Prop :=
  line_open m /\ inference_finish_flag (sys m) ∈ [0; 1] /\ wf (agg (sys m)).

(** The pins present a class code. *)
Definition presents_class (l : stimulus) : Prop :=
  match l with
  | Edge _ => True
  | Poll levels => class_ok (read_pins levels)
  end.

(** ** Lemmas *)

Lemma mstep_mexec m l out m' : mstep m l out m' <-> mexec l m = Ok (m', out).
Proof.
  split.
  - destruct 1 as [m d H|m d H|m lv s out H]; cbn [mexec].
    + by rewrite decide_True.
    + by rewrite decide_False.
    + by rewrite H.
  - destruct l as [d|lv]; cbn [mexec].
    + case_decide; intros [= <- <-]; by constructor.
    + destruct (poll lv (sys m)) as [[s o]|] eqn:H; [|done].
      intros [= <- <-]. by constructor.
Qed.

Lemma mrun_mexec_all ls : forall m outs m',
  mrun m ls outs m' <-> mexec_all ls m = Ok (m', outs).
Proof.
  induction ls as [|l ls IH]; intros m outs m'; cbn [mexec_all]; split.
  - inversion 1. by subst.
  - intros [= <- <-]. constructor.
  - inversion 1 as [|? ? ? o os m1 ? Hstep Hrun]; subst.
    apply mstep_mexec in Hstep as ->. cbn [bind].
    by apply IH in Hrun as ->.
  - destruct (mexec l m) as [[m1 o]|] eqn:H1; [|done]. cbn [bind].
    destruct (mexec_all ls m1) as [[m2 os]|] eqn:H2; [|done].
    intros [= <- <-]. apply mstep_mexec in H1. apply IH in H2.
    by apply (mrun_cons _ _ _ _ _ _ _ H1).
Qed.

(** A frame that is processed leaves the aggregator well formed. *)
Lemma process_frame_wf b0 b1 b2 b3 st st' out :
  wf st -> process_frame b0 b1 b2 b3 st = Ok (st', out) -> wf st'.
Proof.
  intros Hwf. destruct (decide (class_ok (written (read_result b0 b1 b2 b3) st))).
  - rewrite process_frame_code by done. intros [= <- _]. by apply wf_written.
  - by rewrite process_frame_fault.
Qed.

Lemma line_open_ier m s :
  ier (axi_gpio s) = ier (axi_gpio (sys m)) -> line_open m -> line_open (set_sys s m).
Proof. unfold line_open, unmasked. cbn. intros ->. tauto. Qed.

Lemma line_open_enabled m : line_open m -> ier (axi_gpio (sys m)) = true.
Proof. by intros (_ & _ & _ & _ & _ & H). Qed.

Lemma poll_sound m levels s out :
  sound m -> poll levels (sys m) = Ok (s, out) -> sound (set_sys s m).
Proof.
  intros (Hopen & Hflag & Hwf). unfold poll, main_iteration, process, take_flag.
  case_decide.
  - cbn [agg]. destruct (process_frame _ _ _ _ _) as [[st o]|] eqn:Hp; [|done].
    intros [= <- <-]. split_and!; cbn [sys set_sys inference_finish_flag agg].
    + by apply line_open_ier.
    + apply list_elem_of_here.
    + by apply (process_frame_wf _ _ _ _ _ _ _ Hwf Hp).
  - intros [= <- <-]. by destruct m.
Qed.

Lemma mstep_sound m l out m' : sound m -> mstep m l out m' -> sound m'.
Proof.
  intros Hm. destruct 1 as [m d H|m d H|m lv s out H].
  - destruct Hm as (Hopen & Hflag & Hwf). split_and!; cbn [sys set_sys].
    + apply line_open_ier; [|done].
      by rewrite intr_handler_spec, line_open_enabled.
    + by apply handler_flag.
    + by rewrite intr_handler_spec.
  - by destruct Hm as [? _].
  - by apply (poll_sound m lv s out).
Qed.

Lemma mrun_sound m ls outs m' : sound m -> mrun m ls outs m' -> sound m'.
Proof.
  intros Hm Hrun. induction Hrun as [|m l ls out outs m1 m2 Hstep _ IH]; [done|].
  by apply IH, (mstep_sound m l out).
Qed.

(** On a sound machine a step is the action of [Handoff]. *)
Lemma mstep_exec m l out m' :
  sound m ->
  mstep m l out m' <-> exists s, exec (action_of l) (sys m) = Ok (s, out) /\ m' = set_sys s m.
Proof.
  intros (Hopen & _). rewrite mstep_mexec. destruct l as [d|lv]; cbn [mexec action_of].
  - rewrite decide_True by done. cbn [exec]. split.
    + intros [= <- <-]. by eexists.
    + by intros (s & [= <- <-] & ->).
  - rewrite <- poll_exec. destruct (poll lv (sys m)) as [[s o]|]; cbn [bind]; split.
    + intros [= <- <-]. by eexists.
    + by intros (s' & [= <- <-] & ->).
    + done.
    + by intros (s' & [=] & _).
Qed.

Lemma set_sys_set_sys s s' m : set_sys s (set_sys s' m) = set_sys s m.
Proof. done. Qed.

Lemma set_sys_sys m : set_sys (sys m) m = m.
Proof. by destruct m. Qed.

Lemma mrun_exec_all m ls outs m' :
  sound m ->
  mrun m ls outs m'
  <-> exists s, exec_all (map action_of ls) (sys m) = Ok (s, outs) /\ m' = set_sys s m.
Proof.
  intros Hm. split.
  - intros Hrun. induction Hrun as [|m l ls out outs m1 m2 Hstep _ IH].
    + exists (sys m). by rewrite set_sys_sys.
    + pose proof (mstep_sound _ _ _ _ Hm Hstep) as Hm1.
      apply mstep_exec in Hstep as (s1 & Hs1 & ->); [|done].
      destruct (IH Hm1) as (s2 & Hs2 & ->). exists s2.
      cbn [map exec_all]. rewrite Hs1. cbn [bind sys set_sys] in *.
      by rewrite Hs2.
  - revert m outs Hm. induction ls as [|l ls IH]; intros m outs Hm (s & Hs & ->).
    + injection Hs as <- <-. rewrite set_sys_sys. constructor.
    + cbn [map exec_all] in Hs.
      destruct (exec (action_of l) (sys m)) as [[s1 o1]|] eqn:H1; [|done].
      cbn [bind] in Hs.
      destruct (exec_all _ s1) as [[s2 o2]|] eqn:H2; [|done].
      injection Hs as <- <-.
      assert (Hstep : mstep m l o1 (set_sys s1 m)) by (apply mstep_exec; eauto).
      apply (mrun_cons _ _ _ _ _ _ _ Hstep).
      rewrite <- (set_sys_set_sys s2 s1 m).
      apply IH; [by apply (mstep_sound m l o1)|]. by exists s2.
Qed.

(** A sound machine steps on every edge, and on every poll that finds a
    class code on the pins. *)
Lemma mstep_progress m l :
  sound m -> presents_class l -> exists out m', mstep m l out m'.
Proof.
  intros (Hopen & Hflag & Hwf) Hl. destruct l as [d|lv].
  - eexists _, _. by apply mstep_taken.
  - destruct (poll lv (sys m)) as [[s o]|] eqn:Hp.
    + eexists _, _. by apply mstep_poll.
    + exfalso. revert Hp. unfold poll, main_iteration, process, take_flag.
      case_decide; [|done]. cbn [agg].
      rewrite process_frame_code; [done | done |]. by apply written_ok.
Qed.

Lemma mrun_progress ls : forall m,
  sound m -> Forall presents_class ls -> exists outs m', mrun m ls outs m'.
Proof.
  induction ls as [|l ls IH]; intros m Hm Hls.
  - eexists _, _. constructor.
  - apply Forall_cons in Hls as [Hl Hls].
    destruct (mstep_progress m l Hm Hl) as (out & m1 & Hstep).
    destruct (IH m1 (mstep_sound _ _ _ _ Hm Hstep) Hls) as (outs & m2 & Hrun).
    exists (out ++ outs), m2. exact (mrun_cons _ _ _ _ _ _ _ Hstep Hrun).
Qed.

(** With the interrupt masked and the flag down, a step prints nothing
    and leaves the aggregator, the flag and the mask as they are. *)
Lemma mstep_masked_idle m l out m' :
  ~ line_open m -> inference_finish_flag (sys m) = 0 -> mstep m l out m' ->
  out = [] /\ agg (sys m') = agg (sys m)
  /\ ~ line_open m' /\ inference_finish_flag (sys m') = 0.
Proof.
  intros Hmask Hflag. destruct 1 as [m d H|m d H|m lv s out H]; [done| |].
  - by split_and!.
  - revert H. unfold poll, main_iteration. rewrite decide_False by lia.
    intros [= <- <-]. by rewrite set_sys_sys.
Qed.

(** The machine that enters the loop with the peripherals as the
    start-up configures them is sound. *)
Lemma configured_sound p out i2c tr c spi :
  sound (machine_of p (early_system p) (mkEffects out i2c tr c (configured p spi))).
Proof.
  unfold sound, line_open.
  cbn [machine_of sys intc gier irq hardware configured scugic_inst axi_gpio_inst
       global_enable].
  split_and!; [|apply early_system_flag|].
  - rewrite early_system_spec. apply gic_ready_unmasked.
  - rewrite early_system_spec. apply wf_init.
Qed.

(** The machine that the start-up leaves is sound. *)
Lemma boot_sound p l :
  ready p l -> healthy (sd_card p) = true -> spi_ok p ->
  exists s b fx, main p l = Ok (Polling s b, fx) /\ sound (machine_of p s fx).
Proof.
  intros Hr Hc Hspi. rewrite main_spec, Hc by done. unfold booted.
  rewrite decide_True by done. eexists _, _, _. split; [done|].
  apply configured_sound.
Qed.

(** On a sound machine the function follows the actions of [Handoff]. *)
Lemma mexec_all_handoff m ls s outs :
  sound m -> exec_all (map action_of ls) (sys m) = Ok (s, outs) ->
  mexec_all ls m = Ok (set_sys s m, outs).
Proof. intros Hm Hs. apply mrun_mexec_all, mrun_exec_all; eauto. Qed.

(** A run is made of its prefixes. *)
Lemma mexec_all_app ls1 ls2 m :
  mexec_all (ls1 ++ ls2) m
  = (let* '(m1, o1) := mexec_all ls1 m in
     let* '(m2, o2) := mexec_all ls2 m1 in Ok (m2, o1 ++ o2)).
Proof.
  revert m. induction ls1 as [|l ls1 IH]; intros m; cbn [app mexec_all bind].
  - by destruct (mexec_all ls2 m) as [[m2 o2]|].
  - destruct (mexec l m) as [[m' o]|]; [|done]. cbn [bind]. rewrite IH.
    destruct (mexec_all ls1 m') as [[m1 o1]|]; [|done]. cbn [bind].
    destruct (mexec_all ls2 m1) as [[m2 o2]|]; [|done]. cbn [bind].
    by rewrite app_assoc.
Qed.

(** The machine of the examples: the one that the start-up leaves, with
    interrupt 61. *)
Definition demo_machine : machine :=
  mkMachine boot_system (gic_ready 61) true 61.

Lemma demo_machine_sound : sound demo_machine.
Proof.
  split; [apply gic_ready_unmasked|]. split; [apply list_elem_of_here | apply wf_init].
Qed.

(** ** Theorems *)

(** C38.  Invariant of the running machine, by induction on its runs:
    whatever the environment does, whenever the machine has made the
    steps, the completion interrupt is still unmasked at every level
    (processor, controller, GPIO), the flag is 0 or 1 and the aggregator
    is well formed. *)
Theorem machine_invariant m ls outs m' :
  sound m -> mrun m ls outs m' -> sound m'.
Proof. apply mrun_sound. Qed.

Lemma machine_invariant_witness :
  sound (set_sys (intr_handler 1 boot_system) demo_machine).
Proof.
  apply (machine_invariant demo_machine [Edge 1] []); [apply demo_machine_sound|].
  apply mrun_mexec_all. cbn [mexec_all mexec bind].
  by rewrite decide_True by apply demo_machine_sound.
Defined.

(** C12.  The model of the handoff, in which every change of the line
    runs the handler, is the behaviour of the machine: on a sound
    machine the runs of the labelled transition system are exactly the
    executions of the corresponding actions, with the same output and
    the same final system. *)
Theorem machine_refines_handoff m ls outs m' :
  sound m ->
  mrun m ls outs m'
  <-> exists s, exec_all (map action_of ls) (sys m) = Ok (s, outs) /\ m' = set_sys s m.
Proof. apply mrun_exec_all. Qed.

Lemma machine_refines_handoff_witness :
  mrun demo_machine [Edge 1] [] (set_sys (intr_handler 1 boot_system) demo_machine)
  <-> exists s, exec_all (map action_of [Edge 1]) (sys demo_machine) = Ok (s, [])
                /\ set_sys (intr_handler 1 boot_system) demo_machine
                   = set_sys s demo_machine.
Proof.
  apply (machine_refines_handoff demo_machine [Edge 1] []). apply demo_machine_sound.
Defined.

(** Safety of the whole program: after a start-up that reaches the
    loop, whatever the sequence of changes of the completion line and of
    iterations, as long as the pins present a class code below 12 when
    they are read, the machine makes every step (no access leaves its
    array) and is sound at the end. *)
Theorem program_safe p l ls :
  ready p l -> healthy (sd_card p) = true -> spi_ok p ->
  Forall presents_class ls ->
  exists s b fx outs m',
    main p l = Ok (Polling s b, fx)
    /\ mrun (machine_of p s fx) ls outs m' /\ sound m'.
Proof.
  intros Hr Hc Hspi Hls.
  destruct (boot_sound p l Hr Hc Hspi) as (s & b & fx & Hmain & Hm).
  destruct (mrun_progress ls _ Hm Hls) as (outs & m' & Hrun).
  exists s, b, fx, outs, m'. split_and!; [done.. |].
  exact (mrun_sound _ ls outs m' Hm Hrun).
Qed.

Lemma program_safe_witness :
  exists s b fx outs m',
    main (demo_platform (mkCard true true ∅ NoDisk)) demo_locals = Ok (Polling s b, fx)
    /\ mrun (machine_of (demo_platform (mkCard true true ∅ NoDisk)) s fx)
            [Edge 1; Poll (levels_of 3); Edge 0; Edge 1; Poll (levels_of 3)] outs m'
    /\ sound m'.
Proof.
  apply (program_safe (demo_platform (mkCard true true ∅ NoDisk)) demo_locals
           [Edge 1; Poll (levels_of 3); Edge 0; Edge 1; Poll (levels_of 3)]);
    [apply demo_ready | done | done |].
  repeat constructor; by vm_compute.
Defined.

(** A machine whose completion interrupt is masked at any level
    never processes a frame: with the flag down, whatever the
    environment does, nothing is printed and the aggregator stays as it
    is.  The enables of [setup_interrupt_system] and the one at the end
    of [intr_handler] are what keeps the program alive. *)
Theorem masked_machine_is_deaf m ls outs m' :
  ~ line_open m -> inference_finish_flag (sys m) = 0 -> mrun m ls outs m' ->
  outs = [] /\ agg (sys m') = agg (sys m).
Proof.
  intros Hmask Hflag Hrun.
  induction Hrun as [|m l ls out outs m1 m2 Hstep _ IH]; [done|].
  destruct (mstep_masked_idle _ _ _ _ Hmask Hflag Hstep) as (-> & Hagg & Hm1 & Hf1).
  destruct (IH Hm1 Hf1) as [-> ->]. by rewrite Hagg.
Qed.

Lemma masked_machine_is_deaf_witness :
  exists outs m',
    mrun (mkMachine boot_system (gic_ready 61) false 61)
         [Edge 1; Poll (levels_of 3)] outs m'
    /\ outs = [] /\ agg (sys m') = init_state.
Proof.
  eexists _, _. split.
  - apply mrun_mexec_all. reflexivity.
  - apply (masked_machine_is_deaf (mkMachine boot_system (gic_ready 61) false 61)
             [Edge 1; Poll (levels_of 3)]); [by intros (_ & _ & _ & _ & [=] & _) | done |].
    apply mrun_mexec_all. reflexivity.
Defined.
