(* ===== verification/Program.v ===== *)
(** * Program: [main] from power-on, and what it prints

    [main] ([main_codec.c], lines 74-270) is the start-up of [Boot]
    followed by the loop of [System].  [program] runs both: the start-up
    on a platform, then, when the start-up reaches the loop, the machine
    on a sequence of stimuli, which is a prefix of what the environment
    does while the program runs.  Its console is the lines of the
    start-up followed by the lines of the detections, as the two
    [printf] of lines 240-244 format them: the twelve counters with
    their names, and the label.

    The theorems are about the program as a whole: it never leaves an
    array, on any card and with any status of the SPI controller; what it
    has printed is never taken back; a keyword held for twenty-two frames
    appears on the console after the lines of the start-up; the line of
    the counters determines the counters. *)

From Stdlib Require Import ZArith Lia Ascii.
From stdpp Require Import base tactics option numbers strings pretty list gmap.
From S2P Require Import Prelude Aggregator AggregatorInv Behaviour Storage Codec Handoff.
From S2P Require Import Drivers Boot BootSpec System.

#[local] Open Scope Z_scope.
#[local] Open Scope kws_scope.

Module Program.
Import Aggregator Storage Handoff Drivers Boot.

(** The names in the format string of line 240. *)
Definition count_names : list string :=
  ["yes"; "no"; "up"; "down"; "left"; "right";
   "on"; "off"; "stop"; "go"; "silence"; "unknown"]%string.

(** Lines 240-242: each counter after its name, in decimal. *)
Definition status_line (counts : list Z) : string :=
  String.concat ", "
    (zip_with (fun name c => name +:+ ":" +:+ pretty c) count_names counts).

(** Line 244. *)
Definition detect_line (lbl : string) : string := "Detect: " +:+ lbl.

Definition print_event (e : event) : string :=
  match e with
  | EvCounts counts => status_line counts
  | EvDetect lbl => detect_line lbl
  end.

(** [main] has returned, or it is in its loop. *)
Inductive main_state : Type :=
  | Exited (code : Z)
  | Running (m : machine).

(** Lines 74-270: [main] on the platform [p], with the stimuli [ls] after
    the start-up; where [main] stands and the console. *)
Definition program (p : platform) (l : locals) (ls : list stimulus)
    : res (main_state * list string) :=
  let* '(o, fx) := main p l in
  match o with
  | Returned code => Ok (Exited code, console fx)
  | Polling s b =>
      let* '(m, evs) := mexec_all ls (machine_of p s fx) in
      Ok (Running m, console fx ++ map print_event evs)
  end.

End Program.

Import Aggregator Storage Codec Handoff Drivers Boot Program.

(** ** Specification *)

(** One completion and the iteration that takes it, with the code on the
    pins, for each code. *)
Definition frames (cs : list Z) : list stimulus :=
  flat_map (fun c => [Edge 1; Poll (levels_of c)]) cs.

(** No comma in a string. *)
Fixpoint no_comma (s : string) : bool :=
  match s with
  | EmptyString => true
  | String a s' => bool_decide (a <> ","%char) && no_comma s'
  end.

(** The end of a field: the end of the line or a comma. *)
Definition field_end (s : string) : Prop :=
  s = EmptyString \/ exists s', s = String ","%char s'.

(** ** Lemmas *)

Lemma frames_cycles cs :
  Forall (fun c => 0 <= c < 16) cs -> map action_of (frames cs) = cycles cs.
Proof.
  induction 1 as [|c cs Hc _ IH]; [done|].
  change (frames (c :: cs)) with ([Edge 1; Poll (levels_of c)] ++ frames cs).
  change (cycles (c :: cs)) with ([Interrupt 1; Iteration c] ++ cycles cs).
  rewrite map_app, IH. cbn [map action_of app]. by rewrite read_pins_levels_of.
Qed.

(** The names of the format string are the labels of line 36. *)
Lemma count_names_label : count_names = label.
Proof. reflexivity. Qed.

Lemma pretty_no_comma c : 0 <= c < 256 -> no_comma (pretty c) = true.
Proof.
  intros Hc.
  assert (Hall : Forall (fun c => no_comma (pretty c) = true) (seqZ 0 256)).
  { apply (bool_decide_unpack _). by vm_compute. }
  rewrite Forall_forall in Hall. apply Hall, elem_of_seqZ. lia.
Qed.

Lemma append_cons a (s r : string) : String a s +:+ r = String a (s +:+ r).
Proof. reflexivity. Qed.

Lemma append_assoc (s1 s2 s3 : string) : (s1 +:+ s2) +:+ s3 = s1 +:+ s2 +:+ s3.
Proof. induction s1 as [|a s1 IH]; [done|]. by rewrite !append_cons, IH. Qed.

(** Two lines that agree, each a field without comma followed by the end
    of a field, agree on the field and on the rest. *)
Lemma field_inj d d' r r' :
  no_comma d = true -> no_comma d' = true -> field_end r -> field_end r' ->
  d +:+ r = d' +:+ r' -> d = d' /\ r = r'.
Proof.
  revert d'. induction d as [|a d IH]; intros [|a' d'] Hd Hd' Hr Hr';
    rewrite ?append_cons; change (EmptyString +:+ ?x) with x; cbn [no_comma] in *.
  - done.
  - intros ->. destruct Hr as [[=]|(s' & [= -> _])].
    by apply andb_prop in Hd' as [?%bool_decide_eq_true_1 _].
  - intros <-. destruct Hr' as [[=]|(s' & [= -> _])].
    by apply andb_prop in Hd as [?%bool_decide_eq_true_1 _].
  - apply andb_prop in Hd as [_ Hd]. apply andb_prop in Hd' as [_ Hd'].
    intros [= -> H]. by destruct (IH d' Hd Hd' Hr Hr' H) as [-> ->].
Qed.

Lemma append_nil_r (s : string) : s +:+ EmptyString = s.
Proof. induction s as [|a s IH]; [done|]. by rewrite append_cons, IH. Qed.

(** What follows the first field of a line. *)
Definition after_field (xs : list string) : string :=
  match xs with
  | [] => EmptyString
  | _ => ", " +:+ String.concat ", " xs
  end.

Lemma concat_after_field x xs : String.concat ", " (x :: xs) = x +:+ after_field xs.
Proof. destruct xs; [|done]. by rewrite append_nil_r. Qed.

Lemma after_field_end xs : field_end (after_field xs).
Proof. destruct xs; [by left|right]. by eexists. Qed.

Lemma after_field_inj xs ys :
  length xs = length ys -> after_field xs = after_field ys ->
  String.concat ", " xs = String.concat ", " ys.
Proof.
  destruct xs, ys; try done. intros _. unfold after_field.
  apply (inj (String.append ", ")).
Qed.

(** The line of the counters of a list of names determines the counters. *)
Lemma status_fields_inj names : forall cs cs',
  length cs = length names -> length cs' = length names ->
  Forall (fun c => 0 <= c < 256) cs -> Forall (fun c => 0 <= c < 256) cs' ->
  String.concat ", " (zip_with (fun name c => name +:+ ":" +:+ pretty c) names cs)
  = String.concat ", " (zip_with (fun name c => name +:+ ":" +:+ pretty c) names cs') ->
  cs = cs'.
Proof.
  induction names as [|n names IH]; intros [|c cs] [|c' cs']; try done.
  intros [= Hl] [= Hl'] [Hc Hcs]%Forall_cons [Hc' Hcs']%Forall_cons.
  cbn [zip_with]. rewrite !concat_after_field, !append_assoc.
  intros H%(inj (String.append n))%(inj (String.append ":")).
  apply field_inj in H as [Hp Hr];
    [|by apply pretty_no_comma..|apply after_field_end|apply after_field_end].
  apply (inj pretty) in Hp as ->. f_equal.
  apply IH; [done..|]. apply after_field_inj; [|done].
  by rewrite !length_zip_with, Hl, Hl'.
Qed.

(** The first iteration of the loop, with the flag up or down. *)
Lemma first_poll lv (up : bool) :
  exists s,
    poll lv (mkSystem (if up then 1 else 0) (mkGpio true false) init_state) = Ok (s, [])
    /\ inference_finish_flag s = 0
    /\ (up = true -> window_idx (agg s) = 1 /\ last_result (agg s) = read_pins lv)
    /\ (up = false -> agg s = init_state).
Proof.
  unfold poll, read_pins, XGpioPs_ReadPin.
  destruct up, (lv EMIO_RESULT_0), (lv EMIO_RESULT_1), (lv EMIO_RESULT_2),
    (lv EMIO_RESULT_3);
    (eexists; split; [vm_compute; reflexivity|]); by split_and!.
Qed.

(** ** Theorems *)

(** C7.  The program never leaves an array.  With local arrays of the
    declared sizes, a codec program that fits and an I2C bus that is not
    stuck, on every card, whatever the SPI driver reports and whatever
    the environment does afterwards, as long as the pins present a class
    code below 12 when they are read: [main] either returns, with 0 when
    the card cannot be used and with [XST_FAILURE] when the SPI
    controller does not come up, or it is in its loop with the
    completion interrupt unmasked and the aggregator well formed. *)
Theorem program_never_faults p l ls :
  ready p l -> Forall presents_class ls ->
  exists st out,
    program p l ls = Ok (st, out)
    /\ match st with
       | Exited code =>
           ~ (healthy (sd_card p) = true /\ spi_ok p)
           /\ code = (if healthy (sd_card p) then XST_FAILURE else 0)
       | Running m => healthy (sd_card p) = true /\ spi_ok p /\ sound m
       end.
Proof.
  intros Hr Hls. unfold program. rewrite main_spec by done.
  destruct (healthy (sd_card p)) eqn:Hc; cbn [bind]; unfold booted, no_card.
  2:{ eexists _, _. split; [done|]. by split; [intros [[=] _]|]. }
  destruct (decide (spi_ok p)) as [Hspi|Hspi].
  2:{ eexists _, _. split; [done|]. by split; [intros [_ ?]|]. }
  pose proof (configured_sound p (boot_lines (sd_card p) ++ ready_lines)
    (codec_messages p) (LoaderTrace.image (model_of (sd_card p)))
    (mounted (sd_card p)) spi_ready) as Hm.
  destruct (mrun_progress ls _ Hm Hls) as (outs & m' & Hrun).
  pose proof (mrun_sound _ _ _ _ Hm Hrun) as Hm'.
  apply mrun_mexec_all in Hrun. rewrite Hrun. cbn [bind]. by eexists _, _.
Qed.

Lemma program_never_faults_witness :
  exists st out,
    program (demo_platform (mkCard true true ∅ NoDisk)) demo_locals
            (frames [3; 3]) = Ok (st, out)
    /\ match st with
       | Exited code =>
           ~ (true = true /\ spi_ok (demo_platform (mkCard true true ∅ NoDisk)))
           /\ code = XST_FAILURE
       | Running m =>
           true = true /\ spi_ok (demo_platform (mkCard true true ∅ NoDisk)) /\ sound m
       end.
Proof.
  apply (program_never_faults (demo_platform (mkCard true true ∅ NoDisk)) demo_locals
           (frames [3; 3])); [apply demo_ready|].
  repeat constructor; by vm_compute.
Defined.

(** What is printed is never taken back: the console of the program
    after some stimuli begins with its console after the first of
    them, so a finite sequence of stimuli shows a prefix of what the
    program prints while it runs. *)
Theorem console_grows p l ls1 ls2 st2 out2 :
  program p l (ls1 ++ ls2) = Ok (st2, out2) ->
  exists st1 out1, program p l ls1 = Ok (st1, out1) /\ out1 `prefix_of` out2.
Proof.
  unfold program. destruct (main p l) as [[[code|s b] fx]|]; [| |done]; cbn [bind].
  - intros [= <- <-]. by eexists _, _.
  - rewrite mexec_all_app.
    destruct (mexec_all ls1 _) as [[m1 o1]|]; [|done]. cbn [bind].
    destruct (mexec_all ls2 m1) as [[m2 o2]|]; [|done]. cbn [bind].
    intros [= <- <-]. eexists _, _. split; [done|].
    rewrite map_app, app_assoc. by apply prefix_app_r.
Qed.

Lemma console_grows_witness :
  exists st1 out1,
    program (demo_platform (mkCard true true ∅ NoDisk)) demo_locals [Edge 1] = Ok (st1, out1)
    /\ out1 `prefix_of` boot_lines (mkCard true true ∅ NoDisk) ++ ready_lines.
Proof.
  apply (console_grows (demo_platform (mkCard true true ∅ NoDisk)) demo_locals
           [Edge 1] [Edge 0]
           (Running (set_sys (intr_handler 0 (intr_handler 1 boot_system))
                       (machine_of (demo_platform (mkCard true true ∅ NoDisk)) boot_system
                          (booted (demo_platform (mkCard true true ∅ NoDisk))).2)))).
  by vm_compute.
Defined.

(** C16.  A keyword on the console.  After a start-up that reaches the
    loop, twenty-two completions with the same class other than silence
    on the pins, each taken by an iteration, leave on the console the
    lines of the start-up followed by the two lines of the detection:
    the counters, nineteen of silence and twenty-one of the class, and
    the label of the class; the program is then cooling down. *)
Theorem program_reports_keyword p l k :
  ready p l -> healthy (sd_card p) = true -> spi_ok p -> class_ok k -> k <> 10 ->
  exists m,
    program p l (frames (replicate 22 k))
    = Ok (Running m,
          boot_lines (sd_card p) ++ ready_lines
          ++ [status_line (counts_of (replicate 19 10 ++ replicate 21 k));
              detect_line (default EmptyString (label !! Z.to_nat k))])
    /\ sound m /\ current_state (agg (sys m)) = fill_silence.
Proof.
  intros Hr Hc Hspi Hk Hne. unfold program.
  rewrite main_spec, Hc by done. unfold booted. rewrite decide_True by done.
  cbn [bind console].
  destruct (keyword_cycles p k Hk Hne) as (st & Hrun & Hwf & Hcool).
  pose proof (configured_sound p (boot_lines (sd_card p) ++ ready_lines)
    (codec_messages p) (LoaderTrace.image (model_of (sd_card p)))
    (mounted (sd_card p)) spi_ready) as Hm.
  rewrite <- frames_cycles in Hrun
    by (apply Forall_replicate; unfold class_ok, NUM_CLASSES in Hk; lia).
  rewrite (mexec_all_handoff _ _ _ _ Hm Hrun). cbn [bind]. eexists. split; [by rewrite <- app_assoc|].
  split; [|done]. destruct Hm as (Hopen & _). split.
  - apply line_open_ier; [|done]. by rewrite (line_open_enabled _ Hopen).
  - split; [apply list_elem_of_here | exact Hwf].
Qed.

Lemma program_reports_keyword_witness :
  exists m,
    program (demo_platform (mkCard true true ∅ NoDisk)) demo_locals (frames (replicate 22 0))
    = Ok (Running m,
          boot_lines (mkCard true true ∅ NoDisk) ++ ready_lines
          ++ ["yes:21, no:0, up:0, down:0, left:0, right:0, on:0, off:0, stop:0, go:0, silence:19, unknown:0"%string;
              "Detect: yes"%string])
    /\ sound m /\ current_state (agg (sys m)) = fill_silence.
Proof.
  apply (program_reports_keyword (demo_platform (mkCard true true ∅ NoDisk)) demo_locals 0);
    [apply demo_ready | done | done | solve_class | done].
Defined.

(** C22.  A completion during the start-up.  The interrupt is enabled at
    line 129, before the model is read and sent.  When the line has
    shown 1 at one of its changes since then, the first iteration of the
    loop finds the flag up and processes a frame with whatever the pins
    show, although no completion arrived since the accelerator was
    enabled: the raw code is remembered for the debounce and the window
    advances.  When it has not, the first iteration does nothing. *)
Theorem early_completion_is_processed p l lv :
  ready p l -> healthy (sd_card p) = true -> spi_ok p ->
  exists m,
    program p l [Poll lv] = Ok (Running m, boot_lines (sd_card p) ++ ready_lines)
    /\ inference_finish_flag (sys m) = 0
    /\ (1 ∈ early_completions p ->
        window_idx (agg (sys m)) = 1 /\ last_result (agg (sys m)) = read_pins lv)
    /\ (1 ∉ early_completions p -> agg (sys m) = init_state).
Proof.
  intros Hr Hc Hspi. unfold program.
  rewrite main_spec, Hc by done. unfold booted. rewrite decide_True by done.
  cbn [bind console mexec_all mexec machine_of sys]. rewrite early_system_spec.
  destruct (first_poll lv (bool_decide (1 ∈ early_completions p)))
    as (s & -> & Hflag & Hup & Hdown).
  cbn [bind map]. rewrite app_nil_r. eexists. split; [done|].
  split; [done|]. split; intros Hearly; [apply Hup | apply Hdown].
  - by apply bool_decide_eq_true_2.
  - by apply bool_decide_eq_false_2.
Qed.

Lemma early_completion_is_processed_witness :
  exists m,
    program (mkPlatform (mkCard true true ∅ NoDisk) 0 0 demo_header (BUSY 1) 61 [1; 0])
            demo_locals [Poll (levels_of 0)]
    = Ok (Running m, boot_lines (mkCard true true ∅ NoDisk) ++ ready_lines)
    /\ inference_finish_flag (sys m) = 0
    /\ (1 ∈ [1; 0] ->
        window_idx (agg (sys m)) = 1 /\ last_result (agg (sys m)) = read_pins (levels_of 0))
    /\ (1 ∉ [1; 0] -> agg (sys m) = init_state).
Proof.
  apply (early_completion_is_processed
           (mkPlatform (mkCard true true ∅ NoDisk) 0 0 demo_header (BUSY 1) 61 [1; 0])
           demo_locals (levels_of 0)); [|done..].
  split; [|done]. unfold arrays_sized. split_and!; try reflexivity.
  apply (bool_decide_unpack _). by vm_compute.
Defined.

(** C35.  The arrays that the program declares without initialising them
    ([result_window], [I2C_DATA], the line buffers of the readers, the
    address buffer of [initial_TMA]) are written before they are read:
    whatever they hold when the functions are entered, the program does
    and prints the same. *)
Theorem uninitialised_locals_unobservable p l l' ls :
  ready p l -> ready p l' -> program p l ls = program p l' ls.
Proof. intros Hl Hl'. unfold program. by rewrite !main_spec. Qed.

Lemma uninitialised_locals_unobservable_witness :
  program (demo_platform (mkCard true true ∅ NoDisk)) demo_locals (frames [3; 3])
  = program (demo_platform (mkCard true true ∅ NoDisk))
      (mkLocals (replicate 40 0) (replicate 11 1) (replicate 128 2) (replicate 32 3)
                [4; 5; 6; 7])
      (frames [3; 3]).
Proof.
  apply (uninitialised_locals_unobservable (demo_platform (mkCard true true ∅ NoDisk))
           demo_locals); [apply demo_ready|].
  split; [|done]. unfold arrays_sized. split_and!; try reflexivity.
  apply (bool_decide_unpack _). by vm_compute.
Defined.

(** The line of the counters shows the counters: two vectors of
    twelve counters of eight bits that print the same line are the same
    vector. *)
Theorem status_line_inj cs cs' :
  length cs = 12%nat -> length cs' = 12%nat ->
  Forall (fun c => 0 <= c < 256) cs -> Forall (fun c => 0 <= c < 256) cs' ->
  status_line cs = status_line cs' -> cs = cs'.
Proof. apply (status_fields_inj count_names). Qed.

Lemma status_line_inj_witness :
  counts_of (replicate 40 10) = <[10%nat := 40]> (replicate 12 0).
Proof.
  apply (status_line_inj (counts_of (replicate 40 10)) (<[10%nat := 40]> (replicate 12 0)));
    try reflexivity; apply (bool_decide_unpack _); by vm_compute.
Defined.
